(** * CreativeFlow review room: annotation and viewport coordinate engine

    A shallow embedding of the review surface of the CreativeFlow
    repository: the data model of [types.ts], the handlers of the
    [ReviewRoom] view (zoom and pan, approval, version upload, comment
    bookkeeping, keyboard shortcuts), the pointer state machine of
    [components/Review/AnnotationLayer.tsx] and what it draws, the sidebar
    of [components/Review/CommentThread.tsx], the wipe handle of
    [components/Review/ComparisonView.tsx] and the controls of the video
    player.

    Modelling conventions.
    - A JavaScript [number] is a rational ([Q]): arithmetic is exact, there
      is no rounding and no overflow.  Numbers are compared with [==]
      ([Qeq]); records that hold numbers come with a field-wise equivalence.
      Comparisons and clamps do not depend on the rounding.  Where a
      result does, every operation is rounded to the nearest binary64
      value, as the engine rounds it: the module [Binary64] gives the
      rounding and, with it, the handlers of the viewport transform a
      second time; the seek and step handlers of the video player use it
      too.
    - A division whose divisor is zero yields [Infinity] or [NaN] in
      JavaScript.  Such a value has no counterpart in [Q]; the division
      [jsdiv] reports it as the failure [NonFinite].
    - Reading a property of [undefined] throws; that is the failure
      [TypeError].
    - React state is passed explicitly: a handler takes the state of the
      last render and returns the state of the next one.  [Date.now()] and
      the DOM rectangles are inputs of the handlers. *)

From Stdlib Require Import QArith Qabs Qminmax Qfield Lqa Qpower.
From Stdlib Require Import ZArith Lia Bool List String DecimalString.
From Stdlib Require Import Ascii Permutation Sorted.
Import ListNotations.

Local Open Scope Q_scope.

(** ** Numbers and failures *)

Abbreviation number := Q (only parsing).

Inductive Err : Type :=
| TypeError   (* property access on [undefined] *)
| NonFinite.  (* a result that is [Infinity], [-Infinity] or [NaN] *)

Inductive result (A : Type) : Type :=
| Ok (a : A)
| Fail (e : Err).

Arguments Ok {A} a.
Arguments Fail {A} e.

Definition bind {A B : Type} (c : result A) (k : A -> result B) : result B :=
  match c with
  | Ok a => k a
  | Fail e => Fail e
  end.

Notation "x <- c ;; k" := (bind c (fun x => k))
  (at level 61, c at next level, right associativity).

(** [a / b] on JavaScript numbers. *)
Definition jsdiv (a b : number) : result number :=
  if Qeq_bool b 0 then Fail NonFinite else Ok (a / b).

(** [o || 0] for an optional number: [undefined] and [0] are falsy. *)
Definition orZero (o : option number) : number :=
  match o with
  | Some q => if Qeq_bool q 0 then 0 else q
  | None => 0
  end.

(** Truthiness of a [string | null]: [null] and the empty string are falsy. *)
Definition truthy (o : option string) : bool :=
  match o with
  | Some s => negb (String.eqb s EmptyString)
  | None => false
  end.

(** [`${n}`] for an integer [n], as [Date.now()] returns one. *)
Definition showZ (n : Z) : string := NilZero.string_of_int (Z.to_int n).

(** ** Data model ([types.ts]) *)

Inductive UserRole : Type := SUPER_ADMIN | CREATOR | APPROVER | OBSERVER.

Inductive AssetType : Type := IMAGE | VIDEO | DOCUMENT.

Inductive AssetStatus : Type :=
  PENDING | IN_PROGRESS | CHANGES_REQUESTED | APPROVED.

Definition UserRole_eqb (a b : UserRole) : bool :=
  match a, b with
  | SUPER_ADMIN, SUPER_ADMIN | CREATOR, CREATOR
  | APPROVER, APPROVER | OBSERVER, OBSERVER => true
  | _, _ => false
  end.

Definition AssetType_eqb (a b : AssetType) : bool :=
  match a, b with
  | IMAGE, IMAGE | VIDEO, VIDEO | DOCUMENT, DOCUMENT => true
  | _, _ => false
  end.

Module User.
Record t : Type := mk { id : string; name : string; role : UserRole;
                          avatar : string }.
End User.

(** [{x: number, y: number}] *)
Module Point.
Record t : Type := mk { x : number; y : number }.
Definition equiv (p q : t) : Prop := x p == x q /\ y p == y q.
End Point.

(** [{x, y, w, h}] *)
Module Rect.
Record t : Type := mk { x : number; y : number; w : number; h : number }.
Definition equiv (r s : t) : Prop :=
    x r == x s /\ y r == y s /\ w r == w s /\ h r == h s.
End Rect.

Inductive DrawingType : Type := pen | box.

Module Drawing.
Record t : Type := mk {
    type : DrawingType;
    points : option (list Point.t);
    rect : option Rect.t;
    color : string }.
End Drawing.

Module Comment.
#[local] Unset Elimination Schemes.
Inductive t : Type := mk {
    id : string;
    userId : string;
    text : string;
    timestamp : number;
    resolved : bool;
    x : option number;
    y : option number;
    videoTimestamp : option number;
    drawing : option Drawing.t;
    replies : option (list t);
    isInternal : option bool }.
#[local] Set Elimination Schemes.
End Comment.

Module AssetVersion.
Record t : Type := mk {
    id : string;
    versionNumber : number;
    url : string;
    createdAt : number;
    comments : list Comment.t }.
End AssetVersion.

(** A [DOMRect], as [getBoundingClientRect()] returns it. *)
Module DOMRect.
Record t : Type := mk { left : number; top : number;
                          width : number; height : number }.
End DOMRect.

(** The active tool: ['pointer' | 'pen' | 'box' | 'hand']. *)
Inductive Tool : Type := Tpointer | Tpen | Tbox | Thand.

Definition Tool_eqb (a b : Tool) : bool :=
  match a, b with
  | Tpointer, Tpointer | Tpen, Tpen | Tbox, Tbox | Thand, Thand => true
  | _, _ => false
  end.

(** [a > b] on numbers. *)
Definition gt (a b : number) : bool := negb (Qle_bool a b).

(** ** Pointer events *)

Module MouseEvent.
Record t : Type := mk { clientX : number; clientY : number; button : Z }.
End MouseEvent.

Module WheelEvent.
Record t : Type := mk { deltaY : number; clientX : number; clientY : number }.
End WheelEvent.

(** ** The annotation overlay ([AnnotationLayer.tsx]) *)

Module AnnotationLayer.

(** The props the handlers read.  [onUpdateCommentPosition] is optional:
    the field says whether the parent passed it. *)
Record Props : Type := mkProps {
  isCompareMode : bool;
  drawingTool : Tool;
  color : string;
  hasOnUpdateCommentPosition : bool }.

(** A call of one of the parent's callbacks. *)
Inductive Callback : Type :=
| onAddComment (x y : number) (drawing : option Drawing.t)
| onSelectComment (id : string)
| onUpdateCommentPosition (id : string) (x y : number).

(** [boundsRef] and the [useState] cells of the component. *)
Record State : Type := mkState {
  boundsRef : option DOMRect.t;
  isDrawing : bool;
  currentPath : list Point.t;
  currentStart : option Point.t;
  currentRect : option Rect.t;
  hoveredCommentId : option string;
  draggedCommentId : option string;
  dragPosition : option Point.t }.

Definition initial : State :=
  mkState None false [] None None None None None.

Definition setBoundsRef (v : option DOMRect.t) (s : State) : State :=
  mkState v (isDrawing s) (currentPath s) (currentStart s) (currentRect s)
          (hoveredCommentId s) (draggedCommentId s) (dragPosition s).

Definition setIsDrawing (v : bool) (s : State) : State :=
  mkState (boundsRef s) v (currentPath s) (currentStart s) (currentRect s)
          (hoveredCommentId s) (draggedCommentId s) (dragPosition s).

Definition setCurrentPath (v : list Point.t) (s : State) : State :=
  mkState (boundsRef s) (isDrawing s) v (currentStart s) (currentRect s)
          (hoveredCommentId s) (draggedCommentId s) (dragPosition s).

Definition setCurrentStart (v : option Point.t) (s : State) : State :=
  mkState (boundsRef s) (isDrawing s) (currentPath s) v (currentRect s)
          (hoveredCommentId s) (draggedCommentId s) (dragPosition s).

Definition setCurrentRect (v : option Rect.t) (s : State) : State :=
  mkState (boundsRef s) (isDrawing s) (currentPath s) (currentStart s) v
          (hoveredCommentId s) (draggedCommentId s) (dragPosition s).

Definition setHoveredCommentId (v : option string) (s : State) : State :=
  mkState (boundsRef s) (isDrawing s) (currentPath s) (currentStart s)
          (currentRect s) v (draggedCommentId s) (dragPosition s).

Definition setDraggedCommentId (v : option string) (s : State) : State :=
  mkState (boundsRef s) (isDrawing s) (currentPath s) (currentStart s)
          (currentRect s) (hoveredCommentId s) v (dragPosition s).

Definition setDragPosition (v : option Point.t) (s : State) : State :=
  mkState (boundsRef s) (isDrawing s) (currentPath s) (currentStart s)
          (currentRect s) (hoveredCommentId s) (draggedCommentId s) v.

(** [getPoint]: the pointer position in percent of the cached bounds, or of
    the container's current rectangle [containerRef] when none is cached
    ([None]: the ref is not attached). *)
Definition getPoint (containerRef : option DOMRect.t) (s : State)
    (e : MouseEvent.t) : result Point.t :=
  let rect := match boundsRef s with
              | Some r => Some r
              | None => containerRef
              end in
  match rect with
  | None => Ok (Point.mk 0 0)
  | Some rect =>
      qx <- jsdiv (MouseEvent.clientX e - DOMRect.left rect)
                  (DOMRect.width rect) ;;
      qy <- jsdiv (MouseEvent.clientY e - DOMRect.top rect)
                  (DOMRect.height rect) ;;
      Ok (Point.mk (qx * 100) (qy * 100))
  end.

Definition handleMouseDown (containerRef : option DOMRect.t) (p : Props)
    (e : MouseEvent.t) (s : State) : result State :=
  if Tool_eqb (drawingTool p) Thand then Ok s
  else
    let s := match containerRef with
             | Some r => setBoundsRef (Some r) s
             | None => s
             end in
    if isCompareMode p || truthy (draggedCommentId s) then Ok s
    else if negb (Tool_eqb (drawingTool p) Tpointer) then
      let s' := setIsDrawing true s in
      point <- getPoint containerRef s e ;;
      match drawingTool p with
      | Tpen => Ok (setCurrentPath [point] s')
      | Tbox =>
          Ok (setCurrentRect
                (Some (Rect.mk (Point.x point) (Point.y point) 0 0))
                (setCurrentStart (Some point) s'))
      | _ => Ok s'
      end
    else Ok (setIsDrawing true s).

(** The pin's [onMouseDown]; it stops propagation, so [handleMouseDown]
    does not run for the same event. *)
Definition handlePinMouseDown (containerRef : option DOMRect.t) (p : Props)
    (id : string) (startX startY : number) (s : State)
    : State * option Callback :=
  if Tool_eqb (drawingTool p) Tpointer && negb (isCompareMode p) then
    let s := match containerRef with
             | Some r => setBoundsRef (Some r) s
             | None => s
             end in
    (setDragPosition (Some (Point.mk startX startY))
       (setDraggedCommentId (Some id) s),
     Some (onSelectComment id))
  else (s, None).

Definition handleMouseMove (containerRef : option DOMRect.t) (p : Props)
    (e : MouseEvent.t) (s : State) : result State :=
  let point := getPoint containerRef s e in
  if truthy (draggedCommentId s) then
    point <- point ;;
    let x := Qmax 0 (Qmin 100 (Point.x point)) in
    let y := Qmax 0 (Qmin 100 (Point.y point)) in
    Ok (setDragPosition (Some (Point.mk x y)) s)
  else if negb (isDrawing s) then Ok s
  else
    match drawingTool p, currentStart s with
    | Tpen, _ =>
        point <- point ;;
        Ok (setCurrentPath (currentPath s ++ [point])%list s)
    | Tbox, Some start =>
        point <- point ;;
        let w := Point.x point - Point.x start in
        let h := Point.y point - Point.y start in
        Ok (setCurrentRect
              (Some (Rect.mk
                       (if gt w 0 then Point.x start else Point.x point)
                       (if gt h 0 then Point.y start else Point.y point)
                       (Qabs w)
                       (Qabs h)))
              s)
    | _, _ => Ok s
    end.

(** The reset at the end of [handleMouseUp]. *)
Definition resetDraft (s : State) : State :=
  setBoundsRef None
    (setCurrentStart None (setCurrentRect None (setCurrentPath [] s))).

Definition handleMouseUp (containerRef : option DOMRect.t) (p : Props)
    (e : MouseEvent.t) (s : State) : result (State * option Callback) :=
  if truthy (draggedCommentId s) then
    let cb := match draggedCommentId s, dragPosition s with
              | Some id, Some pos =>
                  if hasOnUpdateCommentPosition p
                  then Some (onUpdateCommentPosition id (Point.x pos)
                                                     (Point.y pos))
                  else None
              | _, _ => None
              end in
    Ok (setBoundsRef None
          (setDragPosition None (setDraggedCommentId None s)), cb)
  else if negb (isDrawing s) then Ok (s, None)
  else
    let s' := setIsDrawing false s in
    cb <-
      (if Tool_eqb (drawingTool p) Tpointer && negb (isCompareMode p) then
         point <- getPoint containerRef s e ;;
         Ok (Some (onAddComment (Point.x point) (Point.y point) None))
       else if Tool_eqb (drawingTool p) Tpen
               && Nat.ltb 1 (List.length (currentPath s)) then
         match currentPath s with
         | first :: _ =>
             Ok (Some (onAddComment (Point.x first) (Point.y first)
                         (Some (Drawing.mk pen (Some (currentPath s)) None
                                           (color p)))))
         | [] => Fail TypeError
         end
       else
         match drawingTool p, currentRect s with
         | Tbox, Some r =>
             if gt (Rect.w r) 1 || gt (Rect.h r) 1 then
               Ok (Some (onAddComment (Rect.x r + Rect.w r) (Rect.y r)
                           (Some (Drawing.mk box None (Some r) (color p)))))
             else Ok None
         | _, _ => Ok None
         end) ;;
    Ok (resetDraft s', cb).

Definition handleMouseLeave (s : State) : State :=
  setBoundsRef None
    (setDragPosition None
       (setDraggedCommentId None
          (setHoveredCommentId None (setIsDrawing false s)))).

(** The moves of one gesture, in delivery order. *)
Fixpoint moves (containerRef : option DOMRect.t) (p : Props)
    (es : list MouseEvent.t) (s : State) : result State :=
  match es with
  | [] => Ok s
  | e :: es =>
      s' <- handleMouseMove containerRef p e s ;;
      moves containerRef p es s'
  end.

(** A whole gesture: the press, the moves that follow it, the release. *)
Definition gesture (containerRef : option DOMRect.t) (p : Props)
    (down : MouseEvent.t) (mid : list MouseEvent.t) (up : MouseEvent.t)
    (s : State) : result (State * option Callback) :=
  s1 <- handleMouseDown containerRef p down s ;;
  s2 <- moves containerRef p mid s1 ;;
  handleMouseUp containerRef p up s2.

End AnnotationLayer.

(** ** The review room ([ReviewRoom]) *)

Module ReviewRoom.

(** The props the handlers read: [asset.type] and [currentUser]. *)
Record Props : Type := mkProps {
  assetType : AssetType;
  currentUser : User.t }.

(** The [useState] cells and refs the handlers below read or write.  The
    cells that only drive presentation (share modal, social ratio, safe
    zones, presentation mode, media dimensions, jump-to-time, the previous
    tool of the space-bar override) are left out. *)
Record State : Type := mkState {
  activeVersionId : string;
  compareVersionId : option string;
  versions : list AssetVersion.t;
  isUploadModalOpen : bool;
  currentAssetStatus : AssetStatus;
  isCompareMode : bool;
  activeCommentId : option string;
  currentTimeRef : number;
  isVideoPlaying : bool;
  drawingTool : Tool;
  toolColor : string;
  zoom : number;
  pan : Point.t;
  isPanningRef : bool;
  lastMousePosRef : Point.t }.

Definition setActiveVersionId (v : string) (s : State) : State :=
  mkState v (compareVersionId s) (versions s) (isUploadModalOpen s)
    (currentAssetStatus s) (isCompareMode s) (activeCommentId s)
    (currentTimeRef s) (isVideoPlaying s) (drawingTool s) (toolColor s)
    (zoom s) (pan s) (isPanningRef s) (lastMousePosRef s).

Definition setCompareVersionId (v : option string) (s : State) : State :=
  mkState (activeVersionId s) v (versions s) (isUploadModalOpen s)
    (currentAssetStatus s) (isCompareMode s) (activeCommentId s)
    (currentTimeRef s) (isVideoPlaying s) (drawingTool s) (toolColor s)
    (zoom s) (pan s) (isPanningRef s) (lastMousePosRef s).

Definition setVersions (v : list AssetVersion.t) (s : State) : State :=
  mkState (activeVersionId s) (compareVersionId s) v (isUploadModalOpen s)
    (currentAssetStatus s) (isCompareMode s) (activeCommentId s)
    (currentTimeRef s) (isVideoPlaying s) (drawingTool s) (toolColor s)
    (zoom s) (pan s) (isPanningRef s) (lastMousePosRef s).

Definition setIsUploadModalOpen (v : bool) (s : State) : State :=
  mkState (activeVersionId s) (compareVersionId s) (versions s) v
    (currentAssetStatus s) (isCompareMode s) (activeCommentId s)
    (currentTimeRef s) (isVideoPlaying s) (drawingTool s) (toolColor s)
    (zoom s) (pan s) (isPanningRef s) (lastMousePosRef s).

Definition setCurrentAssetStatus (v : AssetStatus) (s : State) : State :=
  mkState (activeVersionId s) (compareVersionId s) (versions s)
    (isUploadModalOpen s) v (isCompareMode s) (activeCommentId s)
    (currentTimeRef s) (isVideoPlaying s) (drawingTool s) (toolColor s)
    (zoom s) (pan s) (isPanningRef s) (lastMousePosRef s).

Definition setIsCompareMode (v : bool) (s : State) : State :=
  mkState (activeVersionId s) (compareVersionId s) (versions s)
    (isUploadModalOpen s) (currentAssetStatus s) v (activeCommentId s)
    (currentTimeRef s) (isVideoPlaying s) (drawingTool s) (toolColor s)
    (zoom s) (pan s) (isPanningRef s) (lastMousePosRef s).

Definition setActiveCommentId (v : option string) (s : State) : State :=
  mkState (activeVersionId s) (compareVersionId s) (versions s)
    (isUploadModalOpen s) (currentAssetStatus s) (isCompareMode s) v
    (currentTimeRef s) (isVideoPlaying s) (drawingTool s) (toolColor s)
    (zoom s) (pan s) (isPanningRef s) (lastMousePosRef s).

Definition setCurrentTimeRef (v : number) (s : State) : State :=
  mkState (activeVersionId s) (compareVersionId s) (versions s)
    (isUploadModalOpen s) (currentAssetStatus s) (isCompareMode s)
    (activeCommentId s) v (isVideoPlaying s) (drawingTool s) (toolColor s)
    (zoom s) (pan s) (isPanningRef s) (lastMousePosRef s).

Definition setIsVideoPlaying (v : bool) (s : State) : State :=
  mkState (activeVersionId s) (compareVersionId s) (versions s)
    (isUploadModalOpen s) (currentAssetStatus s) (isCompareMode s)
    (activeCommentId s) (currentTimeRef s) v (drawingTool s) (toolColor s)
    (zoom s) (pan s) (isPanningRef s) (lastMousePosRef s).

Definition setDrawingTool (v : Tool) (s : State) : State :=
  mkState (activeVersionId s) (compareVersionId s) (versions s)
    (isUploadModalOpen s) (currentAssetStatus s) (isCompareMode s)
    (activeCommentId s) (currentTimeRef s) (isVideoPlaying s) v (toolColor s)
    (zoom s) (pan s) (isPanningRef s) (lastMousePosRef s).

Definition setZoom (v : number) (s : State) : State :=
  mkState (activeVersionId s) (compareVersionId s) (versions s)
    (isUploadModalOpen s) (currentAssetStatus s) (isCompareMode s)
    (activeCommentId s) (currentTimeRef s) (isVideoPlaying s) (drawingTool s)
    (toolColor s) v (pan s) (isPanningRef s) (lastMousePosRef s).

Definition setPan (v : Point.t) (s : State) : State :=
  mkState (activeVersionId s) (compareVersionId s) (versions s)
    (isUploadModalOpen s) (currentAssetStatus s) (isCompareMode s)
    (activeCommentId s) (currentTimeRef s) (isVideoPlaying s) (drawingTool s)
    (toolColor s) (zoom s) v (isPanningRef s) (lastMousePosRef s).

Definition setIsPanningRef (v : bool) (s : State) : State :=
  mkState (activeVersionId s) (compareVersionId s) (versions s)
    (isUploadModalOpen s) (currentAssetStatus s) (isCompareMode s)
    (activeCommentId s) (currentTimeRef s) (isVideoPlaying s) (drawingTool s)
    (toolColor s) (zoom s) (pan s) v (lastMousePosRef s).

Definition setLastMousePosRef (v : Point.t) (s : State) : State :=
  mkState (activeVersionId s) (compareVersionId s) (versions s)
    (isUploadModalOpen s) (currentAssetStatus s) (isCompareMode s)
    (activeCommentId s) (currentTimeRef s) (isVideoPlaying s) (drawingTool s)
    (toolColor s) (zoom s) (pan s) (isPanningRef s) v.

(** *** Values derived by the render *)

(** [versions.find(v => v.id === activeVersionId) || versions[0]].  With an
    empty version list the value is [undefined] and the render throws at
    its first use ([activeVersion.comments]). *)
Definition activeVersion (s : State) : result AssetVersion.t :=
  match find (fun v => String.eqb (AssetVersion.id v) (activeVersionId s))
             (versions s) with
  | Some v => Ok v
  | None =>
      match versions s with
      | v :: _ => Ok v
      | [] => Fail TypeError
      end
  end.

Definition openTasksCount (s : State) : result nat :=
  v <- activeVersion s ;;
  Ok (List.length
        (filter (fun c => negb (Comment.resolved c))
                (AssetVersion.comments v))).

Definition isDecisionMaker (p : Props) : bool :=
  UserRole_eqb (User.role (currentUser p)) APPROVER
  || UserRole_eqb (User.role (currentUser p)) SUPER_ADMIN.

Definition canApprove (p : Props) (s : State) : result bool :=
  n <- openTasksCount s ;;
  Ok (isDecisionMaker p
      && (Nat.eqb n 0
          || UserRole_eqb (User.role (currentUser p)) SUPER_ADMIN)).

(** A [boolean | undefined] flag is truthy only when it is [true]. *)
Definition flag (o : option bool) : bool :=
  match o with
  | Some b => b
  | None => false
  end.

Definition visibleComments (p : Props) (s : State)
    : result (list Comment.t) :=
  v <- activeVersion s ;;
  Ok (filter
        (fun c =>
           if UserRole_eqb (User.role (currentUser p)) APPROVER
              && flag (Comment.isInternal c)
           then false else true)
        (AssetVersion.comments v)).

(** *** Zoom and pan *)

Definition handleWheel (viewportRef : option DOMRect.t) (e : WheelEvent.t)
    (s : State) : result State :=
  if isCompareMode s then Ok s
  else
    let scaleAmount := - WheelEvent.deltaY e * (2 # 1000) in
    let newZoom := Qmin (Qmax (1 # 10) (zoom s * (1 + scaleAmount))) 5 in
    match viewportRef with
    | Some rect =>
        let mouseX := WheelEvent.clientX e - DOMRect.left rect in
        let mouseY := WheelEvent.clientY e - DOMRect.top rect in
        zoomRatio <- jsdiv newZoom (zoom s) ;;
        let newPanX := mouseX - (mouseX - Point.x (pan s)) * zoomRatio in
        let newPanY := mouseY - (mouseY - Point.y (pan s)) * zoomRatio in
        Ok (setPan (Point.mk newPanX newPanY) (setZoom newZoom s))
    | None => Ok s
    end.

Definition handlePanStart (e : MouseEvent.t) (s : State) : State :=
  if Tool_eqb (drawingTool s) Thand || Z.eqb (MouseEvent.button e) 1 then
    setLastMousePosRef
      (Point.mk (MouseEvent.clientX e) (MouseEvent.clientY e))
      (setIsPanningRef true s)
  else s.

Definition handlePanMove (e : MouseEvent.t) (s : State) : State :=
  if isPanningRef s then
    let dx := MouseEvent.clientX e - Point.x (lastMousePosRef s) in
    let dy := MouseEvent.clientY e - Point.y (lastMousePosRef s) in
    setPan (Point.mk (Point.x (pan s) + dx) (Point.y (pan s) + dy))
      (setLastMousePosRef
         (Point.mk (MouseEvent.clientX e) (MouseEvent.clientY e)) s)
  else s.

Definition handlePanEnd (s : State) : State := setIsPanningRef false s.

Definition handleResetZoom (s : State) : State :=
  setPan (Point.mk 0 0) (setZoom 1 s).

(** The zoom-in and zoom-out buttons of the floating toolbar. *)
Definition zoomInButton (s : State) : State :=
  setZoom (Qmin 5 (zoom s + (1 # 4))) s.

Definition zoomOutButton (s : State) : State :=
  setZoom (Qmax (1 # 10) (zoom s - (1 # 4))) s.

(** The effect on [activeVersionId] (lines 104-107): after a handler
    that changed the active version id, the zoom and the pan are reset. *)
Definition versionChangeEffect (before after : State) : State :=
  if String.eqb (activeVersionId after) (activeVersionId before)
  then after else handleResetZoom after.

(** A click in the version switcher (line 561), and the effect. *)
Definition selectVersion (id : string) (s : State) : State :=
  versionChangeEffect s (setIsCompareMode false (setActiveVersionId id s)).

(** *** Versions and status *)

(** [Date.now()] is read once per handler call.  The effect that follows
    the change of the active version id is [versionChangeEffect]. *)
Definition handleUploadNewVersion (p : Props) (now : Z) (s : State)
    : result State :=
  match versions s with
  | [] => Fail TypeError
  | v0 :: _ =>
      let nextVersionNumber := AssetVersion.versionNumber v0 + 1 in
      let newVersion :=
        AssetVersion.mk
          (String.append "v_" (showZ now))
          nextVersionNumber
          (if AssetType_eqb (assetType p) VIDEO
           then "https://commondatastorage.googleapis.com/gtv-videos-bucket/sample/BigBuckBunny.mp4"%string
           else String.append "https://picsum.photos/1200/800?random="
                              (showZ now))
          (inject_Z now)
          [] in
      let newVersionsList := newVersion :: versions s in
      Ok (setCompareVersionId (Some (AssetVersion.id v0))
            (setCurrentAssetStatus PENDING
               (setActiveCommentId None
                  (setIsCompareMode false
                     (setIsUploadModalOpen false
                        (setActiveVersionId (AssetVersion.id newVersion)
                           (setVersions newVersionsList s)))))))
  end.

Definition handleApprove (s : State) : State :=
  setCurrentAssetStatus APPROVED s.

Definition handleRequestChanges (s : State) : State :=
  setCurrentAssetStatus CHANGES_REQUESTED s.

(** A click on the Approve button: the button is rendered only for a
    decision maker and carries [disabled={!canApprove}]; a disabled button
    delivers no click. *)
Definition approveButton (p : Props) (s : State) : result State :=
  enabled <- canApprove p s ;;
  if isDecisionMaker p && enabled then Ok (handleApprove s) else Ok s.

(** [prev.map(v => v.id === id ? updated : v)] *)
Definition replaceVersion (id : string) (updated : AssetVersion.t)
    (vs : list AssetVersion.t) : list AssetVersion.t :=
  map (fun v => if String.eqb (AssetVersion.id v) id then updated else v) vs.

Definition withComments (v : AssetVersion.t) (cs : list Comment.t)
    : AssetVersion.t :=
  AssetVersion.mk (AssetVersion.id v) (AssetVersion.versionNumber v)
                  (AssetVersion.url v) (AssetVersion.createdAt v) cs.

(** *** Comments *)

(** The comment [handleAddComment] builds.  [Date.now()] is read once per
    handler call. *)
Definition newComment (p : Props) (now : Z) (x y : number)
    (drawing : option Drawing.t) (s : State) : Comment.t :=
  Comment.mk
    (String.append "c_" (showZ now))
    (User.id (currentUser p))
    EmptyString
    (inject_Z now)
    false
    (Some x)
    (Some y)
    (if AssetType_eqb (assetType p) VIDEO
     then Some (currentTimeRef s) else None)
    drawing
    (Some [])
    (Some false).

Definition handleAddComment (p : Props) (now : Z) (x y : number)
    (drawing : option Drawing.t) (s : State) : result State :=
  if isCompareMode s then Ok s
  else if UserRole_eqb (User.role (currentUser p)) OBSERVER then Ok s
  else
    let s1 := if AssetType_eqb (assetType p) VIDEO && isVideoPlaying s
              then setIsVideoPlaying false s else s in
    av <- activeVersion s ;;
    let updatedVersion :=
      withComments av
        (newComment p now x y drawing s :: AssetVersion.comments av) in
    let s2 := setVersions
                (replaceVersion (AssetVersion.id av) updatedVersion
                                (versions s1)) s1 in
    let s3 := setActiveCommentId
                (Some (Comment.id (newComment p now x y drawing s))) s2 in
    Ok (if negb (Tool_eqb (drawingTool s) Tpointer)
        then setDrawingTool Tpointer s3 else s3).

(** The translation of a drawing that [handleUpdateCommentPosition]
    (lines 314-334) and [StaticDrawings] (lines 133-150) both spell out. *)
Definition translateDrawing (dx dy : number) (d : Drawing.t) : Drawing.t :=
  match Drawing.type d, Drawing.rect d, Drawing.points d with
  | box, Some r, _ =>
      Drawing.mk (Drawing.type d) (Drawing.points d)
        (Some (Rect.mk (Rect.x r + dx) (Rect.y r + dy) (Rect.w r) (Rect.h r)))
        (Drawing.color d)
  | pen, _, Some ps =>
      Drawing.mk (Drawing.type d)
        (Some (map (fun q => Point.mk (Point.x q + dx) (Point.y q + dy)) ps))
        (Drawing.rect d)
        (Drawing.color d)
  | _, _, _ => d
  end.

(** The body of the inner [map] of [handleUpdateCommentPosition]. *)
Definition moveComment (id : string) (newX newY : number) (c : Comment.t)
    : Comment.t :=
  if negb (String.eqb (Comment.id c) id) then c
  else
    let oldX := orZero (Comment.x c) in
    let oldY := orZero (Comment.y c) in
    let dx := newX - oldX in
    let dy := newY - oldY in
    let newDrawing :=
      match Comment.drawing c with
      | Some d => Some (translateDrawing dx dy d)
      | None => None
      end in
    Comment.mk (Comment.id c) (Comment.userId c) (Comment.text c)
      (Comment.timestamp c) (Comment.resolved c) (Some newX) (Some newY)
      (Comment.videoTimestamp c) newDrawing (Comment.replies c)
      (Comment.isInternal c).

Definition handleUpdateCommentPosition (id : string) (newX newY : number)
    (s : State) : State :=
  setVersions
    (map (fun v =>
            if negb (String.eqb (AssetVersion.id v) (activeVersionId s))
            then v
            else withComments v
                   (map (moveComment id newX newY) (AssetVersion.comments v)))
         (versions s))
    s.

Definition resolve (c : Comment.t) : Comment.t :=
  Comment.mk (Comment.id c) (Comment.userId c) (Comment.text c)
    (Comment.timestamp c) true (Comment.x c) (Comment.y c)
    (Comment.videoTimestamp c) (Comment.drawing c) (Comment.replies c)
    (Comment.isInternal c).

Definition handleResolveComment (id : string) (s : State) : result State :=
  av <- activeVersion s ;;
  let updatedVersion :=
    withComments av
      (map (fun c => if String.eqb (Comment.id c) id then resolve c else c)
           (AssetVersion.comments av)) in
  Ok (setVersions
        (replaceVersion (AssetVersion.id av) updatedVersion (versions s)) s).

(** *** Permissions, compare mode and the comment thread callbacks *)

Definition AssetStatus_eqb (a b : AssetStatus) : bool :=
  match a, b with
  | PENDING, PENDING | IN_PROGRESS, IN_PROGRESS
  | CHANGES_REQUESTED, CHANGES_REQUESTED | APPROVED, APPROVED => true
  | _, _ => false
  end.

Definition canDownload (p : Props) (s : State) : bool :=
  UserRole_eqb (User.role (currentUser p)) SUPER_ADMIN
  || UserRole_eqb (User.role (currentUser p)) CREATOR
  || AssetStatus_eqb (currentAssetStatus s) APPROVED.

Definition canUpload (p : Props) : bool :=
  UserRole_eqb (User.role (currentUser p)) CREATOR
  || UserRole_eqb (User.role (currentUser p)) SUPER_ADMIN.

(** [a === id] for a [string | null] and a string. *)
Definition isId (a : option string) (id : string) : bool :=
  match a with
  | Some s => String.eqb s id
  | None => false
  end.

Definition handleBackgroundClick (s : State) : State :=
  if truthy (activeCommentId s) then setActiveCommentId None s else s.

(** [versions.find(v => v.id === compareVersionId) || null] *)
Definition compareVersion (s : State) : option AssetVersion.t :=
  find (fun v => isId (compareVersionId s) (AssetVersion.id v)) (versions s).

Definition handleToggleCompare (s : State) : result State :=
  if negb (isCompareMode s) then
    other <-
      match find (fun v => negb (String.eqb (AssetVersion.id v)
                                            (activeVersionId s)))
                 (versions s) with
      | Some v => Ok v
      | None =>
          match versions s with
          | v :: _ => Ok v
          | [] => Fail TypeError
          end
      end ;;
    Ok (setIsCompareMode true
          (setCompareVersionId (Some (AssetVersion.id other)) s))
  else Ok (setCompareVersionId None (setIsCompareMode false s)).

(** The Request Changes button, rendered only for a decision maker. *)
Definition requestChangesButton (p : Props) (s : State) : State :=
  if isDecisionMaker p then handleRequestChanges s else s.

Definition setToolColor (v : string) (s : State) : State :=
  mkState (activeVersionId s) (compareVersionId s) (versions s)
    (isUploadModalOpen s) (currentAssetStatus s) (isCompareMode s)
    (activeCommentId s) (currentTimeRef s) (isVideoPlaying s) (drawingTool s)
    v (zoom s) (pan s) (isPanningRef s) (lastMousePosRef s).

(** The three tool buttons of the floating toolbar (lines 704-724). *)
Inductive ToolButton : Type := PointerButton | HandButton | PenButton.

Definition toolButton (b : ToolButton) (s : State) : State :=
  match b with
  | PointerButton => setDrawingTool Tpointer s
  | HandButton => setDrawingTool Thand s
  | PenButton => setDrawingTool Tpen s
  end.

Definition handleDeleteComment (id : string) (s : State) : result State :=
  av <- activeVersion s ;;
  let updatedVersion :=
    withComments av
      (filter (fun c => negb (String.eqb (Comment.id c) id))
              (AssetVersion.comments av)) in
  let s1 := setVersions
              (replaceVersion (AssetVersion.id av) updatedVersion (versions s))
              s in
  Ok (if isId (activeCommentId s) id then setActiveCommentId None s1 else s1).

(** The reply [handleReplyToComment] builds: a comment without position,
    timestamp, drawing or replies. *)
Definition reply (p : Props) (now : Z) (text : string) (isInternal : bool)
    : Comment.t :=
  Comment.mk (String.append "r_" (showZ now)) (User.id (currentUser p)) text
    (inject_Z now) false None None None None None (Some isInternal).

(** [{...c, replies: [...(c.replies || []), reply]}] *)
Definition withReply (r : Comment.t) (c : Comment.t) : Comment.t :=
  Comment.mk (Comment.id c) (Comment.userId c) (Comment.text c)
    (Comment.timestamp c) (Comment.resolved c) (Comment.x c) (Comment.y c)
    (Comment.videoTimestamp c) (Comment.drawing c)
    (Some (match Comment.replies c with
           | Some rs => rs ++ [r]
           | None => [r]
           end)%list)
    (Comment.isInternal c).

Definition handleReplyToComment (p : Props) (now : Z) (id : string)
    (text : string) (isInternal : bool) (s : State) : result State :=
  av <- activeVersion s ;;
  let updatedVersion :=
    withComments av
      (map (fun c => if String.eqb (Comment.id c) id
                     then withReply (reply p now text isInternal) c else c)
           (AssetVersion.comments av)) in
  Ok (setVersions
        (replaceVersion (AssetVersion.id av) updatedVersion (versions s)) s).

(** [{...c, text, isInternal}] *)
Definition withText (text : string) (isInternal : bool) (c : Comment.t)
    : Comment.t :=
  Comment.mk (Comment.id c) (Comment.userId c) text
    (Comment.timestamp c) (Comment.resolved c) (Comment.x c) (Comment.y c)
    (Comment.videoTimestamp c) (Comment.drawing c) (Comment.replies c)
    (Some isInternal).

Definition handleInitialComment (id : string) (text : string)
    (isInternal : bool) (s : State) : result State :=
  av <- activeVersion s ;;
  let updatedVersion :=
    withComments av
      (map (fun c => if String.eqb (Comment.id c) id
                     then withText text isInternal c else c)
           (AssetVersion.comments av)) in
  Ok (setVersions
        (replaceVersion (AssetVersion.id av) updatedVersion (versions s)) s).

(** The [onReply] the room hands to the comment thread (lines 865-872):
    the first text sent to a comment that has none becomes its text, any
    later one a reply. *)
Definition onReply (p : Props) (now : Z) (id : string) (text : string)
    (isInternal : bool) (s : State) : result State :=
  av <- activeVersion s ;;
  match find (fun c => String.eqb (Comment.id c) id)
             (AssetVersion.comments av) with
  | Some comment =>
      if String.eqb (Comment.text comment) EmptyString
      then handleInitialComment id text isInternal s
      else handleReplyToComment p now id text isInternal s
  | None => handleReplyToComment p now id text isInternal s
  end.

(** The [onSelect] the room hands to the comment thread (lines 873-881),
    without the jump-to-time cell. *)
Definition onSelect (id : string) (s : State) : result State :=
  av <- activeVersion s ;;
  let s1 := setActiveCommentId (Some id) s in
  match find (fun c => String.eqb (Comment.id c) id)
             (AssetVersion.comments av) with
  | Some c =>
      match Comment.videoTimestamp c with
      | Some _ => Ok (setIsVideoPlaying false s1)
      | None => Ok s1
      end
  | None => Ok s1
  end.

(** The effect on [activeCommentId] and [activeVersion] (lines 81-89),
    without the jump-to-time cell: the video is paused when the selected
    comment carries a timestamp. *)
Definition commentJumpEffect (s : State) : result State :=
  if truthy (activeCommentId s) then
    av <- activeVersion s ;;
    match find (fun c => isId (activeCommentId s) (Comment.id c))
               (AssetVersion.comments av) with
    | Some c =>
        match Comment.videoTimestamp c with
        | Some _ => Ok (setIsVideoPlaying false s)
        | None => Ok s
        end
    | None => Ok s
    end
  else Ok s.

(** The markers handed to the video player (line 829). *)
Definition markers (s : State) : result (list number) :=
  av <- activeVersion s ;;
  Ok (flat_map (fun c => match Comment.videoTimestamp c with
                         | Some t => [t]
                         | None => []
                         end)
               (AssetVersion.comments av)).

(** [onTogglePlay] (lines 797 and 831). *)
Definition onTogglePlay (s : State) : State :=
  setIsVideoPlaying (negb (isVideoPlaying s)) s.

(** [handleTimeUpdate] (lines 265-267). *)
Definition handleTimeUpdate (t : number) (s : State) : State :=
  setCurrentTimeRef t s.

End ReviewRoom.

(** ** The overlay mounted in the room *)

(** Where the annotated container lies inside the wrapper that carries the
    zoom and pan transform, before the transform is applied: the offset of
    its top-left corner from the wrapper's, and its size. *)
Module Layout.
Record t : Type := mk { offsetX : number; offsetY : number;
                        width : number; height : number }.
End Layout.

Module Surface.

Import ReviewRoom.

(** The container's bounding rectangle under the wrapper's inline style
    [transform: translate(pan.x px, pan.y px) scale(zoom)] with
    [transformOrigin: '0 0'] (lines 803-808): a point [u] of the wrapper,
    which fills the viewport, is drawn at [viewport + pan + zoom * u]. *)
Definition containerBounds (viewport : DOMRect.t) (box : Layout.t)
    (z : number) (pn : Point.t) : DOMRect.t :=
  DOMRect.mk
    (DOMRect.left viewport + Point.x pn + z * Layout.offsetX box)
    (DOMRect.top viewport + Point.y pn + z * Layout.offsetY box)
    (z * Layout.width box)
    (z * Layout.height box).

(** The normalized content point under the screen position
    [(clientX, clientY)], as [getPoint] measures it with freshly read
    bounds. *)
Definition contentPointUnder (viewport : DOMRect.t) (box : Layout.t)
    (clientX clientY : number) (s : State) : result Point.t :=
  AnnotationLayer.getPoint
    (Some (containerBounds viewport box (zoom s) (pan s)))
    AnnotationLayer.initial
    (MouseEvent.mk clientX clientY 0).

(** The operations on the viewport transform. *)
Inductive ViewportOp : Type :=
| Wheel (viewportRef : option DOMRect.t) (e : WheelEvent.t)
| ZoomIn
| ZoomOut
| ResetZoom
| PanStart (e : MouseEvent.t)
| PanMove (e : MouseEvent.t)
| PanEnd
| SelectVersion (id : string).

Definition step (op : ViewportOp) (s : State) : result State :=
  match op with
  | Wheel viewportRef e => handleWheel viewportRef e s
  | ZoomIn => Ok (zoomInButton s)
  | ZoomOut => Ok (zoomOutButton s)
  | ResetZoom => Ok (handleResetZoom s)
  | PanStart e => Ok (handlePanStart e s)
  | PanMove e => Ok (handlePanMove e s)
  | PanEnd => Ok (handlePanEnd s)
  | SelectVersion id => Ok (selectVersion id s)
  end.

Fixpoint run (ops : list ViewportOp) (s : State) : result State :=
  match ops with
  | [] => Ok s
  | op :: ops => s' <- step op s ;; run ops s'
  end.

(** The room together with the overlay it renders. *)
Record t : Type := mk { room : State; layer : AnnotationLayer.State }.

(** The props the room passes to [<AnnotationLayer>] (lines 839-850). *)
Definition layerProps (r : State) : AnnotationLayer.Props :=
  AnnotationLayer.mkProps false (drawingTool r) (toolColor r) true.

(** The callbacks the room passes: [onAddComment={handleAddComment}],
    [onSelectComment={setActiveCommentId}],
    [onUpdateCommentPosition={handleUpdateCommentPosition}]. *)
Definition dispatch (p : Props) (now : Z)
    (cb : option AnnotationLayer.Callback) (r : State) : result State :=
  match cb with
  | None => Ok r
  | Some (AnnotationLayer.onAddComment x y drawing) =>
      handleAddComment p now x y drawing r
  | Some (AnnotationLayer.onSelectComment id) =>
      Ok (setActiveCommentId (Some id) r)
  | Some (AnnotationLayer.onUpdateCommentPosition id x y) =>
      Ok (handleUpdateCommentPosition id x y r)
  end.

(** A mouse event on the overlay runs the overlay's handler and then
    bubbles to the viewport's pan handler. *)
Definition mouseDown (containerRef : option DOMRect.t) (e : MouseEvent.t)
    (u : t) : result t :=
  l <- AnnotationLayer.handleMouseDown containerRef (layerProps (room u)) e
         (layer u) ;;
  Ok (mk (handlePanStart e (room u)) l).

Definition mouseMove (containerRef : option DOMRect.t) (e : MouseEvent.t)
    (u : t) : result t :=
  l <- AnnotationLayer.handleMouseMove containerRef (layerProps (room u)) e
         (layer u) ;;
  Ok (mk (handlePanMove e (room u)) l).

Definition mouseUp (p : Props) (now : Z) (containerRef : option DOMRect.t)
    (e : MouseEvent.t) (u : t) : result t :=
  lc <- AnnotationLayer.handleMouseUp containerRef (layerProps (room u)) e
          (layer u) ;;
  r <- dispatch p now (snd lc) (room u) ;;
  Ok (mk (handlePanEnd r) (fst lc)).

(** A press on the pin of the comment [c] (the pin passes
    [comment.x || 0] and [comment.y || 0]); the pin stops the propagation,
    so neither the overlay's nor the viewport's press handler runs. *)
Definition pinMouseDown (containerRef : option DOMRect.t) (c : Comment.t)
    (u : t) : t :=
  let lc := AnnotationLayer.handlePinMouseDown containerRef
              (layerProps (room u)) (Comment.id c)
              (orZero (Comment.x c)) (orZero (Comment.y c)) (layer u) in
  match snd lc with
  | Some (AnnotationLayer.onSelectComment id) =>
      mk (setActiveCommentId (Some id) (room u)) (fst lc)
  | _ => mk (room u) (fst lc)
  end.

Fixpoint mouseMoves (containerRef : option DOMRect.t)
    (es : list MouseEvent.t) (u : t) : result t :=
  match es with
  | [] => Ok u
  | e :: es => u' <- mouseMove containerRef e u ;; mouseMoves containerRef es u'
  end.

(** A whole gesture on the overlay: press, moves, release. *)
Definition gesture (p : Props) (now : Z) (containerRef : option DOMRect.t)
    (down : MouseEvent.t) (mid : list MouseEvent.t) (up : MouseEvent.t)
    (u : t) : result t :=
  u1 <- mouseDown containerRef down u ;;
  u2 <- mouseMoves containerRef mid u1 ;;
  mouseUp p now containerRef up u2.

(** The room after the viewport's pan handlers saw the press and the moves
    of a gesture. *)
Definition roomAfterDrag (down : MouseEvent.t) (mid : list MouseEvent.t)
    (r : State) : State :=
  fold_left (fun r e => handlePanMove e r) mid (handlePanStart down r).

(** The comments of the active version, as a plain list ([[]] when the
    render would throw). *)
Definition activeComments (r : State) : list Comment.t :=
  match activeVersion r with
  | Ok v => AssetVersion.comments v
  | Fail _ => []
  end.

End Surface.

(** ** The viewport arithmetic in binary64 *)

(** The handlers above compute with exact rationals.  The JavaScript engine
    rounds the result of every [+], [-], [*] and [/] to the nearest binary64
    value, ties to even.  This module gives that rounding and reads the
    handlers of the viewport transform with it: a number is a rational
    that is a binary64 value, an operation is the exact one followed by
    [round], and a result past the largest finite value, which JavaScript
    makes [Infinity], is the failure [NonFinite].  The two zeros are not
    told apart.  [Math.min], [Math.max] and the unary minus do not
    round. *)
Module Binary64.

Import ReviewRoom.

(** [2 ^ e] for any integer exponent. *)
Definition pow2 (e : Z) : Q :=
  match e with
  | Z0 => 1
  | Zpos p => inject_Z (2 ^ Zpos p)
  | Zneg p => 1 # (2 ^ p)
  end.

(** The exponent [k] with [2 ^ k <= |q| < 2 ^ (k + 1)], for [q] not zero. *)
Definition ilog2 (q : Q) : Z :=
  let k := (Z.log2 (Z.abs (Qnum q)) - Z.log2 (Zpos (Qden q)))%Z in
  if Qle_bool (pow2 k) (Qabs q) then k else (k - 1)%Z.

(** The nearest integer, the even one of two equally near. *)
Definition roundHalfEven (q : Q) : Z :=
  let n := Qnum q in
  let d := Zpos (Qden q) in
  let f := (n / d)%Z in
  match (2 * (n mod d) ?= d)%Z with
  | Lt => f
  | Gt => (f + 1)%Z
  | Eq => if Z.even f then f else (f + 1)%Z
  end.

(** The nearest binary64 value: 53 significant bits, the exponent of the
    last bit no less than -1074 (below, the values are subnormal), and
    overflow from [2 ^ 1024] on. *)
Definition round (x : Q) : result number :=
  let q := Qred x in
  if Qeq_bool q 0 then Ok 0
  else
    let e := Z.max (ilog2 q - 52) (-1074) in
    let r := Qred (inject_Z (roundHalfEven (q * pow2 (- e))) * pow2 e) in
    if Qle_bool (pow2 1024) (Qabs r) then Fail NonFinite else Ok r.

(** A decimal literal of the source is the binary64 value nearest to it. *)
Definition lit (q : Q) : number :=
  match round q with
  | Ok r => r
  | Fail _ => 0
  end.

Definition add (a b : number) : result number := round (a + b).

Definition sub (a b : number) : result number := round (a - b).

Definition mul (a b : number) : result number := round (a * b).

Definition div (a b : number) : result number :=
  if Qeq_bool b 0 then Fail NonFinite else round (a / b).

(** A binary64 value: at most 53 significant bits, the exponent of the
    last one no less than that of the subnormal numbers. *)
Definition representable (d : Q) : Prop :=
  exists n e : Z,
    d == inject_Z n * pow2 e /\ (Z.abs n < 2 ^ 53)%Z /\ (-1074 <= e)%Z.

(** [handleWheel] (lines 162-185). *)
Definition handleWheel (viewportRef : option DOMRect.t) (e : WheelEvent.t)
    (s : State) : result State :=
  if isCompareMode s then Ok s
  else
    scaleAmount <- mul (- WheelEvent.deltaY e) (lit (2 # 1000)) ;;
    factor <- add 1 scaleAmount ;;
    scaled <- mul (zoom s) factor ;;
    let newZoom := Qmin (Qmax (lit (1 # 10)) scaled) 5 in
    match viewportRef with
    | Some rect =>
        mouseX <- sub (WheelEvent.clientX e) (DOMRect.left rect) ;;
        mouseY <- sub (WheelEvent.clientY e) (DOMRect.top rect) ;;
        zoomRatio <- div newZoom (zoom s) ;;
        offX <- sub mouseX (Point.x (pan s)) ;;
        growX <- mul offX zoomRatio ;;
        newPanX <- sub mouseX growX ;;
        offY <- sub mouseY (Point.y (pan s)) ;;
        growY <- mul offY zoomRatio ;;
        newPanY <- sub mouseY growY ;;
        Ok (setPan (Point.mk newPanX newPanY) (setZoom newZoom s))
    | None => Ok s
    end.

(** A run of wheel events with the deltas [deltas], all of them at the
    screen position [(clientX, clientY)]. *)
Fixpoint wheels (viewport : DOMRect.t) (clientX clientY : number)
    (deltas : list number) (s : State) : result State :=
  match deltas with
  | [] => Ok s
  | d :: ds =>
      s' <- handleWheel (Some viewport) (WheelEvent.mk d clientX clientY) s ;;
      wheels viewport clientX clientY ds s'
  end.

(** [handlePanMove] (lines 197-206); [handlePanStart] and [handlePanEnd]
    do no arithmetic. *)
Definition handlePanMove (e : MouseEvent.t) (s : State) : result State :=
  if isPanningRef s then
    dx <- sub (MouseEvent.clientX e) (Point.x (lastMousePosRef s)) ;;
    dy <- sub (MouseEvent.clientY e) (Point.y (lastMousePosRef s)) ;;
    panX <- add (Point.x (pan s)) dx ;;
    panY <- add (Point.y (pan s)) dy ;;
    Ok (setPan (Point.mk panX panY)
          (setLastMousePosRef
             (Point.mk (MouseEvent.clientX e) (MouseEvent.clientY e)) s))
  else Ok s.

Fixpoint panMoves (es : list MouseEvent.t) (s : State) : result State :=
  match es with
  | [] => Ok s
  | e :: es => s' <- handlePanMove e s ;; panMoves es s'
  end.

(** A whole pan drag: press, moves, release. *)
Definition drag (down : MouseEvent.t) (mid : list MouseEvent.t) (s : State)
    : result State :=
  s' <- panMoves mid (handlePanStart down s) ;;
  Ok (handlePanEnd s').

(** The zoom-in and zoom-out buttons (lines 741 and 749). *)
Definition zoomInButton (s : State) : result State :=
  z <- add (zoom s) (lit (1 # 4)) ;;
  Ok (setZoom (Qmin 5 z) s).

Definition zoomOutButton (s : State) : result State :=
  z <- sub (zoom s) (lit (1 # 4)) ;;
  Ok (setZoom (Qmax (lit (1 # 10)) z) s).

(** The container's bounding rectangle under the wrapper's transform, and
    the content point [getPoint] measures against it. *)
Definition containerBounds (viewport : DOMRect.t) (box : Layout.t)
    (z : number) (pn : Point.t) : result DOMRect.t :=
  l0 <- add (DOMRect.left viewport) (Point.x pn) ;;
  zx <- mul z (Layout.offsetX box) ;;
  l <- add l0 zx ;;
  t0 <- add (DOMRect.top viewport) (Point.y pn) ;;
  zy <- mul z (Layout.offsetY box) ;;
  t <- add t0 zy ;;
  w <- mul z (Layout.width box) ;;
  h <- mul z (Layout.height box) ;;
  Ok (DOMRect.mk l t w h).

Definition getPoint (rect : DOMRect.t) (e : MouseEvent.t) : result Point.t :=
  dx <- sub (MouseEvent.clientX e) (DOMRect.left rect) ;;
  qx <- div dx (DOMRect.width rect) ;;
  x <- mul qx 100 ;;
  dy <- sub (MouseEvent.clientY e) (DOMRect.top rect) ;;
  qy <- div dy (DOMRect.height rect) ;;
  y <- mul qy 100 ;;
  Ok (Point.mk x y).

Definition contentPointUnder (viewport : DOMRect.t) (box : Layout.t)
    (clientX clientY : number) (s : State) : result Point.t :=
  rect <- containerBounds viewport box (zoom s) (pan s) ;;
  getPoint rect (MouseEvent.mk clientX clientY 0).

End Binary64.

(** ** Predicates used by the statements *)

(** The zoom factor lies between 0.1 and 5. *)
Definition zoomInRange (z : number) : Prop := (1 # 10) <= z /\ z <= 5.

(** The head of the version list carries the greatest version number, as
    it does when the list is ordered newest first. *)
Definition headIsNewest (vs : list AssetVersion.t) : Prop :=
  match vs with
  | [] => False
  | v0 :: _ =>
      Forall (fun v => AssetVersion.versionNumber v
                       <= AssetVersion.versionNumber v0) vs
  end.

(** The room went from [r] to [r'] by prepending the one comment [c] to
    the comments of the active version. *)
Definition committed (c : Comment.t) (r r' : ReviewRoom.State) : Prop :=
  exists av,
    ReviewRoom.activeVersion r = Ok av
    /\ ReviewRoom.activeVersion r'
       = Ok (ReviewRoom.withComments av (c :: AssetVersion.comments av))
    /\ ReviewRoom.versions r'
       = ReviewRoom.replaceVersion (AssetVersion.id av)
           (ReviewRoom.withComments av (c :: AssetVersion.comments av))
           (ReviewRoom.versions r).

(** The actor may place comments: compare mode is off, the actor is not an
    observer, and there is a version to comment on. *)
Definition mayComment (p : ReviewRoom.Props) (r : ReviewRoom.State) : Prop :=
  ReviewRoom.isCompareMode r = false
  /\ User.role (ReviewRoom.currentUser p) <> OBSERVER
  /\ ReviewRoom.versions r <> [].

(** Two rooms agree on the tool, the color, the versions, the active
    version, the mode and the selection: what the pan handlers leave
    alone. *)
Definition sameRoomData (r r' : ReviewRoom.State) : Prop :=
  ReviewRoom.drawingTool r' = ReviewRoom.drawingTool r
  /\ ReviewRoom.toolColor r' = ReviewRoom.toolColor r
  /\ ReviewRoom.versions r' = ReviewRoom.versions r
  /\ ReviewRoom.activeVersionId r' = ReviewRoom.activeVersionId r
  /\ ReviewRoom.isCompareMode r' = ReviewRoom.isCompareMode r
  /\ ReviewRoom.activeCommentId r' = ReviewRoom.activeCommentId r.

(** The point [getPoint] measures against the bounds [rect]. *)
Definition pointOf (rect : DOMRect.t) (e : MouseEvent.t) : Point.t :=
  Point.mk
    ((MouseEvent.clientX e - DOMRect.left rect) / DOMRect.width rect * 100)
    ((MouseEvent.clientY e - DOMRect.top rect) / DOMRect.height rect * 100).

(** The bounds have an extent: neither side is zero. *)
Definition hasExtent (rect : DOMRect.t) : Prop :=
  ~ DOMRect.width rect == 0 /\ ~ DOMRect.height rect == 0.

(** The overlay is in the middle of a drawing gesture measured against
    the cached bounds [rect]. *)
Definition drawingOn (rect : DOMRect.t) (s : AnnotationLayer.State) : Prop :=
  AnnotationLayer.boundsRef s = Some rect
  /\ AnnotationLayer.isDrawing s = true
  /\ truthy (AnnotationLayer.draggedCommentId s) = false.

(** The draft rectangle between the anchor [a] and the pointer [q], as
    [handleMouseMove] computes it. *)
Definition boxOf (a q : Point.t) : Rect.t :=
  Rect.mk
    (if gt (Point.x q - Point.x a) 0 then Point.x a else Point.x q)
    (if gt (Point.y q - Point.y a) 0 then Point.y a else Point.y q)
    (Qabs (Point.x q - Point.x a))
    (Qabs (Point.y q - Point.y a)).

(** Two drawings agree up to [==] on their coordinates. *)
Definition Drawing_equiv (d d' : Drawing.t) : Prop :=
  Drawing.type d = Drawing.type d'
  /\ Drawing.color d = Drawing.color d'
  /\ match Drawing.points d, Drawing.points d' with
     | Some ps, Some ps' => Forall2 Point.equiv ps ps'
     | None, None => True
     | _, _ => False
     end
  /\ match Drawing.rect d, Drawing.rect d' with
     | Some r, Some r' => Rect.equiv r r'
     | None, None => True
     | _, _ => False
     end.

(** The unit roundoff of binary64, [2 ^ -53]. *)
Definition ulp53 : Q := Binary64.pow2 (-53).

(** No larger than a finite binary64 value. *)
Definition finite64 (q : number) : Prop := Qabs q <= Binary64.pow2 1024.

(** A view on the screen: along both axes the pointer, relative to the
    viewport, and the pan are at most 16384 pixels in size. *)
Definition onScreen (viewport : DOMRect.t) (e : WheelEvent.t)
    (s : ReviewRoom.State) : Prop :=
  Qabs (WheelEvent.clientX e - DOMRect.left viewport) <= 16384
  /\ Qabs (WheelEvent.clientY e - DOMRect.top viewport) <= 16384
  /\ Qabs (Point.x (ReviewRoom.pan s)) <= 16384
  /\ Qabs (Point.y (ReviewRoom.pan s)) <= 16384.

(** ** Sample data for the concrete instances *)

Module Sample.

Import ReviewRoom.

Definition creator : Props :=
  mkProps IMAGE (User.mk "u1" "Cara" CREATOR "cara.png").

Definition approver : Props :=
  mkProps IMAGE (User.mk "u2" "Axel" APPROVER "axel.png").

Definition observer : Props :=
  mkProps IMAGE (User.mk "u3" "Olga" OBSERVER "olga.png").

Definition note (id : string) (resolved : bool) (isInternal : bool)
    : Comment.t :=
  Comment.mk id "u1" "fix this" 1000 resolved (Some 10) (Some 20) None None
    (Some []) (Some isInternal).

(** A version with two unresolved comments and a resolved one. *)
Definition reviewed : AssetVersion.t :=
  AssetVersion.mk "v1" 1 "one.png" 1000
    [note "c1" false false; note "c2" false true; note "c3" true false].

Definition blank : AssetVersion.t :=
  AssetVersion.mk "v1" 1 "one.png" 1000 [].

Definition roomOf (vs : list AssetVersion.t) (status : AssetStatus)
    (tool : Tool) : State :=
  mkState "v1" None vs false status false None 0 false tool "#ef4444"
    1 (Point.mk 0 0) false (Point.mk 0 0).

Definition click : MouseEvent.t := MouseEvent.mk 30 40 0.

Definition frame : DOMRect.t := DOMRect.mk 0 0 100 100.

(** The overlay at the release of a box drag whose rectangle is [r]. *)
Definition boxDraft (r : Rect.t) : Surface.t :=
  Surface.mk (roomOf [blank] PENDING Tbox)
    (AnnotationLayer.mkState (Some frame) true []
       (Some (Point.mk (Rect.x r) (Rect.y r))) (Some r) None None None).

(** The overlay at the release of a pen stroke through [path]. *)
Definition penDraft (path : list Point.t) : Surface.t :=
  Surface.mk (roomOf [blank] PENDING Tpen)
    (AnnotationLayer.mkState (Some frame) true path None None None None None).

Definition boxProps : AnnotationLayer.Props :=
  AnnotationLayer.mkProps false Tbox "#ef4444" true.

(** A viewport of 800 by 600 pixels and a container of 600 by 500 laid out
    at (100, 50) inside it. *)
Definition viewport : DOMRect.t := DOMRect.mk 0 0 800 600.

Definition stage : Layout.t := Layout.mk 100 50 600 500.

Definition scrollUp : WheelEvent.t := WheelEvent.mk (-100) 400 300.

(** A wheel delta far beyond what a device reports. *)
Definition scrollWild : WheelEvent.t := WheelEvent.mk 1000000000 400 300.

Definition zoomScript : list Surface.ViewportOp :=
  [Surface.Wheel (Some viewport) scrollWild; Surface.ZoomOut;
   Surface.Wheel (Some viewport) scrollUp; Surface.ZoomIn; Surface.ZoomIn;
   Surface.PanStart (MouseEvent.mk 10 10 1);
   Surface.PanMove (MouseEvent.mk 25 5 1); Surface.PanEnd].

(** A boxed annotation whose pin sits on the top-right corner of the box. *)
Definition boxed : Drawing.t :=
  Drawing.mk box None (Some (Rect.mk 10 20 30 40)) "#22c55e".

Definition boxedNote : Comment.t :=
  Comment.mk "c9" "u1" "crop here" 1000 false (Some 40) (Some 20) None
    (Some boxed) (Some []) (Some false).

(** A room whose only version holds the boxed note. *)
Definition annotated : State :=
  roomOf [AssetVersion.mk "v1" 1 "one.png" 1000 [boxedNote]] PENDING Tpointer.

End Sample.

(** ** Keyboard shortcuts of the room (lines 109-158) *)

Module KeyboardEvent.
Record t : Type := mk { code : string; key : string; repeat : bool }.
End KeyboardEvent.

(** [toLowerCase] on the ASCII letters.  The handlers compare its result
    with ['h'], ['v'], ['p'], ['i'] and ['o'] only, and for these letters
    the comparison comes out the same as with the full Unicode mapping:
    only the letter itself and its capital are mapped to it. *)
Definition lowerAscii (c : ascii) : ascii :=
  let n := nat_of_ascii c in
  if Nat.leb 65 n && Nat.leb n 90 then ascii_of_nat (n + 32) else c.

Fixpoint toLowerCase (s : string) : string :=
  match s with
  | EmptyString => EmptyString
  | String c rest => String (lowerAscii c) (toLowerCase rest)
  end.

Module Shortcuts.

Import ReviewRoom.

(** The room together with [previousToolRef], the tool the space-bar
    override gives back. *)
Record State : Type := mk { room : ReviewRoom.State; previousToolRef : Tool }.

Definition initial (r : ReviewRoom.State) : State := mk r Tpointer.

Definition keyIs (e : KeyboardEvent.t) (letter : string) : bool :=
  String.eqb (toLowerCase (KeyboardEvent.key e)) letter.

(** [isInputActive]: the focus is in an input or a text area. *)
Definition handleKeyDown (p : Props) (isInputActive : bool)
    (e : KeyboardEvent.t) (k : State) : State :=
  if isInputActive then k
  else
    let k :=
      if String.eqb (KeyboardEvent.code e) "Space" then
        if AssetType_eqb (assetType p) VIDEO then
          mk (setIsVideoPlaying (negb (isVideoPlaying (room k))) (room k))
             (previousToolRef k)
        else if negb (KeyboardEvent.repeat e) then
          if negb (Tool_eqb (drawingTool (room k)) Thand)
          then mk (setDrawingTool Thand (room k)) (drawingTool (room k))
          else k
        else k
      else k in
    let k := if keyIs e "h"
             then mk (setDrawingTool Thand (room k)) (previousToolRef k)
             else k in
    let k := if keyIs e "v"
             then mk (setDrawingTool Tpointer (room k)) (previousToolRef k)
             else k in
    if keyIs e "p"
    then mk (setDrawingTool Tpen (room k)) (previousToolRef k)
    else k.

Definition handleKeyUp (p : Props) (isInputActive : bool)
    (e : KeyboardEvent.t) (k : State) : State :=
  if isInputActive then k
  else if String.eqb (KeyboardEvent.code e) "Space"
          && negb (AssetType_eqb (assetType p) VIDEO)
  then mk (setDrawingTool (previousToolRef k) (room k)) (previousToolRef k)
  else k.

(** Holding the space bar: the first key-down, the auto-repeated ones, the
    key-up. *)
Definition space (isRepeat : bool) : KeyboardEvent.t :=
  KeyboardEvent.mk "Space" " " isRepeat.

Definition holdSpace (p : Props) (repeats : nat) (k : State) : State :=
  handleKeyUp p false (space false)
    (Nat.iter repeats (handleKeyDown p false (space true))
       (handleKeyDown p false (space false) k)).

End Shortcuts.

(** ** What the overlay draws ([StaticDrawings], [Pin], the pins layer) *)

Module StaticDrawings.

(** [draggedCommentId === comment.id] and its like. *)
Definition isId (a : option string) (id : string) : bool :=
  match a with
  | Some s => String.eqb s id
  | None => false
  end.

(** The drawing of [comment] as it is rendered: none for a resolved comment
    or one without drawing; moved along with the pin while the comment is
    being dragged (lines 119-151). *)
Definition drawingToRender (draggedCommentId : option string)
    (dragPosition : option Point.t) (comment : Comment.t)
    : option Drawing.t :=
  if Comment.resolved comment then None
  else
    match Comment.drawing comment with
    | None => None
    | Some drawing =>
        let isDragging := isId draggedCommentId (Comment.id comment) in
        match isDragging, dragPosition, Comment.x comment, Comment.y comment
        with
        | true, Some pos, Some x, Some y =>
            Some (ReviewRoom.translateDrawing (Point.x pos - x)
                                              (Point.y pos - y) drawing)
        | _, _, _, _ => Some drawing
        end
    end.

End StaticDrawings.

Module Pin.

(** Where a pin is drawn: at the drag position while it is dragged, at the
    comment's anchor otherwise; nowhere when a coordinate is missing
    (lines 48-51). *)
Definition display (comment : Comment.t) (isDragging : bool)
    (dragPosition : option Point.t) : option Point.t :=
  let displayX := match isDragging, dragPosition with
                  | true, Some pos => Some (Point.x pos)
                  | _, _ => Comment.x comment
                  end in
  let displayY := match isDragging, dragPosition with
                  | true, Some pos => Some (Point.y pos)
                  | _, _ => Comment.y comment
                  end in
  match displayX, displayY with
  | Some x, Some y => Some (Point.mk x y)
  | _, _ => None
  end.

(** A rendered pin: its label ([index + 1]), its comment, its place. *)
Record view : Type := mkView { label : nat; comment : Comment.t;
                               place : Point.t }.

(** The pins layer (lines 359-379): one entry per comment of the list, in
    order; resolved comments and comments without anchor get none. *)
Fixpoint layerFrom (index : nat) (draggedCommentId : option string)
    (dragPosition : option Point.t) (comments : list Comment.t)
    : list (option view) :=
  match comments with
  | [] => []
  | c :: rest =>
      (if Comment.resolved c then None
       else
         match Comment.x c, Comment.y c with
         | Some _, Some _ =>
             let isDragging :=
               StaticDrawings.isId draggedCommentId (Comment.id c) in
             match display c isDragging
                     (if isDragging then dragPosition else None) with
             | Some q => Some (mkView (index + 1) c q)
             | None => None
             end
         | _, _ => None
         end)
      :: layerFrom (S index) draggedCommentId dragPosition rest
  end.

Definition layer := layerFrom 0.

End Pin.

(** ** The comment thread of the sidebar ([CommentThread.tsx]) *)

(** [Array.prototype.findIndex]: the index of the first element that
    satisfies [f], or [-1]. *)
Fixpoint findIndex {A : Type} (f : A -> bool) (l : list A) : Z :=
  match l with
  | [] => (-1)%Z
  | a :: rest =>
      if f a then 0%Z
      else let i := findIndex f rest in
           if (i <? 0)%Z then (-1)%Z else (i + 1)%Z
  end.

Module CommentThread.

Inductive Filter : Type := ALL | OPEN | RESOLVED.

(** The filter of [sortedComments] (lines 66-70). *)
Definition keeps (filter : Filter) (c : Comment.t) : bool :=
  match filter with
  | OPEN => negb (Comment.resolved c)
  | RESOLVED => Comment.resolved c
  | ALL => true
  end.

(** [sort((a, b) => b.timestamp - a.timestamp)]: newest first.
    [Array.prototype.sort] is stable and the comparator orders the
    timestamps totally, so the outcome is the one stable arrangement by
    decreasing timestamp; it is computed here by insertion from the
    right. *)
Fixpoint insert (c : Comment.t) (sorted : list Comment.t)
    : list Comment.t :=
  match sorted with
  | [] => [c]
  | d :: rest =>
      if gt (Comment.timestamp d) (Comment.timestamp c)
      then d :: insert c rest
      else c :: d :: rest
  end.

Definition sort (l : list Comment.t) : list Comment.t :=
  fold_right insert [] l.

Definition sortedComments (filter : Filter) (comments : list Comment.t)
    : list Comment.t :=
  sort (List.filter (keeps filter) comments).

Definition openCount (comments : list Comment.t) : nat :=
  List.length (List.filter (fun c => negb (Comment.resolved c)) comments).

Definition canPostInternal (currentUser : User.t) : bool :=
  negb (UserRole_eqb (User.role currentUser) APPROVER).

Definition canDelete (currentUser : User.t) (comment : Comment.t) : bool :=
  String.eqb (User.id currentUser) (Comment.userId comment)
  || UserRole_eqb (User.role currentUser) SUPER_ADMIN.

(** The number shown on a row: the position, counted from 1, of the first
    comment of the list handed in that has the row's id (line 142). *)
Definition originalIndex (comments : list Comment.t) (comment : Comment.t)
    : Z :=
  (findIndex (fun c => String.eqb (Comment.id c) (Comment.id comment))
             comments + 1)%Z.

(** The [replyDrafts] and [replyInternal] records, keyed by comment id. *)
Record State : Type := mkState {
  replyDrafts : string -> option string;
  replyInternal : string -> option bool;
  filter : Filter }.

Definition initial : State :=
  mkState (fun _ => None) (fun _ => None) OPEN.

(** [{...prev, [id]: v}] *)
Definition assign {A : Type} (prev : string -> option A) (id : string)
    (v : A) : string -> option A :=
  fun k => if String.eqb k id then Some v else prev k.

Definition setFilter (f : Filter) (s : State) : State :=
  mkState (replyDrafts s) (replyInternal s) f.

(** The [onChange] of the reply input (line 262). *)
Definition handleDraftChange (id : string) (value : string) (s : State)
    : State :=
  mkState (assign (replyDrafts s) id value) (replyInternal s) (filter s).

(** The internal/public toggle (lines 275-290), rendered only when
    [canPostInternal]. *)
Definition toggleInternal (currentUser : User.t) (id : string) (s : State)
    : State :=
  if canPostInternal currentUser then
    mkState (replyDrafts s)
      (assign (replyInternal s) id
         (negb (match replyInternal s id with
                | Some b => b
                | None => false
                end)))
      (filter s)
  else s.

Section Send.

(** [String.prototype.trim]. *)
Variable trim : string -> string.

(** [handleSendReply] (lines 53-64): the state after the call and the
    arguments of [onReply] when it is called. *)
Definition handleSendReply (commentId : string) (s : State)
    : State * option (string * string * bool) :=
  let isInternal := match replyInternal s commentId with
                    | Some b => b
                    | None => false
                    end in
  match replyDrafts s commentId with
  | Some text =>
      if negb (String.eqb text EmptyString)
         && negb (String.eqb (trim text) EmptyString)
      then (mkState (assign (replyDrafts s) commentId EmptyString)
                    (replyInternal s) (filter s),
            Some (commentId, text, isInternal))
      else (s, None)
  | None => (s, None)
  end.

(** What a user does in the thread. *)
Inductive Action : Type :=
| Type_ (id : string) (value : string)
| Toggle (id : string)
| Send (id : string)
| ShowOnly (f : Filter).

Definition step (currentUser : User.t) (a : Action) (s : State)
    : State * option (string * string * bool) :=
  match a with
  | Type_ id value => (handleDraftChange id value s, None)
  | Toggle id => (toggleInternal currentUser id s, None)
  | Send id => handleSendReply id s
  | ShowOnly f => (setFilter f s, None)
  end.

(** The calls of [onReply] made along a sequence of actions, in order. *)
Fixpoint sent (currentUser : User.t) (actions : list Action) (s : State)
    : list (string * string * bool) :=
  match actions with
  | [] => []
  | a :: rest =>
      let r := step currentUser a s in
      match snd r with
      | Some call => call :: sent currentUser rest (fst r)
      | None => sent currentUser rest (fst r)
      end
  end.

End Send.

End CommentThread.

(** ** The wipe comparison ([ComparisonView.tsx]) *)

Module ComparisonView.

Inductive Mode : Type := side_by_side | wipe.

Record State : Type := mkState {
  mode : Mode;
  wipePos : number;
  isDragging : bool }.

Definition initial : State := mkState side_by_side 50 false.

Definition setMode (m : Mode) (s : State) : State :=
  mkState m (wipePos s) (isDragging s).

(** The handle's [onMouseDown]. *)
Definition handleMouseDown (s : State) : State :=
  mkState (mode s) (wipePos s) true.

(** The window's [mousemove]; [containerRef] is the wipe container's
    rectangle, [None] while the ref is not attached. *)
Definition handleMouseMove (containerRef : option DOMRect.t)
    (e : MouseEvent.t) (s : State) : result State :=
  match isDragging s, containerRef with
  | true, Some rect =>
      let x := MouseEvent.clientX e - DOMRect.left rect in
      q <- jsdiv x (DOMRect.width rect) ;;
      let newPos := Qmax 0 (Qmin 100 (q * 100)) in
      Ok (mkState (mode s) newPos (isDragging s))
  | _, _ => Ok s
  end.

(** The window's [mouseup]. *)
Definition handleMouseUp (s : State) : State :=
  mkState (mode s) (wipePos s) false.

Inductive Event : Type :=
| Press
| Move (containerRef : option DOMRect.t) (e : MouseEvent.t)
| Release
| Switch (m : Mode).

Definition step (ev : Event) (s : State) : result State :=
  match ev with
  | Press => Ok (handleMouseDown s)
  | Move containerRef e => handleMouseMove containerRef e s
  | Release => Ok (handleMouseUp s)
  | Switch m => Ok (setMode m s)
  end.

Fixpoint run (evs : list Event) (s : State) : result State :=
  match evs with
  | [] => Ok s
  | ev :: rest => s' <- step ev s ;; run rest s'
  end.

End ComparisonView.

(** ** The video player ([VideoPlayer], the controls over the video) *)

Module VideoPlayer.

(** The [<video>] element behind [videoRef]: its current time and its
    duration, [None] for the [NaN] it reports before the metadata is
    loaded. *)
Record Video : Type := mkVideo {
  currentTime : number;
  duration : option number }.

Definition setCurrentTime (t : number) (v : Video) : Video :=
  mkVideo t (duration v).

(** [videoRef] and the [useState] cells the handlers below touch;
    [durationState] is the [duration] cell. *)
Record State : Type := mkState {
  videoRef : option Video;
  progress : number;
  durationState : option number;
  loopStart : option number;
  loopEnd : option number;
  isLoopActive : bool }.

Definition initial (v : option Video) : State :=
  mkState v 0 (Some 0) None None false.

(** The loop keys I, O and P (lines 49-72). *)
Definition handleKeyDown (isInputActive : bool) (e : KeyboardEvent.t)
    (s : State) : State :=
  if isInputActive then s
  else
    match videoRef s with
    | None => s
    | Some v =>
        let t := currentTime v in
        let pressed := fun letter =>
          String.eqb (toLowerCase (KeyboardEvent.key e)) letter in
        let s := if pressed "i"%string
                 then mkState (videoRef s) (progress s) (durationState s)
                              (Some t) (loopEnd s) true
                 else s in
        let s := if pressed "o"%string
                 then mkState (videoRef s) (progress s) (durationState s)
                              (loopStart s) (Some t) true
                 else s in
        if pressed "p"%string
        then mkState (videoRef s) (progress s) (durationState s)
                     None None false
        else s
    end.

(** [handleTimeUpdate] (lines 74-91): the state after the call and the
    argument of [onTimeUpdate] when it is called. *)
Definition handleTimeUpdate (s : State) : State * option number :=
  match videoRef s with
  | None => (s, None)
  | Some v =>
      let current := currentTime v in
      let dur := duration v in
      let progress' :=
        match dur with
        | Some d => if gt d 0 then current / d * 100 else progress s
        | None => progress s
        end in
      let v' :=
        match isLoopActive s, loopStart s, loopEnd s with
        | true, Some ls, Some le =>
            if Qle_bool le current || gt ls current
            then setCurrentTime ls v else v
        | _, _, _ => v
        end in
      (mkState (Some v') progress' dur (loopStart s) (loopEnd s)
               (isLoopActive s),
       Some current)
  end.

(** [handleSeek] (lines 109-122); [rect] is the timeline's rectangle.  A
    falsy duration, [NaN] or 0, leaves the video alone.  The difference,
    the quotient and the two products are rounded to binary64. *)
Definition handleSeek (rect : DOMRect.t) (e : MouseEvent.t) (s : State)
    : result State :=
  match videoRef s with
  | None => Ok s
  | Some v =>
      x <- Binary64.sub (MouseEvent.clientX e) (DOMRect.left rect) ;;
      q <- Binary64.div x (DOMRect.width rect) ;;
      let percentage := Qmax 0 (Qmin 1 q) in
      match duration v with
      | Some d =>
          if Qeq_bool d 0 then Ok s
          else
            newTime <- Binary64.mul percentage d ;;
            shown <- Binary64.mul percentage 100 ;;
            Ok (mkState (Some (setCurrentTime newTime v)) shown
                        (durationState s) (loopStart s) (loopEnd s)
                        (isLoopActive s))
      | None => Ok s
      end
  end.

(** [stepFrame] (lines 124-133), with the [isPlaying] prop: the state
    after the call and whether [onTogglePlay] is called.  The quotient,
    the product and the sum are rounded to binary64.  Before the metadata
    is loaded the new time is [NaN], and a video element does not take a
    time that is not finite. *)
Definition stepFrame (frames : number) (isPlaying : bool) (s : State)
    : result (State * bool) :=
  match videoRef s with
  | None => Ok (s, false)
  | Some v =>
      frameTime <- Binary64.div 1 30 ;;
      step <- Binary64.mul frames frameTime ;;
      newTime <- Binary64.add (currentTime v) step ;;
      match duration v with
      | Some d =>
          Ok (mkState (Some (setCurrentTime (Qmax 0 (Qmin newTime d)) v))
                      (progress s) (durationState s) (loopStart s)
                      (loopEnd s) (isLoopActive s),
              isPlaying)
      | None => Fail NonFinite
      end
  end.

End VideoPlayer.

(** ** Sessions: the room under any sequence of user actions *)

Module Session.

Import ReviewRoom.

(** A click on Done in the sidebar row of the [row]-th visible comment; the
    button is there for an unresolved comment. *)
Definition doneButton (p : Props) (row : nat) (s : State) : result State :=
  visible <- visibleComments p s ;;
  match nth_error visible row with
  | Some c =>
      if negb (Comment.resolved c)
      then handleResolveComment (Comment.id c) s else Ok s
  | None => Ok s
  end.

(** A click on the bin in the sidebar row of the [row]-th visible comment;
    the button is there for an unresolved comment the user may delete. *)
Definition deleteButton (p : Props) (row : nat) (s : State) : result State :=
  visible <- visibleComments p s ;;
  match nth_error visible row with
  | Some c =>
      if CommentThread.canDelete (currentUser p) c
         && negb (Comment.resolved c)
      then handleDeleteComment (Comment.id c) s else Ok s
  | None => Ok s
  end.

(** The New Version button, rendered when [canUpload]. *)
Definition openUploadButton (p : Props) (s : State) : State :=
  if canUpload p then setIsUploadModalOpen true s else s.

(** The submit of the upload form, which exists while the modal is open,
    and the effect on the new active version id. *)
Definition submitUpload (p : Props) (now : Z) (s : State) : result State :=
  if isUploadModalOpen s then
    s' <- handleUploadNewVersion p now s ;;
    Ok (versionChangeEffect s s')
  else Ok s.

(** The compare button, rendered when there is more than one version. *)
Definition compareButton (s : State) : result State :=
  if Nat.ltb 1 (List.length (versions s)) then handleToggleCompare s
  else Ok s.

(** What can happen to a mounted room whose props stay the same: every
    place of the view that sets one of the state cells modelled here.
    Guards that only hide a control (presentation mode, compare mode, the
    active row of the sidebar) are left out, and ids, texts and positions
    are arbitrary: the sequences below include all those of the
    application. *)
Inductive Action : Type :=
| Viewport (op : Surface.ViewportOp)
| Compare
| OpenUpload
| CloseUpload
| SubmitUpload (now : Z)
| Approve
| RequestChanges
| AddComment (now : Z) (x y : number) (drawing : option Drawing.t)
| MoveComment (id : string) (x y : number)
| PickComment (id : string)
| Done (row : nat)
| Delete (row : nat)
| Reply (now : Z) (id : string) (text : string) (isInternal : bool)
| Select (id : string)
| Background
| Tool (b : ToolButton)
| Colour (c : string)
| KeyDown (isInputActive : bool) (e : KeyboardEvent.t)
| KeyUp (isInputActive : bool) (e : KeyboardEvent.t)
| TogglePlay
| TimeUpdate (t : number)
| JumpEffect.

Definition onRoom (f : State -> result State) (k : Shortcuts.State)
    : result Shortcuts.State :=
  r <- f (Shortcuts.room k) ;;
  Ok (Shortcuts.mk r (Shortcuts.previousToolRef k)).

Definition perform (p : Props) (a : Action) (k : Shortcuts.State)
    : result Shortcuts.State :=
  match a with
  | Viewport op => onRoom (Surface.step op) k
  | Compare => onRoom compareButton k
  | OpenUpload => onRoom (fun s => Ok (openUploadButton p s)) k
  | CloseUpload => onRoom (fun s => Ok (setIsUploadModalOpen false s)) k
  | SubmitUpload now => onRoom (submitUpload p now) k
  | Approve => onRoom (approveButton p) k
  | RequestChanges => onRoom (fun s => Ok (requestChangesButton p s)) k
  | AddComment now x y drawing =>
      onRoom (handleAddComment p now x y drawing) k
  | MoveComment id x y =>
      onRoom (fun s => Ok (handleUpdateCommentPosition id x y s)) k
  | PickComment id => onRoom (fun s => Ok (setActiveCommentId (Some id) s)) k
  | Done row => onRoom (doneButton p row) k
  | Delete row => onRoom (deleteButton p row) k
  | Reply now id text isInternal =>
      onRoom (onReply p now id text isInternal) k
  | Select id => onRoom (onSelect id) k
  | Background => onRoom (fun s => Ok (handleBackgroundClick s)) k
  | Tool b => onRoom (fun s => Ok (toolButton b s)) k
  | Colour c => onRoom (fun s => Ok (setToolColor c s)) k
  | KeyDown isInputActive e => Ok (Shortcuts.handleKeyDown p isInputActive e k)
  | KeyUp isInputActive e => Ok (Shortcuts.handleKeyUp p isInputActive e k)
  | TogglePlay => onRoom (fun s => Ok (onTogglePlay s)) k
  | TimeUpdate t => onRoom (fun s => Ok (handleTimeUpdate t s)) k
  | JumpEffect => onRoom commentJumpEffect k
  end.

Fixpoint run (p : Props) (actions : list Action) (k : Shortcuts.State)
    : result Shortcuts.State :=
  match actions with
  | [] => Ok k
  | a :: rest => k' <- perform p a k ;; run p rest k'
  end.

End Session.

(** ** Predicates and data of the further properties *)

(** The screen position of a mouse event. *)
Definition positionOf (e : MouseEvent.t) : Point.t :=
  Point.mk (MouseEvent.clientX e) (MouseEvent.clientY e).

(** A whole number of pixels, at most [2 ^ 50] in size. *)
Definition wholePixel (q : number) : Prop :=
  exists n : Z, q == inject_Z n /\ (Z.abs n <= 2 ^ 50)%Z.

(** A mouse event at a whole-pixel position. *)
Definition onPixels (e : MouseEvent.t) : Prop :=
  wholePixel (MouseEvent.clientX e) /\ wholePixel (MouseEvent.clientY e).

(** The quarter steps between 0.25 and 5: [z] is [k] quarters. *)
Definition onQuarterGrid (k : Z) (z : number) : Prop :=
  (1 <= k <= 20)%Z /\ z == inject_Z k / 4.

(** At most [2 ^ 1000] in size. *)
Definition moderate (q : number) : Prop := Qabs q <= Binary64.pow2 1000.

(** Every wheel event of the sequence, at the screen position
    [(clientX, clientY)], has a finite delta and finds the view on the
    screen. *)
Fixpoint wheelsOnScreen (viewport : DOMRect.t) (clientX clientY : number)
    (deltas : list number) (s : ReviewRoom.State) : Prop :=
  match deltas with
  | [] => True
  | d :: ds =>
      onScreen viewport (WheelEvent.mk d clientX clientY) s
      /\ finite64 d
      /\ forall s',
           Binary64.handleWheel (Some viewport)
             (WheelEvent.mk d clientX clientY) s = Ok s' ->
           wheelsOnScreen viewport clientX clientY ds s'
  end.

(** The room after the comments of the version [av] were changed by [f]:
    the [setVersions(prev => prev.map(v => v.id === av.id ? updated : v))]
    the comment handlers end with. *)
Definition edited (f : list Comment.t -> list Comment.t)
    (av : AssetVersion.t) (s : ReviewRoom.State) : ReviewRoom.State :=
  ReviewRoom.setVersions
    (ReviewRoom.replaceVersion (AssetVersion.id av)
       (ReviewRoom.withComments av (f (AssetVersion.comments av)))
       (ReviewRoom.versions s))
    s.

(** The comment is unresolved. *)
Definition isOpen (c : Comment.t) : bool := negb (Comment.resolved c).

(** The comment carries the id [id]. *)
Definition hasId (id : string) (c : Comment.t) : bool :=
  String.eqb (Comment.id c) id.

(** Between the version lists [vs] and [vs'], position by position, the
    ids are kept and only versions with the id [id] differ. *)
Definition onlyVersionEdited (id : string) (vs vs' : list AssetVersion.t)
    : Prop :=
  Forall2 (fun v v' => AssetVersion.id v' = AssetVersion.id v
                       /\ (AssetVersion.id v <> id -> v' = v))
          vs vs'.

(** What the handlers of the comment thread and of the overlay leave
    alone: they edit the active version only and keep the view, the
    status, the upload modal, the active version id and the compare mode;
    the tool stays or falls back to the pointer. *)
Definition commentEdit (s s' : ReviewRoom.State) : Prop :=
  (forall av, ReviewRoom.activeVersion s = Ok av ->
              onlyVersionEdited (AssetVersion.id av) (ReviewRoom.versions s)
                                (ReviewRoom.versions s'))
  /\ ReviewRoom.zoom s' = ReviewRoom.zoom s
  /\ ReviewRoom.pan s' = ReviewRoom.pan s
  /\ ReviewRoom.currentAssetStatus s' = ReviewRoom.currentAssetStatus s
  /\ ReviewRoom.isUploadModalOpen s' = ReviewRoom.isUploadModalOpen s
  /\ ReviewRoom.activeVersionId s' = ReviewRoom.activeVersionId s
  /\ ReviewRoom.isCompareMode s' = ReviewRoom.isCompareMode s
  /\ (ReviewRoom.drawingTool s' = ReviewRoom.drawingTool s
      \/ ReviewRoom.drawingTool s' = Tpointer).

(** A mounted room that renders: it has a version and its zoom is in
    range. *)
Definition wellFormed (k : Shortcuts.State) : Prop :=
  ReviewRoom.versions (Shortcuts.room k) <> []
  /\ zoomInRange (ReviewRoom.zoom (Shortcuts.room k)).

(** Neither the tool nor the tool remembered for the space bar is the
    box. *)
Definition noBoxTool (k : Shortcuts.State) : Prop :=
  ReviewRoom.drawingTool (Shortcuts.room k) <> Tbox
  /\ Shortcuts.previousToolRef k <> Tbox.

(** A session that touches most of the room: the space bar held over a
    zoom, a pin, its first text, a move, Done, the upload form, the
    approval and the comparison. *)
Definition sampleSession : list Session.Action :=
  [Session.KeyDown false (KeyboardEvent.mk "Space" " " false);
   Session.Viewport (Surface.Wheel (Some (DOMRect.mk 0 0 800 600))
                       (WheelEvent.mk (-100) 400 300));
   Session.KeyUp false (KeyboardEvent.mk "Space" " " false);
   Session.KeyDown false (KeyboardEvent.mk "KeyP" "P" false);
   Session.AddComment 1700 10 20 None;
   Session.Reply 1800 "c_1700" "crop tighter" false;
   Session.MoveComment "c_1700" 30 40;
   Session.Done 0;
   Session.Delete 0;
   Session.OpenUpload;
   Session.SubmitUpload 1900;
   Session.Approve;
   Session.RequestChanges;
   Session.Compare;
   Session.Select "c1";
   Session.JumpEffect;
   Session.Background].

(** [Math.max(0, Math.min(100, v))] on both coordinates. *)
Definition clampPoint (q : Point.t) : Point.t :=
  Point.mk (Qmax 0 (Qmin 100 (Point.x q))) (Qmax 0 (Qmin 100 (Point.y q))).

(** A drag of the pin of the comment [c] on the mounted overlay: the press
    on the pin, the moves, the release. *)
Definition pinGesture (p : ReviewRoom.Props) (now : Z)
    (containerRef : option DOMRect.t) (c : Comment.t)
    (mid : list MouseEvent.t) (up : MouseEvent.t) (u : Surface.t)
    : result Surface.t :=
  u2 <- Surface.mouseMoves containerRef mid
          (Surface.pinMouseDown containerRef c u) ;;
  Surface.mouseUp p now containerRef up u2.

(** The overlay is at rest: nothing is being drawn or dragged. *)
Definition idle (l : AnnotationLayer.State) : Prop :=
  AnnotationLayer.isDrawing l = false
  /\ AnnotationLayer.draggedCommentId l = None.

(** Newest first: the timestamps do not increase along the list. *)
Definition newestFirst (l : list Comment.t) : Prop :=
  StronglySorted (fun a b => Comment.timestamp b <= Comment.timestamp a) l.

(** A move of the wipe handle over a container with a width. *)
Definition sized (ev : ComparisonView.Event) : Prop :=
  match ev with
  | ComparisonView.Move (Some rect) _ => ~ DOMRect.width rect == 0
  | _ => True
  end.

(** A stand-in for [String.prototype.trim] that drops leading spaces. *)
Fixpoint dropSpaces (s : string) : string :=
  match s with
  | String " " rest => dropSpaces rest
  | _ => s
  end.

(** The time-stamps of a list of comments, in order: what [markers]
    collects. *)
Definition stamps (comments : list Comment.t) : list number :=
  flat_map (fun c => match Comment.videoTimestamp c with
                     | Some t => [t]
                     | None => []
                     end)
           comments.

(** The comment is hidden from an Approver. *)
Definition hiddenFromApprover (c : Comment.t) : bool :=
  ReviewRoom.flag (Comment.isInternal c).

(** The video element reaching the time [t], by playback or a seek: not the
    handlers' doing. *)
Definition movedTo (t : number) (s : VideoPlayer.State)
    : VideoPlayer.State :=
  VideoPlayer.mkState
    (match VideoPlayer.videoRef s with
     | Some v => Some (VideoPlayer.setCurrentTime t v)
     | None => None
     end)
    (VideoPlayer.progress s) (VideoPlayer.durationState s)
    (VideoPlayer.loopStart s) (VideoPlayer.loopEnd s)
    (VideoPlayer.isLoopActive s).

(** * Facts *)

Import ReviewRoom.

(** Closes a goal on concrete data by evaluation. *)
Ltac by_eval :=
  vm_compute; first [reflexivity | discriminate | exact I].

(** ** Numbers *)

Lemma jsdiv_ok (a b : number) : ~ b == 0 -> jsdiv a b = Ok (a / b).
Proof.
  intros H. unfold jsdiv.
  destruct (Qeq_bool b 0) eqn:E; [|reflexivity].
  apply Qeq_bool_eq in E. contradiction.
Qed.

Lemma gt_true_iff (a b : number) : gt a b = true <-> b < a.
Proof.
  unfold gt. rewrite negb_true_iff.
  split; intros H.
  - apply Qnot_le_lt. intros L. apply Qle_bool_iff in L. congruence.
  - destruct (Qle_bool a b) eqn:E; [|reflexivity].
    apply Qle_bool_iff in E. lra.
Qed.

Lemma gt_false_iff (a b : number) : gt a b = false <-> a <= b.
Proof.
  split; intros H.
  - apply Qnot_lt_le. intros L. apply gt_true_iff in L. congruence.
  - destruct (gt a b) eqn:E; [|reflexivity].
    apply gt_true_iff in E. lra.
Qed.

Lemma orZero_some (q : number) : orZero (Some q) == q.
Proof.
  unfold orZero. destruct (Qeq_bool q 0) eqn:E; [|reflexivity].
  apply Qeq_bool_eq in E. symmetry. exact E.
Qed.

(** [Math.min(Math.max(0.1, v), 5)] lands in the zoom range whatever [v]. *)
Lemma clamp_in_range (v : number) : zoomInRange (Qmin (Qmax (1 # 10) v) 5).
Proof.
  unfold zoomInRange. split.
  - apply Q.min_glb; [apply Q.le_max_l | lra].
  - apply Q.le_min_r.
Qed.

(** ** Binary64 rounding *)

(** Rounding depends on the value only, and is exact on the integers below
    [2 ^ 53]. *)
Lemma Qred_inject_Z (n : Z) : Qred (inject_Z n) = inject_Z n.
Proof.
  unfold Qred, inject_Z.
  generalize (Z.ggcd_gcd n 1) (Z.ggcd_correct_divisors n 1).
  destruct (Z.ggcd n 1) as (g, (a, b)). cbn [fst snd].
  intros Hg [Ha Hb]. rewrite Z.gcd_1_r in Hg. subst g.
  rewrite Z.mul_1_l in Ha, Hb. subst a b. reflexivity.
Qed.

Lemma round_eq (x y : Q) : x == y -> Binary64.round x = Binary64.round y.
Proof.
  intros H. unfold Binary64.round. rewrite (Qred_complete x y H). reflexivity.
Qed.

Lemma pow2_nonneg (k : Z) : (0 <= k)%Z -> Binary64.pow2 k = inject_Z (2 ^ k).
Proof. destruct k; [reflexivity | reflexivity | lia]. Qed.

Lemma pow2_inverse (k : Z) :
  (0 <= k)%Z -> inject_Z (2 ^ k) * Binary64.pow2 (- k) == 1.
Proof.
  destruct k as [|p|p]; intros H; [reflexivity | | lia].
  cbn [Z.opp Binary64.pow2]. unfold Qeq, Qmult, inject_Z. cbn [Qnum Qden].
  rewrite Pos2Z.inj_mul, Pos2Z.inj_pow. lia.
Qed.

Lemma roundHalfEven_int (n : Z) : Binary64.roundHalfEven (inject_Z n) = n.
Proof.
  unfold Binary64.roundHalfEven, inject_Z. cbn [Qnum Qden].
  rewrite Z.mod_1_r, Z.div_1_r. reflexivity.
Qed.

Lemma round_int (n : Z) :
  (Z.abs n < 2 ^ 53)%Z -> Binary64.round (inject_Z n) = Ok (inject_Z n).
Proof.
  intros Hn. unfold Binary64.round. rewrite Qred_inject_Z.
  destruct (Z.eq_dec n 0) as [->|Hz]; [reflexivity|].
  assert (E0 : Qeq_bool (inject_Z n) 0 = false).
  { destruct (Qeq_bool (inject_Z n) 0) eqn:E; [|reflexivity].
    apply Qeq_bool_eq in E. unfold Qeq, inject_Z in E. cbn in E. lia. }
  rewrite E0.
  set (k := Z.log2 (Z.abs n)).
  assert (Hk : (0 <= k < 53)%Z).
  { split; [apply Z.log2_nonneg|].
    apply Z.log2_lt_pow2; lia. }
  assert (Hl : Binary64.ilog2 (inject_Z n) = k).
  { unfold Binary64.ilog2. cbn [inject_Z Qnum Qden].
    change (Z.log2 1) with 0%Z. rewrite Z.sub_0_r. fold k.
    rewrite pow2_nonneg by lia.
    match goal with
    | |- (if ?c then _ else _) = _ => destruct c eqn:E
    end; [reflexivity|].
    exfalso. apply not_true_iff_false in E. apply E.
    apply Qle_bool_iff. unfold Qle, Qabs, inject_Z. cbn [Qnum Qden].
    rewrite !Z.mul_1_r.
    apply (Z.log2_spec (Z.abs n)). lia. }
  cbv zeta. rewrite Hl.
  rewrite Z.max_l by lia.
  rewrite (pow2_nonneg (- (k - 52))) by lia.
  assert (Hm : inject_Z n * inject_Z (2 ^ (- (k - 52)))
               = inject_Z (n * 2 ^ (- (k - 52)))) by reflexivity.
  rewrite Hm, roundHalfEven_int.
  assert (Hr : Qred (inject_Z (n * 2 ^ (- (k - 52))) * Binary64.pow2 (k - 52))
               = inject_Z n).
  { transitivity (Qred (inject_Z n)); [|apply Qred_inject_Z].
    apply Qred_complete.
    rewrite inject_Z_mult, <- Qmult_assoc.
    replace (k - 52)%Z with (- - (k - 52))%Z at 2 by lia.
    rewrite pow2_inverse by lia. ring. }
  rewrite Hr.
  destruct (Qle_bool (Binary64.pow2 1024) (Qabs (inject_Z n))) eqn:E;
    [|reflexivity].
  exfalso. apply Qle_bool_iff in E.
  change (Binary64.pow2 1024) with (inject_Z (2 ^ 1024)) in E.
  assert (Hb : (2 ^ 53 < 2 ^ 1024)%Z) by (apply Z.pow_lt_mono_r; lia).
  revert E Hb Hn. generalize (2 ^ 1024)%Z (2 ^ 53)%Z. intros B C E Hb Hn.
  unfold Qle, Qabs, inject_Z in E. cbn [Qnum Qden] in E. lia.
Qed.

Lemma add_int (x y : Q) (a b : Z) :
  x == inject_Z a -> y == inject_Z b -> (Z.abs (a + b) < 2 ^ 53)%Z ->
  Binary64.add x y = Ok (inject_Z (a + b)).
Proof.
  intros Hx Hy H. unfold Binary64.add.
  rewrite (round_eq (x + y) (inject_Z (a + b)))
    by (rewrite Hx, Hy, inject_Z_plus; reflexivity).
  apply round_int, H.
Qed.

Lemma sub_int (x y : Q) (a b : Z) :
  x == inject_Z a -> y == inject_Z b -> (Z.abs (a - b) < 2 ^ 53)%Z ->
  Binary64.sub x y = Ok (inject_Z (a - b)).
Proof.
  intros Hx Hy H. unfold Binary64.sub.
  rewrite (round_eq (x - y) (inject_Z (a - b))).
  - apply round_int, H.
  - rewrite Hx, Hy. unfold Z.sub. rewrite inject_Z_plus, inject_Z_opp.
    reflexivity.
Qed.

(** [round] where its cases part: the literal 0.1; the two ties above
    [2 ^ 53], which go to the even neighbour; three quarters and one half
    of the smallest subnormal number; the largest finite number, and the
    first number that overflows. *)
Example round_samples :
  Binary64.round (1 # 10) = Ok (3602879701896397 # 36028797018963968)
  /\ Binary64.round (inject_Z (2 ^ 53 + 1)) = Ok (inject_Z (2 ^ 53))
  /\ Binary64.round (inject_Z (2 ^ 53 + 3)) = Ok (inject_Z (2 ^ 53 + 4))
  /\ Binary64.round (3 * Binary64.pow2 (-1076)) = Ok (Binary64.pow2 (-1074))
  /\ Binary64.round (Binary64.pow2 (-1075)) = Ok 0
  /\ Binary64.round (inject_Z (2 ^ 1024 - 2 ^ 971))
     = Ok (inject_Z (2 ^ 1024 - 2 ^ 971))
  /\ Binary64.round (inject_Z (2 ^ 1024 - 2 ^ 970)) = Fail NonFinite.
Proof. repeat split; vm_compute; reflexivity. Qed.

(** Powers of two, and the distance between a number and its rounding:
    half a unit in the last place, which is at most [2 ^ -53] times the
    size of the number, or [2 ^ -1075] for a subnormal result. *)
Lemma pow2_spec (e : Z) : Binary64.pow2 e == 2 ^ e.
Proof.
  destruct e as [|p|p]; cbn [Binary64.pow2].
  - reflexivity.
  - apply (Zpower_Qpower 2 (Zpos p)). lia.
  - change (Z.neg p) with (- Z.pos p)%Z. rewrite Qpower_opp.
    rewrite <- (Zpower_Qpower 2 (Zpos p)) by lia.
    rewrite <- Pos2Z.inj_pow. reflexivity.
Qed.

Lemma pow2_pos (e : Z) : 0 < Binary64.pow2 e.
Proof. rewrite pow2_spec. apply Qpower_0_lt. reflexivity. Qed.

Lemma pow2_plus (a b : Z) :
  Binary64.pow2 (a + b) == Binary64.pow2 a * Binary64.pow2 b.
Proof.
  rewrite !pow2_spec. apply Qpower_plus. discriminate.
Qed.

Lemma pow2_ge_1 (k : Z) : (0 <= k)%Z -> 1 <= Binary64.pow2 k.
Proof.
  intros H. rewrite (pow2_nonneg k H).
  change 1 with (inject_Z 1). rewrite <- Zle_Qle.
  assert (0 < 2 ^ k)%Z by (apply Z.pow_pos_nonneg; lia). lia.
Qed.

Lemma pow2_le (a b : Z) :
  (a <= b)%Z -> Binary64.pow2 a <= Binary64.pow2 b.
Proof.
  intros H. replace b with (a + (b - a))%Z by lia. rewrite pow2_plus.
  assert (H1 := pow2_ge_1 (b - a) ltac:(lia)).
  assert (H2 := pow2_pos a). nra.
Qed.

Lemma ilog2_le (q : Q) :
  ~ q == 0 -> Binary64.pow2 (Binary64.ilog2 q) <= Qabs q.
Proof.
  intros Hq. unfold Binary64.ilog2.
  set (a := Z.abs (Qnum q)). set (b := Zpos (Qden q)).
  set (k := (Z.log2 a - Z.log2 b)%Z).
  destruct (Qle_bool (Binary64.pow2 k) (Qabs q)) eqn:E.
  - apply Qle_bool_iff. exact E.
  - assert (Ha : (0 < a)%Z).
    { subst a. destruct q as [n d]. unfold Qeq in Hq. cbn in *. lia. }
    assert (Hb : (0 < b)%Z) by (subst b; lia).
    destruct (Z.log2_spec a Ha) as [La _].
    destruct (Z.log2_spec b Hb) as [_ Lb].
    assert (Eq : Qabs q == inject_Z a / inject_Z b).
    { destruct q as [n d]. subst a b. cbn [Qabs Qnum Qden].
      rewrite (Qmake_Qdiv (Z.abs n) d). reflexivity. }
    rewrite Eq.
    assert (Hbq : 0 < inject_Z b)
      by (change 0 with (inject_Z 0); rewrite <- Zlt_Qlt; exact Hb).
    apply Qle_shift_div_l; [exact Hbq|].
    replace (k - 1)%Z with (Z.log2 a + - (Z.succ (Z.log2 b)))%Z
      by (subst k; lia).
    rewrite pow2_plus.
    assert (H1 : Binary64.pow2 (Z.log2 a) <= inject_Z a).
    { rewrite pow2_nonneg by apply Z.log2_nonneg.
      rewrite <- Zle_Qle. exact La. }
    assert (H2 : inject_Z b <= Binary64.pow2 (Z.succ (Z.log2 b))).
    { rewrite pow2_nonneg by (apply Z.le_le_succ_r, Z.log2_nonneg).
      rewrite <- Zle_Qle. lia. }
    assert (H3 : Binary64.pow2 (- Z.succ (Z.log2 b))
                 * Binary64.pow2 (Z.succ (Z.log2 b)) == 1).
    { rewrite <- pow2_plus.
      replace (- Z.succ (Z.log2 b) + Z.succ (Z.log2 b))%Z with 0%Z by lia.
      reflexivity. }
    assert (P1 := pow2_pos (Z.log2 a)).
    assert (P2 := pow2_pos (- Z.succ (Z.log2 b))).
    assert (P3 := pow2_pos (Z.succ (Z.log2 b))).
    set (A := Binary64.pow2 (Z.log2 a)) in *.
    set (I := Binary64.pow2 (- Z.succ (Z.log2 b))) in *.
    set (S := Binary64.pow2 (Z.succ (Z.log2 b))) in *.
    apply Qle_trans with (A * I * S).
    + apply Qmult_le_l; [nra | exact H2].
    + setoid_replace (A * I * S) with (A * (I * S)) by ring.
      rewrite H3. lra.
Qed.

Lemma roundHalfEven_near (m : Q) :
  Qabs (inject_Z (Binary64.roundHalfEven m) - m) <= 1 # 2.
Proof.
  destruct m as [n d]. unfold Binary64.roundHalfEven. cbn [Qnum Qden].
  assert (Hd : (0 < Zpos d)%Z) by lia.
  assert (Hdiv := Z.div_mod n (Zpos d) ltac:(lia)).
  assert (Hmod := Z.mod_pos_bound n (Zpos d) Hd).
  set (f := (n / Zpos d)%Z) in *. set (r := (n mod Zpos d)%Z) in *.
  apply Qabs_Qle_condition.
  destruct (Z.compare_spec (2 * r) (Zpos d)) as [E|E|E].
  - destruct (Z.even f); unfold Qle, Qminus, Qplus, Qopp, inject_Z;
      cbn [Qnum Qden]; split; nia.
  - unfold Qle, Qminus, Qplus, Qopp, inject_Z; cbn [Qnum Qden]; split; nia.
  - unfold Qle, Qminus, Qplus, Qopp, inject_Z; cbn [Qnum Qden]; split; nia.
Qed.

Lemma round_abs (x M : Q) :
  Qabs x <= M -> Binary64.pow2 (-1022) <= M -> M <= Binary64.pow2 1023 ->
  exists r, Binary64.round x = Ok r
            /\ Qabs (r - x) <= Binary64.pow2 (-53) * M.
Proof.
  intros Hx Hlo Hhi. unfold Binary64.round.
  assert (Hu := pow2_pos (-53)).
  assert (HM : 0 < M).
  { apply Qlt_le_trans with (Binary64.pow2 (-1022));
      [apply pow2_pos | exact Hlo]. }
  set (q := Qred x). assert (Eq : q == x) by apply Qred_correct.
  destruct (Qeq_bool q 0) eqn:E0.
  - apply Qeq_bool_eq in E0. exists 0. split; [reflexivity|].
    rewrite <- Eq, E0. setoid_replace (0 - 0) with 0 by ring.
    cbn [Qabs Qnum Z.abs]. nra.
  - assert (Hq : ~ q == 0).
    { intros H. apply Qeq_eq_bool in H. congruence. }
    cbv zeta.
    set (e := Z.max (Binary64.ilog2 q - 52) (-1074)).
    set (n := Binary64.roundHalfEven (q * Binary64.pow2 (- e))).
    set (r := Qred (inject_Z n * Binary64.pow2 e)).
    assert (Er : r == inject_Z n * Binary64.pow2 e) by apply Qred_correct.
    assert (Hn := roundHalfEven_near (q * Binary64.pow2 (- e))).
    fold n in Hn.
    assert (Pe := pow2_pos e).
    assert (Pinv : Binary64.pow2 (- e) * Binary64.pow2 e == 1).
    { rewrite <- pow2_plus. replace (- e + e)%Z with 0%Z by lia.
      reflexivity. }
    assert (Hd : Qabs (r - q) <= Binary64.pow2 e * (1 # 2)).
    { setoid_replace (r - q)
        with ((inject_Z n - q * Binary64.pow2 (- e)) * Binary64.pow2 e).
      - rewrite Qabs_Qmult. rewrite (Qabs_pos (Binary64.pow2 e)) by lra.
        rewrite (Qmult_comm (Binary64.pow2 e)).
        apply Qmult_le_compat_r; [exact Hn | lra].
      - rewrite Er.
        setoid_replace ((inject_Z n - q * Binary64.pow2 (- e))
                        * Binary64.pow2 e)
          with (inject_Z n * Binary64.pow2 e
                - q * (Binary64.pow2 (- e) * Binary64.pow2 e)) by ring.
        rewrite Pinv. ring. }
    assert (Hb : Binary64.pow2 e * (1 # 2) <= Binary64.pow2 (-53) * M).
    { assert (H2 : Binary64.pow2 e * (1 # 2)
                   == Binary64.pow2 (-53) * Binary64.pow2 (e + 52)).
      { rewrite <- pow2_plus.
        replace (-53 + (e + 52))%Z with (e + -1)%Z by lia.
        rewrite pow2_plus. reflexivity. }
      rewrite H2. apply Qmult_le_l; [exact Hu|].
      subst e. destruct (Z.max_spec (Binary64.ilog2 q - 52) (-1074))
        as [[_ ->]|[_ ->]].
      - exact Hlo.
      - replace (Binary64.ilog2 q - 52 + 52)%Z with (Binary64.ilog2 q)
          by lia.
        apply Qle_trans with (Qabs q); [apply ilog2_le, Hq|].
        rewrite Eq. exact Hx. }
    assert (Hrx : Qabs (r - x) <= Binary64.pow2 (-53) * M).
    { rewrite <- Eq. apply Qle_trans with (Binary64.pow2 e * (1 # 2));
        assumption. }
    assert (Hov : Qle_bool (Binary64.pow2 1024) (Qabs r) = false).
    { destruct (Qle_bool (Binary64.pow2 1024) (Qabs r)) eqn:E;
        [|reflexivity].
      exfalso. apply Qle_bool_iff in E.
      assert (Hr : Qabs r <= Qabs (r - x) + Qabs x).
      { setoid_replace r with ((r - x) + x) at 1 by ring.
        apply Qabs_triangle. }
      assert (H53 : Binary64.pow2 (-53) <= 1 # 2)
        by (vm_compute; discriminate).
      assert (H24 : Binary64.pow2 1024 == 2 * Binary64.pow2 1023)
        by (replace 1024%Z with (1 + 1023)%Z by lia; rewrite pow2_plus;
            reflexivity).
      rewrite H24 in E.
      set (T := Binary64.pow2 1023) in *.
      set (V := Binary64.pow2 (-53)) in *.
      nra. }
    fold e. fold n. fold r. rewrite Hov.
    exists r. split; [reflexivity | exact Hrx].
Qed.

Lemma Qabs_bound (a A : Q) : Qabs a <= A <-> - A <= a /\ a <= A.
Proof. apply Qabs_Qle_condition. Qed.

Lemma Qabs_mult_le (a b A B : Q) :
  Qabs a <= A -> Qabs b <= B -> Qabs (a * b) <= A * B.
Proof.
  intros Ha Hb. rewrite Qabs_Qmult.
  assert (H1 := Qabs_nonneg a). assert (H2 := Qabs_nonneg b).
  nra.
Qed.

(** One rounded operation whose exact result is at most [M] in size, for
    [M] between 1 and [2 ^ 1023]. *)
Lemma round_near (x M : Q) :
  Qabs x <= M -> 1 <= M -> M <= Binary64.pow2 1023 ->
  exists r, Binary64.round x = Ok r /\ Qabs (r - x) <= ulp53 * M.
Proof.
  intros Hx H1 HM. apply round_abs; [exact Hx | | exact HM].
  apply Qle_trans with 1; [|exact H1]. vm_compute. discriminate.
Qed.

Lemma ulp53_small : 0 < ulp53 /\ ulp53 <= 1 # 1000000.
Proof. split; [reflexivity | vm_compute; discriminate]. Qed.

Lemma pow2_1023_big : 1000000000 <= Binary64.pow2 1023.
Proof. vm_compute. discriminate. Qed.

(** Rounding keeps the order against a binary64 value. *)
Lemma roundHalfEven_le (m : Q) (D : Z) :
  m <= inject_Z D -> (Binary64.roundHalfEven m <= D)%Z.
Proof.
  destruct m as [n d]. unfold Binary64.roundHalfEven, Qle, inject_Z.
  cbn [Qnum Qden]. intros H.
  assert (Hd : (0 < Zpos d)%Z) by lia.
  assert (Hdiv := Z.div_mod n (Zpos d) ltac:(lia)).
  assert (Hmod := Z.mod_pos_bound n (Zpos d) Hd).
  set (f := (n / Zpos d)%Z) in *. set (r := (n mod Zpos d)%Z) in *.
  destruct (Z.compare_spec (2 * r) (Zpos d)) as [E|E|E];
    [destruct (Z.even f)| |]; nia.
Qed.

Lemma roundHalfEven_ge (m : Q) (D : Z) :
  inject_Z D <= m -> (D <= Binary64.roundHalfEven m)%Z.
Proof.
  destruct m as [n d]. unfold Binary64.roundHalfEven, Qle, inject_Z.
  cbn [Qnum Qden]. intros H.
  assert (Hd : (0 < Zpos d)%Z) by lia.
  assert (Hdiv := Z.div_mod n (Zpos d) ltac:(lia)).
  assert (Hmod := Z.mod_pos_bound n (Zpos d) Hd).
  set (f := (n / Zpos d)%Z) in *. set (r := (n mod Zpos d)%Z) in *.
  destruct (Z.compare_spec (2 * r) (Zpos d)) as [E|E|E];
    [destruct (Z.even f)| |]; nia.
Qed.

(** What [round] computes when the number is not zero. *)
Lemma round_unfold (x r : Q) :
  Binary64.round x = Ok r -> ~ x == 0 ->
  let e := Z.max (Binary64.ilog2 (Qred x) - 52) (-1074) in
  r == inject_Z (Binary64.roundHalfEven (Qred x * Binary64.pow2 (- e)))
       * Binary64.pow2 e.
Proof.
  intros H Hx e. unfold Binary64.round in H.
  destruct (Qeq_bool (Qred x) 0) eqn:E0.
  - apply Qeq_bool_eq in E0. rewrite Qred_correct in E0. contradiction.
  - cbv zeta in H. fold e in H.
    destruct (Qle_bool _ _); [discriminate|].
    assert (E : r = Qred (inject_Z (Binary64.roundHalfEven
                                      (Qred x * Binary64.pow2 (- e)))
                          * Binary64.pow2 e)) by congruence.
    rewrite E. apply Qred_correct.
Qed.

Lemma round_zero (x r : Q) : Binary64.round x = Ok r -> x == 0 -> r == 0.
Proof.
  unfold Binary64.round. intros H Hx.
  assert (E0 : Qeq_bool (Qred x) 0 = true).
  { apply Qeq_eq_bool. rewrite Qred_correct. exact Hx. }
  rewrite E0 in H. injection H as <-. reflexivity.
Qed.

Lemma pow2_cancel (e : Z) : Binary64.pow2 (- e) * Binary64.pow2 e == 1.
Proof.
  rewrite <- pow2_plus. replace (- e + e)%Z with 0%Z by lia. reflexivity.
Qed.

Lemma representable_small (d : Q) (n e k : Z) :
  d == inject_Z n * Binary64.pow2 e -> (Z.abs n < 2 ^ 53)%Z ->
  (e < k)%Z -> Qabs d < Binary64.pow2 (52 + k).
Proof.
  intros Hd Hn He. rewrite Hd, Qabs_Qmult.
  rewrite (Qabs_pos (Binary64.pow2 e)) by (apply Qlt_le_weak, pow2_pos).
  assert (H1 : Qabs (inject_Z n) < Binary64.pow2 53).
  { rewrite pow2_nonneg by lia.
    unfold Qabs, inject_Z, Qlt. cbn [Qnum Qden]. lia. }
  assert (H2 : Binary64.pow2 53 * Binary64.pow2 e <= Binary64.pow2 (52 + k)).
  { rewrite <- pow2_plus. apply pow2_le. lia. }
  assert (P := pow2_pos e).
  apply Qlt_le_trans with (Binary64.pow2 53 * Binary64.pow2 e); [|exact H2].
  apply Qmult_lt_compat_r; [exact P | exact H1].
Qed.

(** Rounding does not cross a binary64 value. *)
Lemma round_le_rep (x d r : Q) :
  Binary64.representable d -> x <= d -> Binary64.round x = Ok r -> r <= d.
Proof.
  intros (n & ed & Hd & Hn & Hed) Hx Hr.
  destruct (Qeq_dec x 0) as [Hx0|Hx0].
  { rewrite (round_zero x r Hr Hx0). rewrite <- Hx0. exact Hx. }
  assert (Hu := round_unfold x r Hr Hx0). cbv zeta in Hu.
  set (q := Qred x) in *. assert (Eq : q == x) by apply Qred_correct.
  assert (Hq0 : ~ q == 0) by (rewrite Eq; exact Hx0).
  set (e := Z.max (Binary64.ilog2 q - 52) (-1074)) in *.
  set (N := Binary64.roundHalfEven (q * Binary64.pow2 (- e))) in *.
  assert (Pe := pow2_pos e). assert (Pme := pow2_pos (- e)).
  assert (Pc := pow2_cancel e).
  rewrite Hu.
  destruct (Z_le_gt_dec e ed) as [Hle|Hgt].
  - set (D := (n * 2 ^ (ed - e))%Z).
    assert (HD : inject_Z D * Binary64.pow2 e == d).
    { subst D. rewrite inject_Z_mult, <- (pow2_nonneg (ed - e)) by lia.
      rewrite Hd, <- Qmult_assoc, <- pow2_plus.
      replace (ed - e + e)%Z with ed by lia. reflexivity. }
    assert (HN : (N <= D)%Z).
    { apply roundHalfEven_le.
      setoid_replace (inject_Z D)
        with (inject_Z D * (Binary64.pow2 e * Binary64.pow2 (- e))).
      - rewrite Qmult_assoc, HD.
        apply Qmult_le_compat_r; [rewrite Eq; exact Hx | lra].
      - rewrite (Qmult_comm (Binary64.pow2 e)), Pc. ring. }
    rewrite <- HD. apply Qmult_le_compat_r; [|lra].
    rewrite <- Zle_Qle. exact HN.
  - assert (He : e = (Binary64.ilog2 q - 52)%Z) by (subst e; lia).
    assert (Hlow : Binary64.pow2 (52 + e) <= Qabs q).
    { replace (52 + e)%Z with (Binary64.ilog2 q) by lia.
      apply ilog2_le, Hq0. }
    assert (Hsmall : Qabs d < Binary64.pow2 (52 + e))
      by (apply (representable_small d n ed e Hd Hn); lia).
    assert (H52 : Binary64.pow2 (52 + e)
                  == inject_Z (2 ^ 52) * Binary64.pow2 e).
    { rewrite pow2_plus, (pow2_nonneg 52) by lia. reflexivity. }
    assert (Hneg : q <= - Binary64.pow2 (52 + e)).
    { assert (Hd' : Qabs d <= Binary64.pow2 (52 + e)) by lra.
      apply Qabs_bound in Hd'. revert Hsmall Hlow.
      apply (Qabs_case d); apply (Qabs_case q); intros; lra. }
    assert (HN : (N <= - 2 ^ 52)%Z).
    { apply roundHalfEven_le. rewrite inject_Z_opp.
      setoid_replace (- inject_Z (2 ^ 52))
        with (- (inject_Z (2 ^ 52) * Binary64.pow2 e) * Binary64.pow2 (- e)).
      - apply Qmult_le_compat_r; [rewrite <- H52; exact Hneg | lra].
      - setoid_replace (- (inject_Z (2 ^ 52) * Binary64.pow2 e)
                        * Binary64.pow2 (- e))
          with (- inject_Z (2 ^ 52)
                * (Binary64.pow2 (- e) * Binary64.pow2 e)) by ring.
        rewrite Pc. ring. }
    apply Qle_trans with (inject_Z (- 2 ^ 52) * Binary64.pow2 e).
    + apply Qmult_le_compat_r; [rewrite <- Zle_Qle; exact HN | lra].
    + rewrite inject_Z_opp.
      setoid_replace (- inject_Z (2 ^ 52) * Binary64.pow2 e)
        with (- (inject_Z (2 ^ 52) * Binary64.pow2 e)) by ring.
      rewrite <- H52.
      assert (Hd' : Qabs d <= Binary64.pow2 (52 + e)) by lra.
      apply Qabs_bound in Hd'. lra.
Qed.

Lemma round_ge_rep (x d r : Q) :
  Binary64.representable d -> d <= x -> Binary64.round x = Ok r -> d <= r.
Proof.
  intros (n & ed & Hd & Hn & Hed) Hx Hr.
  destruct (Qeq_dec x 0) as [Hx0|Hx0].
  { rewrite (round_zero x r Hr Hx0). rewrite <- Hx0. exact Hx. }
  assert (Hu := round_unfold x r Hr Hx0). cbv zeta in Hu.
  set (q := Qred x) in *. assert (Eq : q == x) by apply Qred_correct.
  assert (Hq0 : ~ q == 0) by (rewrite Eq; exact Hx0).
  set (e := Z.max (Binary64.ilog2 q - 52) (-1074)) in *.
  set (N := Binary64.roundHalfEven (q * Binary64.pow2 (- e))) in *.
  assert (Pe := pow2_pos e). assert (Pme := pow2_pos (- e)).
  assert (Pc := pow2_cancel e).
  rewrite Hu.
  destruct (Z_le_gt_dec e ed) as [Hle|Hgt].
  - set (D := (n * 2 ^ (ed - e))%Z).
    assert (HD : inject_Z D * Binary64.pow2 e == d).
    { subst D. rewrite inject_Z_mult, <- (pow2_nonneg (ed - e)) by lia.
      rewrite Hd, <- Qmult_assoc, <- pow2_plus.
      replace (ed - e + e)%Z with ed by lia. reflexivity. }
    assert (HN : (D <= N)%Z).
    { apply roundHalfEven_ge.
      setoid_replace (inject_Z D)
        with (inject_Z D * (Binary64.pow2 e * Binary64.pow2 (- e))).
      - rewrite Qmult_assoc, HD.
        apply Qmult_le_compat_r; [rewrite Eq; exact Hx | lra].
      - rewrite (Qmult_comm (Binary64.pow2 e)), Pc. ring. }
    rewrite <- HD. apply Qmult_le_compat_r; [|lra].
    rewrite <- Zle_Qle. exact HN.
  - assert (He : e = (Binary64.ilog2 q - 52)%Z) by (subst e; lia).
    assert (Hlow : Binary64.pow2 (52 + e) <= Qabs q).
    { replace (52 + e)%Z with (Binary64.ilog2 q) by lia.
      apply ilog2_le, Hq0. }
    assert (Hsmall : Qabs d < Binary64.pow2 (52 + e))
      by (apply (representable_small d n ed e Hd Hn); lia).
    assert (H52 : Binary64.pow2 (52 + e)
                  == inject_Z (2 ^ 52) * Binary64.pow2 e).
    { rewrite pow2_plus, (pow2_nonneg 52) by lia. reflexivity. }
    assert (Hpos : Binary64.pow2 (52 + e) <= q).
    { assert (Hd' : Qabs d <= Binary64.pow2 (52 + e)) by lra.
      apply Qabs_bound in Hd'. revert Hsmall Hlow.
      apply (Qabs_case d); apply (Qabs_case q); intros; lra. }
    assert (HN : (2 ^ 52 <= N)%Z).
    { apply roundHalfEven_ge.
      setoid_replace (inject_Z (2 ^ 52))
        with ((inject_Z (2 ^ 52) * Binary64.pow2 e) * Binary64.pow2 (- e)).
      - apply Qmult_le_compat_r; [rewrite <- H52; exact Hpos | lra].
      - setoid_replace ((inject_Z (2 ^ 52) * Binary64.pow2 e)
                        * Binary64.pow2 (- e))
          with (inject_Z (2 ^ 52)
                * (Binary64.pow2 (- e) * Binary64.pow2 e)) by ring.
        rewrite Pc. ring. }
    apply Qle_trans with (inject_Z (2 ^ 52) * Binary64.pow2 e).
    + rewrite <- H52.
      assert (Hd' : Qabs d <= Binary64.pow2 (52 + e)) by lra.
      apply Qabs_bound in Hd'. lra.
    + apply Qmult_le_compat_r; [rewrite <- Zle_Qle; exact HN | lra].
Qed.

Lemma representable_int (n : Z) :
  (Z.abs n < 2 ^ 53)%Z -> Binary64.representable (inject_Z n).
Proof.
  intros H. exists n, 0%Z. split; [|split; [exact H | lia]].
  cbn [Binary64.pow2]. ring.
Qed.

Lemma round_fails (x : Q) (e : Err) :
  Binary64.round x = Fail e -> e = NonFinite.
Proof.
  unfold Binary64.round. destruct (Qeq_bool (Qred x) 0); [discriminate|].
  cbv zeta. destruct (Qle_bool _ _); [|discriminate].
  intros H. injection H as <-. reflexivity.
Qed.

(** A binary64 value rounds to itself. *)
Lemma round_rep (d r : Q) :
  Binary64.representable d -> Binary64.round d = Ok r -> r == d.
Proof.
  intros Hd Hr. apply Qle_antisym.
  - apply (round_le_rep d d r Hd); [apply Qle_refl | exact Hr].
  - apply (round_ge_rep d d r Hd); [apply Qle_refl | exact Hr].
Qed.

Lemma pow2_1000_1023 : 8 * Binary64.pow2 1000 <= Binary64.pow2 1023.
Proof.
  replace 1023%Z with (23 + 1000)%Z by lia. rewrite pow2_plus.
  assert (P := pow2_pos 1000).
  assert (H : 8 <= Binary64.pow2 23) by (vm_compute; discriminate).
  nra.
Qed.

(** ** The viewport transform *)

Lemma handleWheel_range viewportRef e s :
  zoomInRange (zoom s) ->
  exists s', handleWheel viewportRef e s = Ok s' /\ zoomInRange (zoom s').
Proof.
  intros [Hlo Hhi]. unfold handleWheel.
  destruct (isCompareMode s);
    [exists s; split; [reflexivity | split; assumption]|].
  destruct viewportRef as [rect|];
    [|exists s; split; [reflexivity | split; assumption]].
  rewrite jsdiv_ok by lra. cbn [bind].
  eexists; split; [reflexivity|]. cbn [zoom setPan setZoom].
  apply clamp_in_range.
Qed.

Lemma step_range op s :
  zoomInRange (zoom s) ->
  exists s', Surface.step op s = Ok s' /\ zoomInRange (zoom s').
Proof.
  intros H. destruct op as [vr e| | | |e|e| |id]; cbn [Surface.step].
  - apply handleWheel_range; assumption.
  - eexists; split; [reflexivity|]. cbn. destruct H as [Hlo Hhi]. split.
    + apply Q.min_glb; lra.
    + apply Q.le_min_l.
  - eexists; split; [reflexivity|]. cbn. destruct H as [Hlo Hhi]. split.
    + apply Q.le_max_l.
    + apply Q.max_lub; lra.
  - eexists; split; [reflexivity|]. cbn. unfold zoomInRange. lra.
  - eexists; split; [reflexivity|]. unfold handlePanStart.
    destruct (_ || _); assumption.
  - eexists; split; [reflexivity|]. unfold handlePanMove.
    destruct (isPanningRef s); assumption.
  - eexists; split; [reflexivity|]. assumption.
  - eexists; split; [reflexivity|].
    unfold selectVersion, versionChangeEffect.
    destruct (String.eqb _ _); cbn; [assumption | unfold zoomInRange; lra].
Qed.

Lemma contentPointUnder_ok viewport box cx cy s :
  ~ zoom s == 0 -> ~ Layout.width box == 0 -> ~ Layout.height box == 0 ->
  Surface.contentPointUnder viewport box cx cy s
  = Ok (Point.mk
          ((cx - (DOMRect.left viewport + Point.x (pan s)
                  + zoom s * Layout.offsetX box))
           / (zoom s * Layout.width box) * 100)
          ((cy - (DOMRect.top viewport + Point.y (pan s)
                  + zoom s * Layout.offsetY box))
           / (zoom s * Layout.height box) * 100)).
Proof.
  intros Hz Hw Hh.
  unfold Surface.contentPointUnder, AnnotationLayer.getPoint.
  cbn [AnnotationLayer.boundsRef AnnotationLayer.initial
       Surface.containerBounds DOMRect.left DOMRect.top DOMRect.width
       DOMRect.height MouseEvent.clientX MouseEvent.clientY].
  rewrite !jsdiv_ok; [reflexivity | |].
  - intros E. apply Qmult_integral in E. tauto.
  - intros E. apply Qmult_integral in E. tauto.
Qed.

(** In exact arithmetic the pan formula of [handleWheel] is an identity:
    the handler, evaluated without rounding, yields a pan [p1] with
    [p1 = m - (m - p0) * (z1 / z0)], where [m] is the pointer position
    relative to the viewport, and the normalized content point under the
    pointer is the same before and after.  (In compare mode the handler
    changes nothing, which satisfies the same equations.) *)
Lemma zoom_anchor_exact :
  forall (viewport : DOMRect.t) (box : Layout.t) (e : WheelEvent.t)
         (s : State),
    zoomInRange (zoom s) ->
    ~ Layout.width box == 0 ->
    ~ Layout.height box == 0 ->
    let mx := WheelEvent.clientX e - DOMRect.left viewport in
    let my := WheelEvent.clientY e - DOMRect.top viewport in
    exists s1 pt0 pt1,
      handleWheel (Some viewport) e s = Ok s1
      /\ zoomInRange (zoom s1)
      /\ Point.x (pan s1) == mx - (mx - Point.x (pan s)) * (zoom s1 / zoom s)
      /\ Point.y (pan s1) == my - (my - Point.y (pan s)) * (zoom s1 / zoom s)
      /\ Surface.contentPointUnder viewport box (WheelEvent.clientX e)
           (WheelEvent.clientY e) s = Ok pt0
      /\ Surface.contentPointUnder viewport box (WheelEvent.clientX e)
           (WheelEvent.clientY e) s1 = Ok pt1
      /\ Point.equiv pt0 pt1.
Proof.
  intros viewport box e s Hr Hw Hh mx my.
  assert (Hz : ~ zoom s == 0) by (destruct Hr; lra).
  unfold handleWheel.
  destruct (isCompareMode s) eqn:Ecm.
  - exists s. do 2 eexists.
    split; [reflexivity|]. split; [assumption|].
    split; [field; assumption|]. split; [field; assumption|].
    split; [apply contentPointUnder_ok; assumption|].
    split; [apply contentPointUnder_ok; assumption|].
    split; reflexivity.
  - rewrite jsdiv_ok by assumption. cbn [bind].
    set (z1 := Qmin (Qmax (1 # 10)
                       (zoom s * (1 + - WheelEvent.deltaY e * (2 # 1000)))) 5).
    assert (Hr1 : zoomInRange z1) by apply clamp_in_range.
    assert (Hz1 : ~ z1 == 0) by (destruct Hr1; lra).
    eexists. do 2 eexists.
    split; [reflexivity|]. cbn [zoom pan setPan setZoom Point.x Point.y].
    split; [assumption|].
    split; [reflexivity|]. split; [reflexivity|].
    split; [apply contentPointUnder_ok; assumption|].
    split;
      [apply contentPointUnder_ok; cbn [zoom setPan setZoom]; assumption|].
    cbn [zoom pan setPan setZoom Point.x Point.y].
    split; cbn [Point.x Point.y]; field; repeat split; assumption.
Qed.

(** The new pan of [handleWheel] along one axis: three rounded operations
    on the rounded pointer offset [mx] and the rounded zoom ratio [r]. *)
Lemma newPan_near (m p rho mx r : Q) :
  Qabs m <= 16384 -> Qabs p <= 16384 ->
  0 <= rho -> rho <= 50 ->
  Qabs (mx - m) <= ulp53 * 16384 ->
  Qabs (r - rho) <= ulp53 * 50 ->
  exists o g p1,
    Binary64.sub mx p = Ok o
    /\ Binary64.mul o r = Ok g
    /\ Binary64.sub mx g = Ok p1
    /\ Qabs (p1 - (m - (m - p) * rho)) <= 716 * (ulp53 * 16384).
Proof.
  intros Hm Hp Hr0 Hr1 Hmx Hr.
  destruct ulp53_small as [U0 U1]. assert (BIG := pow2_1023_big).
  apply Qabs_bound in Hm, Hp, Hmx, Hr.
  unfold Binary64.sub, Binary64.mul.
  destruct (round_near (mx - p) (3 * 16384)) as (o & Eo & Ho);
    [apply Qabs_bound; lra | lra | lra |].
  apply Qabs_bound in Ho.
  assert (Hor : Qabs (o * r) <= (4 * 16384) * 51)
    by (apply Qabs_mult_le; apply Qabs_bound; lra).
  destruct (round_near (o * r) (204 * 16384)) as (g & Eg & Hg);
    [lra | lra | lra |].
  apply Qabs_bound in Hg, Hor.
  destruct (round_near (mx - g) (207 * 16384)) as (p1 & Ep & Hp1);
    [apply Qabs_bound; lra | lra | lra |].
  apply Qabs_bound in Hp1.
  exists o, g, p1. rewrite Eo, Eg, Ep.
  split; [reflexivity|]. split; [reflexivity|]. split; [reflexivity|].
  set (e1 := mx - m) in *. set (e2 := r - rho) in *.
  set (e3 := o - (mx - p)) in *. set (e4 := g - o * r) in *.
  set (e5 := p1 - (mx - g)) in *.
  assert (X : Qabs ((e1 + e3) * (rho + e2)) <= (4 * (ulp53 * 16384)) * 51)
    by (apply Qabs_mult_le; apply Qabs_bound; lra).
  assert (Y : Qabs ((m - p) * e2) <= (2 * 16384) * (ulp53 * 50))
    by (apply Qabs_mult_le; apply Qabs_bound; lra).
  apply Qabs_bound in X, Y.
  assert (E : p1 - (m - (m - p) * rho)
              == e1 - (e1 + e3) * (rho + e2) - (m - p) * e2 - e4 + e5)
    by (subst e1 e2 e3 e4 e5; ring).
  rewrite E. apply Qabs_bound. lra.
Qed.

Lemma newZoom_ok (deltaY z : Q) :
  finite64 deltaY -> zoomInRange z ->
  exists a1 a2 a3,
    Binary64.mul (- deltaY) (Binary64.lit (2 # 1000)) = Ok a1
    /\ Binary64.add 1 a1 = Ok a2
    /\ Binary64.mul z a2 = Ok a3.
Proof.
  intros Hd [Hlo Hhi].
  unfold finite64 in Hd.
  assert (HP : 1 <= Binary64.pow2 1016) by (apply pow2_ge_1; lia).
  assert (HT : Binary64.pow2 1023 == 128 * Binary64.pow2 1016).
  { replace 1023%Z with (7 + 1016)%Z by lia. rewrite pow2_plus.
    reflexivity. }
  assert (HD : Binary64.pow2 1024 == 256 * Binary64.pow2 1016).
  { replace 1024%Z with (8 + 1016)%Z by lia. rewrite pow2_plus.
    reflexivity. }
  assert (Hc : Qabs (Binary64.lit (2 # 1000)) <= 1 # 256)
    by (vm_compute; discriminate).
  destruct ulp53_small as [U0 U1].
  rewrite HD in Hd.
  set (P := Binary64.pow2 1016) in *.
  unfold Binary64.mul, Binary64.add.
  assert (H1 : Qabs (- deltaY * Binary64.lit (2 # 1000))
               <= (256 * P) * (1 # 256)).
  { apply Qabs_mult_le; [rewrite Qabs_opp; exact Hd | exact Hc]. }
  destruct (round_near (- deltaY * Binary64.lit (2 # 1000)) P)
    as (a1 & E1 & B1); [lra | lra | lra |].
  apply Qabs_bound in B1, H1. assert (U2 : ulp53 * P <= P) by nra.
  destruct (round_near (1 + a1) (4 * P)) as (a2 & E2 & B2);
    [apply Qabs_bound; lra | lra | lra |].
  apply Qabs_bound in B2. assert (U3 : ulp53 * (4 * P) <= 4 * P) by nra.
  assert (H3 : Qabs (z * a2) <= 5 * (9 * P))
    by (apply Qabs_mult_le; apply Qabs_bound; lra).
  destruct (round_near (z * a2) (64 * P)) as (a3 & E3 & B3);
    [lra | lra | lra |].
  exists a1, a2, a3. rewrite E1, E2, E3. repeat split; reflexivity.
Qed.

(** The clamp of [handleWheel] with the binary64 value of 0.1. *)
Lemma clamp64_in_range (v : number) :
  zoomInRange (Qmin (Qmax (Binary64.lit (1 # 10)) v) 5).
Proof.
  assert (H : 1 # 10 <= Binary64.lit (1 # 10)) by (vm_compute; discriminate).
  unfold zoomInRange. split.
  - apply Q.min_glb; [|lra].
    apply Qle_trans with (Binary64.lit (1 # 10)); [exact H|].
    apply Q.le_max_l.
  - apply Q.le_min_r.
Qed.

Lemma content_shift (c l p0 p1 z0 z1 o w : Q) :
  zoomInRange z0 -> zoomInRange z1 -> 1 <= w ->
  Qabs (p1 - ((c - l) - ((c - l) - p0) * (z1 / z0)))
  <= 716 * (ulp53 * 16384) ->
  Qabs ((c - (l + p1 + z1 * o)) / (z1 * w) * 100
        - (c - (l + p0 + z0 * o)) / (z0 * w) * 100)
  <= 1 # 500000.
Proof.
  intros [L0 H0] [L1 H1] Hw He.
  set (eta := p1 - ((c - l) - ((c - l) - p0) * (z1 / z0))) in *.
  assert (E : (c - (l + p1 + z1 * o)) / (z1 * w) * 100
              - (c - (l + p0 + z0 * o)) / (z0 * w) * 100
              == - eta * 100 / (z1 * w)).
  { subst eta. field. repeat split; lra. }
  rewrite E.
  assert (T : 716 * (ulp53 * 16384) * 1000 <= 1 # 500000)
    by (vm_compute; discriminate).
  assert (D : 1 # 10 <= z1 * w) by nra.
  apply Qabs_bound in He. apply Qabs_bound. split.
  - apply Qle_shift_div_l; [lra|]. nra.
  - apply Qle_shift_div_r; [lra|]. nra.
Qed.

(** [handleWheel] with every operation rounded: the handler succeeds, and
    the new pan is the formula's value up to the rounding of the five
    operations behind each coordinate. *)
Lemma handleWheel_near (viewport : DOMRect.t) (e : WheelEvent.t) (s : State) :
  zoomInRange (zoom s) ->
  onScreen viewport e s ->
  finite64 (WheelEvent.deltaY e) ->
  let mx := WheelEvent.clientX e - DOMRect.left viewport in
  let my := WheelEvent.clientY e - DOMRect.top viewport in
  exists s1,
    Binary64.handleWheel (Some viewport) e s = Ok s1
    /\ zoomInRange (zoom s1)
    /\ Qabs (Point.x (pan s1)
             - (mx - (mx - Point.x (pan s)) * (zoom s1 / zoom s)))
       <= 716 * (ulp53 * 16384)
    /\ Qabs (Point.y (pan s1)
             - (my - (my - Point.y (pan s)) * (zoom s1 / zoom s)))
       <= 716 * (ulp53 * 16384).
Proof.
  intros Hr (Hx & Hy & Hpx & Hpy) Hd mx my.
  assert (Hz : ~ zoom s == 0) by (destruct Hr; lra).
  unfold Binary64.handleWheel.
  destruct (isCompareMode s) eqn:Ecm.
  - exists s. split; [reflexivity|]. split; [assumption|].
    assert (Z : forall m p : Q, m - (m - p) * (zoom s / zoom s) == p)
      by (intros; field; assumption).
    assert (T : 0 <= 716 * (ulp53 * 16384)) by (vm_compute; discriminate).
    split; rewrite Z;
      match goal with
      | |- Qabs (?a - ?a) <= _ =>
          setoid_replace (a - a) with 0 by ring; exact T
      end.
  - destruct (newZoom_ok (WheelEvent.deltaY e) (zoom s) Hd Hr)
      as (a1 & a2 & a3 & E1 & E2 & E3).
    rewrite E1. cbn [bind]. rewrite E2. cbn [bind]. rewrite E3. cbn [bind].
    set (z1 := Qmin (Qmax (Binary64.lit (1 # 10)) a3) 5).
    assert (Hr1 : zoomInRange z1) by apply clamp64_in_range.
    unfold Binary64.sub at 1 2.
    destruct (round_near mx 16384) as (mouseX & EX & BX);
      [exact Hx | lra | apply Qle_trans with 1000000000;
                        [lra | apply pow2_1023_big] |].
    destruct (round_near my 16384) as (mouseY & EY & BY);
      [exact Hy | lra | apply Qle_trans with 1000000000;
                        [lra | apply pow2_1023_big] |].
    fold mx my. rewrite EX. cbn [bind]. rewrite EY. cbn [bind].
    assert (Hrho : 0 <= z1 / zoom s /\ z1 / zoom s <= 50).
    { destruct Hr as [L0 H0]. destruct Hr1 as [L1 H1]. split.
      - apply Qle_shift_div_l; lra.
      - apply Qle_shift_div_r; lra. }
    destruct Hrho as [R0 R1].
    unfold Binary64.div.
    destruct (Qeq_bool (zoom s) 0) eqn:E0;
      [apply Qeq_bool_eq in E0; contradiction|].
    destruct (round_near (z1 / zoom s) 50) as (zoomRatio & ER & BR);
      [apply Qabs_bound; lra | lra
       | apply Qle_trans with 1000000000; [lra | apply pow2_1023_big] |].
    rewrite ER. cbn [bind].
    destruct (newPan_near mx (Point.x (pan s)) (z1 / zoom s) mouseX zoomRatio
                Hx Hpx R0 R1 BX BR) as (ox & gx & px1 & A1 & A2 & A3 & A4).
    destruct (newPan_near my (Point.y (pan s)) (z1 / zoom s) mouseY zoomRatio
                Hy Hpy R0 R1 BY BR) as (oy & gy & py1 & B1 & B2 & B3 & B4).
    rewrite A1. cbn [bind]. rewrite A2. cbn [bind]. rewrite A3. cbn [bind].
    rewrite B1. cbn [bind]. rewrite B2. cbn [bind]. rewrite B3. cbn [bind].
    eexists. split; [reflexivity|].
    cbn [zoom pan setPan setZoom Point.x Point.y].
    split; [exact Hr1|]. split; assumption.
Qed.

(** C1 - Zoom-anchor invariance, within rounding.  With every operation
    rounded to binary64, as the code computes: from any zoom in [0.1, 5],
    with the pointer, relative to the viewport, and the pan at most 16384
    pixels in size along both axes, a content box at least one pixel wide
    and high, and any finite wheel delta, a wheel event is handled without
    failure, leaves the zoom in range and yields a pan [p1] within
    2e-9 pixels of [m - (m - p0) * (z1 / z0)], where [m] is the pointer
    position relative to the viewport; and the normalized content point
    under the pointer for the new zoom and pan is within 2e-6, in percent
    of the box, of the one for the old zoom and pan, both taken as the
    exact function of zoom and pan that the transform defines.  (In
    compare mode the handler changes nothing.)  The two points are not
    always equal: the instance after the next one shows the content move
    by a rounding error. *)
Theorem zoom_anchor_invariance :
  forall (viewport : DOMRect.t) (box : Layout.t) (e : WheelEvent.t)
         (s : State),
    zoomInRange (zoom s) ->
    onScreen viewport e s ->
    finite64 (WheelEvent.deltaY e) ->
    1 <= Layout.width box ->
    1 <= Layout.height box ->
    let mx := WheelEvent.clientX e - DOMRect.left viewport in
    let my := WheelEvent.clientY e - DOMRect.top viewport in
    exists s1 pt0 pt1,
      Binary64.handleWheel (Some viewport) e s = Ok s1
      /\ zoomInRange (zoom s1)
      /\ Qabs (Point.x (pan s1)
               - (mx - (mx - Point.x (pan s)) * (zoom s1 / zoom s)))
         <= 1 # 500000000
      /\ Qabs (Point.y (pan s1)
               - (my - (my - Point.y (pan s)) * (zoom s1 / zoom s)))
         <= 1 # 500000000
      /\ Surface.contentPointUnder viewport box (WheelEvent.clientX e)
           (WheelEvent.clientY e) s = Ok pt0
      /\ Surface.contentPointUnder viewport box (WheelEvent.clientX e)
           (WheelEvent.clientY e) s1 = Ok pt1
      /\ Qabs (Point.x pt1 - Point.x pt0) <= 1 # 500000
      /\ Qabs (Point.y pt1 - Point.y pt0) <= 1 # 500000.
Proof.
  intros viewport box e s Hr Hs Hd Hw Hh mx my.
  destruct (handleWheel_near viewport e s Hr Hs Hd)
    as (s1 & E1 & Hr1 & Px & Py).
  fold mx in Px. fold my in Py.
  assert (Hz : ~ zoom s == 0) by (destruct Hr; lra).
  assert (Hz1 : ~ zoom s1 == 0) by (destruct Hr1; lra).
  assert (Hw0 : ~ Layout.width box == 0) by lra.
  assert (Hh0 : ~ Layout.height box == 0) by lra.
  assert (T : 716 * (ulp53 * 16384) <= 1 # 500000000)
    by (vm_compute; discriminate).
  exists s1. do 2 eexists.
  split; [exact E1|]. split; [exact Hr1|].
  split; [apply Qle_trans with (716 * (ulp53 * 16384)); assumption|].
  split; [apply Qle_trans with (716 * (ulp53 * 16384)); assumption|].
  split; [apply contentPointUnder_ok; assumption|].
  split; [apply contentPointUnder_ok; assumption|].
  cbn [Point.x Point.y].
  split; apply content_shift; assumption.
Qed.

Lemma zoom_anchor_invariance_witness :
  let s := Sample.roomOf [Sample.blank] PENDING Tpointer in
  let e := Sample.scrollUp in
  zoomInRange (zoom s)
  /\ onScreen Sample.viewport e s
  /\ finite64 (WheelEvent.deltaY e)
  /\ 1 <= Layout.width Sample.stage
  /\ 1 <= Layout.height Sample.stage
  /\ exists s1 pt0 pt1,
       Binary64.handleWheel (Some Sample.viewport) e s = Ok s1
       /\ zoomInRange (zoom s1)
       /\ Qabs (Point.x (pan s1)
                - (400 - 0
                   - (400 - 0 - Point.x (pan s)) * (zoom s1 / zoom s)))
          <= 1 # 500000000
       /\ Qabs (Point.y (pan s1)
                - (300 - 0
                   - (300 - 0 - Point.y (pan s)) * (zoom s1 / zoom s)))
          <= 1 # 500000000
       /\ Surface.contentPointUnder Sample.viewport Sample.stage 400 300 s
          = Ok pt0
       /\ Surface.contentPointUnder Sample.viewport Sample.stage 400 300 s1
          = Ok pt1
       /\ Qabs (Point.x pt1 - Point.x pt0) <= 1 # 500000
       /\ Qabs (Point.y pt1 - Point.y pt0) <= 1 # 500000.
Proof.
  cbv zeta.
  assert (R : zoomInRange
                (zoom (Sample.roomOf [Sample.blank] PENDING Tpointer)))
    by (split; vm_compute; discriminate).
  assert (S : onScreen Sample.viewport Sample.scrollUp
                (Sample.roomOf [Sample.blank] PENDING Tpointer))
    by (repeat split; vm_compute; discriminate).
  assert (F : finite64 (WheelEvent.deltaY Sample.scrollUp))
    by (vm_compute; discriminate).
  assert (W : 1 <= Layout.width Sample.stage) by (vm_compute; discriminate).
  assert (H : 1 <= Layout.height Sample.stage) by (vm_compute; discriminate).
  split; [exact R|]. split; [exact S|]. split; [exact F|].
  split; [exact W|]. split; [exact H|].
  exact (zoom_anchor_invariance Sample.viewport Sample.stage Sample.scrollUp
           (Sample.roomOf [Sample.blank] PENDING Tpointer) R S F W H).
Defined.

(** C1, the claim as worded fails on the code, which computes in
    binary64.  From zoom 1 and pan (0, 0), a wheel event with delta -50 at
    (400, 300) over the sample viewport: the new zoom is the binary64
    value of 1.1, and the new pan is (-40.00000000000006, -30), where the
    formula asks for -40.000000000000036 and -30.000000000000027 at that
    zoom.  The content point under the pointer was (50, 50); for the zoom
    and the pan the handler stored it is another point, in both
    coordinates. *)
Lemma zoom_anchor_invariance_counterexample :
  let s := Sample.roomOf [Sample.blank] PENDING Tpointer in
  let e := WheelEvent.mk (- 50) 400 300 in
  zoomInRange (zoom s)
  /\ onScreen Sample.viewport e s
  /\ finite64 (WheelEvent.deltaY e)
  /\ exists s1 pt0 pt1,
       Binary64.handleWheel (Some Sample.viewport) e s = Ok s1
       /\ zoom s1 == 2476979795053773 # 2251799813685248
       /\ Point.x (pan s1) == - (703687441776641 # 17592186044416)
       /\ Point.y (pan s1) == - 30
       /\ ~ Point.x (pan s1)
            == 400 - (400 - Point.x (pan s)) * (zoom s1 / zoom s)
       /\ ~ Point.y (pan s1)
            == 300 - (300 - Point.y (pan s)) * (zoom s1 / zoom s)
       /\ Surface.contentPointUnder Sample.viewport Sample.stage 400 300 s
          = Ok pt0
       /\ Surface.contentPointUnder Sample.viewport Sample.stage 400 300 s1
          = Ok pt1
       /\ Point.equiv pt0 (Point.mk 50 50)
       /\ ~ Point.x pt1 == Point.x pt0
       /\ ~ Point.y pt1 == Point.y pt0
       /\ ~ Point.equiv pt0 pt1.
Proof.
  cbv zeta.
  split; [split; vm_compute; discriminate|].
  split; [repeat split; vm_compute; discriminate|].
  split; [vm_compute; discriminate|].
  do 3 eexists. split; [vm_compute; reflexivity|].
  split; [vm_compute; reflexivity|].
  split; [vm_compute; reflexivity|].
  split; [vm_compute; reflexivity|].
  split; [intros H; vm_compute in H; discriminate H|].
  split; [intros H; vm_compute in H; discriminate H|].
  split; [vm_compute; reflexivity|].
  split; [vm_compute; reflexivity|].
  split; [split; vm_compute; reflexivity|].
  split; [intros H; vm_compute in H; discriminate H|].
  split; [intros H; vm_compute in H; discriminate H|].
  intros [H _]. vm_compute in H. discriminate H.
Qed.

(** The same wheel event with the content point measured as [getPoint]
    measures it, every operation rounded: (50, 50) before,
    (50.000000000000014, 50) after. *)
Example zoom_anchor_measured :
  let s := Sample.roomOf [Sample.blank] PENDING Tpointer in
  let e := WheelEvent.mk (- 50) 400 300 in
  exists s1 pt0 pt1,
    Binary64.handleWheel (Some Sample.viewport) e s = Ok s1
    /\ Binary64.contentPointUnder Sample.viewport Sample.stage 400 300 s
       = Ok pt0
    /\ Binary64.contentPointUnder Sample.viewport Sample.stage 400 300 s1
       = Ok pt1
    /\ Point.equiv pt0 (Point.mk 50 50)
    /\ Point.equiv pt1 (Point.mk (3518437208883201 # 70368744177664) 50).
Proof.
  cbv zeta. do 3 eexists.
  split; [vm_compute; reflexivity|]. split; [vm_compute; reflexivity|].
  split; [vm_compute; reflexivity|].
  split; split; vm_compute; reflexivity.
Qed.



(** The sample script ends at zoom 0.62: the wild delta clamps to 0.1,
    zoom-out keeps 0.1, the wheel step scales by 1.2, and the two zoom-in
    clicks add 0.5. *)
Example zoomScript_run :
  exists s', Surface.run Sample.zoomScript
               (Sample.roomOf [Sample.blank] PENDING Tpointer) = Ok s'
             /\ zoom s' == 62 # 100.
Proof. eexists. split; [vm_compute; reflexivity | by_eval]. Qed.

(** ** Versions, status and visibility *)

Lemma activeVersion_ext (s s' : State) :
  activeVersionId s' = activeVersionId s -> versions s' = versions s ->
  activeVersion s' = activeVersion s.
Proof. intros E1 E2. unfold activeVersion. rewrite E1, E2. reflexivity. Qed.

Lemma activeVersion_defined (s : State) :
  versions s <> [] -> exists av, activeVersion s = Ok av.
Proof.
  intros H. unfold activeVersion.
  destruct (find _ (versions s)) as [v|]; [exists v; reflexivity|].
  destruct (versions s) as [|v vs]; [contradiction|].
  exists v. reflexivity.
Qed.

Lemma activeComments_of (s : State) (av : AssetVersion.t) :
  activeVersion s = Ok av ->
  Surface.activeComments s = AssetVersion.comments av.
Proof. intros H. unfold Surface.activeComments. rewrite H. reflexivity. Qed.

Lemma UserRole_eqb_eq (a b : UserRole) : UserRole_eqb a b = true <-> a = b.
Proof. destruct a, b; cbn; split; congruence. Qed.

(** C2 - Approval gate.  Approval is permitted exactly when the actor is an
    Approver or a SuperAdmin and, besides, the active version has no
    unresolved comment or the actor is a SuperAdmin.  A permitted click on
    Approve sets the status to Approved; a click that is not permitted
    leaves the whole state as it was. *)
Theorem approval_gate :
  forall (p : Props) (s : State) (av : AssetVersion.t),
    activeVersion s = Ok av ->
    let role := User.role (currentUser p) in
    let unresolved :=
      List.length (filter (fun c => negb (Comment.resolved c))
                          (AssetVersion.comments av)) in
    let permitted :=
      (role = APPROVER \/ role = SUPER_ADMIN)
      /\ (unresolved = 0%nat \/ role = SUPER_ADMIN) in
    (canApprove p s = Ok true <-> permitted)
    /\ (permitted ->
        approveButton p s = Ok (handleApprove s)
        /\ currentAssetStatus (handleApprove s) = APPROVED)
    /\ (~ permitted -> approveButton p s = Ok s).
Proof.
  intros p s av Hav role unresolved permitted.
  assert (Hc : canApprove p s
               = Ok (isDecisionMaker p
                     && (Nat.eqb unresolved 0
                         || UserRole_eqb role SUPER_ADMIN))).
  { unfold canApprove, openTasksCount. rewrite Hav. reflexivity. }
  assert (Hb : isDecisionMaker p
               && (Nat.eqb unresolved 0 || UserRole_eqb role SUPER_ADMIN)
               = true <-> permitted).
  { subst permitted. unfold isDecisionMaker. fold role.
    rewrite andb_true_iff, !orb_true_iff, Nat.eqb_eq, !UserRole_eqb_eq.
    reflexivity. }
  split; [|split].
  - rewrite Hc. split; [intros E; injection E as E; apply Hb, E|].
    intros Hp. apply Hb in Hp. rewrite Hp. reflexivity.
  - intros Hp. split; [|reflexivity].
    unfold approveButton. rewrite Hc. cbn [bind].
    apply Hb in Hp. rewrite Hp.
    apply andb_true_iff in Hp. destruct Hp as [Hp _]. rewrite Hp. reflexivity.
  - intros Hn. unfold approveButton. rewrite Hc. cbn [bind].
    destruct (isDecisionMaker p
              && (Nat.eqb unresolved 0 || UserRole_eqb role SUPER_ADMIN)) eqn:E.
    + exfalso. apply Hn, Hb. reflexivity.
    + rewrite andb_false_r. reflexivity.
Qed.

(** The gate on the sample version with two unresolved comments and a
    resolved one: the Approver's click is refused and changes nothing; once
    both comments are resolved the same click sets the status to
    Approved. *)
Lemma approval_gate_witness :
  let s0 := Sample.roomOf [Sample.reviewed] PENDING Tpointer in
  activeVersion s0 = Ok Sample.reviewed
  /\ List.length (filter (fun c => negb (Comment.resolved c))
                         (AssetVersion.comments Sample.reviewed)) = 2%nat
  /\ approveButton Sample.approver s0 = Ok s0
  /\ exists s1 s2,
       handleResolveComment "c1" s0 = Ok s1
       /\ handleResolveComment "c2" s1 = Ok s2
       /\ approveButton Sample.approver s2 = Ok (handleApprove s2)
       /\ currentAssetStatus (handleApprove s2) = APPROVED.
Proof.
  cbv zeta. split; [reflexivity|]. split; [reflexivity|]. split.
  - apply (approval_gate Sample.approver
             (Sample.roomOf [Sample.reviewed] PENDING Tpointer)
             Sample.reviewed); [reflexivity|].
    intros [_ [H|H]]; discriminate H.
  - do 2 eexists. split; [reflexivity|]. split; [reflexivity|].
    eapply approval_gate; [reflexivity|].
    split; left; reflexivity.
Defined.

(** C7 - Visibility filter.  A comment flagged internal is in the rendered
    list exactly when the viewer is not an Approver; every other comment is
    always rendered; the rendered list consists of comments of the active
    version, and for a viewer who is not an Approver it is that list
    itself.  The filter is a pure function of the state: it returns a list
    and no state. *)
Theorem visibility_filter :
  forall (p : Props) (s : State) (av : AssetVersion.t),
    activeVersion s = Ok av ->
    exists visible,
      visibleComments p s = Ok visible
      /\ (forall c, In c (AssetVersion.comments av) ->
                    Comment.isInternal c = Some true ->
                    (In c visible <-> User.role (currentUser p) <> APPROVER))
      /\ (forall c, In c (AssetVersion.comments av) ->
                    Comment.isInternal c <> Some true ->
                    In c visible)
      /\ (forall c, In c visible -> In c (AssetVersion.comments av))
      /\ (User.role (currentUser p) <> APPROVER ->
          visible = AssetVersion.comments av).
Proof.
  intros p s av Hav. unfold visibleComments. rewrite Hav. cbn [bind].
  eexists. split; [reflexivity|].
  pose proof (UserRole_eqb_eq (User.role (currentUser p)) APPROVER) as Hr.
  split; [|split; [|split]].
  - intros c Hin Hint. rewrite filter_In, Hint. cbn [flag].
    destruct (UserRole_eqb (User.role (currentUser p)) APPROVER) eqn:E;
      cbn [andb].
    + split; [intros [_ F]; discriminate
             | intros N; exfalso; apply N, Hr; reflexivity].
    + split; [intros _ N; apply Hr in N; discriminate
             | intros _; split; [assumption | reflexivity]].
  - intros c Hin Hint. rewrite filter_In. split; [assumption|].
    destruct (Comment.isInternal c) as [[]|]; cbn [flag];
      [congruence| |]; rewrite andb_false_r; reflexivity.
  - intros c Hin. apply filter_In in Hin. apply Hin.
  - intros Hn.
    destruct (UserRole_eqb (User.role (currentUser p)) APPROVER) eqn:E;
      [exfalso; apply Hn, Hr; reflexivity|].
    cbn [andb]. induction (AssetVersion.comments av) as [|c cs IH];
      [reflexivity | cbn [filter]; rewrite IH; reflexivity].
Qed.

(** The same data seen by an Approver and by a Creator: the internal
    comment "c2" is hidden from the first and shown to the second. *)
Lemma visibility_filter_witness :
  let s := Sample.roomOf [Sample.reviewed] PENDING Tpointer in
  let c2 := Sample.note "c2" false true in
  activeVersion s = Ok Sample.reviewed
  /\ In c2 (AssetVersion.comments Sample.reviewed)
  /\ Comment.isInternal c2 = Some true
  /\ (exists visible, visibleComments Sample.approver s = Ok visible
                      /\ ~ In c2 visible)
  /\ (exists visible, visibleComments Sample.creator s = Ok visible
                      /\ In c2 visible).
Proof.
  cbv zeta. split; [reflexivity|].
  split; [right; left; reflexivity|]. split; [reflexivity|]. split.
  - destruct (visibility_filter Sample.approver
                (Sample.roomOf [Sample.reviewed] PENDING Tpointer)
                Sample.reviewed eq_refl) as (visible & Hv & Hint & _).
    exists visible. split; [exact Hv|]. intros Hin.
    apply (Hint (Sample.note "c2" false true)) in Hin;
      [apply Hin; reflexivity | right; left; reflexivity | reflexivity].
  - destruct (visibility_filter Sample.creator
                (Sample.roomOf [Sample.reviewed] PENDING Tpointer)
                Sample.reviewed eq_refl) as (visible & Hv & Hint & _).
    exists visible. split; [exact Hv|].
    apply (Hint (Sample.note "c2" false true));
      [right; left; reflexivity | reflexivity | discriminate].
Defined.

(** C8 - Upload-new-version postcondition.  Whatever the prior status, an
    upload on a non-empty version list succeeds, sets the status to Pending
    and prepends a version with no comments, numbered one more than the
    head of the list; the versions already there stay in place, unchanged.
    When the head of the list carries the greatest number, as it does in a
    list ordered newest first, the new number is strictly greater than the
    number of every version already there, and the new list is again
    ordered that way.  Without that order the new number need not be the
    greatest: the code reads the head's number only. *)
Theorem upload_new_version :
  forall (p : Props) (now : Z) (s : State) (v0 : AssetVersion.t)
         (vs : list AssetVersion.t),
    versions s = v0 :: vs ->
    exists s' nv,
      handleUploadNewVersion p now s = Ok s'
      /\ currentAssetStatus s' = PENDING
      /\ versions s' = nv :: versions s
      /\ AssetVersion.comments nv = []
      /\ AssetVersion.versionNumber nv = AssetVersion.versionNumber v0 + 1
      /\ (headIsNewest (versions s) ->
          Forall (fun v => AssetVersion.versionNumber v
                           < AssetVersion.versionNumber nv) (versions s)
          /\ headIsNewest (versions s')).
Proof.
  intros p now s v0 vs Ev. unfold handleUploadNewVersion. rewrite Ev.
  do 2 eexists. split; [reflexivity|].
  cbn [currentAssetStatus versions setCompareVersionId setCurrentAssetStatus
       setActiveCommentId setIsCompareMode setIsUploadModalOpen
       setActiveVersionId setVersions].
  split; [reflexivity|]. split; [reflexivity|]. split; [reflexivity|].
  split; [reflexivity|].
  cbn [headIsNewest AssetVersion.versionNumber]. intros H. split.
  - eapply Forall_impl; [|exact H]. cbn beta. intros v Hv. lra.
  - constructor; [cbn [AssetVersion.versionNumber]; lra|].
    eapply Forall_impl; [|exact H]. cbn beta. intros v Hv.
    cbn [AssetVersion.versionNumber]. lra.
Qed.

(** An upload over an approved asset whose versions are numbered 2 and 1,
    newest first: the new version is numbered 3. *)
Lemma upload_new_version_witness :
  let older := AssetVersion.mk "v0" 1 "zero.png" 900 [] in
  let newer := AssetVersion.mk "v1" 2 "one.png" 1000
                 (AssetVersion.comments Sample.reviewed) in
  let s := Sample.roomOf [newer; older] APPROVED Tpointer in
  versions s = [newer; older]
  /\ headIsNewest (versions s)
  /\ exists s' nv,
       handleUploadNewVersion Sample.creator 1700000000000 s = Ok s'
       /\ currentAssetStatus s' = PENDING
       /\ versions s' = nv :: versions s
       /\ AssetVersion.comments nv = []
       /\ AssetVersion.versionNumber nv = 2 + 1
       /\ Forall (fun v => AssetVersion.versionNumber v
                           < AssetVersion.versionNumber nv) (versions s)
       /\ headIsNewest (versions s').
Proof.
  cbv zeta.
  set (older := AssetVersion.mk "v0" 1 "zero.png" 900 []).
  set (newer := AssetVersion.mk "v1" 2 "one.png" 1000
                  (AssetVersion.comments Sample.reviewed)).
  set (s := Sample.roomOf [newer; older] APPROVED Tpointer).
  assert (H : headIsNewest (versions s)) by (repeat constructor; by_eval).
  split; [reflexivity|]. split; [exact H|].
  destruct (upload_new_version Sample.creator 1700000000000 s newer [older]
              eq_refl) as (s' & nv & H1 & H2 & H3 & H4 & H5 & H6).
  destruct (H6 H) as [H7 H8].
  exists s', nv. repeat split; assumption.
Defined.

(** C8, the claim as worded fails when the head of the list does not
    carry the greatest number.  With the versions numbered 1 and 2, in
    that order, the upload numbers the new version 1 + 1 = 2, which is not
    strictly greater than the number of the second version. *)
Lemma upload_new_version_counterexample :
  let first := AssetVersion.mk "v1" 1 "one.png" 900 [] in
  let second := AssetVersion.mk "v2" 2 "two.png" 1000 [] in
  let s := Sample.roomOf [first; second] APPROVED Tpointer in
  exists s' nv,
    handleUploadNewVersion Sample.creator 1700000000000 s = Ok s'
    /\ versions s' = nv :: versions s
    /\ AssetVersion.versionNumber nv == 2
    /\ In second (versions s)
    /\ ~ AssetVersion.versionNumber second < AssetVersion.versionNumber nv
    /\ ~ Forall (fun v => AssetVersion.versionNumber v
                          < AssetVersion.versionNumber nv) (versions s).
Proof.
  cbv zeta. do 2 eexists.
  split; [vm_compute; reflexivity|].
  split; [reflexivity|].
  split; [vm_compute; reflexivity|].
  split; [right; left; reflexivity|].
  split; [intros H; vm_compute in H; discriminate H|].
  intros H. inversion H as [|? ? _ H2]. inversion H2 as [|? ? H3 _].
  vm_compute in H3. discriminate H3.
Qed.

(** When no pin is being dragged, a release calls [onAddComment] or
    nothing. *)
Lemma handleMouseUp_callback containerRef p e s l cb :
  truthy (AnnotationLayer.draggedCommentId s) = false ->
  AnnotationLayer.handleMouseUp containerRef p e s = Ok (l, cb) ->
  cb = None \/ exists x y d, cb = Some (AnnotationLayer.onAddComment x y d).
Proof.
  intros Hg. unfold AnnotationLayer.handleMouseUp. rewrite Hg.
  destruct (AnnotationLayer.isDrawing s); cbn [negb];
    [|intros E; injection E as _ <-; left; reflexivity].
  destruct (Tool_eqb (AnnotationLayer.drawingTool p) Tpointer
            && negb (AnnotationLayer.isCompareMode p)).
  { destruct (AnnotationLayer.getPoint containerRef s e) as [pt|];
      cbn [bind]; [|discriminate].
    intros E; injection E as _ <-. right. do 3 eexists. reflexivity. }
  destruct (Tool_eqb (AnnotationLayer.drawingTool p) Tpen
            && Nat.ltb 1 (List.length (AnnotationLayer.currentPath s))).
  { destruct (AnnotationLayer.currentPath s) as [|first rest];
      cbn [bind]; [discriminate|].
    intros E; injection E as _ <-. right. do 3 eexists. reflexivity. }
  destruct (AnnotationLayer.drawingTool p);
    try (cbn [bind]; intros E; injection E as _ <-; left; reflexivity).
  destruct (AnnotationLayer.currentRect s) as [r|];
    [|cbn [bind]; intros E; injection E as _ <-; left; reflexivity].
  destruct (gt (Rect.w r) 1 || gt (Rect.h r) 1); cbn [bind];
    intros E; injection E as _ <-;
    [right; do 3 eexists; reflexivity | left; reflexivity].
Qed.

(** C9 - Permission-denial atomicity.  For an Observer, or in compare mode,
    adding a comment returns normally with the state it was given: the
    versions and their comments, the selected comment and the active tool
    are those of before.  The same holds when the call comes from the
    overlay: whatever gesture is released there (no pin being dragged),
    the versions, the selected comment and the tool stay as they were. *)
Theorem permission_denial_noop :
  forall (p : Props) (now : Z) (s : State),
    User.role (currentUser p) = OBSERVER \/ isCompareMode s = true ->
    (forall (x y : number) (drawing : option Drawing.t),
       handleAddComment p now x y drawing s = Ok s)
    /\ (forall (containerRef : option DOMRect.t) (e : MouseEvent.t)
               (u : Surface.t) (l : AnnotationLayer.State)
               (cb : option AnnotationLayer.Callback),
          Surface.room u = s ->
          truthy (AnnotationLayer.draggedCommentId (Surface.layer u)) = false ->
          AnnotationLayer.handleMouseUp containerRef (Surface.layerProps s) e
            (Surface.layer u) = Ok (l, cb) ->
          exists u',
            Surface.mouseUp p now containerRef e u = Ok u'
            /\ versions (Surface.room u') = versions s
            /\ activeCommentId (Surface.room u') = activeCommentId s
            /\ drawingTool (Surface.room u') = drawingTool s).
Proof.
  intros p now s H.
  assert (E : forall x y drawing,
             handleAddComment p now x y drawing s = Ok s).
  { intros x y drawing. unfold handleAddComment.
    destruct (isCompareMode s); [reflexivity|].
    destruct H as [H|H]; [|discriminate].
    rewrite H. reflexivity. }
  split; [exact E|].
  intros containerRef e u l cb Hu Hg Hl. subst s.
  unfold Surface.mouseUp. rewrite Hl. cbn [bind snd fst].
  destruct (handleMouseUp_callback _ _ _ _ _ _ Hg Hl)
    as [-> | (x & y & d & ->)]; cbn [Surface.dispatch].
  - cbn [bind]. eexists. split; [reflexivity|]. repeat split.
  - rewrite E. cbn [bind]. eexists. split; [reflexivity|]. repeat split.
Qed.

(** An Observer with the pen tool: the direct call and the release of a
    three-point stroke both leave the room as it was. *)
Lemma permission_denial_noop_witness :
  let s := Sample.roomOf [Sample.reviewed] PENDING Tpen in
  let u := Surface.mk s
             (AnnotationLayer.mkState (Some Sample.frame) true
                [Point.mk 10 10; Point.mk 30 40; Point.mk 50 45]
                None None None None None) in
  (User.role (currentUser Sample.observer) = OBSERVER
   \/ isCompareMode s = true)
  /\ handleAddComment Sample.observer 7 30 40 (Some Sample.boxed) s = Ok s
  /\ exists u',
       Surface.mouseUp Sample.observer 7 None Sample.click u = Ok u'
       /\ versions (Surface.room u') = versions s
       /\ activeCommentId (Surface.room u') = activeCommentId s
       /\ drawingTool (Surface.room u') = drawingTool s.
Proof.
  cbv zeta. split; [left; reflexivity|].
  destruct (permission_denial_noop Sample.observer 7
              (Sample.roomOf [Sample.reviewed] PENDING Tpen)
              (or_introl eq_refl)) as [Hadd Hrelease].
  split; [apply Hadd|].
  eapply Hrelease; [reflexivity | reflexivity | vm_compute; reflexivity].
Defined.

(** ** Translating drawings *)

Lemma Point_equiv_refl (q : Point.t) : Point.equiv q q.
Proof. split; reflexivity. Qed.

Lemma Rect_equiv_refl (r : Rect.t) : Rect.equiv r r.
Proof. repeat split; reflexivity. Qed.

Lemma Forall2_Point_equiv_refl (ps : list Point.t) :
  Forall2 Point.equiv ps ps.
Proof. induction ps; constructor; [apply Point_equiv_refl | assumption]. Qed.

(** Shifting every point by [(a1, b1)] and then by [(a2, b2)] gives the
    points back when the two shifts cancel. *)
Lemma shift_points_back (a1 b1 a2 b2 : number) (ps : list Point.t) :
  a1 + a2 == 0 -> b1 + b2 == 0 ->
  Forall2 Point.equiv
    (map (fun q => Point.mk (Point.x q + a2) (Point.y q + b2))
         (map (fun q => Point.mk (Point.x q + a1) (Point.y q + b1)) ps))
    ps.
Proof.
  intros Ha Hb. induction ps as [|q ps IH]; cbn [map]; constructor.
  - split; cbn [Point.x Point.y]; lra.
  - exact IH.
Qed.

Lemma shift_points_compat (a b a' b' : number) (ps : list Point.t) :
  a == a' -> b == b' ->
  Forall2 Point.equiv
    (map (fun q => Point.mk (Point.x q + a) (Point.y q + b)) ps)
    (map (fun q => Point.mk (Point.x q + a') (Point.y q + b')) ps).
Proof.
  intros Ha Hb. induction ps as [|q ps IH]; cbn [map]; constructor.
  - split; cbn [Point.x Point.y]; lra.
  - exact IH.
Qed.

(** Case analysis on a drawing followed by the routine closing steps. *)
Ltac drawing_cases d :=
  destruct d as [[] [?|] [?|] ?];
  unfold translateDrawing, Drawing_equiv;
  cbn [Drawing.type Drawing.rect Drawing.points Drawing.color];
  repeat split;
  try apply Forall2_Point_equiv_refl; try apply Rect_equiv_refl;
  cbn [Rect.x Rect.y Rect.w Rect.h]; try reflexivity.

Lemma translateDrawing_back (a1 b1 a2 b2 : number) (d : Drawing.t) :
  a1 + a2 == 0 -> b1 + b2 == 0 ->
  Drawing_equiv (translateDrawing a2 b2 (translateDrawing a1 b1 d)) d.
Proof.
  intros Ha Hb.
  drawing_cases d; try (apply shift_points_back; assumption); lra.
Qed.

Lemma translateDrawing_compat (a b a' b' : number) (d : Drawing.t) :
  a == a' -> b == b' ->
  Drawing_equiv (translateDrawing a b d) (translateDrawing a' b' d).
Proof.
  intros Ha Hb.
  drawing_cases d; try (apply shift_points_compat; assumption); lra.
Qed.

(** Where [handleUpdateCommentPosition] puts a comment of the active
    version. *)
Lemma handleUpdateCommentPosition_moves (id : string) (newX newY : number)
    (s : State) (v : AssetVersion.t) (c : Comment.t) :
  In v (versions s) ->
  AssetVersion.id v = activeVersionId s ->
  In c (AssetVersion.comments v) ->
  In (withComments v
        (map (moveComment id newX newY) (AssetVersion.comments v)))
     (versions (handleUpdateCommentPosition id newX newY s))
  /\ In (moveComment id newX newY c)
        (map (moveComment id newX newY) (AssetVersion.comments v)).
Proof.
  intros Hv Hid Hc. split; [|apply in_map; exact Hc].
  unfold handleUpdateCommentPosition. cbn [versions setVersions].
  apply in_map_iff. exists v. split; [|exact Hv].
  rewrite Hid, String.eqb_refl. reflexivity.
Qed.

(** C5 - Round-trip translate.  Translating a drawing by [(dx, dy)] adds
    the delta to every point of a pen stroke, or to the corner [x, y] of a
    box and leaves [w], [h] alone; the type and the color stay.
    Translating the result by [(-dx, -dy)] gives the drawing back.  Moving
    a comment whose pin is at [(x0, y0)] to [(x0 + dx, y0 + dy)] puts the
    pin there and translates its drawing by the same [(dx, dy)]; moving it
    back restores pin and drawing, and the move is what
    [handleUpdateCommentPosition] applies to the comments of the active
    version.  Numbers are rationals, so "gives back" is exact. *)
Theorem translate_round_trip :
  forall (d : Drawing.t) (dx dy : number),
    Drawing_equiv (translateDrawing (- dx) (- dy) (translateDrawing dx dy d)) d
    /\ Drawing.type (translateDrawing dx dy d) = Drawing.type d
    /\ Drawing.color (translateDrawing dx dy d) = Drawing.color d
    /\ (forall r,
          Drawing.type d = box -> Drawing.rect d = Some r ->
          Drawing.rect (translateDrawing dx dy d)
          = Some (Rect.mk (Rect.x r + dx) (Rect.y r + dy)
                          (Rect.w r) (Rect.h r)))
    /\ (forall ps,
          Drawing.type d = pen -> Drawing.points d = Some ps ->
          Drawing.points (translateDrawing dx dy d)
          = Some (map (fun q => Point.mk (Point.x q + dx) (Point.y q + dy))
                      ps))
    /\ (forall (c : Comment.t) (x0 y0 : number),
          Comment.drawing c = Some d ->
          Comment.x c = Some x0 ->
          Comment.y c = Some y0 ->
          let c1 := moveComment (Comment.id c) (x0 + dx) (y0 + dy) c in
          let c2 := moveComment (Comment.id c) x0 y0 c1 in
          Comment.x c1 = Some (x0 + dx)
          /\ Comment.y c1 = Some (y0 + dy)
          /\ (exists d1, Comment.drawing c1 = Some d1
                         /\ Drawing_equiv d1 (translateDrawing dx dy d))
          /\ Comment.x c2 = Some x0
          /\ Comment.y c2 = Some y0
          /\ (exists d2, Comment.drawing c2 = Some d2
                         /\ Drawing_equiv d2 d)
          /\ forall (s : State) (v : AssetVersion.t),
               In v (versions s) ->
               AssetVersion.id v = activeVersionId s ->
               In c (AssetVersion.comments v) ->
               exists v',
                 In v' (versions
                          (handleUpdateCommentPosition (Comment.id c)
                             (x0 + dx) (y0 + dy) s))
                 /\ In c1 (AssetVersion.comments v')).
Proof.
  intros d dx dy. split; [apply translateDrawing_back; lra|].
  split; [destruct d as [[] [?|] [?|] ?]; reflexivity|].
  split; [destruct d as [[] [?|] [?|] ?]; reflexivity|].
  split.
  { intros r Ht Hr. unfold translateDrawing. rewrite Ht, Hr.
    destruct (Drawing.points d); reflexivity. }
  split.
  { intros ps Ht Hp. unfold translateDrawing. rewrite Ht, Hp.
    destruct (Drawing.rect d); reflexivity. }
  intros c x0 y0 Hd Hx Hy c1 c2.
  assert (E1 : c1 = Comment.mk (Comment.id c) (Comment.userId c)
                 (Comment.text c) (Comment.timestamp c) (Comment.resolved c)
                 (Some (x0 + dx)) (Some (y0 + dy)) (Comment.videoTimestamp c)
                 (Some (translateDrawing (x0 + dx - orZero (Some x0))
                          (y0 + dy - orZero (Some y0)) d))
                 (Comment.replies c) (Comment.isInternal c)).
  { subst c1. unfold moveComment. rewrite String.eqb_refl, Hd, Hx, Hy.
    reflexivity. }
  assert (E2 : c2 = Comment.mk (Comment.id c) (Comment.userId c)
                 (Comment.text c) (Comment.timestamp c) (Comment.resolved c)
                 (Some x0) (Some y0) (Comment.videoTimestamp c)
                 (Some (translateDrawing (x0 - orZero (Some (x0 + dx)))
                          (y0 - orZero (Some (y0 + dy)))
                          (translateDrawing (x0 + dx - orZero (Some x0))
                             (y0 + dy - orZero (Some y0)) d)))
                 (Comment.replies c) (Comment.isInternal c)).
  { subst c2. rewrite E1. unfold moveComment.
    cbn [Comment.id Comment.x Comment.y Comment.drawing Comment.userId
         Comment.text Comment.timestamp Comment.resolved
         Comment.videoTimestamp Comment.replies Comment.isInternal].
    rewrite String.eqb_refl. reflexivity. }
  assert (Hmove : forall (s : State) (v : AssetVersion.t),
             In v (versions s) ->
             AssetVersion.id v = activeVersionId s ->
             In c (AssetVersion.comments v) ->
             exists v',
               In v' (versions
                        (handleUpdateCommentPosition (Comment.id c)
                           (x0 + dx) (y0 + dy) s))
               /\ In c1 (AssetVersion.comments v')).
  { intros s v Hv Hid Hc.
    destruct (handleUpdateCommentPosition_moves (Comment.id c) (x0 + dx)
                (y0 + dy) s v c Hv Hid Hc) as [H1 H2].
    eexists. split; [exact H1 | exact H2]. }
  clearbody c1 c2. subst c1 c2.
  cbn [Comment.x Comment.y Comment.drawing].
  pose proof (orZero_some x0). pose proof (orZero_some y0).
  pose proof (orZero_some (x0 + dx)). pose proof (orZero_some (y0 + dy)).
  split; [reflexivity|]. split; [reflexivity|].
  split; [eexists; split; [reflexivity|]; apply translateDrawing_compat; lra|].
  split; [reflexivity|]. split; [reflexivity|].
  split; [eexists; split; [reflexivity|]; apply translateDrawing_back; lra|].
  exact Hmove.
Qed.

(** The boxed sample note dragged by (5, -3) and back. *)
Lemma translate_round_trip_witness :
  let c := Sample.boxedNote in
  let c1 := moveComment "c9" (40 + 5) (20 + - 3) c in
  let c2 := moveComment "c9" 40 20 c1 in
  Comment.drawing c = Some Sample.boxed
  /\ Comment.x c = Some 40
  /\ Comment.y c = Some 20
  /\ Comment.x c1 = Some (40 + 5)
  /\ Comment.y c1 = Some (20 + - 3)
  /\ (exists d1, Comment.drawing c1 = Some d1
                 /\ Drawing_equiv d1 (translateDrawing 5 (- 3) Sample.boxed))
  /\ Comment.x c2 = Some 40
  /\ Comment.y c2 = Some 20
  /\ (exists d2, Comment.drawing c2 = Some d2
                 /\ Drawing_equiv d2 Sample.boxed).
Proof.
  cbv zeta.
  split; [reflexivity|]. split; [reflexivity|]. split; [reflexivity|].
  destruct (translate_round_trip Sample.boxed 5 (- 3))
    as (_ & _ & _ & _ & _ & H).
  destruct (H Sample.boxedNote 40 20 eq_refl eq_refl eq_refl)
    as (H1 & H2 & H3 & H4 & H5 & H6 & _).
  repeat split; assumption.
Defined.

(** What the drag does to the sample box: the corner moves from (10, 20)
    to (15, 17), the extent stays 30 by 40. *)
Example boxed_dragged :
  exists d1 r1,
    Comment.drawing (moveComment "c9" 45 17 Sample.boxedNote) = Some d1
    /\ Drawing.rect d1 = Some r1
    /\ Rect.equiv r1 (Rect.mk 15 17 30 40)
    /\ Drawing.color d1 = Drawing.color Sample.boxed.
Proof.
  do 2 eexists. split; [reflexivity|]. split; [reflexivity|].
  split; [repeat split; by_eval | reflexivity].
Qed.

(** Dragging the pin of the boxed sample note from (40, 20) to (45, 17):
    on release the pin is at (45, 17), the box has moved with it to
    (15, 17) and kept its extent, and the note is the selected comment. *)
Example pin_drag_moves_box :
  exists u3 c qx qy d r,
    (u2 <- Surface.mouseMove (Some Sample.frame) (MouseEvent.mk 45 17 0)
             (Surface.pinMouseDown (Some Sample.frame) Sample.boxedNote
                (Surface.mk Sample.annotated AnnotationLayer.initial)) ;;
     Surface.mouseUp Sample.creator 7 (Some Sample.frame)
       (MouseEvent.mk 45 17 0) u2) = Ok u3
    /\ Surface.activeComments (Surface.room u3) = [c]
    /\ Comment.id c = "c9"%string
    /\ Comment.x c = Some qx /\ qx == 45
    /\ Comment.y c = Some qy /\ qy == 17
    /\ Comment.drawing c = Some d
    /\ Drawing.rect d = Some r
    /\ Rect.equiv r (Rect.mk 15 17 30 40)
    /\ activeCommentId (Surface.room u3) = Some "c9"%string.
Proof.
  do 6 eexists. split; [vm_compute; reflexivity|].
  split; [reflexivity|]. split; [reflexivity|].
  split; [reflexivity|]. split; [by_eval|].
  split; [reflexivity|]. split; [by_eval|].
  split; [reflexivity|]. split; [reflexivity|].
  split; [repeat split; by_eval | reflexivity].
Qed.

(** Leaving the overlay cancels the gesture in progress: a release that
    follows hands nothing to the parent. *)
Lemma leave_cancels containerRef p e s :
  AnnotationLayer.handleMouseUp containerRef p e
    (AnnotationLayer.handleMouseLeave s)
  = Ok (AnnotationLayer.handleMouseLeave s, None).
Proof. reflexivity. Qed.

(** ** Committing a comment *)

Lemma find_replaceVersion_some aid upd vs av :
  find (fun v => String.eqb (AssetVersion.id v) aid) vs = Some av ->
  AssetVersion.id upd = AssetVersion.id av ->
  find (fun v => String.eqb (AssetVersion.id v) aid)
       (replaceVersion (AssetVersion.id av) upd vs) = Some upd.
Proof.
  intros Hf Hid.
  assert (Ha : AssetVersion.id av = aid).
  { apply find_some in Hf. apply String.eqb_eq. apply Hf. }
  induction vs as [|v vs IH]; [discriminate|].
  cbn [find] in Hf. cbn [replaceVersion map find].
  destruct (String.eqb (AssetVersion.id v) aid) eqn:E.
  - apply String.eqb_eq in E. rewrite Ha, E, String.eqb_refl.
    rewrite Hid, Ha, String.eqb_refl. reflexivity.
  - rewrite Ha, E, E. apply IH in Hf. unfold replaceVersion in Hf.
    rewrite Ha in Hf. exact Hf.
Qed.

Lemma find_replaceVersion_none aid upd vs uid :
  find (fun v => String.eqb (AssetVersion.id v) aid) vs = None ->
  AssetVersion.id upd = uid -> uid <> aid ->
  find (fun v => String.eqb (AssetVersion.id v) aid)
       (replaceVersion uid upd vs) = None.
Proof.
  intros Hf Hid Hne.
  induction vs as [|v vs IH]; [reflexivity|].
  cbn [find] in Hf. cbn [replaceVersion map find].
  destruct (String.eqb (AssetVersion.id v) aid) eqn:E; [discriminate|].
  destruct (String.eqb (AssetVersion.id v) uid) eqn:E'.
  - rewrite Hid. apply String.eqb_neq in Hne. rewrite Hne. apply IH, Hf.
  - rewrite E. apply IH, Hf.
Qed.

(** Replacing the active version by an update of itself makes the update
    the active version. *)
Lemma activeVersion_replace (s : State) (av upd : AssetVersion.t) :
  activeVersion s = Ok av ->
  AssetVersion.id upd = AssetVersion.id av ->
  activeVersion
    (setVersions (replaceVersion (AssetVersion.id av) upd (versions s)) s)
  = Ok upd.
Proof.
  intros Ha Hid. unfold activeVersion in *.
  cbn [activeVersionId versions setVersions].
  destruct (find _ (versions s)) as [v|] eqn:Hf.
  - injection Ha as ->.
    rewrite (find_replaceVersion_some _ upd _ _ Hf Hid). reflexivity.
  - destruct (versions s) as [|v0 vs] eqn:Ev; [discriminate|].
    injection Ha as ->.
    assert (Hne : AssetVersion.id av <> activeVersionId s).
    { cbn [find] in Hf.
      destruct (String.eqb (AssetVersion.id av) (activeVersionId s)) eqn:E;
        [discriminate|]. apply String.eqb_neq. exact E. }
    rewrite (find_replaceVersion_none _ upd _ _ Hf Hid Hne).
    cbn [replaceVersion map]. rewrite String.eqb_refl. reflexivity.
Qed.

(** An actor who may comment gets the new comment at the head of the
    active version; it becomes the selected comment and the tool falls back
    to the pointer. *)
Lemma handleAddComment_commits p now x y drawing s :
  mayComment p s ->
  exists s',
    handleAddComment p now x y drawing s = Ok s'
    /\ committed (newComment p now x y drawing s) s s'
    /\ activeCommentId s' = Some (String.append "c_" (showZ now))
    /\ drawingTool s' = Tpointer.
Proof.
  intros (Hcm & Hrole & Hne).
  destruct (activeVersion_defined s Hne) as [av Hav].
  unfold handleAddComment. rewrite Hcm.
  destruct (UserRole_eqb (User.role (currentUser p)) OBSERVER) eqn:Er;
    [apply UserRole_eqb_eq in Er; contradiction|].
  rewrite Hav. cbn [bind].
  eexists. split; [reflexivity|].
  set (upd := withComments av _).
  destruct (AssetType_eqb (assetType p) VIDEO && isVideoPlaying s);
    destruct (drawingTool s) eqn:Et; cbn [negb Tool_eqb];
    (split;
     [ exists av; split; [exact Hav|]; split; [|reflexivity];
       rewrite (activeVersion_ext
                  (setVersions
                     (replaceVersion (AssetVersion.id av) upd (versions s)) s))
         by reflexivity;
       apply activeVersion_replace; [exact Hav | reflexivity]
     | split; [reflexivity | first [reflexivity | exact Et]] ]).
Qed.

(** ** Releasing the mouse over the overlay *)

Section Release.

Variables (containerRef : option DOMRect.t) (e : MouseEvent.t).

(** What the release of a pen stroke hands to the parent. *)
Lemma handleMouseUp_pen (p : AnnotationLayer.Props)
    (s : AnnotationLayer.State) :
  AnnotationLayer.drawingTool p = Tpen ->
  AnnotationLayer.isDrawing s = true ->
  truthy (AnnotationLayer.draggedCommentId s) = false ->
  AnnotationLayer.handleMouseUp containerRef p e s
  = Ok (AnnotationLayer.resetDraft (AnnotationLayer.setIsDrawing false s),
        match AnnotationLayer.currentPath s with
        | first :: _ :: _ =>
            Some (AnnotationLayer.onAddComment (Point.x first) (Point.y first)
                    (Some (Drawing.mk pen
                             (Some (AnnotationLayer.currentPath s))
                             None (AnnotationLayer.color p))))
        | _ => None
        end).
Proof.
  intros Ht Hd Hg. unfold AnnotationLayer.handleMouseUp.
  rewrite Hg, Hd, Ht. cbn [negb Tool_eqb andb].
  destruct (AnnotationLayer.currentPath s) as [|a [|b l]]; reflexivity.
Qed.

(** What the release of a box drag hands to the parent. *)
Lemma handleMouseUp_box (p : AnnotationLayer.Props)
    (s : AnnotationLayer.State) :
  AnnotationLayer.drawingTool p = Tbox ->
  AnnotationLayer.isDrawing s = true ->
  truthy (AnnotationLayer.draggedCommentId s) = false ->
  AnnotationLayer.handleMouseUp containerRef p e s
  = Ok (AnnotationLayer.resetDraft (AnnotationLayer.setIsDrawing false s),
        match AnnotationLayer.currentRect s with
        | Some r =>
            if gt (Rect.w r) 1 || gt (Rect.h r) 1 then
              Some (AnnotationLayer.onAddComment (Rect.x r + Rect.w r)
                      (Rect.y r)
                      (Some (Drawing.mk box None (Some r)
                                        (AnnotationLayer.color p))))
            else None
        | None => None
        end).
Proof.
  intros Ht Hd Hg. unfold AnnotationLayer.handleMouseUp.
  rewrite Hg, Hd, Ht. cbn [negb Tool_eqb andb].
  destruct (AnnotationLayer.currentRect s) as [r|]; [|reflexivity].
  destruct (gt (Rect.w r) 1 || gt (Rect.h r) 1); reflexivity.
Qed.

Variables (p : Props) (now : Z) (u : Surface.t).

(** A release that hands nothing to the parent leaves the versions alone. *)
Lemma mouseUp_silent (l : AnnotationLayer.State) :
  AnnotationLayer.handleMouseUp containerRef
    (Surface.layerProps (Surface.room u)) e (Surface.layer u) = Ok (l, None) ->
  exists u',
    Surface.mouseUp p now containerRef e u = Ok u'
    /\ versions (Surface.room u') = versions (Surface.room u).
Proof.
  intros H. unfold Surface.mouseUp. rewrite H.
  cbn [bind snd fst Surface.dispatch].
  eexists. split; reflexivity.
Qed.

(** A release that hands a comment to the parent commits it, when the actor
    may comment. *)
Lemma mouseUp_commit (l : AnnotationLayer.State) (x y : number)
    (d : option Drawing.t) :
  AnnotationLayer.handleMouseUp containerRef
    (Surface.layerProps (Surface.room u)) e (Surface.layer u)
  = Ok (l, Some (AnnotationLayer.onAddComment x y d)) ->
  mayComment p (Surface.room u) ->
  exists u',
    Surface.mouseUp p now containerRef e u = Ok u'
    /\ committed (newComment p now x y d (Surface.room u))
         (Surface.room u) (Surface.room u')
    /\ Surface.activeComments (Surface.room u')
       = newComment p now x y d (Surface.room u)
         :: Surface.activeComments (Surface.room u).
Proof.
  intros H Hm.
  destruct (handleAddComment_commits p now x y d _ Hm)
    as (r' & Hr & (av & Hav & Ha & Hv) & _).
  unfold Surface.mouseUp. rewrite H. cbn [bind snd fst Surface.dispatch].
  rewrite Hr. cbn [bind].
  eexists. split; [reflexivity|]. cbn [Surface.room].
  assert (Ha' : activeVersion (handlePanEnd r') = activeVersion r')
    by (apply activeVersion_ext; reflexivity).
  split.
  - exists av. rewrite Ha'. repeat split; assumption.
  - rewrite (activeComments_of _ _ Hav).
    unfold Surface.activeComments. rewrite Ha', Ha. reflexivity.
Qed.

End Release.

(** ** Whole gestures on the overlay *)

Section Gesture.

Variables (rect : DOMRect.t) (p : AnnotationLayer.Props).
Hypothesis Hrect : hasExtent rect.
Hypothesis Hmode : AnnotationLayer.isCompareMode p = false.

Lemma getPoint_cached containerRef s e :
  AnnotationLayer.boundsRef s = Some rect ->
  AnnotationLayer.getPoint containerRef s e = Ok (pointOf rect e).
Proof.
  intros Hb. destruct Hrect as [Hw Hh].
  unfold AnnotationLayer.getPoint. rewrite Hb.
  rewrite !jsdiv_ok by assumption. reflexivity.
Qed.

Lemma press_pen e s :
  AnnotationLayer.drawingTool p = Tpen ->
  truthy (AnnotationLayer.draggedCommentId s) = false ->
  exists s1,
    AnnotationLayer.handleMouseDown (Some rect) p e s = Ok s1
    /\ drawingOn rect s1
    /\ AnnotationLayer.currentPath s1 = [pointOf rect e].
Proof.
  intros Ht Hg. unfold AnnotationLayer.handleMouseDown.
  rewrite Ht, Hmode. cbn [Tool_eqb negb orb].
  cbn [AnnotationLayer.draggedCommentId AnnotationLayer.setBoundsRef].
  rewrite Hg.
  rewrite getPoint_cached by reflexivity. cbn [bind].
  eexists. split; [reflexivity|]. split; [|reflexivity].
  repeat split; assumption.
Qed.

Lemma move_pen e s :
  AnnotationLayer.drawingTool p = Tpen ->
  drawingOn rect s ->
  exists s1,
    AnnotationLayer.handleMouseMove (Some rect) p e s = Ok s1
    /\ drawingOn rect s1
    /\ AnnotationLayer.currentPath s1
       = (AnnotationLayer.currentPath s ++ [pointOf rect e])%list.
Proof.
  intros Ht (Hb & Hd & Hg). unfold AnnotationLayer.handleMouseMove.
  rewrite Hg, Hd, Ht, (getPoint_cached _ _ _ Hb). cbn [negb bind].
  eexists. split; [reflexivity|]. split; [|reflexivity].
  repeat split; assumption.
Qed.

Lemma moves_pen es : forall s,
  AnnotationLayer.drawingTool p = Tpen ->
  drawingOn rect s ->
  exists s1,
    AnnotationLayer.moves (Some rect) p es s = Ok s1
    /\ drawingOn rect s1
    /\ AnnotationLayer.currentPath s1
       = (AnnotationLayer.currentPath s ++ map (pointOf rect) es)%list.
Proof.
  induction es as [|e es IH]; intros s Ht Hs.
  - exists s. split; [reflexivity|]. split; [assumption|].
    cbn [map]. rewrite app_nil_r. reflexivity.
  - destruct (move_pen e s Ht Hs) as (s1 & E1 & H1 & P1).
    destruct (IH s1 Ht H1) as (s2 & E2 & H2 & P2).
    exists s2. split; [|split; [assumption|]].
    + cbn [AnnotationLayer.moves]. rewrite E1. exact E2.
    + rewrite P2, P1, <- app_assoc. reflexivity.
Qed.

(** A pen gesture captures the press and every move, unclamped, and hands
    the stroke to the parent exactly when there was a move. *)
Lemma pen_gesture down mid up s :
  AnnotationLayer.drawingTool p = Tpen ->
  truthy (AnnotationLayer.draggedCommentId s) = false ->
  exists s',
    AnnotationLayer.gesture (Some rect) p down mid up s
    = Ok (s',
          match mid with
          | [] => None
          | _ :: _ =>
              Some (AnnotationLayer.onAddComment
                      (Point.x (pointOf rect down))
                      (Point.y (pointOf rect down))
                      (Some (Drawing.mk pen
                               (Some (pointOf rect down
                                      :: map (pointOf rect) mid))
                               None (AnnotationLayer.color p))))
          end).
Proof.
  intros Ht Hg. unfold AnnotationLayer.gesture.
  destruct (press_pen down s Ht Hg) as (s1 & E1 & H1 & P1).
  destruct (moves_pen mid s1 Ht H1) as (s2 & E2 & (Hb & Hd & Hg2) & P2).
  rewrite E1. cbn [bind]. rewrite E2. cbn [bind].
  rewrite (handleMouseUp_pen _ _ _ _ Ht Hd Hg2), P2, P1.
  eexists. destruct mid; reflexivity.
Qed.

Lemma press_box e s :
  AnnotationLayer.drawingTool p = Tbox ->
  truthy (AnnotationLayer.draggedCommentId s) = false ->
  exists s1,
    AnnotationLayer.handleMouseDown (Some rect) p e s = Ok s1
    /\ drawingOn rect s1
    /\ AnnotationLayer.currentStart s1 = Some (pointOf rect e)
    /\ AnnotationLayer.currentRect s1
       = Some (Rect.mk (Point.x (pointOf rect e)) (Point.y (pointOf rect e))
                       0 0).
Proof.
  intros Ht Hg. unfold AnnotationLayer.handleMouseDown.
  rewrite Ht, Hmode. cbn [Tool_eqb negb orb].
  cbn [AnnotationLayer.draggedCommentId AnnotationLayer.setBoundsRef].
  rewrite Hg.
  rewrite getPoint_cached by reflexivity. cbn [bind].
  eexists. split; [reflexivity|]. split; [|split; reflexivity].
  repeat split; assumption.
Qed.

Lemma move_box e s a :
  AnnotationLayer.drawingTool p = Tbox ->
  drawingOn rect s ->
  AnnotationLayer.currentStart s = Some a ->
  exists s1,
    AnnotationLayer.handleMouseMove (Some rect) p e s = Ok s1
    /\ drawingOn rect s1
    /\ AnnotationLayer.currentStart s1 = Some a
    /\ AnnotationLayer.currentRect s1 = Some (boxOf a (pointOf rect e)).
Proof.
  intros Ht (Hb & Hd & Hg) Hs. unfold AnnotationLayer.handleMouseMove.
  rewrite Hg, Hd, Ht, Hs, (getPoint_cached _ _ _ Hb). cbn [negb bind].
  eexists. split; [reflexivity|].
  split; [repeat split; assumption|]. split; [assumption | reflexivity].
Qed.

Lemma last_nonempty (x : MouseEvent.t) (l : list MouseEvent.t)
    (d d' : MouseEvent.t) :
  last (x :: l) d = last (x :: l) d'.
Proof.
  revert x. induction l as [|y l IH]; intros x; [reflexivity|].
  cbn [last] in *. apply IH.
Qed.

Lemma moves_box es : forall s a r,
  AnnotationLayer.drawingTool p = Tbox ->
  drawingOn rect s ->
  AnnotationLayer.currentStart s = Some a ->
  AnnotationLayer.currentRect s = Some r ->
  exists s1,
    AnnotationLayer.moves (Some rect) p es s = Ok s1
    /\ drawingOn rect s1
    /\ AnnotationLayer.currentRect s1
       = Some (match es with
               | [] => r
               | e :: _ => boxOf a (pointOf rect (last es e))
               end).
Proof.
  induction es as [|e es IH]; intros s a r Ht Hs Ha Hr.
  - exists s. split; [reflexivity|]. split; assumption.
  - destruct (move_box e s a Ht Hs Ha) as (s1 & E1 & H1 & A1 & R1).
    destruct (IH s1 a _ Ht H1 A1 R1) as (s2 & E2 & H2 & R2).
    exists s2. split; [|split; [assumption|]].
    + cbn [AnnotationLayer.moves]. rewrite E1. exact E2.
    + rewrite R2. destruct es as [|e' es]; [reflexivity|].
      do 3 f_equal. cbn [last]. apply last_nonempty.
Qed.

(** A box gesture keeps the rectangle between the press and the last move,
    and hands it to the parent exactly when its width or its height
    exceeds 1. *)
Lemma box_gesture down mid up s :
  AnnotationLayer.drawingTool p = Tbox ->
  truthy (AnnotationLayer.draggedCommentId s) = false ->
  let r := match mid with
           | [] => Rect.mk (Point.x (pointOf rect down))
                           (Point.y (pointOf rect down)) 0 0
           | e :: _ => boxOf (pointOf rect down) (pointOf rect (last mid e))
           end in
  exists s',
    AnnotationLayer.gesture (Some rect) p down mid up s
    = Ok (s',
          if gt (Rect.w r) 1 || gt (Rect.h r) 1 then
            Some (AnnotationLayer.onAddComment (Rect.x r + Rect.w r)
                    (Rect.y r)
                    (Some (Drawing.mk box None (Some r)
                                      (AnnotationLayer.color p))))
          else None).
Proof.
  intros Ht Hg r. unfold AnnotationLayer.gesture.
  destruct (press_box down s Ht Hg) as (s1 & E1 & H1 & A1 & R1).
  destruct (moves_box mid s1 _ _ Ht H1 A1 R1)
    as (s2 & E2 & (Hb & Hd & Hg2) & R2).
  rewrite E1. cbn [bind]. rewrite E2. cbn [bind].
  rewrite (handleMouseUp_box _ _ _ _ Ht Hd Hg2), R2.
  eexists. reflexivity.
Qed.

End Gesture.

(** ** Whole gestures on the mounted overlay *)

Lemma handlePanStart_data e r : sameRoomData r (handlePanStart e r).
Proof.
  unfold handlePanStart. destruct (_ || _); repeat split.
Qed.

Lemma handlePanMove_data e r : sameRoomData r (handlePanMove e r).
Proof.
  unfold handlePanMove. destruct (isPanningRef r); repeat split.
Qed.

Lemma sameRoomData_trans r1 r2 r3 :
  sameRoomData r1 r2 -> sameRoomData r2 r3 -> sameRoomData r1 r3.
Proof.
  intros (A1 & A2 & A3 & A4 & A5 & A6) (B1 & B2 & B3 & B4 & B5 & B6).
  repeat split; congruence.
Qed.

Lemma panMoves_data mid : forall r,
  sameRoomData r (fold_left (fun r e => handlePanMove e r) mid r).
Proof.
  induction mid as [|e mid IH]; intros r; [repeat split|].
  cbn [fold_left]. eapply sameRoomData_trans; [apply handlePanMove_data | apply IH].
Qed.

Lemma roomAfterDrag_data down mid r :
  sameRoomData r (Surface.roomAfterDrag down mid r).
Proof.
  unfold Surface.roomAfterDrag.
  eapply sameRoomData_trans; [apply handlePanStart_data | apply panMoves_data].
Qed.

Lemma layerProps_data r r' :
  sameRoomData r r' -> Surface.layerProps r' = Surface.layerProps r.
Proof.
  intros (A1 & A2 & _). unfold Surface.layerProps. rewrite A1, A2. reflexivity.
Qed.

Lemma mouseMoves_unfold containerRef mid : forall u,
  Surface.mouseMoves containerRef mid u
  = (l <- AnnotationLayer.moves containerRef
            (Surface.layerProps (Surface.room u)) mid (Surface.layer u) ;;
     Ok (Surface.mk
           (fold_left (fun r e => handlePanMove e r) mid (Surface.room u)) l)).
Proof.
  induction mid as [|e mid IH]; intros [r l]; [reflexivity|].
  cbn [Surface.mouseMoves AnnotationLayer.moves fold_left Surface.room
       Surface.layer].
  unfold Surface.mouseMove. cbn [Surface.room Surface.layer].
  destruct (AnnotationLayer.handleMouseMove containerRef
              (Surface.layerProps r) e l) as [l1|err]; [|reflexivity].
  cbn [bind]. rewrite IH. cbn [Surface.room Surface.layer].
  rewrite (layerProps_data r _ (handlePanMove_data e r)). reflexivity.
Qed.

(** A gesture on the mounted overlay is the overlay's gesture, followed by
    the parent's callback on the room the pan handlers left. *)
Lemma gesture_unfold p now containerRef down mid up u :
  Surface.gesture p now containerRef down mid up u
  = (lc <- AnnotationLayer.gesture containerRef
             (Surface.layerProps (Surface.room u)) down mid up
             (Surface.layer u) ;;
     r <- Surface.dispatch p now (snd lc)
            (Surface.roomAfterDrag down mid (Surface.room u)) ;;
     Ok (Surface.mk (handlePanEnd r) (fst lc))).
Proof.
  destruct u as [r l].
  unfold Surface.gesture, AnnotationLayer.gesture, Surface.mouseDown.
  cbn [Surface.room Surface.layer].
  destruct (AnnotationLayer.handleMouseDown containerRef
              (Surface.layerProps r) down l) as [l1|err]; [|reflexivity].
  cbn [bind]. rewrite mouseMoves_unfold. cbn [Surface.room Surface.layer].
  rewrite (layerProps_data r _ (handlePanStart_data down r)).
  destruct (AnnotationLayer.moves containerRef (Surface.layerProps r) mid l1)
    as [l2|err]; [|reflexivity].
  cbn [bind]. unfold Surface.mouseUp. cbn [Surface.room Surface.layer].
  fold (Surface.roomAfterDrag down mid r).
  rewrite (layerProps_data r _ (roomAfterDrag_data down mid r)).
  reflexivity.
Qed.

Lemma mayComment_data p r r' :
  sameRoomData r r' -> mayComment p r -> mayComment p r'.
Proof.
  intros (_ & _ & A3 & _ & A5 & _) (H1 & H2 & H3).
  repeat split; [congruence | assumption | congruence].
Qed.

Lemma committed_data c r0 r r' :
  sameRoomData r0 r -> committed c r r' ->
  committed c r0 (handlePanEnd r').
Proof.
  intros (_ & _ & A3 & A4 & _) (av & H1 & H2 & H3).
  exists av. split; [|split].
  - rewrite <- H1. symmetry. apply activeVersion_ext; assumption.
  - rewrite <- H2. apply activeVersion_ext; reflexivity.
  - cbn [handlePanEnd versions setIsPanningRef]. rewrite H3, A3. reflexivity.
Qed.

Section EndToEnd.

Variables (p : Props) (now : Z) (rect : DOMRect.t).
Variables (down : MouseEvent.t) (mid : list MouseEvent.t) (up : MouseEvent.t).
Variable u : Surface.t.
Hypothesis Hrect : hasExtent rect.
Hypothesis Hfree :
  truthy (AnnotationLayer.draggedCommentId (Surface.layer u)) = false.
Hypothesis Hmay : mayComment p (Surface.room u).

(** What the gesture hands to the parent decides what the room becomes. *)
Lemma gesture_outcome l cb :
  AnnotationLayer.gesture (Some rect) (Surface.layerProps (Surface.room u))
    down mid up (Surface.layer u) = Ok (l, cb) ->
  match cb with
  | None =>
      exists u',
        Surface.gesture p now (Some rect) down mid up u = Ok u'
        /\ versions (Surface.room u') = versions (Surface.room u)
  | Some (AnnotationLayer.onAddComment x y d) =>
      exists u' c,
        Surface.gesture p now (Some rect) down mid up u = Ok u'
        /\ committed c (Surface.room u) (Surface.room u')
        /\ Comment.x c = Some x /\ Comment.y c = Some y
        /\ Comment.drawing c = d
  | Some _ => True
  end.
Proof.
  intros Hl. rewrite gesture_unfold, Hl. cbn [bind snd fst].
  pose proof (roomAfterDrag_data down mid (Surface.room u)) as Hdata.
  destruct cb as [[x y d|id|id x y]|]; cbn [Surface.dispatch]; try exact I.
  - destruct (handleAddComment_commits p now x y d _
                (mayComment_data _ _ _ Hdata Hmay)) as (r' & Hr & Hc & _).
    rewrite Hr. cbn [bind]. do 2 eexists. split; [reflexivity|].
    cbn [Surface.room].
    split; [exact (committed_data _ _ _ _ Hdata Hc)|].
    repeat split.
  - cbn [bind]. eexists. split; [reflexivity|].
    cbn [Surface.room handlePanEnd versions setIsPanningRef].
    apply Hdata.
Qed.

(** A pen gesture, from press to release: without a move nothing is
    committed; with at least one move, one comment is, pinned at the press
    position as measured and carrying every captured point. *)
Lemma pen_gesture_end_to_end :
  drawingTool (Surface.room u) = Tpen ->
  match mid with
  | [] =>
      exists u',
        Surface.gesture p now (Some rect) down mid up u = Ok u'
        /\ versions (Surface.room u') = versions (Surface.room u)
  | _ :: _ =>
      exists u' c,
        Surface.gesture p now (Some rect) down mid up u = Ok u'
        /\ committed c (Surface.room u) (Surface.room u')
        /\ Comment.x c = Some (Point.x (pointOf rect down))
        /\ Comment.y c = Some (Point.y (pointOf rect down))
        /\ Comment.drawing c
           = Some (Drawing.mk pen
                     (Some (pointOf rect down :: map (pointOf rect) mid))
                     None (toolColor (Surface.room u)))
  end.
Proof.
  intros Ht.
  destruct (pen_gesture rect (Surface.layerProps (Surface.room u)) Hrect
              eq_refl down mid up (Surface.layer u) Ht Hfree) as (l & Hl).
  pose proof (gesture_outcome _ _ Hl) as H.
  destruct mid; exact H.
Qed.

(** A box gesture, from press to release: the rectangle spans the press
    and the last move; it is committed, pinned at its top-right corner,
    exactly when its width or its height exceeds 1. *)
Lemma box_gesture_end_to_end :
  drawingTool (Surface.room u) = Tbox ->
  let r := match mid with
           | [] => Rect.mk (Point.x (pointOf rect down))
                           (Point.y (pointOf rect down)) 0 0
           | e :: _ => boxOf (pointOf rect down) (pointOf rect (last mid e))
           end in
  if gt (Rect.w r) 1 || gt (Rect.h r) 1 then
    exists u' c,
      Surface.gesture p now (Some rect) down mid up u = Ok u'
      /\ committed c (Surface.room u) (Surface.room u')
      /\ Comment.x c = Some (Rect.x r + Rect.w r)
      /\ Comment.y c = Some (Rect.y r)
      /\ Comment.drawing c
         = Some (Drawing.mk box None (Some r) (toolColor (Surface.room u)))
  else
    exists u',
      Surface.gesture p now (Some rect) down mid up u = Ok u'
      /\ versions (Surface.room u') = versions (Surface.room u).
Proof.
  intros Ht r.
  destruct (box_gesture rect (Surface.layerProps (Surface.room u)) Hrect
              eq_refl down mid up (Surface.layer u) Ht Hfree) as (l & Hl).
  fold r in Hl.
  pose proof (gesture_outcome _ _ Hl) as H.
  destruct (gt (Rect.w r) 1 || gt (Rect.h r) 1); exact H.
Qed.

End EndToEnd.

(** C3 - Discard thresholds, as the code has them.  At the release of a
    drawing gesture: a pen stroke of exactly one point commits no comment;
    a box whose width and height are both at most 1 commits no comment;
    and, when the actor may comment (not an Observer, compare mode off), a
    pen stroke of two or more points, or a box whose width or height
    exceeds 1, commits exactly one comment, at the head of the active
    version. *)
Theorem discard_thresholds :
  forall (p : Props) (now : Z) (containerRef : option DOMRect.t)
         (e : MouseEvent.t) (u : Surface.t),
    AnnotationLayer.isDrawing (Surface.layer u) = true ->
    truthy (AnnotationLayer.draggedCommentId (Surface.layer u)) = false ->
    let noComment :=
      exists u',
        Surface.mouseUp p now containerRef e u = Ok u'
        /\ versions (Surface.room u') = versions (Surface.room u) in
    let oneComment :=
      exists u' c,
        Surface.mouseUp p now containerRef e u = Ok u'
        /\ committed c (Surface.room u) (Surface.room u')
        /\ Surface.activeComments (Surface.room u')
           = c :: Surface.activeComments (Surface.room u) in
    (drawingTool (Surface.room u) = Tpen ->
     List.length (AnnotationLayer.currentPath (Surface.layer u)) = 1%nat ->
     noComment)
    /\ (drawingTool (Surface.room u) = Tbox ->
        forall r, AnnotationLayer.currentRect (Surface.layer u) = Some r ->
        Rect.w r <= 1 -> Rect.h r <= 1 ->
        noComment)
    /\ (drawingTool (Surface.room u) = Tpen ->
        (2 <= List.length (AnnotationLayer.currentPath (Surface.layer u)))%nat ->
        mayComment p (Surface.room u) ->
        oneComment)
    /\ (drawingTool (Surface.room u) = Tbox ->
        forall r, AnnotationLayer.currentRect (Surface.layer u) = Some r ->
        1 < Rect.w r \/ 1 < Rect.h r ->
        mayComment p (Surface.room u) ->
        oneComment).
Proof.
  intros p now containerRef e u Hd Hg noComment oneComment.
  subst noComment oneComment. repeat split.
  - intros Ht Hl.
    eapply mouseUp_silent. rewrite handleMouseUp_pen by assumption.
    destruct (AnnotationLayer.currentPath (Surface.layer u)) as [|a [|b l]];
      try discriminate; reflexivity.
  - intros Ht r Hr Hw Hh.
    eapply mouseUp_silent. rewrite handleMouseUp_box by assumption.
    rewrite Hr.
    apply gt_false_iff in Hw. apply gt_false_iff in Hh.
    rewrite Hw, Hh. reflexivity.
  - intros Ht Hl Hm.
    destruct (AnnotationLayer.currentPath (Surface.layer u))
      as [|a [|b l]] eqn:Ep; cbn in Hl; try lia.
    edestruct (mouseUp_commit containerRef e p now u) as (u' & H1 & H2 & H3);
      [ rewrite handleMouseUp_pen by assumption; rewrite Ep; reflexivity
      | exact Hm | ].
    exists u'. eexists. repeat split; eassumption.
  - intros Ht r Hr Hwh Hm.
    assert (E : gt (Rect.w r) 1 || gt (Rect.h r) 1 = true).
    { apply orb_true_iff.
      destruct Hwh; [left | right]; apply gt_true_iff; assumption. }
    edestruct (mouseUp_commit containerRef e p now u) as (u' & H1 & H2 & H3);
      [ rewrite handleMouseUp_box by assumption; rewrite Hr, E; reflexivity
      | exact Hm | ].
    exists u'. eexists. repeat split; eassumption.
Qed.

(** The four cases on sample gestures: a one-point stroke and a box of
    1 by 1/2 are dropped; a two-point stroke and a box of 2 by 0 are
    committed. *)
Lemma discard_thresholds_witness :
  let dot := Sample.penDraft [Point.mk 10 10] in
  let stroke := Sample.penDraft [Point.mk 10 10; Point.mk 30 40] in
  let small := Sample.boxDraft (Rect.mk 10 10 1 (1 # 2)) in
  let wide := Sample.boxDraft (Rect.mk 10 10 2 0) in
  let release := Surface.mouseUp Sample.creator 7 None Sample.click in
  mayComment Sample.creator (Surface.room stroke)
  /\ (exists u', release dot = Ok u'
                 /\ versions (Surface.room u') = versions (Surface.room dot))
  /\ (exists u', release small = Ok u'
                 /\ versions (Surface.room u') = versions (Surface.room small))
  /\ (exists u' c, release stroke = Ok u'
                   /\ committed c (Surface.room stroke) (Surface.room u')
                   /\ Surface.activeComments (Surface.room u')
                      = c :: Surface.activeComments (Surface.room stroke))
  /\ (exists u' c, release wide = Ok u'
                   /\ committed c (Surface.room wide) (Surface.room u')
                   /\ Surface.activeComments (Surface.room u')
                      = c :: Surface.activeComments (Surface.room wide)).
Proof.
  cbv zeta.
  assert (Hm : forall t, mayComment Sample.creator
                           (Sample.roomOf [Sample.blank] PENDING t)).
  { intros t. split; [reflexivity|]. split; discriminate. }
  split; [apply Hm|]. split; [|split; [|split]].
  - apply (discard_thresholds Sample.creator 7 None Sample.click
             (Sample.penDraft [Point.mk 10 10]) eq_refl eq_refl);
      reflexivity.
  - apply (discard_thresholds Sample.creator 7 None Sample.click
             (Sample.boxDraft (Rect.mk 10 10 1 (1 # 2))) eq_refl eq_refl)
      with (r := Rect.mk 10 10 1 (1 # 2));
      first [reflexivity | by_eval].
  - apply (discard_thresholds Sample.creator 7 None Sample.click
             (Sample.penDraft [Point.mk 10 10; Point.mk 30 40])
             eq_refl eq_refl);
      [reflexivity | cbn; lia | apply Hm].
  - apply (discard_thresholds Sample.creator 7 None Sample.click
             (Sample.boxDraft (Rect.mk 10 10 2 0)) eq_refl eq_refl)
      with (r := Rect.mk 10 10 2 0);
      [reflexivity | reflexivity | left; by_eval | apply Hm].
Defined.

(** C3, the claim as worded fails on the code in two ways.  On a
    container of 100 by 100 pixels, a Creator presses the box tool at
    (0, 0), moves to (1, 0) and releases: the final rectangle has width
    exactly 1, which meets "w >= 1 or h >= 1", yet nothing is committed,
    because the code asks for [w > 1 || h > 1].  And an Observer's pen
    stroke of two points commits nothing, because [handleAddComment]
    returns early for an Observer. *)
Lemma discard_thresholds_counterexample :
  let idle t :=
    Surface.mk (Sample.roomOf [Sample.blank] PENDING t)
               AnnotationLayer.initial in
  let press := MouseEvent.mk 0 0 0 in
  let edge := MouseEvent.mk 1 0 0 in
  let far := MouseEvent.mk 30 40 0 in
  let drag (t : Tool) (to : MouseEvent.t) :=
    u1 <- Surface.mouseDown (Some Sample.frame) press (idle t) ;;
    Surface.mouseMoves (Some Sample.frame) [to] u1 in
  (exists u2 r,
     drag Tbox edge = Ok u2
     /\ AnnotationLayer.currentRect (Surface.layer u2) = Some r
     /\ (1 <= Rect.w r \/ 1 <= Rect.h r))
  /\ mayComment Sample.creator (Surface.room (idle Tbox))
  /\ ~ (exists u' c,
          Surface.gesture Sample.creator 7 (Some Sample.frame) press [edge]
            edge (idle Tbox) = Ok u'
          /\ Surface.activeComments (Surface.room u')
             = c :: Surface.activeComments (Surface.room (idle Tbox)))
  /\ (exists u2,
        drag Tpen far = Ok u2
        /\ (2 <= List.length
                   (AnnotationLayer.currentPath (Surface.layer u2)))%nat)
  /\ ~ (exists u' c,
          Surface.gesture Sample.observer 7 (Some Sample.frame) press [far]
            far (idle Tpen) = Ok u'
          /\ Surface.activeComments (Surface.room u')
             = c :: Surface.activeComments (Surface.room (idle Tpen))).
Proof.
  cbv zeta.
  split; [do 2 eexists; split; [vm_compute; reflexivity|];
          split; [reflexivity | left; by_eval]|].
  split; [split; [reflexivity | split; discriminate]|].
  split; [|split].
  - intros (u' & c & Hu & Hc). vm_compute in Hu.
    injection Hu as <-. vm_compute in Hc. discriminate Hc.
  - eexists. split; [vm_compute; reflexivity|]. cbn. lia.
  - intros (u' & c & Hu & Hc). vm_compute in Hu.
    injection Hu as <-. vm_compute in Hc. discriminate Hc.
Qed.

(** The same box drag taken one pixel further is committed: the threshold
    is strict. *)
Example box_drag_just_over :
  exists u',
    Surface.gesture Sample.creator 7 (Some Sample.frame)
      (MouseEvent.mk 0 0 0) [MouseEvent.mk 2 0 0] (MouseEvent.mk 2 0 0)
      (Surface.mk (Sample.roomOf [Sample.blank] PENDING Tbox)
                  AnnotationLayer.initial) = Ok u'
    /\ List.length (Surface.activeComments (Surface.room u')) = 1%nat
    /\ drawingTool (Surface.room u') = Tpointer.
Proof. eexists. split; [vm_compute; reflexivity | split; reflexivity]. Qed.

(** C4 - Box normalization.  While a box is being dragged from the anchor
    corner [(ax, ay)], a move to the pointer position [(px, py)] sets the
    draft rectangle to the min-corner and the positive extent:
    [x = min(ax, px)], [y = min(ay, py)], [w = |px - ax|],
    [h = |py - ay|], whichever way the drag goes. *)
Theorem box_normalization :
  forall (containerRef : option DOMRect.t) (p : AnnotationLayer.Props)
         (e : MouseEvent.t) (s : AnnotationLayer.State)
         (anchor pointer : Point.t),
    AnnotationLayer.drawingTool p = Tbox ->
    AnnotationLayer.isDrawing s = true ->
    truthy (AnnotationLayer.draggedCommentId s) = false ->
    AnnotationLayer.currentStart s = Some anchor ->
    AnnotationLayer.getPoint containerRef s e = Ok pointer ->
    exists r,
      AnnotationLayer.handleMouseMove containerRef p e s
      = Ok (AnnotationLayer.setCurrentRect (Some r) s)
      /\ Rect.x r == Qmin (Point.x anchor) (Point.x pointer)
      /\ Rect.y r == Qmin (Point.y anchor) (Point.y pointer)
      /\ Rect.w r == Qabs (Point.x pointer - Point.x anchor)
      /\ Rect.h r == Qabs (Point.y pointer - Point.y anchor)
      /\ 0 <= Rect.w r
      /\ 0 <= Rect.h r.
Proof.
  intros containerRef p e s anchor pointer Ht Hd Hg Hs Hp.
  unfold AnnotationLayer.handleMouseMove.
  rewrite Hg, Hd, Ht, Hs, Hp. cbn [negb bind].
  eexists. split; [reflexivity|]. cbn [Rect.x Rect.y Rect.w Rect.h].
  assert (Hmin : forall a b,
             (if gt (b - a) 0 then a else b) == Qmin a b).
  { intros a b. destruct (gt (b - a) 0) eqn:E.
    - apply gt_true_iff in E. symmetry. apply Q.min_l. lra.
    - apply gt_false_iff in E. symmetry. apply Q.min_r. lra. }
  repeat split; try apply Hmin; try reflexivity; apply Qabs_nonneg.
Qed.

(** The backwards drag of the specification: pressed at (60, 60) and moved
    to (20, 20) on a 100 by 100 container, the draft is the rectangle
    [{x: 20, y: 20, w: 40, h: 40}]. *)
Lemma box_normalization_witness :
  exists s1 anchor pointer r,
    AnnotationLayer.handleMouseDown (Some Sample.frame) Sample.boxProps
      (MouseEvent.mk 60 60 0) AnnotationLayer.initial = Ok s1
    /\ AnnotationLayer.currentStart s1 = Some anchor
    /\ Point.equiv anchor (Point.mk 60 60)
    /\ AnnotationLayer.getPoint (Some Sample.frame) s1
         (MouseEvent.mk 20 20 0) = Ok pointer
    /\ Point.equiv pointer (Point.mk 20 20)
    /\ AnnotationLayer.handleMouseMove (Some Sample.frame) Sample.boxProps
         (MouseEvent.mk 20 20 0) s1
       = Ok (AnnotationLayer.setCurrentRect (Some r) s1)
    /\ Rect.equiv r (Rect.mk 20 20 40 40).
Proof.
  pose (anchor := Point.mk (6000 # 100) (6000 # 100)).
  pose (pointer := Point.mk (2000 # 100) (2000 # 100)).
  pose (s1 := AnnotationLayer.mkState (Some Sample.frame) true [] (Some anchor)
                (Some (Rect.mk (6000 # 100) (6000 # 100) 0 0))
                None None None).
  assert (H1 : AnnotationLayer.handleMouseDown (Some Sample.frame)
                 Sample.boxProps (MouseEvent.mk 60 60 0)
                 AnnotationLayer.initial = Ok s1)
    by (vm_compute; reflexivity).
  assert (H3 : AnnotationLayer.getPoint (Some Sample.frame) s1
                 (MouseEvent.mk 20 20 0) = Ok pointer)
    by (vm_compute; reflexivity).
  destruct (box_normalization (Some Sample.frame) Sample.boxProps
              (MouseEvent.mk 20 20 0) s1 anchor pointer
              eq_refl eq_refl eq_refl eq_refl H3)
    as (r & Hm & Hx & Hy & Hw & Hh & _).
  exists s1, anchor, pointer, r.
  split; [exact H1|]. split; [reflexivity|].
  split; [split; by_eval|].
  split; [exact H3|].
  split; [split; by_eval|].
  split; [exact Hm|].
  repeat split.
  - rewrite Hx. by_eval.
  - rewrite Hy. by_eval.
  - rewrite Hw. by_eval.
  - rewrite Hh. by_eval.
Defined.

(** The same two corners dragged forwards, from (20, 20) to (60, 60), give
    the same rectangle. *)
Example box_forwards_drag :
  exists s1 s2 r,
    AnnotationLayer.handleMouseDown (Some Sample.frame) Sample.boxProps
      (MouseEvent.mk 20 20 0) AnnotationLayer.initial = Ok s1
    /\ AnnotationLayer.handleMouseMove (Some Sample.frame) Sample.boxProps
         (MouseEvent.mk 60 60 0) s1 = Ok s2
    /\ AnnotationLayer.currentRect s2 = Some r
    /\ Rect.equiv r (Rect.mk 20 20 40 40).
Proof.
  do 3 eexists. split; [vm_compute; reflexivity|].
  split; [vm_compute; reflexivity|]. split; [reflexivity|].
  repeat split; by_eval.
Qed.

(** C10 - Pin anchor of a committed drawing.  A committed box gesture
    creates a comment whose pin is the top-right corner of the rectangle,
    [x = rect.x + rect.w] and [y = rect.y]; a committed pen gesture creates
    a comment whose pin is the first point of the stroke exactly as it was
    captured, with no clamping to [0, 100]. *)
Theorem commit_pin_anchor :
  forall (p : Props) (now : Z) (containerRef : option DOMRect.t)
         (e : MouseEvent.t) (u : Surface.t),
    AnnotationLayer.isDrawing (Surface.layer u) = true ->
    truthy (AnnotationLayer.draggedCommentId (Surface.layer u)) = false ->
    mayComment p (Surface.room u) ->
    (drawingTool (Surface.room u) = Tbox ->
     forall r, AnnotationLayer.currentRect (Surface.layer u) = Some r ->
     1 < Rect.w r \/ 1 < Rect.h r ->
     exists u' c,
       Surface.mouseUp p now containerRef e u = Ok u'
       /\ committed c (Surface.room u) (Surface.room u')
       /\ Comment.x c = Some (Rect.x r + Rect.w r)
       /\ Comment.y c = Some (Rect.y r)
       /\ Comment.drawing c
          = Some (Drawing.mk box None (Some r) (toolColor (Surface.room u))))
    /\ (drawingTool (Surface.room u) = Tpen ->
        forall first second rest,
        AnnotationLayer.currentPath (Surface.layer u)
        = first :: second :: rest ->
        exists u' c,
          Surface.mouseUp p now containerRef e u = Ok u'
          /\ committed c (Surface.room u) (Surface.room u')
          /\ Comment.x c = Some (Point.x first)
          /\ Comment.y c = Some (Point.y first)
          /\ Comment.drawing c
             = Some (Drawing.mk pen (Some (first :: second :: rest)) None
                                (toolColor (Surface.room u)))).
Proof.
  intros p now containerRef e u Hd Hg Hm. split.
  - intros Ht r Hr Hwh.
    assert (E : gt (Rect.w r) 1 || gt (Rect.h r) 1 = true).
    { apply orb_true_iff.
      destruct Hwh; [left | right]; apply gt_true_iff; assumption. }
    edestruct (mouseUp_commit containerRef e p now u) as (u' & H1 & H2 & _);
      [ rewrite handleMouseUp_box by assumption; rewrite Hr, E; reflexivity
      | exact Hm | ].
    exists u'. eexists. split; [exact H1|]. split; [exact H2|].
    repeat split; reflexivity.
  - intros Ht first second rest Hp.
    edestruct (mouseUp_commit containerRef e p now u) as (u' & H1 & H2 & _);
      [ rewrite handleMouseUp_pen by assumption; rewrite Hp; reflexivity
      | exact Hm | ].
    exists u'. eexists. split; [exact H1|]. split; [exact H2|].
    repeat split; reflexivity.
Qed.

(** A box of 30 by 40 at (10, 20) is pinned at (40, 20); a stroke that
    starts outside the content box, at (150, -20), is pinned there. *)
Lemma commit_pin_anchor_witness :
  let r := Rect.mk 10 20 30 40 in
  let path := [Point.mk 150 (- 20); Point.mk 90 10; Point.mk 80 30] in
  mayComment Sample.creator (Surface.room (Sample.boxDraft r))
  /\ (1 < Rect.w r \/ 1 < Rect.h r)
  /\ (exists u' c,
        Surface.mouseUp Sample.creator 7 None Sample.click (Sample.boxDraft r)
        = Ok u'
        /\ committed c (Surface.room (Sample.boxDraft r)) (Surface.room u')
        /\ Comment.x c = Some (10 + 30)
        /\ Comment.y c = Some 20
        /\ Comment.drawing c = Some (Drawing.mk box None (Some r) "#ef4444"))
  /\ (exists u' c,
        Surface.mouseUp Sample.creator 7 None Sample.click
          (Sample.penDraft path) = Ok u'
        /\ committed c (Surface.room (Sample.penDraft path)) (Surface.room u')
        /\ Comment.x c = Some 150
        /\ Comment.y c = Some (- 20)
        /\ Comment.drawing c
           = Some (Drawing.mk pen (Some path) None "#ef4444")).
Proof.
  cbv zeta.
  assert (Hm : forall t, mayComment Sample.creator
                           (Sample.roomOf [Sample.blank] PENDING t)).
  { intros t. split; [reflexivity|]. split; discriminate. }
  split; [apply Hm|]. split; [left; by_eval|]. split.
  - destruct (commit_pin_anchor Sample.creator 7 None Sample.click
                (Sample.boxDraft (Rect.mk 10 20 30 40)) eq_refl eq_refl
                (Hm Tbox)) as [Hbox _].
    refine (Hbox eq_refl (Rect.mk 10 20 30 40) eq_refl _).
    left. by_eval.
  - destruct (commit_pin_anchor Sample.creator 7 None Sample.click
                (Sample.penDraft
                   [Point.mk 150 (- 20); Point.mk 90 10; Point.mk 80 30])
                eq_refl eq_refl (Hm Tpen)) as [_ Hpen].
    exact (Hpen eq_refl _ _ _ eq_refl).
Defined.

(** A whole pen gesture whose press is measured outside the content box,
    at (150, -20), is pinned at that very point. *)
Example pen_gesture_unclamped :
  exists u' c qx qy,
    Surface.gesture Sample.creator 7 (Some Sample.frame)
      (MouseEvent.mk 150 (- 20) 0) [MouseEvent.mk 90 10 0]
      (MouseEvent.mk 90 10 0)
      (Surface.mk (Sample.roomOf [Sample.blank] PENDING Tpen)
                  AnnotationLayer.initial) = Ok u'
    /\ Surface.activeComments (Surface.room u') = [c]
    /\ Comment.x c = Some qx /\ qx == 150
    /\ Comment.y c = Some qy /\ qy == - 20.
Proof.
  do 4 eexists. split; [vm_compute; reflexivity|].
  split; [reflexivity|].
  split; [reflexivity|]. split; [by_eval|].
  split; [reflexivity | by_eval].
Qed.

(** * Further properties *)

(** ** Panning and zooming *)

(** *** Pan drags *)

Lemma panMoves_whole (es : list MouseEvent.t) :
  forall (s : State) (cx cy lx ly : Z),
    isPanningRef s = true ->
    (Z.abs cx <= 2 ^ 51)%Z -> (Z.abs cy <= 2 ^ 51)%Z ->
    (Z.abs lx <= 2 ^ 50)%Z -> (Z.abs ly <= 2 ^ 50)%Z ->
    Point.x (lastMousePosRef s) == inject_Z lx ->
    Point.y (lastMousePosRef s) == inject_Z ly ->
    Point.x (pan s) == inject_Z (cx + lx) ->
    Point.y (pan s) == inject_Z (cy + ly) ->
    Forall onPixels es ->
    exists s',
      Binary64.panMoves es s = Ok s'
      /\ isPanningRef s' = true
      /\ zoom s' = zoom s
      /\ lastMousePosRef s'
         = positionOf (last es (MouseEvent.mk (Point.x (lastMousePosRef s))
                                  (Point.y (lastMousePosRef s)) 0))
      /\ Point.x (pan s') == inject_Z cx + Point.x (lastMousePosRef s')
      /\ Point.y (pan s') == inject_Z cy + Point.y (lastMousePosRef s').
Proof.
  induction es as [|e es IH];
    intros s cx cy lx ly Hp Hcx Hcy Hlx Hly Lx Ly Px Py Hes.
  - exists s. cbn [Binary64.panMoves last].
    split; [reflexivity|]. split; [exact Hp|]. split; [reflexivity|].
    split; [destruct (lastMousePosRef s); reflexivity|].
    split; [rewrite Px, Lx, inject_Z_plus | rewrite Py, Ly, inject_Z_plus];
      reflexivity.
  - inversion Hes as [|e' es' [(ex & Ex & Hex) (ey & Ey & Hey)] Hes' Eq].
    subst e' es'.
    assert (B : (2 ^ 50 = 1125899906842624
                 /\ 2 ^ 51 = 2251799813685248
                 /\ 2 ^ 53 = 9007199254740992)%Z)
      by (repeat split; reflexivity).
    destruct B as (B50 & B51 & B53).
    assert (Hm : Binary64.handlePanMove e s
                 = Ok (setPan (Point.mk (inject_Z ((cx + lx) + (ex - lx)))
                                        (inject_Z ((cy + ly) + (ey - ly))))
                         (setLastMousePosRef (positionOf e) s))).
    { unfold Binary64.handlePanMove. rewrite Hp.
      rewrite (sub_int _ _ ex lx Ex Lx) by lia. cbn [bind].
      rewrite (sub_int _ _ ey ly Ey Ly) by lia. cbn [bind].
      rewrite (add_int _ _ (cx + lx) (ex - lx) Px (Qeq_refl _)) by lia.
      cbn [bind].
      rewrite (add_int _ _ (cy + ly) (ey - ly) Py (Qeq_refl _)) by lia.
      reflexivity. }
    cbn [Binary64.panMoves]. rewrite Hm. cbn [bind].
    match goal with
    | |- context [Binary64.panMoves es ?r] =>
        destruct (IH r cx cy ex ey Hp Hcx Hcy Hex Hey)
          as (s' & A & B & C & D & E & F)
    end.
    + exact Ex.
    + exact Ey.
    + cbn [pan setPan Point.x]. apply inject_Z_injective. lia.
    + cbn [pan setPan Point.y]. apply inject_Z_injective. lia.
    + exact Hes'.
    + exists s'. split; [exact A|]. split; [exact B|].
      split; [rewrite C; reflexivity|].
      split; [|split; assumption].
      rewrite D. cbn [last]. destruct es as [|e' es]; [reflexivity|].
      f_equal. apply last_nonempty.
Qed.

Lemma panMoves_still (es : list MouseEvent.t) (s : State) :
  isPanningRef s = false -> Binary64.panMoves es s = Ok s.
Proof.
  intros Hp. induction es as [|e es IH]; [reflexivity|].
  cbn [Binary64.panMoves]. unfold Binary64.handlePanMove. rewrite Hp.
  exact IH.
Qed.

(** X1 - A pan drag on whole pixels moves the content by the pointer's
    displacement.  With every operation rounded to binary64: when the pan
    and the pointer positions of the drag are whole numbers of pixels, at
    most [2 ^ 50] in size, a press with the hand tool or the middle button,
    any moves and the release are handled without failure, and the pan has
    grown by exactly the difference between the last pointer position and
    the pressed one, however the pointer got there, because no step of the
    sum rounds; the zoom is untouched and panning has ended.  A press with
    another tool and another button, in a room that is not panning, leaves
    the room as it was.  (At fractional positions each move rounds, and
    the pan depends on the path in its last places.) *)
Theorem pan_drag_displacement :
  forall (down : MouseEvent.t) (mid : list MouseEvent.t) (s : State),
    (drawingTool s = Thand \/ MouseEvent.button down = 1%Z ->
     wholePixel (Point.x (pan s)) -> wholePixel (Point.y (pan s)) ->
     onPixels down -> Forall onPixels mid ->
     exists s',
       Binary64.drag down mid s = Ok s'
       /\ Point.x (pan s')
          == Point.x (pan s)
             + (MouseEvent.clientX (last mid down) - MouseEvent.clientX down)
       /\ Point.y (pan s')
          == Point.y (pan s)
             + (MouseEvent.clientY (last mid down) - MouseEvent.clientY down)
       /\ zoom s' = zoom s
       /\ isPanningRef s' = false)
    /\ (drawingTool s <> Thand -> MouseEvent.button down <> 1%Z ->
        isPanningRef s = false ->
        Binary64.drag down mid s = Ok s).
Proof.
  intros down mid s. split.
  - intros H (px & Px & Hpx) (py & Py & Hpy)
           [(dx & Dx & Hdx) (dy & Dy & Hdy)] Hmid.
    assert (Hs : handlePanStart down s
                 = setLastMousePosRef (positionOf down)
                     (setIsPanningRef true s)).
    { unfold handlePanStart. destruct H as [H|H].
      - rewrite H. reflexivity.
      - rewrite H, orb_true_r. reflexivity. }
    assert (B : (2 ^ 50 = 1125899906842624
                 /\ 2 ^ 51 = 2251799813685248)%Z)
      by (split; reflexivity).
    destruct B as (B50 & B51).
    unfold Binary64.drag. rewrite Hs.
    destruct (panMoves_whole mid
                (setLastMousePosRef (positionOf down)
                   (setIsPanningRef true s))
                (px - dx) (py - dy) dx dy eq_refl)
      as (s' & A & _ & C & D & E & F);
      [lia | lia | lia | lia | exact Dx | exact Dy | | | exact Hmid |].
    + cbn [pan setLastMousePosRef setIsPanningRef]. rewrite Px.
      apply inject_Z_injective. lia.
    + cbn [pan setLastMousePosRef setIsPanningRef]. rewrite Py.
      apply inject_Z_injective. lia.
    + rewrite A. cbn [bind]. eexists. split; [reflexivity|].
      cbn [handlePanEnd pan zoom isPanningRef setIsPanningRef].
      cbn [lastMousePosRef setLastMousePosRef positionOf Point.x Point.y
           zoom setIsPanningRef] in C, D.
      rewrite D in E, F.
      assert (Hl : last mid (MouseEvent.mk (MouseEvent.clientX down)
                               (MouseEvent.clientY down) 0)
                   = last mid down
                   \/ mid = []).
      { destruct mid as [|e mid]; [right; reflexivity|left].
        apply last_nonempty. }
      unfold Z.sub in E, F. rewrite inject_Z_plus, inject_Z_opp in E, F.
      destruct Hl as [Hl | ->].
      * rewrite Hl in E, F. cbn [positionOf Point.x Point.y] in E, F.
        split; [rewrite E, Px, Dx; ring|].
        split; [rewrite F, Py, Dy; ring|].
        split; [exact C | reflexivity].
      * cbn [last positionOf Point.x Point.y MouseEvent.clientX
             MouseEvent.clientY] in *.
        split; [rewrite E, Px, Dx; ring|].
        split; [rewrite F, Py, Dy; ring|].
        split; [exact C | reflexivity].
  - intros Ht Hb Hp. unfold Binary64.drag.
    assert (Hs : handlePanStart down s = s).
    { unfold handlePanStart.
      destruct (Tool_eqb (drawingTool s) Thand) eqn:E1.
      - destruct (drawingTool s); try discriminate. congruence.
      - destruct (Z.eqb_spec (MouseEvent.button down) 1); [contradiction|].
        reflexivity. }
    rewrite Hs, (panMoves_still mid s Hp). cbn [bind]. f_equal.
    unfold handlePanEnd. destruct s; cbn in *. subst. reflexivity.
Qed.

Lemma pan_drag_displacement_witness :
  let down := MouseEvent.mk 10 10 0 in
  let mid := [MouseEvent.mk 300 (- 40) 0; MouseEvent.mk 25 5 0] in
  (let s := Sample.roomOf [Sample.blank] PENDING Thand in
   (drawingTool s = Thand \/ MouseEvent.button down = 1%Z)
   /\ wholePixel (Point.x (pan s)) /\ wholePixel (Point.y (pan s))
   /\ onPixels down /\ Forall onPixels mid
   /\ exists s',
        Binary64.drag down mid s = Ok s'
        /\ Point.x (pan s') == 0 + (25 - 10)
        /\ Point.y (pan s') == 0 + (5 - 10)
        /\ zoom s' = zoom s
        /\ isPanningRef s' = false)
  /\ (let s := Sample.roomOf [Sample.blank] PENDING Tpen in
      drawingTool s <> Thand
      /\ MouseEvent.button down <> 1%Z
      /\ isPanningRef s = false
      /\ Binary64.drag down mid s = Ok s).
Proof.
  cbv zeta.
  assert (W : forall n : Z, (Z.abs n <= 1000)%Z -> wholePixel (inject_Z n)).
  { intros n Hn. exists n. split; [reflexivity|].
    change (2 ^ 50)%Z with 1125899906842624%Z. lia. }
  assert (P0 : wholePixel 0) by (apply (W 0%Z); lia).
  assert (D : onPixels (MouseEvent.mk 10 10 0))
    by (split; apply (W 10%Z); lia).
  assert (M : Forall onPixels
                [MouseEvent.mk 300 (- 40) 0; MouseEvent.mk 25 5 0]).
  { repeat constructor.
    - apply (W 300%Z); lia.
    - apply (W (- 40)%Z); lia.
    - apply (W 25%Z); lia.
    - apply (W 5%Z); lia. }
  split.
  - split; [left; reflexivity|]. split; [exact P0|]. split; [exact P0|].
    split; [exact D|]. split; [exact M|].
    apply (pan_drag_displacement (MouseEvent.mk 10 10 0)
             [MouseEvent.mk 300 (- 40) 0; MouseEvent.mk 25 5 0]
             (Sample.roomOf [Sample.blank] PENDING Thand));
      [left; reflexivity | exact P0 | exact P0 | exact D | exact M].
  - split; [discriminate|]. split; [discriminate|].
    split; [reflexivity|].
    apply (pan_drag_displacement (MouseEvent.mk 10 10 0)
             [MouseEvent.mk 300 (- 40) 0; MouseEvent.mk 25 5 0]
             (Sample.roomOf [Sample.blank] PENDING Tpen));
      [discriminate | discriminate | reflexivity].
Defined.

(** At fractional positions a pan drag depends on the path: from pan
    (0, 0), a press at x = 0.1 and a move to x = 10.1 give the pan 10; the
    same drag by way of x = 0.3 gives 9.999999999999998. *)
Example pan_drag_path_dependent :
  let s := Sample.roomOf [Sample.blank] PENDING Thand in
  let at_x (x : Q) := MouseEvent.mk (Binary64.lit x) 0 0 in
  exists s1 s2,
    Binary64.drag (at_x (1 # 10)) [at_x (101 # 10)] s = Ok s1
    /\ Binary64.drag (at_x (1 # 10)) [at_x (3 # 10); at_x (101 # 10)] s
       = Ok s2
    /\ Point.x (pan s1) == 10
    /\ Point.x (pan s2) == 5629499534213119 # 562949953421312.
Proof.
  cbv zeta. do 2 eexists.
  split; [vm_compute; reflexivity|]. split; [vm_compute; reflexivity|].
  split; vm_compute; reflexivity.
Qed.

(** *** Wheel events at one position *)

(** X2 - Wheel zooming about a fixed pointer drifts by rounding errors
    only.  With every operation rounded to binary64: any number of wheel
    events at one screen position, with finite deltas, each finding the
    view on the screen, is handled without failure from a zoom in
    [0.1, 5] and keeps the zoom in range; and the content point under the
    pointer for the zoom and the pan after the last event is within 2e-6,
    in percent of the box, times the number of events, of the one at the
    start, both taken as the exact function of zoom and pan. *)
Theorem wheel_sequence_anchor :
  forall (viewport : DOMRect.t) (box : Layout.t) (cx cy : number)
         (deltas : list number) (s : State),
    zoomInRange (zoom s) ->
    1 <= Layout.width box ->
    1 <= Layout.height box ->
    wheelsOnScreen viewport cx cy deltas s ->
    exists s' pt pt',
      Binary64.wheels viewport cx cy deltas s = Ok s'
      /\ zoomInRange (zoom s')
      /\ Surface.contentPointUnder viewport box cx cy s = Ok pt
      /\ Surface.contentPointUnder viewport box cx cy s' = Ok pt'
      /\ Qabs (Point.x pt' - Point.x pt)
         <= inject_Z (Z.of_nat (List.length deltas)) * (1 # 500000)
      /\ Qabs (Point.y pt' - Point.y pt)
         <= inject_Z (Z.of_nat (List.length deltas)) * (1 # 500000).
Proof.
  intros viewport box cx cy deltas s Hr Hw Hh.
  assert (Hw0 : ~ Layout.width box == 0) by lra.
  assert (Hh0 : ~ Layout.height box == 0) by lra.
  revert s Hr. induction deltas as [|d ds IH]; intros s Hr Hon.
  - assert (Hz : ~ zoom s == 0) by (destruct Hr; lra).
    exists s. do 2 eexists. split; [reflexivity|]. split; [exact Hr|].
    split; [apply contentPointUnder_ok; assumption|].
    split; [apply contentPointUnder_ok; assumption|].
    cbn [Point.x Point.y List.length Z.of_nat].
    split;
      match goal with
      | |- Qabs (?a - ?a) <= _ =>
          setoid_replace (a - a) with 0 by ring; vm_compute; discriminate
      end.
  - destruct Hon as (Hs & Hd & Hnext).
    assert (Hz : ~ zoom s == 0) by (destruct Hr; lra).
    destruct (handleWheel_near viewport (WheelEvent.mk d cx cy) s Hr Hs Hd)
      as (s1 & E1 & Hr1 & Px & Py).
    cbn [WheelEvent.clientX WheelEvent.clientY] in Px, Py.
    assert (Hz1 : ~ zoom s1 == 0) by (destruct Hr1; lra).
    destruct (IH s1 Hr1 (Hnext s1 E1))
      as (s' & pt1 & pt' & E' & Hr' & C1 & C' & Dx & Dy).
    rewrite (contentPointUnder_ok viewport box cx cy s1 Hz1 Hw0 Hh0) in C1.
    injection C1 as <-. cbn [Point.x Point.y] in Dx, Dy.
    exists s'. do 2 eexists.
    split; [cbn [Binary64.wheels]; rewrite E1; exact E'|]. split; [exact Hr'|].
    split; [apply contentPointUnder_ok; assumption|].
    split; [exact C'|].
    cbn [Point.x Point.y].
    assert (N : inject_Z (Z.of_nat (List.length (d :: ds)))
                == inject_Z (Z.of_nat (List.length ds)) + 1).
    { cbn [List.length]. rewrite Nat2Z.inj_succ. unfold Z.succ.
      rewrite inject_Z_plus. reflexivity. }
    rewrite N.
    assert (Sx := content_shift cx (DOMRect.left viewport)
                    (Point.x (pan s)) (Point.x (pan s1)) (zoom s) (zoom s1)
                    (Layout.offsetX box) (Layout.width box) Hr Hr1 Hw Px).
    assert (Sy := content_shift cy (DOMRect.top viewport)
                    (Point.y (pan s)) (Point.y (pan s1)) (zoom s) (zoom s1)
                    (Layout.offsetY box) (Layout.height box) Hr Hr1 Hh Py).
    apply Qabs_bound in Dx, Dy, Sx, Sy.
    split; apply Qabs_bound; lra.
Qed.

Lemma wheel_sequence_anchor_witness :
  let s := Sample.roomOf [Sample.blank] PENDING Tpointer in
  let deltas := [-100; 250; 1000000] in
  zoomInRange (zoom s)
  /\ 1 <= Layout.width Sample.stage
  /\ 1 <= Layout.height Sample.stage
  /\ wheelsOnScreen Sample.viewport 400 300 deltas s
  /\ exists s' pt pt',
       Binary64.wheels Sample.viewport 400 300 deltas s = Ok s'
       /\ zoomInRange (zoom s')
       /\ Surface.contentPointUnder Sample.viewport Sample.stage 400 300 s
          = Ok pt
       /\ Surface.contentPointUnder Sample.viewport Sample.stage 400 300 s'
          = Ok pt'
       /\ Qabs (Point.x pt' - Point.x pt) <= 3 * (1 # 500000)
       /\ Qabs (Point.y pt' - Point.y pt) <= 3 * (1 # 500000).
Proof.
  cbv zeta.
  assert (R : zoomInRange
                (zoom (Sample.roomOf [Sample.blank] PENDING Tpointer)))
    by (split; vm_compute; discriminate).
  assert (W : 1 <= Layout.width Sample.stage) by (vm_compute; discriminate).
  assert (H : 1 <= Layout.height Sample.stage) by (vm_compute; discriminate).
  assert (O : wheelsOnScreen Sample.viewport 400 300 [-100; 250; 1000000]
                (Sample.roomOf [Sample.blank] PENDING Tpointer)).
  { cbn [wheelsOnScreen].
    split; [repeat split; vm_compute; discriminate|].
    split; [vm_compute; discriminate|].
    intros s1 E1. vm_compute in E1. injection E1 as <-.
    split; [repeat split; vm_compute; discriminate|].
    split; [vm_compute; discriminate|].
    intros s2 E2. vm_compute in E2. injection E2 as <-.
    split; [repeat split; vm_compute; discriminate|].
    split; [vm_compute; discriminate|].
    intros s3 _. exact I. }
  split; [exact R|]. split; [exact W|]. split; [exact H|]. split; [exact O|].
  exact (wheel_sequence_anchor Sample.viewport Sample.stage 400 300
           [-100; 250; 1000000]
           (Sample.roomOf [Sample.blank] PENDING Tpointer) R W H O).
Defined.

(** *** The zoom buttons *)

Lemma zoomInButton_at (s : State) (z : Q) :
  zoom s == z ->
  Binary64.zoomInButton s
  = (r <- Binary64.round (z + Binary64.lit (1 # 4)) ;;
     Ok (setZoom (Qmin 5 r) s)).
Proof.
  intros H. unfold Binary64.zoomInButton, Binary64.add.
  rewrite (round_eq (zoom s + Binary64.lit (1 # 4))
             (z + Binary64.lit (1 # 4))) by (rewrite H; reflexivity).
  reflexivity.
Qed.

Lemma zoomOutButton_at (s : State) (z : Q) :
  zoom s == z ->
  Binary64.zoomOutButton s
  = (r <- Binary64.round (z - Binary64.lit (1 # 4)) ;;
     Ok (setZoom (Qmax (Binary64.lit (1 # 10)) r) s)).
Proof.
  intros H. unfold Binary64.zoomOutButton, Binary64.sub.
  rewrite (round_eq (zoom s - Binary64.lit (1 # 4))
             (z - Binary64.lit (1 # 4))) by (rewrite H; reflexivity).
  reflexivity.
Qed.

(** Evaluates the rounding the goal applies to a closed number. *)
Ltac press_button :=
  match goal with
  | |- context [Binary64.round ?q] =>
      let r := fresh "r" in
      set (r := Binary64.round q); vm_compute in r; subst r; cbn [bind]
  end.

(** X3 - The zoom buttons undo each other on the quarter grid.  With
    every operation rounded to binary64: where the zoom is a multiple of
    0.25 between 0.25 and 5, as it is after button presses from the initial
    zoom 1, zoom-in leads to the next grid value, capped at 5, and
    zoom-out after it gives back the first zoom, or 4.75 from 5; from 0.5
    on, zoom-out leads to the grid value below, and zoom-in after it gives
    back the first zoom.  Neither button touches the pan. *)
Theorem zoom_buttons_round_trip :
  forall (k : Z) (s : State),
    onQuarterGrid k (zoom s) ->
    (exists s1 s2,
       Binary64.zoomInButton s = Ok s1
       /\ Binary64.zoomOutButton s1 = Ok s2
       /\ onQuarterGrid (Z.min (k + 1) 20) (zoom s1)
       /\ zoom s2 == Qmin (zoom s) (19 # 4)
       /\ pan s2 = pan s)
    /\ (2 <= k ->
        exists s1 s2,
          Binary64.zoomOutButton s = Ok s1
          /\ Binary64.zoomInButton s1 = Ok s2
          /\ onQuarterGrid (k - 1) (zoom s1)
          /\ zoom s2 == zoom s
          /\ pan s2 = pan s)%Z.
Proof.
  intros k s [Hk Hz].
  assert (Hc : In k [1; 2; 3; 4; 5; 6; 7; 8; 9; 10; 11; 12; 13; 14; 15; 16;
                     17; 18; 19; 20]%Z).
  { cbn [In]. lia. }
  split.
  - rewrite (zoomInButton_at s _ Hz).
    cbn [In] in Hc.
    repeat (destruct Hc as [<- | Hc];
      [press_button; do 2 eexists; split; [reflexivity|];
       rewrite (zoomOutButton_at _ _ (Qeq_refl _));
       cbn [zoom setZoom]; press_button;
       split; [reflexivity|]; cbn [zoom pan setZoom];
       split; [split; [vm_compute; split; discriminate
                      | vm_compute; reflexivity]|];
       split; [rewrite Hz; vm_compute; reflexivity | reflexivity] |]).
    contradiction.
  - intros Hk2. rewrite (zoomOutButton_at s _ Hz).
    cbn [In] in Hc.
    destruct Hc as [<- | Hc]; [lia|].
    repeat (destruct Hc as [<- | Hc];
      [press_button; do 2 eexists; split; [reflexivity|];
       rewrite (zoomInButton_at _ _ (Qeq_refl _));
       cbn [zoom setZoom]; press_button;
       split; [reflexivity|]; cbn [zoom pan setZoom];
       split; [split; [vm_compute; split; discriminate
                      | vm_compute; reflexivity]|];
       split; [rewrite Hz; vm_compute; reflexivity | reflexivity] |]).
    contradiction.
Qed.

Lemma zoom_buttons_round_trip_witness :
  let s := setZoom (3 # 4) (Sample.roomOf [Sample.blank] PENDING Tpointer) in
  onQuarterGrid 3 (zoom s)
  /\ (exists s1 s2,
        Binary64.zoomInButton s = Ok s1
        /\ Binary64.zoomOutButton s1 = Ok s2
        /\ zoom s1 == 1
        /\ zoom s2 == 3 # 4
        /\ pan s2 = pan s)
  /\ (exists s1 s2,
        Binary64.zoomOutButton s = Ok s1
        /\ Binary64.zoomInButton s1 = Ok s2
        /\ zoom s1 == 1 # 2
        /\ zoom s2 == 3 # 4
        /\ pan s2 = pan s).
Proof.
  cbv zeta.
  assert (G : onQuarterGrid 3
                (zoom (setZoom (3 # 4)
                         (Sample.roomOf [Sample.blank] PENDING Tpointer))))
    by (split; [lia | reflexivity]).
  split; [exact G|].
  destruct (zoom_buttons_round_trip 3
              (setZoom (3 # 4)
                 (Sample.roomOf [Sample.blank] PENDING Tpointer)) G)
    as [(s1 & s2 & A1 & A2 & [_ A3] & A4 & A5) B].
  split.
  - exists s1, s2. split; [exact A1|]. split; [exact A2|].
    split; [rewrite A3; reflexivity|].
    split; [rewrite A4; reflexivity | exact A5].
  - destruct B as (t1 & t2 & B1 & B2 & [_ B3] & B4 & B5); [lia|].
    exists t1, t2. split; [exact B1|]. split; [exact B2|].
    split; [rewrite B3; reflexivity|].
    split; [rewrite B4; reflexivity | exact B5].
Defined.

(** Off the quarter grid the buttons do not undo each other: from the
    binary64 value of 0.85, zoom-in gives 1.1 and zoom-out then gives
    0.8500000000000001, one unit in the last place above the start. *)
Example zoom_buttons_off_grid :
  let s := setZoom (Binary64.lit (85 # 100))
             (Sample.roomOf [Sample.blank] PENDING Tpointer) in
  exists s1 s2,
    Binary64.zoomInButton s = Ok s1
    /\ Binary64.zoomOutButton s1 = Ok s2
    /\ zoom s == 7656119366529843 # 9007199254740992
    /\ zoom s1 == 2476979795053773 # 2251799813685248
    /\ zoom s2 == 1914029841632461 # 2251799813685248
    /\ zoom s < zoom s2.
Proof.
  cbv zeta. do 2 eexists.
  split; [vm_compute; reflexivity|]. split; [vm_compute; reflexivity|].
  repeat split; vm_compute; reflexivity.
Qed.

(** ** The comment handlers *)

Lemma replaceVersion_twice (id : string) (u1 u2 : AssetVersion.t)
    (vs : list AssetVersion.t) :
  AssetVersion.id u1 = id ->
  replaceVersion id u2 (replaceVersion id u1 vs) = replaceVersion id u2 vs.
Proof.
  intros Hid. unfold replaceVersion. rewrite map_map.
  apply map_ext. intros v.
  destruct (String.eqb (AssetVersion.id v) id) eqn:E; [|rewrite E; reflexivity].
  rewrite Hid, String.eqb_refl. reflexivity.
Qed.

Lemma activeVersion_edited f av s :
  activeVersion s = Ok av ->
  activeVersion (edited f av s)
  = Ok (withComments av (f (AssetVersion.comments av))).
Proof. intros H. apply activeVersion_replace; [exact H | reflexivity]. Qed.

Lemma edited_edited f g av s :
  edited g (withComments av (f (AssetVersion.comments av))) (edited f av s)
  = edited (fun cs => g (f cs)) av s.
Proof.
  unfold edited. cbn [versions setVersions AssetVersion.id withComments
                      AssetVersion.comments].
  rewrite replaceVersion_twice by reflexivity.
  reflexivity.
Qed.

Lemma edited_same f g av s :
  f (AssetVersion.comments av) = g (AssetVersion.comments av) ->
  edited f av s = edited g av s.
Proof. intros H. unfold edited. rewrite H. reflexivity. Qed.

Lemma handleResolveComment_edited id s av :
  activeVersion s = Ok av ->
  handleResolveComment id s
  = Ok (edited (map (fun c => if hasId id c then resolve c else c)) av s).
Proof. intros H. unfold handleResolveComment. rewrite H. reflexivity. Qed.

Lemma handleDeleteComment_edited id s av :
  activeVersion s = Ok av ->
  handleDeleteComment id s
  = Ok (let s1 := edited (filter (fun c => negb (hasId id c))) av s in
        if isId (activeCommentId s) id then setActiveCommentId None s1
        else s1).
Proof. intros H. unfold handleDeleteComment. rewrite H. reflexivity. Qed.

Lemma openTasksCount_of s av :
  activeVersion s = Ok av ->
  openTasksCount s
  = Ok (List.length (filter isOpen (AssetVersion.comments av))).
Proof. intros H. unfold openTasksCount. rewrite H. reflexivity. Qed.

Lemma visibleComments_of p s av :
  activeVersion s = Ok av ->
  visibleComments p s
  = Ok (filter
          (fun c =>
             if UserRole_eqb (User.role (currentUser p)) APPROVER
                && flag (Comment.isInternal c)
             then false else true)
          (AssetVersion.comments av)).
Proof. intros H. unfold visibleComments. rewrite H. reflexivity. Qed.

Lemma filter_length_le {A : Type} (f : A -> bool) (l : list A) :
  (List.length (filter f l) <= List.length l)%nat.
Proof.
  induction l as [|a l IH]; cbn [filter List.length]; [lia|].
  destruct (f a); cbn [List.length]; lia.
Qed.

Lemma filter_and_length_le {A : Type} (f g : A -> bool) (l : list A) :
  (List.length (filter (fun a => f a && g a) l)
   <= List.length (filter f l))%nat.
Proof.
  induction l as [|a l IH]; cbn [filter List.length]; [lia|].
  destruct (f a); cbn [andb]; [destruct (g a)|]; cbn [List.length]; lia.
Qed.

Lemma open_after_resolve id (cs : list Comment.t) :
  filter isOpen (map (fun c => if hasId id c then resolve c else c) cs)
  = filter (fun c => isOpen c && negb (hasId id c)) cs.
Proof.
  induction cs as [|c cs IH]; [reflexivity|].
  cbn [map filter]. rewrite IH.
  destruct (hasId id c) eqn:E.
  - cbn [isOpen resolve Comment.resolved negb].
    rewrite andb_false_r. reflexivity.
  - rewrite andb_true_r. reflexivity.
Qed.

(** X4 - Done is idempotent and only ever lowers the open count.  In a
    room with a version, resolving the id [id] succeeds; the open-task
    count that gates approval becomes the number of unresolved comments
    of the active version with another id, so it never grows; no comment
    is added or removed; and resolving the same id again changes
    nothing. *)
Theorem resolve_idempotent :
  forall (id : string) (s : State),
    versions s <> [] ->
    exists s' av av',
      handleResolveComment id s = Ok s'
      /\ activeVersion s = Ok av
      /\ activeVersion s' = Ok av'
      /\ map Comment.id (AssetVersion.comments av')
         = map Comment.id (AssetVersion.comments av)
      /\ openTasksCount s'
         = Ok (List.length
                 (filter (fun c => isOpen c && negb (hasId id c))
                         (AssetVersion.comments av)))
      /\ (exists n n', openTasksCount s = Ok n /\ openTasksCount s' = Ok n'
                       /\ (n' <= n)%nat)
      /\ handleResolveComment id s' = Ok s'.
Proof.
  intros id s Hne.
  destruct (activeVersion_defined s Hne) as [av Hav].
  pose proof (activeVersion_edited
                (map (fun c => if hasId id c then resolve c else c))
                av s Hav) as Hav'.
  eexists. exists av. eexists.
  split; [apply handleResolveComment_edited; exact Hav|].
  split; [exact Hav|]. split; [exact Hav'|].
  cbn [AssetVersion.comments withComments].
  split.
  { rewrite map_map. apply map_ext. intros c.
    destruct (hasId id c); reflexivity. }
  split.
  { rewrite (openTasksCount_of _ _ Hav').
    cbn [AssetVersion.comments withComments].
    rewrite open_after_resolve. reflexivity. }
  split.
  { do 2 eexists. split; [apply openTasksCount_of; exact Hav|].
    split; [apply openTasksCount_of; exact Hav'|].
    cbn [AssetVersion.comments withComments].
    rewrite open_after_resolve.
    apply filter_and_length_le. }
  rewrite (handleResolveComment_edited id _ _ Hav'), edited_edited.
  f_equal. apply edited_same. rewrite map_map. apply map_ext. intros c.
  destruct (hasId id c) eqn:E; [|rewrite E; reflexivity].
  unfold hasId in *. cbn [resolve Comment.id]. rewrite E. reflexivity.
Qed.

Lemma resolve_idempotent_witness :
  let s := Sample.roomOf [Sample.reviewed] PENDING Tpointer in
  versions s <> []
  /\ exists s' av av',
       handleResolveComment "c1" s = Ok s'
       /\ activeVersion s = Ok av
       /\ activeVersion s' = Ok av'
       /\ map Comment.id (AssetVersion.comments av')
          = map Comment.id (AssetVersion.comments av)
       /\ openTasksCount s'
          = Ok (List.length
                  (filter (fun c => isOpen c && negb (hasId "c1" c))
                          (AssetVersion.comments av)))
       /\ (exists n n', openTasksCount s = Ok n /\ openTasksCount s' = Ok n'
                        /\ (n' <= n)%nat)
       /\ handleResolveComment "c1" s' = Ok s'.
Proof.
  cbv zeta.
  assert (H : versions (Sample.roomOf [Sample.reviewed] PENDING Tpointer)
              <> []) by discriminate.
  split; [exact H|].
  exact (resolve_idempotent "c1"
           (Sample.roomOf [Sample.reviewed] PENDING Tpointer) H).
Defined.

Lemma replaceVersion_ids (id : string) (upd : AssetVersion.t)
    (vs : list AssetVersion.t) :
  AssetVersion.id upd = id ->
  map AssetVersion.id (replaceVersion id upd vs) = map AssetVersion.id vs.
Proof.
  intros Hid. unfold replaceVersion. rewrite map_map. apply map_ext_in.
  intros v _. destruct (String.eqb (AssetVersion.id v) id) eqn:E;
    [|reflexivity].
  apply String.eqb_eq in E. congruence.
Qed.

Lemma edited_ids f av s :
  map AssetVersion.id (versions (edited f av s))
  = map AssetVersion.id (versions s).
Proof. apply replaceVersion_ids. reflexivity. Qed.

Lemma filter_comm {A : Type} (f g : A -> bool) (l : list A) :
  filter f (filter g l) = filter g (filter f l).
Proof.
  induction l as [|a l IH]; [reflexivity|]. cbn [filter].
  destruct (f a) eqn:Ef, (g a) eqn:Eg; cbn [filter];
    rewrite ?Ef, ?Eg, IH; reflexivity.
Qed.

Lemma filter_idem {A : Type} (f : A -> bool) (l : list A) :
  filter f (filter f l) = filter f l.
Proof.
  induction l as [|a l IH]; [reflexivity|]. cbn [filter].
  destruct (f a) eqn:Ef; cbn [filter]; rewrite ?Ef, IH; reflexivity.
Qed.

(** X5 - Deleting a comment.  In a room with a version, deleting the id
    [id] succeeds; what each user sees afterwards is what they saw before
    without the comments of that id, in the same order; the selection is
    dropped exactly when it pointed at [id]; the list of version ids is
    as before; and deleting the same id again changes nothing. *)
Theorem delete_comment_effect :
  forall (p : Props) (id : string) (s : State),
    versions s <> [] ->
    exists s' vis,
      handleDeleteComment id s = Ok s'
      /\ visibleComments p s = Ok vis
      /\ visibleComments p s'
         = Ok (filter (fun c => negb (hasId id c)) vis)
      /\ activeCommentId s'
         = (if isId (activeCommentId s) id then None else activeCommentId s)
      /\ map AssetVersion.id (versions s') = map AssetVersion.id (versions s)
      /\ handleDeleteComment id s' = Ok s'.
Proof.
  intros p id s Hne.
  destruct (activeVersion_defined s Hne) as [av Hav].
  set (keep := fun c : Comment.t => negb (hasId id c)).
  pose proof (activeVersion_edited (filter keep) av s Hav) as Hav1.
  set (s1 := edited (filter keep) av s) in *.
  set (s' := if isId (activeCommentId s) id then setActiveCommentId None s1
             else s1).
  assert (Hav' : activeVersion s'
                 = Ok (withComments av
                         (filter keep (AssetVersion.comments av)))).
  { rewrite <- Hav1. subst s'.
    destruct (isId (activeCommentId s) id); [|reflexivity].
    apply activeVersion_ext; reflexivity. }
  assert (Hsel : activeCommentId s'
                 = if isId (activeCommentId s) id then None
                   else activeCommentId s).
  { subst s'. destruct (isId (activeCommentId s) id); reflexivity. }
  exists s'. eexists.
  split; [apply handleDeleteComment_edited; exact Hav|].
  split; [apply visibleComments_of; exact Hav|].
  split.
  { rewrite (visibleComments_of p _ _ Hav').
    cbn [AssetVersion.comments withComments].
    rewrite filter_comm. reflexivity. }
  split; [exact Hsel|].
  split.
  { subst s'. destruct (isId (activeCommentId s) id);
      [cbn [versions setActiveCommentId]|]; apply edited_ids. }
  rewrite (handleDeleteComment_edited id _ _ Hav').
  assert (Hno : isId (activeCommentId s') id = false).
  { rewrite Hsel. destruct (isId (activeCommentId s) id) eqn:E;
      [reflexivity | exact E]. }
  cbv zeta. rewrite Hno. f_equal. fold keep.
  subst s'. destruct (isId (activeCommentId s) id).
  - change (setActiveCommentId None
              (edited (filter keep)
                 (withComments av (filter keep (AssetVersion.comments av)))
                 s1)
            = setActiveCommentId None s1).
    f_equal. subst s1. rewrite edited_edited. apply edited_same.
    apply filter_idem.
  - subst s1. rewrite edited_edited. apply edited_same. apply filter_idem.
Qed.

Lemma delete_comment_effect_witness :
  let s := setActiveCommentId (Some "c1"%string)
             (Sample.roomOf [Sample.reviewed] PENDING Tpointer) in
  versions s <> []
  /\ exists s' vis,
       handleDeleteComment "c1" s = Ok s'
       /\ visibleComments Sample.approver s = Ok vis
       /\ visibleComments Sample.approver s'
          = Ok (filter (fun c => negb (hasId "c1" c)) vis)
       /\ activeCommentId s'
          = (if isId (activeCommentId s) "c1" then None
             else activeCommentId s)
       /\ map AssetVersion.id (versions s')
          = map AssetVersion.id (versions s)
       /\ handleDeleteComment "c1" s' = Ok s'.
Proof.
  cbv zeta.
  assert (H : versions
                (setActiveCommentId (Some "c1"%string)
                   (Sample.roomOf [Sample.reviewed] PENDING Tpointer))
              <> []) by discriminate.
  split; [exact H|].
  exact (delete_comment_effect Sample.approver "c1"
           (setActiveCommentId (Some "c1"%string)
              (Sample.roomOf [Sample.reviewed] PENDING Tpointer)) H).
Defined.

(** X6 - A new comment blocks approval.  When the actor may comment, the
    comment [handleAddComment] adds is unresolved and public: the
    open-task count goes up by one, so an Approver cannot approve until it
    is resolved or deleted, and every user, whatever their role, sees the
    new comment first in their list. *)
Theorem add_comment_blocks_approval :
  forall (p : Props) (now : Z) (x y : number) (drawing : option Drawing.t)
         (s : State),
    mayComment p s ->
    exists s' n,
      handleAddComment p now x y drawing s = Ok s'
      /\ openTasksCount s = Ok n
      /\ openTasksCount s' = Ok (S n)
      /\ (forall q, User.role (currentUser q) = APPROVER ->
                    canApprove q s' = Ok false)
      /\ (forall q, exists vis,
            visibleComments q s = Ok vis
            /\ visibleComments q s'
               = Ok (newComment p now x y drawing s :: vis)).
Proof.
  intros p now x y drawing s Hm.
  destruct (handleAddComment_commits p now x y drawing s Hm)
    as (s' & E & (av & Hav & Hav' & _) & _ & _).
  exists s'. eexists.
  split; [exact E|].
  split; [apply openTasksCount_of; exact Hav|].
  assert (Hn : openTasksCount s'
               = Ok (S (List.length
                          (filter isOpen (AssetVersion.comments av))))).
  { rewrite (openTasksCount_of _ _ Hav'). reflexivity. }
  split; [exact Hn|]. split.
  - intros q Hq. unfold canApprove, isDecisionMaker.
    rewrite Hn, Hq. reflexivity.
  - intros q. eexists. split; [apply visibleComments_of; exact Hav|].
    rewrite (visibleComments_of q _ _ Hav').
    cbn [AssetVersion.comments withComments filter newComment
         Comment.isInternal flag].
    rewrite andb_false_r. reflexivity.
Qed.

Lemma add_comment_blocks_approval_witness :
  let s := Sample.roomOf [Sample.blank] PENDING Tpen in
  mayComment Sample.creator s
  /\ User.role (currentUser Sample.approver) = APPROVER
  /\ exists s' n,
       handleAddComment Sample.creator 1700 10 20 None s = Ok s'
       /\ openTasksCount s = Ok n
       /\ openTasksCount s' = Ok (S n)
       /\ canApprove Sample.approver s' = Ok false
       /\ (forall q, exists vis,
             visibleComments q s = Ok vis
             /\ visibleComments q s'
                = Ok (newComment Sample.creator 1700 10 20 None s :: vis)).
Proof.
  cbv zeta.
  assert (H : mayComment Sample.creator
                (Sample.roomOf [Sample.blank] PENDING Tpen))
    by (repeat split; discriminate).
  split; [exact H|]. split; [reflexivity|].
  destruct (add_comment_blocks_approval Sample.creator 1700 10 20 None
              (Sample.roomOf [Sample.blank] PENDING Tpen) H)
    as (s' & n & A & B & C & D & E).
  exists s', n. split; [exact A|]. split; [exact B|]. split; [exact C|].
  split; [exact (D Sample.approver eq_refl) | exact E].
Defined.

(** X7 - The open count of the sidebar and the count that gates approval.
    The sidebar counts the unresolved comments among those the user sees;
    the gate counts the unresolved comments of the active version.  For
    every role but Approver the two agree.  For an Approver the gate's
    count is the sidebar's plus the number of unresolved internal
    comments, which the Approver is not shown: an Approver who may approve
    sees an open count of zero, but not the other way round. *)
Theorem open_count_shown_and_gate :
  forall (p : Props) (s : State) (av : AssetVersion.t),
    activeVersion s = Ok av ->
    exists vis n,
      visibleComments p s = Ok vis
      /\ openTasksCount s = Ok n
      /\ n = (CommentThread.openCount vis
              + (if UserRole_eqb (User.role (currentUser p)) APPROVER
                 then List.length
                        (filter (fun c => isOpen c
                                          && flag (Comment.isInternal c))
                                (AssetVersion.comments av))
                 else 0))%nat
      /\ (User.role (currentUser p) = APPROVER ->
          canApprove p s = Ok true -> CommentThread.openCount vis = 0%nat).
Proof.
  intros p s av Hav. do 2 eexists.
  split; [apply visibleComments_of; exact Hav|].
  split; [apply openTasksCount_of; exact Hav|].
  assert (Hsum : List.length (filter isOpen (AssetVersion.comments av))
                 = (CommentThread.openCount
                      (filter
                         (fun c =>
                            if UserRole_eqb (User.role (currentUser p))
                                 APPROVER
                               && flag (Comment.isInternal c)
                            then false else true)
                         (AssetVersion.comments av))
                    + (if UserRole_eqb (User.role (currentUser p)) APPROVER
                       then List.length
                              (filter (fun c => isOpen c
                                                && flag (Comment.isInternal c))
                                      (AssetVersion.comments av))
                       else 0))%nat).
  { unfold CommentThread.openCount.
    induction (AssetVersion.comments av) as [|c cs IH]; cbn [filter].
    - destruct (UserRole_eqb _ _); reflexivity.
    - destruct (UserRole_eqb (User.role (currentUser p)) APPROVER) eqn:Er;
        cbn [andb] in *.
      + destruct (flag (Comment.isInternal c)); cbn [filter];
          fold (isOpen c); destruct (isOpen c); cbn [andb List.length];
          lia.
      + cbn [filter]. fold (isOpen c).
        destruct (isOpen c); cbn [List.length]; lia. }
  split; [exact Hsum|].
  intros Hr Hc. unfold canApprove, isDecisionMaker in Hc.
  rewrite (openTasksCount_of _ _ Hav) in Hc. cbn [bind] in Hc.
  rewrite Hr in Hc. cbn [UserRole_eqb orb andb] in Hc.
  rewrite orb_false_r in Hc.
  injection Hc as Hc. apply Nat.eqb_eq in Hc. lia.
Qed.

Lemma open_count_shown_and_gate_witness :
  let done := AssetVersion.mk "v1" 1 "one.png" 1000
                [Sample.note "c3" true false; Sample.note "c4" true true] in
  let s := Sample.roomOf [done] PENDING Tpointer in
  activeVersion s = Ok done
  /\ User.role (currentUser Sample.approver) = APPROVER
  /\ canApprove Sample.approver s = Ok true
  /\ exists vis n,
       visibleComments Sample.approver s = Ok vis
       /\ openTasksCount s = Ok n
       /\ n = (CommentThread.openCount vis
               + List.length
                   (filter (fun c => isOpen c && flag (Comment.isInternal c))
                           (AssetVersion.comments done)))%nat
       /\ CommentThread.openCount vis = 0%nat.
Proof.
  cbv zeta. split; [reflexivity|]. split; [reflexivity|].
  split; [reflexivity|].
  destruct (open_count_shown_and_gate Sample.approver
              (Sample.roomOf
                 [AssetVersion.mk "v1" 1 "one.png" 1000
                    [Sample.note "c3" true false;
                     Sample.note "c4" true true]]
                 PENDING Tpointer)
              _ eq_refl) as (vis & n & A & B & C & D).
  exists vis, n. split; [exact A|]. split; [exact B|]. split; [exact C|].
  exact (D eq_refl eq_refl).
Defined.

(** X8 - A new version starts the review afresh.  Submitting the upload
    form over a non-empty version list makes the new, empty version the
    active one: nobody has an open task or a comment to see, every
    decision maker may approve at once, the version that was first is
    offered for comparison, the modal, the compare mode and the selection
    are cleared, and, the status being Pending again, the download is
    left to those who may upload.  When the active id changes, the view
    is reset to zoom 1 and pan (0, 0). *)
Theorem upload_starts_clean :
  forall (p : Props) (now : Z) (s : State) (v0 : AssetVersion.t)
         (vs : list AssetVersion.t),
    versions s = v0 :: vs ->
    isUploadModalOpen s = true ->
    exists s' nv,
      Session.submitUpload p now s = Ok s'
      /\ versions s' = nv :: versions s
      /\ AssetVersion.id nv = String.append "v_" (showZ now)
      /\ activeVersion s' = Ok nv
      /\ openTasksCount s' = Ok 0%nat
      /\ (forall q, visibleComments q s' = Ok []
                    /\ canApprove q s' = Ok (isDecisionMaker q)
                    /\ canDownload q s' = canUpload q)
      /\ compareVersionId s' = Some (AssetVersion.id v0)
      /\ isCompareMode s' = false
      /\ isUploadModalOpen s' = false
      /\ activeCommentId s' = None
      /\ (activeVersionId s <> AssetVersion.id nv ->
          zoom s' = 1 /\ pan s' = Point.mk 0 0).
Proof.
  intros p now s v0 vs Ev Hopen.
  unfold Session.submitUpload, handleUploadNewVersion.
  rewrite Hopen, Ev. cbn [bind].
  set (nv := AssetVersion.mk (String.append "v_" (showZ now)) _ _ _ []).
  set (s1 := setCompareVersionId _ _).
  assert (Hav1 : activeVersion s1 = Ok nv).
  { unfold activeVersion. subst s1.
    cbn [activeVersionId versions setCompareVersionId setCurrentAssetStatus
         setActiveCommentId setIsCompareMode setIsUploadModalOpen
         setActiveVersionId setVersions find].
    subst nv. cbn [AssetVersion.id]. rewrite String.eqb_refl. reflexivity. }
  assert (Hav : activeVersion (versionChangeEffect s s1) = Ok nv).
  { rewrite <- Hav1. unfold versionChangeEffect.
    destruct (String.eqb _ _); [reflexivity|].
    apply activeVersion_ext; reflexivity. }
  assert (Hdata : forall f : State -> State,
             (f = (fun r => r) \/ f = handleResetZoom) ->
             versions (f s1) = nv :: v0 :: vs
             /\ currentAssetStatus (f s1) = PENDING
             /\ compareVersionId (f s1) = Some (AssetVersion.id v0)
             /\ isCompareMode (f s1) = false
             /\ isUploadModalOpen (f s1) = false
             /\ activeCommentId (f s1) = None).
  { intros f [-> | ->]; subst s1; repeat split; reflexivity. }
  assert (Hsame : versions (versionChangeEffect s s1) = nv :: v0 :: vs
             /\ currentAssetStatus (versionChangeEffect s s1) = PENDING
             /\ compareVersionId (versionChangeEffect s s1)
                = Some (AssetVersion.id v0)
             /\ isCompareMode (versionChangeEffect s s1) = false
             /\ isUploadModalOpen (versionChangeEffect s s1) = false
             /\ activeCommentId (versionChangeEffect s s1) = None).
  { unfold versionChangeEffect. destruct (String.eqb _ _).
    - apply (Hdata (fun r => r)). left. reflexivity.
    - apply (Hdata handleResetZoom). right. reflexivity. }
  destruct Hsame as (Hv & Hst & Hcv & Hcm & Hup & Hsel).
  exists (versionChangeEffect s s1), nv.
  split; [reflexivity|]. split; [exact Hv|].
  split; [reflexivity|]. split; [exact Hav|].
  assert (Hn : openTasksCount (versionChangeEffect s s1) = Ok 0%nat)
    by (rewrite (openTasksCount_of _ _ Hav); reflexivity).
  split; [exact Hn|]. split.
  { intros q. split; [rewrite (visibleComments_of q _ _ Hav); reflexivity|].
    split.
    - unfold canApprove. rewrite Hn. cbn [bind Nat.eqb orb].
      rewrite andb_true_r. reflexivity.
    - unfold canDownload, canUpload. rewrite Hst.
      destruct (User.role (currentUser q)); reflexivity. }
  split; [exact Hcv|]. split; [exact Hcm|]. split; [exact Hup|].
  split; [exact Hsel|].
  intros Hne. unfold versionChangeEffect.
  destruct (String.eqb (activeVersionId s1) (activeVersionId s)) eqn:E.
  - apply String.eqb_eq in E. exfalso. apply Hne. rewrite <- E. reflexivity.
  - split; reflexivity.
Qed.

Lemma upload_starts_clean_witness :
  let s := setIsUploadModalOpen true
             (setZoom 3 (Sample.roomOf [Sample.reviewed] APPROVED Tpointer)) in
  versions s = [Sample.reviewed]
  /\ isUploadModalOpen s = true
  /\ exists s' nv,
       Session.submitUpload Sample.creator 1700 s = Ok s'
       /\ versions s' = nv :: versions s
       /\ AssetVersion.id nv = String.append "v_" (showZ 1700)
       /\ activeVersion s' = Ok nv
       /\ openTasksCount s' = Ok 0%nat
       /\ (forall q, visibleComments q s' = Ok []
                     /\ canApprove q s' = Ok (isDecisionMaker q)
                     /\ canDownload q s' = canUpload q)
       /\ compareVersionId s' = Some (AssetVersion.id Sample.reviewed)
       /\ isCompareMode s' = false
       /\ isUploadModalOpen s' = false
       /\ activeCommentId s' = None
       /\ activeVersionId s <> AssetVersion.id nv
       /\ zoom s' = 1 /\ pan s' = Point.mk 0 0.
Proof.
  cbv zeta. split; [reflexivity|]. split; [reflexivity|].
  destruct (upload_starts_clean Sample.creator 1700
              (setIsUploadModalOpen true
                 (setZoom 3
                    (Sample.roomOf [Sample.reviewed] APPROVED Tpointer)))
              Sample.reviewed [] eq_refl eq_refl)
    as (s' & nv & A & B & C & D & E & F & G & H & I & J & K).
  assert (N : activeVersionId
                (setIsUploadModalOpen true
                   (setZoom 3
                      (Sample.roomOf [Sample.reviewed] APPROVED Tpointer)))
              <> AssetVersion.id nv)
    by (rewrite C; vm_compute; discriminate).
  exists s', nv. split; [exact A|]. split; [exact B|]. split; [exact C|].
  split; [exact D|]. split; [exact E|]. split; [exact F|].
  split; [exact G|]. split; [exact H|]. split; [exact I|].
  split; [exact J|]. split; [exact N | exact (K N)].
Defined.

Lemma onReply_initial p now id text isInternal s av c :
  activeVersion s = Ok av ->
  find (hasId id) (AssetVersion.comments av) = Some c ->
  Comment.text c = EmptyString ->
  onReply p now id text isInternal s
  = Ok (edited (map (fun c => if hasId id c
                              then withText text isInternal c else c))
               av s).
Proof.
  intros Hav Hf Ht. unfold onReply. rewrite Hav. cbn [bind].
  change (fun c0 => String.eqb (Comment.id c0) id) with (hasId id).
  rewrite Hf, Ht. cbn [String.eqb].
  unfold handleInitialComment. rewrite Hav. reflexivity.
Qed.

Lemma onReply_reply p now id text isInternal s av c :
  activeVersion s = Ok av ->
  find (hasId id) (AssetVersion.comments av) = Some c ->
  Comment.text c <> EmptyString ->
  onReply p now id text isInternal s
  = Ok (edited (map (fun c => if hasId id c
                              then withReply (reply p now text isInternal) c
                              else c))
               av s).
Proof.
  intros Hav Hf Ht. unfold onReply. rewrite Hav. cbn [bind].
  change (fun c0 => String.eqb (Comment.id c0) id) with (hasId id).
  rewrite Hf.
  destruct (String.eqb_spec (Comment.text c) EmptyString);
    [contradiction|].
  unfold handleReplyToComment. rewrite Hav. reflexivity.
Qed.

(** X9 - The first text sent to a new comment becomes its text, the next
    one a reply.  After an actor who may comment placed a comment, the
    first [onReply] for its id with a non-empty text [t1] makes [t1] the
    text of the comment and sets its internal flag, leaving it without
    replies; a second [onReply] leaves the text and the flag and appends
    one reply carrying the second text and flag.  The comment stays at the
    head of the active version, unresolved, at its anchor. *)
Theorem first_text_then_reply :
  forall (p : Props) (now : Z) (x y : number) (drawing : option Drawing.t)
         (s : State) (now1 now2 : Z) (t1 t2 : string) (i1 i2 : bool),
    mayComment p s ->
    t1 <> EmptyString ->
    let id := String.append "c_" (showZ now) in
    exists s1 s2 s3 av2 av3 c2 c3 rest2 rest3,
      handleAddComment p now x y drawing s = Ok s1
      /\ onReply p now1 id t1 i1 s1 = Ok s2
      /\ onReply p now2 id t2 i2 s2 = Ok s3
      /\ activeVersion s2 = Ok av2
      /\ AssetVersion.comments av2 = c2 :: rest2
      /\ c2 = withText t1 i1 (newComment p now x y drawing s)
      /\ activeVersion s3 = Ok av3
      /\ AssetVersion.comments av3 = c3 :: rest3
      /\ c3 = withReply (reply p now2 t2 i2) c2
      /\ Comment.text c3 = t1
      /\ Comment.isInternal c3 = Some i1
      /\ Comment.replies c3 = Some [reply p now2 t2 i2]
      /\ Comment.resolved c3 = false
      /\ Comment.x c3 = Some x /\ Comment.y c3 = Some y.
Proof.
  intros p now x y drawing s now1 now2 t1 t2 i1 i2 Hm Ht1 id.
  destruct (handleAddComment_commits p now x y drawing s Hm)
    as (s1 & E1 & (av & Hav & Hav1 & _) & _ & _).
  set (c := newComment p now x y drawing s) in *.
  assert (Hid : hasId id c = true) by apply String.eqb_refl.
  set (f1 := map (fun c => if hasId id c then withText t1 i1 c else c)).
  set (av1 := withComments av (c :: AssetVersion.comments av)) in *.
  assert (E2 : onReply p now1 id t1 i1 s1 = Ok (edited f1 av1 s1)).
  { apply (onReply_initial p now1 id t1 i1 s1 av1 c Hav1);
      [|reflexivity].
    cbn [av1 AssetVersion.comments withComments find]. rewrite Hid.
    reflexivity. }
  pose proof (activeVersion_edited f1 av1 s1 Hav1) as Hav2.
  set (s2 := edited f1 av1 s1) in *.
  set (av2 := withComments av1 (f1 (AssetVersion.comments av1))) in *.
  set (c2 := withText t1 i1 c).
  assert (Hc2 : AssetVersion.comments av2
                = c2 :: f1 (AssetVersion.comments av)).
  { cbn [av2 av1 AssetVersion.comments withComments f1 map].
    rewrite Hid. reflexivity. }
  assert (Hid2 : hasId id c2 = true) by apply String.eqb_refl.
  set (f2 := map (fun c => if hasId id c
                           then withReply (reply p now2 t2 i2) c else c)).
  assert (E3 : onReply p now2 id t2 i2 s2 = Ok (edited f2 av2 s2)).
  { apply (onReply_reply p now2 id t2 i2 s2 av2 c2 Hav2).
    - rewrite Hc2. cbn [find]. rewrite Hid2. reflexivity.
    - exact Ht1. }
  pose proof (activeVersion_edited f2 av2 s2 Hav2) as Hav3.
  exists s1, s2, (edited f2 av2 s2), av2.
  eexists. exists c2. do 3 eexists.
  split; [exact E1|]. split; [exact E2|]. split; [exact E3|].
  split; [exact Hav2|]. split; [exact Hc2|]. split; [reflexivity|].
  split; [exact Hav3|]. split.
  { cbn [AssetVersion.comments withComments]. rewrite Hc2.
    cbn [f2 map]. rewrite Hid2. reflexivity. }
  repeat split; reflexivity.
Qed.

Lemma first_text_then_reply_witness :
  let s := Sample.roomOf [Sample.blank] PENDING Tpointer in
  let p := Sample.creator in
  let id := String.append "c_" (showZ 1700) in
  mayComment p s
  /\ "crop tighter"%string <> EmptyString
  /\ exists s1 s2 s3 av2 av3 c2 c3 rest2 rest3,
       handleAddComment p 1700 10 20 None s = Ok s1
       /\ onReply p 1800 id "crop tighter" true s1 = Ok s2
       /\ onReply p 1900 id "done" false s2 = Ok s3
       /\ activeVersion s2 = Ok av2
       /\ AssetVersion.comments av2 = c2 :: rest2
       /\ c2 = withText "crop tighter" true (newComment p 1700 10 20 None s)
       /\ activeVersion s3 = Ok av3
       /\ AssetVersion.comments av3 = c3 :: rest3
       /\ c3 = withReply (reply p 1900 "done" false) c2
       /\ Comment.text c3 = "crop tighter"%string
       /\ Comment.isInternal c3 = Some true
       /\ Comment.replies c3 = Some [reply p 1900 "done" false]
       /\ Comment.resolved c3 = false
       /\ Comment.x c3 = Some 10 /\ Comment.y c3 = Some 20.
Proof.
  cbv zeta.
  assert (H : mayComment Sample.creator
                (Sample.roomOf [Sample.blank] PENDING Tpointer))
    by (repeat split; discriminate).
  assert (T : "crop tighter"%string <> EmptyString) by discriminate.
  split; [exact H|]. split; [exact T|].
  exact (first_text_then_reply Sample.creator 1700 10 20 None
           (Sample.roomOf [Sample.blank] PENDING Tpointer) 1800 1900
           "crop tighter" "done" true false H T).
Defined.

Lemma setVersions_same (s : State) : setVersions (versions s) s = s.
Proof. destruct s; reflexivity. Qed.

Lemma find_none_map_id (a : string) (g : AssetVersion.t -> AssetVersion.t)
    (vs : list AssetVersion.t) :
  find (fun v => String.eqb (AssetVersion.id v) a) vs = None ->
  map (fun v => if negb (String.eqb (AssetVersion.id v) a) then v else g v)
      vs
  = vs.
Proof.
  induction vs as [|v vs IH]; [reflexivity|]. cbn [find map].
  destruct (String.eqb (AssetVersion.id v) a); [discriminate|].
  intros H. rewrite (IH H). reflexivity.
Qed.

Lemma find_some_map_id (a : string) (g : AssetVersion.t -> AssetVersion.t)
    (vs : list AssetVersion.t) (v : AssetVersion.t) :
  (forall w, AssetVersion.id (g w) = AssetVersion.id w) ->
  find (fun v => String.eqb (AssetVersion.id v) a) vs = Some v ->
  find (fun v => String.eqb (AssetVersion.id v) a)
       (map (fun v => if negb (String.eqb (AssetVersion.id v) a)
                      then v else g v) vs)
  = Some (g v).
Proof.
  intros Hg. induction vs as [|w vs IH]; [discriminate|]. cbn [find map].
  destruct (String.eqb (AssetVersion.id w) a) eqn:E; cbn [negb].
  - intros [= ->]. rewrite Hg, E. reflexivity.
  - rewrite E. exact IH.
Qed.

Lemma activeVersion_moved id x y s av :
  activeVersion s = Ok av ->
  (AssetVersion.id av = activeVersionId s
   /\ activeVersion (handleUpdateCommentPosition id x y s)
      = Ok (withComments av
              (map (moveComment id x y) (AssetVersion.comments av))))
  \/ (AssetVersion.id av <> activeVersionId s
      /\ handleUpdateCommentPosition id x y s = s).
Proof.
  unfold activeVersion, handleUpdateCommentPosition.
  cbn [activeVersionId versions setVersions].
  destruct (find _ (versions s)) as [v|] eqn:Hf.
  - intros [= ->]. left. split.
    + apply find_some in Hf. apply String.eqb_eq. apply Hf.
    + rewrite (find_some_map_id (activeVersionId s)
                 (fun v => withComments v
                             (map (moveComment id x y)
                                  (AssetVersion.comments v)))
                 _ _ (fun w => eq_refl) Hf).
      reflexivity.
  - intros Hv. right.
    rewrite (find_none_map_id _ _ _ Hf), setVersions_same.
    split; [|reflexivity].
    destruct (versions s) as [|v0 vs]; [discriminate|].
    injection Hv as ->. cbn [find] in Hf.
    destruct (String.eqb (AssetVersion.id av) (activeVersionId s)) eqn:E;
      [discriminate|].
    apply String.eqb_neq. exact E.
Qed.

Lemma filter_map_preserved {A : Type} (f : A -> bool) (g : A -> A)
    (l : list A) :
  (forall a, f (g a) = f a) -> filter f (map g l) = map g (filter f l).
Proof.
  intros H. induction l as [|a l IH]; [reflexivity|]. cbn [map filter].
  rewrite H. destruct (f a); cbn [map]; rewrite IH; reflexivity.
Qed.

Lemma moveComment_kept id x y c :
  Comment.id (moveComment id x y c) = Comment.id c
  /\ Comment.resolved (moveComment id x y c) = Comment.resolved c
  /\ Comment.isInternal (moveComment id x y c) = Comment.isInternal c
  /\ Comment.text (moveComment id x y c) = Comment.text c
  /\ Comment.replies (moveComment id x y c) = Comment.replies c.
Proof.
  unfold moveComment. destruct (negb _); repeat split; reflexivity.
Qed.

(** X10 - Moving a pin does not touch the review state.  The move keeps
    the open-task count, every user's right to approve and, for every
    user, the ids, resolved flags and texts of the comments they see, in
    order.  It is keyed on the active version id itself: when the room
    shows its first version because no version carries that id, the move
    changes nothing at all. *)
Theorem move_keeps_review_state :
  forall (p : Props) (id : string) (x y : number) (s : State)
         (av : AssetVersion.t),
    activeVersion s = Ok av ->
    let s' := handleUpdateCommentPosition id x y s in
    openTasksCount s' = openTasksCount s
    /\ canApprove p s' = canApprove p s
    /\ (exists vis vis',
          visibleComments p s = Ok vis
          /\ visibleComments p s' = Ok vis'
          /\ map Comment.id vis' = map Comment.id vis
          /\ map Comment.resolved vis' = map Comment.resolved vis
          /\ map Comment.text vis' = map Comment.text vis)
    /\ (AssetVersion.id av <> activeVersionId s -> s' = s).
Proof.
  intros p id x y s av Hav s'. subst s'.
  destruct (activeVersion_moved id x y s av Hav) as [[Hid Hav'] | [Hne E]].
  - assert (Hn : openTasksCount (handleUpdateCommentPosition id x y s)
                 = openTasksCount s).
    { rewrite (openTasksCount_of _ _ Hav), (openTasksCount_of _ _ Hav').
      cbn [AssetVersion.comments withComments].
      rewrite filter_map_preserved, length_map; [reflexivity|].
      intros c. unfold isOpen.
      destruct (moveComment_kept id x y c) as (_ & -> & _). reflexivity. }
    split; [exact Hn|].
    split; [unfold canApprove; rewrite Hn; reflexivity|].
    split; [|intros Hne; contradiction].
    do 2 eexists.
    split; [apply visibleComments_of; exact Hav|].
    split; [apply visibleComments_of; exact Hav'|].
    cbn [AssetVersion.comments withComments].
    rewrite filter_map_preserved.
    + rewrite !map_map.
      repeat split; apply map_ext; intros c; apply moveComment_kept.
    + intros c. destruct (moveComment_kept id x y c) as (_ & _ & -> & _).
      reflexivity.
  - rewrite E. split; [reflexivity|]. split; [reflexivity|].
    split; [|intros _; reflexivity].
    do 2 eexists.
    split; [apply visibleComments_of; exact Hav|].
    split; [apply visibleComments_of; exact Hav|].
    repeat split; reflexivity.
Qed.

Lemma move_keeps_review_state_witness :
  let s := setActiveVersionId "gone"
             (Sample.roomOf [Sample.reviewed] PENDING Tpointer) in
  let s' := handleUpdateCommentPosition "c1" 50 60 s in
  activeVersion s = Ok Sample.reviewed
  /\ openTasksCount s' = openTasksCount s
  /\ canApprove Sample.approver s' = canApprove Sample.approver s
  /\ (exists vis vis',
        visibleComments Sample.approver s = Ok vis
        /\ visibleComments Sample.approver s' = Ok vis'
        /\ map Comment.id vis' = map Comment.id vis
        /\ map Comment.resolved vis' = map Comment.resolved vis
        /\ map Comment.text vis' = map Comment.text vis)
  /\ AssetVersion.id Sample.reviewed <> activeVersionId s
  /\ s' = s.
Proof.
  cbv zeta.
  destruct (move_keeps_review_state Sample.approver "c1" 50 60
              (setActiveVersionId "gone"
                 (Sample.roomOf [Sample.reviewed] PENDING Tpointer))
              Sample.reviewed eq_refl) as (A & B & C & D).
  assert (N : AssetVersion.id Sample.reviewed
              <> activeVersionId
                   (setActiveVersionId "gone"
                      (Sample.roomOf [Sample.reviewed] PENDING Tpointer)))
    by discriminate.
  split; [reflexivity|]. split; [exact A|]. split; [exact B|].
  split; [exact C|]. split; [exact N|]. exact (D N).
Defined.

(** X11 - Toggling the comparison.  In a room with a version and compare
    mode off, the toggle succeeds and turns the mode on with a version to
    compare against that is in the list, so that the comparison view has
    both its versions; the version chosen carries another id than the
    active one whenever some version does.  A second toggle turns the
    mode off and forgets the choice; neither toggle touches the versions
    or the active id. *)
Theorem toggle_compare_round_trip :
  forall s : State,
    versions s <> [] ->
    isCompareMode s = false ->
    exists s1 s2 v w,
      handleToggleCompare s = Ok s1
      /\ isCompareMode s1 = true
      /\ In v (versions s)
      /\ compareVersionId s1 = Some (AssetVersion.id v)
      /\ compareVersion s1 = Some w
      /\ AssetVersion.id w = AssetVersion.id v
      /\ ((exists u, In u (versions s)
                     /\ AssetVersion.id u <> activeVersionId s) ->
          AssetVersion.id v <> activeVersionId s)
      /\ handleToggleCompare s1 = Ok s2
      /\ isCompareMode s2 = false
      /\ compareVersionId s2 = None
      /\ compareVersion s2 = None
      /\ versions s2 = versions s
      /\ activeVersionId s2 = activeVersionId s.
Proof.
  intros s Hne Hcm.
  set (differs := fun v => negb (String.eqb (AssetVersion.id v)
                                            (activeVersionId s))).
  assert (Hother : exists v,
             (match find differs (versions s) with
              | Some v => Ok v
              | None => match versions s with
                        | v :: _ => Ok v
                        | [] => Fail TypeError
                        end
              end) = Ok v
             /\ In v (versions s)
             /\ ((exists u, In u (versions s)
                            /\ AssetVersion.id u <> activeVersionId s) ->
                 AssetVersion.id v <> activeVersionId s)).
  { destruct (find differs (versions s)) as [v|] eqn:Hf.
    - exists v. apply find_some in Hf. destruct Hf as [Hin Hd].
      split; [reflexivity|]. split; [exact Hin|]. intros _.
      apply String.eqb_neq. unfold differs in Hd.
      destruct (String.eqb _ _); [discriminate | reflexivity].
    - destruct (versions s) as [|v0 vs] eqn:Ev; [contradiction|].
      exists v0. split; [reflexivity|]. split; [left; reflexivity|].
      intros (u & Hin & Hu). exfalso.
      pose proof (find_none _ _ Hf u Hin) as Hd. unfold differs in Hd.
      apply String.eqb_neq in Hu. rewrite Hu in Hd. discriminate. }
  destruct Hother as (v & Ev & Hin & Hdiff).
  set (s1 := setIsCompareMode true
               (setCompareVersionId (Some (AssetVersion.id v)) s)).
  assert (E1 : handleToggleCompare s = Ok s1).
  { unfold handleToggleCompare. rewrite Hcm. cbn [negb].
    fold differs. rewrite Ev. reflexivity. }
  assert (Hw : exists w, compareVersion s1 = Some w
                         /\ AssetVersion.id w = AssetVersion.id v).
  { unfold compareVersion.
    cbn [s1 compareVersionId versions setIsCompareMode setCompareVersionId
         isId].
    clear Ev E1.
    match goal with
    | |- context [find ?f (versions s)] =>
        destruct (find f (versions s)) as [w|] eqn:Hf
    end.
    - exists w. split; [reflexivity|]. apply find_some in Hf.
      destruct Hf as [_ Hf]. apply String.eqb_eq in Hf. symmetry. exact Hf.
    - pose proof (find_none _ _ Hf v Hin) as Hd. cbn beta in Hd.
      rewrite String.eqb_refl in Hd. discriminate. }
  destruct Hw as (w & Hw & Hwid).
  exists s1. eexists. exists v, w.
  split; [exact E1|]. split; [reflexivity|]. split; [exact Hin|].
  split; [reflexivity|]. split; [exact Hw|]. split; [exact Hwid|].
  split; [exact Hdiff|].
  split; [unfold handleToggleCompare; reflexivity|].
  split; [reflexivity|]. split; [reflexivity|].
  split.
  { unfold compareVersion.
    cbn [compareVersionId setCompareVersionId setIsCompareMode isId versions].
    match goal with
    | |- find _ ?l = None => generalize l
    end.
    intros l. induction l as [|u us IH]; [reflexivity | exact IH]. }
  split; reflexivity.
Qed.

Lemma toggle_compare_round_trip_witness :
  let older := AssetVersion.mk "v0" 0 "zero.png" 900 [] in
  let s := Sample.roomOf [Sample.reviewed; older] PENDING Tpointer in
  versions s <> []
  /\ isCompareMode s = false
  /\ (In older (versions s) /\ AssetVersion.id older <> activeVersionId s)
  /\ exists s1 s2 v w,
       handleToggleCompare s = Ok s1
       /\ isCompareMode s1 = true
       /\ In v (versions s)
       /\ compareVersionId s1 = Some (AssetVersion.id v)
       /\ compareVersion s1 = Some w
       /\ AssetVersion.id w = AssetVersion.id v
       /\ AssetVersion.id v <> activeVersionId s
       /\ handleToggleCompare s1 = Ok s2
       /\ isCompareMode s2 = false
       /\ compareVersionId s2 = None
       /\ compareVersion s2 = None
       /\ versions s2 = versions s
       /\ activeVersionId s2 = activeVersionId s.
Proof.
  cbv zeta.
  set (older := AssetVersion.mk "v0" 0 "zero.png" 900 []).
  set (s := Sample.roomOf [Sample.reviewed; older] PENDING Tpointer).
  assert (H : versions s <> []) by discriminate.
  assert (O : In older (versions s)
              /\ AssetVersion.id older <> activeVersionId s)
    by (split; [right; left; reflexivity | discriminate]).
  split; [exact H|]. split; [reflexivity|]. split; [exact O|].
  destruct (toggle_compare_round_trip s H eq_refl)
    as (s1 & s2 & v & w & A1 & A2 & A3 & A4 & A5 & A6 & A7 & A8).
  exists s1, s2, v, w. split; [exact A1|]. split; [exact A2|].
  split; [exact A3|]. split; [exact A4|]. split; [exact A5|].
  split; [exact A6|].
  split; [exact (A7 (ex_intro _ older O)) | exact A8].
Defined.

Lemma stamps_split (f : Comment.t -> bool) (l : list Comment.t) :
  List.length (stamps l)
  = (List.length (stamps (filter (fun c => negb (f c)) l))
     + List.length (stamps (filter f l)))%nat.
Proof.
  unfold stamps. induction l as [|c l IH]; [reflexivity|].
  cbn [filter flat_map]. rewrite length_app, IH.
  destruct (f c); cbn [negb flat_map]; rewrite length_app; lia.
Qed.

(** X30 - The timeline marks the comments an Approver is not shown.  The
    markers handed to the video player are the time-stamps of all the
    comments of the active version, while the overlay and the sidebar get
    the visible ones.  For every role but Approver the markers are the
    time-stamps of the visible comments; for an Approver there is, on
    top of those, one marker for every time-stamped internal comment. *)
Theorem markers_include_hidden_comments :
  forall (p : Props) (s : State) (av : AssetVersion.t),
    activeVersion s = Ok av ->
    exists ms vis,
      markers s = Ok ms
      /\ visibleComments p s = Ok vis
      /\ (forall c t, In c (AssetVersion.comments av) ->
                      Comment.videoTimestamp c = Some t -> In t ms)
      /\ (User.role (currentUser p) <> APPROVER -> ms = stamps vis)
      /\ (User.role (currentUser p) = APPROVER ->
          List.length ms
          = (List.length (stamps vis)
             + List.length
                 (stamps (filter hiddenFromApprover
                                 (AssetVersion.comments av))))%nat).
Proof.
  intros p s av Hav. do 2 eexists.
  split; [unfold markers; rewrite Hav; reflexivity|].
  split; [apply visibleComments_of; exact Hav|].
  fold (stamps (AssetVersion.comments av)).
  split.
  { intros c t Hin Ht. unfold stamps. apply in_flat_map.
    exists c. split; [exact Hin|]. rewrite Ht. left. reflexivity. }
  split.
  - intros Hr.
    assert (E : UserRole_eqb (User.role (currentUser p)) APPROVER = false).
    { destruct (UserRole_eqb (User.role (currentUser p)) APPROVER) eqn:E;
        [|reflexivity].
      apply UserRole_eqb_eq in E. contradiction. }
    rewrite E. cbn [andb].
    f_equal. induction (AssetVersion.comments av) as [|c l IH];
      [reflexivity|].
    cbn [filter]. rewrite <- IH. reflexivity.
  - intros Hr.
    assert (Hf : forall l,
               filter (fun c =>
                         if UserRole_eqb APPROVER APPROVER
                            && flag (Comment.isInternal c)
                         then false else true) l
               = filter (fun c => negb (hiddenFromApprover c)) l).
    { intros l. apply filter_ext. intros c. unfold hiddenFromApprover.
      destruct (flag (Comment.isInternal c)); reflexivity. }
    rewrite Hr, Hf. apply stamps_split.
Qed.

Lemma markers_include_hidden_comments_witness :
  let internal := Comment.mk "c2" "u1" "ask legal" 1000 false (Some 10)
                    (Some 20) (Some 42) None (Some []) (Some true) in
  let av := AssetVersion.mk "v1" 1 "one.mp4" 1000
              [Sample.note "c1" false false; internal] in
  let s := Sample.roomOf [av] PENDING Tpointer in
  activeVersion s = Ok av
  /\ User.role (currentUser Sample.approver) = APPROVER
  /\ User.role (currentUser Sample.creator) <> APPROVER
  /\ In internal (AssetVersion.comments av)
  /\ Comment.videoTimestamp internal = Some 42
  /\ (exists ms vis,
        markers s = Ok ms
        /\ visibleComments Sample.approver s = Ok vis
        /\ In 42 ms
        /\ ~ In internal vis
        /\ List.length ms
           = (List.length (stamps vis)
              + List.length
                  (stamps (filter hiddenFromApprover
                                  (AssetVersion.comments av))))%nat)
  /\ (exists ms vis,
        markers s = Ok ms
        /\ visibleComments Sample.creator s = Ok vis
        /\ ms = stamps vis).
Proof.
  cbv zeta.
  set (internal := Comment.mk "c2" "u1" "ask legal" 1000 false (Some 10)
                     (Some 20) (Some 42) None (Some []) (Some true)).
  set (av := AssetVersion.mk "v1" 1 "one.mp4" 1000
               [Sample.note "c1" false false; internal]).
  set (s := Sample.roomOf [av] PENDING Tpointer).
  assert (N : User.role (currentUser Sample.creator) <> APPROVER)
    by discriminate.
  assert (I : In internal (AssetVersion.comments av))
    by (right; left; reflexivity).
  split; [reflexivity|]. split; [reflexivity|]. split; [exact N|].
  split; [exact I|]. split; [reflexivity|]. split.
  - destruct (markers_include_hidden_comments Sample.approver s av eq_refl)
      as (ms & vis & A & B & C & _ & D).
    exists ms, vis. split; [exact A|]. split; [exact B|].
    split; [exact (C internal 42 I eq_refl)|].
    split; [|exact (D eq_refl)].
    vm_compute in B. injection B as <-.
    intros [H | []]. discriminate.
  - destruct (markers_include_hidden_comments Sample.creator s av eq_refl)
      as (ms & vis & A & B & _ & D & _).
    exists ms, vis. split; [exact A|]. split; [exact B | exact (D N)].
Defined.

(** ** Sessions *)

Lemma onlyVersionEdited_refl id vs : onlyVersionEdited id vs vs.
Proof.
  unfold onlyVersionEdited. induction vs as [|v vs IH]; constructor;
    [split; [reflexivity | intros _; reflexivity] | exact IH].
Qed.

Lemma onlyVersionEdited_replace id upd vs :
  AssetVersion.id upd = id ->
  onlyVersionEdited id vs (replaceVersion id upd vs).
Proof.
  intros Hid. unfold onlyVersionEdited, replaceVersion.
  induction vs as [|v vs IH]; cbn [map]; constructor; [|exact IH].
  destruct (String.eqb (AssetVersion.id v) id) eqn:E.
  - apply String.eqb_eq in E. split; [congruence|].
    intros Hne. contradiction.
  - split; [reflexivity | intros _; reflexivity].
Qed.

Lemma onlyVersionEdited_moved id x y a vs :
  onlyVersionEdited a vs
    (map (fun v =>
            if negb (String.eqb (AssetVersion.id v) a) then v
            else withComments v
                   (map (moveComment id x y) (AssetVersion.comments v)))
         vs).
Proof.
  unfold onlyVersionEdited.
  induction vs as [|v vs IH]; cbn [map]; constructor; [|exact IH].
  destruct (String.eqb (AssetVersion.id v) a) eqn:E; cbn [negb].
  - apply String.eqb_eq in E. split; [reflexivity|].
    intros Hne. contradiction.
  - split; [reflexivity | intros _; reflexivity].
Qed.

Lemma onlyVersionEdited_ids id vs vs' :
  onlyVersionEdited id vs vs' ->
  map AssetVersion.id vs' = map AssetVersion.id vs.
Proof.
  unfold onlyVersionEdited. induction 1 as [|v v' vs vs' [H _] _ IH];
    [reflexivity|].
  cbn [map]. rewrite H, IH. reflexivity.
Qed.

Lemma same_ids_nonempty (vs vs' : list AssetVersion.t) :
  map AssetVersion.id vs' = map AssetVersion.id vs -> vs <> [] -> vs' <> [].
Proof. destruct vs, vs'; cbn; congruence. Qed.

Lemma commentEdit_refl s : commentEdit s s.
Proof.
  unfold commentEdit. split; [intros; apply onlyVersionEdited_refl|].
  repeat split. left. reflexivity.
Qed.

(** Closes [commentEdit s s'] when [s'] is [s], or [edited f av s], under
    setters of the selection, the video state, the color and the tool. *)
Ltac frame Hav :=
  unfold commentEdit, edited;
  cbn [versions zoom pan currentAssetStatus isUploadModalOpen
       activeVersionId isCompareMode drawingTool
       setVersions setActiveCommentId setIsVideoPlaying setDrawingTool
       setCurrentTimeRef setToolColor];
  split;
  [ let av0 := fresh "av0" in
    let H0 := fresh "H0" in
    intros av0 H0; rewrite Hav in H0; injection H0 as <-;
    first [ apply onlyVersionEdited_refl
          | apply onlyVersionEdited_replace; reflexivity ]
  | repeat split; first [left; reflexivity | right; reflexivity] ].

Lemma handleAddComment_frame p now x y drawing s :
  versions s <> [] ->
  exists s', handleAddComment p now x y drawing s = Ok s'
             /\ commentEdit s s'.
Proof.
  intros Hne. destruct (activeVersion_defined s Hne) as [av Hav].
  unfold handleAddComment.
  destruct (isCompareMode s);
    [exists s; split; [reflexivity | apply commentEdit_refl]|].
  destruct (UserRole_eqb _ _);
    [exists s; split; [reflexivity | apply commentEdit_refl]|].
  rewrite Hav. cbn [bind]. eexists. split; [reflexivity|].
  destruct (AssetType_eqb (assetType p) VIDEO && isVideoPlaying s);
    destruct (negb (Tool_eqb (drawingTool s) Tpointer)); frame Hav.
Qed.

Lemma handleUpdateCommentPosition_frame id x y s :
  commentEdit s (handleUpdateCommentPosition id x y s).
Proof.
  unfold commentEdit. split; [|repeat split; left; reflexivity].
  intros av Hav.
  destruct (activeVersion_moved id x y s av Hav) as [[Hid _] | [_ E]].
  - rewrite Hid. apply onlyVersionEdited_moved.
  - rewrite E. apply onlyVersionEdited_refl.
Qed.

Lemma doneButton_frame p row s :
  versions s <> [] ->
  exists s', Session.doneButton p row s = Ok s' /\ commentEdit s s'.
Proof.
  intros Hne. destruct (activeVersion_defined s Hne) as [av Hav].
  unfold Session.doneButton. rewrite (visibleComments_of p _ _ Hav).
  cbn [bind].
  destruct (nth_error _ row) as [c|];
    [|exists s; split; [reflexivity | apply commentEdit_refl]].
  destruct (negb (Comment.resolved c));
    [|exists s; split; [reflexivity | apply commentEdit_refl]].
  rewrite (handleResolveComment_edited _ _ _ Hav).
  eexists. split; [reflexivity|]. frame Hav.
Qed.

Lemma deleteButton_frame p row s :
  versions s <> [] ->
  exists s', Session.deleteButton p row s = Ok s' /\ commentEdit s s'.
Proof.
  intros Hne. destruct (activeVersion_defined s Hne) as [av Hav].
  unfold Session.deleteButton. rewrite (visibleComments_of p _ _ Hav).
  cbn [bind].
  destruct (nth_error _ row) as [c|];
    [|exists s; split; [reflexivity | apply commentEdit_refl]].
  destruct (_ && _);
    [|exists s; split; [reflexivity | apply commentEdit_refl]].
  rewrite (handleDeleteComment_edited _ _ _ Hav).
  eexists. split; [reflexivity|]. cbv zeta.
  destruct (isId (activeCommentId s) (Comment.id c)); frame Hav.
Qed.

Lemma onReply_frame p now id text isInternal s :
  versions s <> [] ->
  exists s', onReply p now id text isInternal s = Ok s' /\ commentEdit s s'.
Proof.
  intros Hne. destruct (activeVersion_defined s Hne) as [av Hav].
  unfold onReply, handleInitialComment, handleReplyToComment.
  rewrite Hav. cbn [bind].
  destruct (find _ (AssetVersion.comments av)) as [c|];
    [destruct (String.eqb (Comment.text c) EmptyString)|];
    (eexists; split; [reflexivity|]; frame Hav).
Qed.

Lemma onSelect_frame id s :
  versions s <> [] ->
  exists s', onSelect id s = Ok s' /\ commentEdit s s'.
Proof.
  intros Hne. destruct (activeVersion_defined s Hne) as [av Hav].
  unfold onSelect. rewrite Hav. cbn [bind].
  destruct (find _ (AssetVersion.comments av)) as [c|];
    [destruct (Comment.videoTimestamp c)|];
    (eexists; split; [reflexivity|]; frame Hav).
Qed.

Lemma commentJumpEffect_frame s :
  versions s <> [] ->
  exists s', commentJumpEffect s = Ok s' /\ commentEdit s s'.
Proof.
  intros Hne. destruct (activeVersion_defined s Hne) as [av Hav].
  unfold commentJumpEffect.
  destruct (truthy (activeCommentId s));
    [|exists s; split; [reflexivity | apply commentEdit_refl]].
  rewrite Hav. cbn [bind].
  destruct (find _ (AssetVersion.comments av)) as [c|];
    [destruct (Comment.videoTimestamp c)|];
    (eexists; split; [reflexivity|]; frame Hav).
Qed.

Lemma viewport_frame op s s' :
  Surface.step op s = Ok s' ->
  versions s' = versions s
  /\ currentAssetStatus s' = currentAssetStatus s
  /\ isUploadModalOpen s' = isUploadModalOpen s
  /\ drawingTool s' = drawingTool s.
Proof.
  destruct op as [vr e| | | |e|e| |id]; cbn [Surface.step].
  - unfold handleWheel. destruct (isCompareMode s);
      [intros [= <-]; repeat split|].
    destruct vr as [rect|]; [|intros [= <-]; repeat split].
    destruct (jsdiv _ _); cbn [bind]; [|discriminate].
    intros [= <-]. repeat split.
  - intros [= <-]. repeat split.
  - intros [= <-]. repeat split.
  - intros [= <-]. repeat split.
  - intros [= <-]. unfold handlePanStart. destruct (_ || _); repeat split.
  - intros [= <-]. unfold handlePanMove. destruct (isPanningRef s);
      repeat split.
  - intros [= <-]. repeat split.
  - intros [= <-]. unfold selectVersion, versionChangeEffect.
    destruct (String.eqb _ _); repeat split.
Qed.

Lemma handleKeyDown_frame p isInputActive e k :
  let k' := Shortcuts.handleKeyDown p isInputActive e k in
  versions (Shortcuts.room k') = versions (Shortcuts.room k)
  /\ zoom (Shortcuts.room k') = zoom (Shortcuts.room k)
  /\ currentAssetStatus (Shortcuts.room k')
     = currentAssetStatus (Shortcuts.room k)
  /\ isUploadModalOpen (Shortcuts.room k')
     = isUploadModalOpen (Shortcuts.room k)
  /\ (noBoxTool k -> noBoxTool k').
Proof.
  cbv zeta. unfold Shortcuts.handleKeyDown, noBoxTool.
  repeat match goal with
         | |- context [if ?b then _ else _] => destruct b
         end;
    cbn [Shortcuts.room Shortcuts.previousToolRef versions zoom
         currentAssetStatus isUploadModalOpen drawingTool setDrawingTool
         setIsVideoPlaying];
    repeat split; try tauto; try discriminate.
Qed.

Lemma handleKeyUp_frame p isInputActive e k :
  let k' := Shortcuts.handleKeyUp p isInputActive e k in
  versions (Shortcuts.room k') = versions (Shortcuts.room k)
  /\ zoom (Shortcuts.room k') = zoom (Shortcuts.room k)
  /\ currentAssetStatus (Shortcuts.room k')
     = currentAssetStatus (Shortcuts.room k)
  /\ isUploadModalOpen (Shortcuts.room k')
     = isUploadModalOpen (Shortcuts.room k)
  /\ (noBoxTool k -> noBoxTool k').
Proof.
  cbv zeta. unfold Shortcuts.handleKeyUp, noBoxTool.
  repeat match goal with
         | |- context [if ?b then _ else _] => destruct b
         end;
    cbn [Shortcuts.room Shortcuts.previousToolRef versions zoom
         currentAssetStatus isUploadModalOpen drawingTool setDrawingTool
         setIsVideoPlaying];
    repeat split; try tauto; try discriminate.
Qed.

Lemma commentEdit_facts k s' :
  wellFormed k ->
  commentEdit (Shortcuts.room k) s' ->
  let k' := Shortcuts.mk s' (Shortcuts.previousToolRef k) in
  wellFormed k'
  /\ (noBoxTool k -> noBoxTool k')
  /\ (forall av, activeVersion (Shortcuts.room k) = Ok av ->
        onlyVersionEdited (AssetVersion.id av)
          (versions (Shortcuts.room k)) (versions s'))
  /\ isUploadModalOpen s' = isUploadModalOpen (Shortcuts.room k)
  /\ map AssetVersion.id (versions s')
     = map AssetVersion.id (versions (Shortcuts.room k))
  /\ currentAssetStatus s' = currentAssetStatus (Shortcuts.room k).
Proof.
  intros [Hne Hz] (Hv & Ez & _ & Est & Eup & _ & _ & Et). cbv zeta.
  destruct (activeVersion_defined _ Hne) as [av Hav].
  pose proof (onlyVersionEdited_ids _ _ _ (Hv av Hav)) as Hids.
  unfold wellFormed, noBoxTool.
  cbn [Shortcuts.room Shortcuts.previousToolRef].
  split; [split; [exact (same_ids_nonempty _ _ Hids Hne)
                 | rewrite Ez; exact Hz]|].
  split.
  { intros [Hb Hp]. split; [|exact Hp].
    destruct Et as [-> | ->]; [exact Hb | discriminate]. }
  split; [exact Hv|]. split; [exact Eup|]. split; [exact Hids | exact Est].
Qed.

Lemma perform_step p a k :
  wellFormed k ->
  exists k',
    Session.perform p a k = Ok k'
    /\ wellFormed k'
    /\ (noBoxTool k -> noBoxTool k')
    /\ ((forall now, a <> Session.SubmitUpload now) ->
        forall av, activeVersion (Shortcuts.room k) = Ok av ->
          onlyVersionEdited (AssetVersion.id av)
            (versions (Shortcuts.room k)) (versions (Shortcuts.room k')))
    /\ (canUpload p = false ->
        isUploadModalOpen (Shortcuts.room k) = false ->
        isUploadModalOpen (Shortcuts.room k') = false)
    /\ (isUploadModalOpen (Shortcuts.room k) = false ->
        map AssetVersion.id (versions (Shortcuts.room k'))
        = map AssetVersion.id (versions (Shortcuts.room k)))
    /\ (isDecisionMaker p = false ->
        currentAssetStatus (Shortcuts.room k')
        = currentAssetStatus (Shortcuts.room k)
        \/ (currentAssetStatus (Shortcuts.room k') = PENDING
            /\ isUploadModalOpen (Shortcuts.room k) = true)).
Proof.
  intros Hwf. pose proof Hwf as [Hne Hz].
  destruct (activeVersion_defined _ Hne) as [av Hav].
  assert (Hedit : forall f : State -> result State,
             (exists s', f (Shortcuts.room k) = Ok s'
                         /\ commentEdit (Shortcuts.room k) s') ->
             exists k',
               Session.onRoom f k = Ok k'
               /\ wellFormed k'
               /\ (noBoxTool k -> noBoxTool k')
               /\ (forall av, activeVersion (Shortcuts.room k) = Ok av ->
                     onlyVersionEdited (AssetVersion.id av)
                       (versions (Shortcuts.room k))
                       (versions (Shortcuts.room k')))
               /\ isUploadModalOpen (Shortcuts.room k')
                  = isUploadModalOpen (Shortcuts.room k)
               /\ map AssetVersion.id (versions (Shortcuts.room k'))
                  = map AssetVersion.id (versions (Shortcuts.room k))
               /\ currentAssetStatus (Shortcuts.room k')
                  = currentAssetStatus (Shortcuts.room k)).
  { intros f (s' & E & Hc). unfold Session.onRoom. rewrite E. cbn [bind].
    eexists. split; [reflexivity|].
    exact (commentEdit_facts k s' Hwf Hc). }
  assert (Hsame : forall s',
             versions s' = versions (Shortcuts.room k) ->
             zoomInRange (zoom s') ->
             wellFormed (Shortcuts.mk s' (Shortcuts.previousToolRef k))
             /\ (forall av, activeVersion (Shortcuts.room k) = Ok av ->
                   onlyVersionEdited (AssetVersion.id av)
                     (versions (Shortcuts.room k)) (versions s'))
             /\ map AssetVersion.id (versions s')
                = map AssetVersion.id (versions (Shortcuts.room k))).
  { intros s' Ev Hz'. unfold wellFormed. cbn [Shortcuts.room].
    rewrite Ev. split; [split; assumption|].
    split; [intros; apply onlyVersionEdited_refl | reflexivity]. }
  assert (Huse : forall (r : result Shortcuts.State) (P : Prop) k',
             r = Ok k'
             /\ wellFormed k'
             /\ (noBoxTool k -> noBoxTool k')
             /\ (forall av, activeVersion (Shortcuts.room k) = Ok av ->
                   onlyVersionEdited (AssetVersion.id av)
                     (versions (Shortcuts.room k))
                     (versions (Shortcuts.room k')))
             /\ isUploadModalOpen (Shortcuts.room k')
                = isUploadModalOpen (Shortcuts.room k)
             /\ map AssetVersion.id (versions (Shortcuts.room k'))
                = map AssetVersion.id (versions (Shortcuts.room k))
             /\ currentAssetStatus (Shortcuts.room k')
                = currentAssetStatus (Shortcuts.room k) ->
             exists k',
               r = Ok k'
               /\ wellFormed k'
               /\ (noBoxTool k -> noBoxTool k')
               /\ (P ->
                   forall av, activeVersion (Shortcuts.room k) = Ok av ->
                     onlyVersionEdited (AssetVersion.id av)
                       (versions (Shortcuts.room k))
                       (versions (Shortcuts.room k')))
               /\ (canUpload p = false ->
                   isUploadModalOpen (Shortcuts.room k) = false ->
                   isUploadModalOpen (Shortcuts.room k') = false)
               /\ (isUploadModalOpen (Shortcuts.room k) = false ->
                   map AssetVersion.id (versions (Shortcuts.room k'))
                   = map AssetVersion.id (versions (Shortcuts.room k)))
               /\ (isDecisionMaker p = false ->
                   currentAssetStatus (Shortcuts.room k')
                   = currentAssetStatus (Shortcuts.room k)
                   \/ (currentAssetStatus (Shortcuts.room k') = PENDING
                       /\ isUploadModalOpen (Shortcuts.room k) = true))).
  { intros r P k' (E & W & B & V & U & I & S). exists k'.
    split; [exact E|]. split; [exact W|]. split; [exact B|].
    split; [intros _; exact V|].
    split; [intros _ Hu; rewrite U; exact Hu|].
    split; [intros _; exact I|]. intros _. left. exact S. }
  assert (Hcomment : forall (f : State -> result State) (P : Prop),
             (exists s', f (Shortcuts.room k) = Ok s'
                         /\ commentEdit (Shortcuts.room k) s') ->
             exists k',
               Session.onRoom f k = Ok k'
               /\ wellFormed k'
               /\ (noBoxTool k -> noBoxTool k')
               /\ (P ->
                   forall av, activeVersion (Shortcuts.room k) = Ok av ->
                     onlyVersionEdited (AssetVersion.id av)
                       (versions (Shortcuts.room k))
                       (versions (Shortcuts.room k')))
               /\ (canUpload p = false ->
                   isUploadModalOpen (Shortcuts.room k) = false ->
                   isUploadModalOpen (Shortcuts.room k') = false)
               /\ (isUploadModalOpen (Shortcuts.room k) = false ->
                   map AssetVersion.id (versions (Shortcuts.room k'))
                   = map AssetVersion.id (versions (Shortcuts.room k)))
               /\ (isDecisionMaker p = false ->
                   currentAssetStatus (Shortcuts.room k')
                   = currentAssetStatus (Shortcuts.room k)
                   \/ (currentAssetStatus (Shortcuts.room k') = PENDING
                       /\ isUploadModalOpen (Shortcuts.room k) = true))).
  { intros f P Hf. destruct (Hedit f Hf) as (k' & Hk').
    apply (Huse _ P k'). exact Hk'. }
  destruct a as [op| | | |now| | |now x y drawing|id x y|id|row|row
                 |now id text isInternal|id| |b|c|isInputActive e
                 |isInputActive e| |t|]; cbn [Session.perform].
  - (* Viewport *)
    destruct (step_range op _ Hz) as (s' & E & Hz').
    destruct (viewport_frame op _ _ E) as (Ev & Est & Eup & Et).
    destruct (Hsame s' Ev Hz') as (W & V & I).
    apply (Huse _ _ (Shortcuts.mk s' (Shortcuts.previousToolRef k))).
    unfold Session.onRoom. rewrite E. cbn [bind].
    split; [reflexivity|]. split; [exact W|].
    unfold noBoxTool. cbn [Shortcuts.room Shortcuts.previousToolRef].
    rewrite Et. repeat split; try tauto; assumption.
  - (* Compare *)
    assert (Ec : exists s',
               Session.compareButton (Shortcuts.room k) = Ok s'
               /\ versions s' = versions (Shortcuts.room k)
               /\ zoom s' = zoom (Shortcuts.room k)
               /\ currentAssetStatus s'
                  = currentAssetStatus (Shortcuts.room k)
               /\ isUploadModalOpen s'
                  = isUploadModalOpen (Shortcuts.room k)
               /\ drawingTool s' = drawingTool (Shortcuts.room k)).
    { unfold Session.compareButton, handleToggleCompare.
      destruct (Nat.ltb _ _); [|eexists; repeat split].
      destruct (negb (isCompareMode (Shortcuts.room k)));
        [|eexists; repeat split].
      destruct (find _ (versions (Shortcuts.room k))) as [v|];
        [eexists; repeat split|].
      destruct (versions (Shortcuts.room k)) as [|v0 vs] eqn:Ev;
        [contradiction|].
      cbn [bind]. eexists. split; [reflexivity|].
      cbn [versions setIsCompareMode setCompareVersionId].
      repeat split; assumption. }
    destruct Ec as (s' & E & Ev & Ez & Est & Eup & Et).
    assert (Hz' : zoomInRange (zoom s')) by (rewrite Ez; exact Hz).
    destruct (Hsame s' Ev Hz') as (W & V & I).
    apply (Huse _ _ (Shortcuts.mk s' (Shortcuts.previousToolRef k))).
    unfold Session.onRoom. rewrite E. cbn [bind].
    split; [reflexivity|]. split; [exact W|].
    unfold noBoxTool. cbn [Shortcuts.room Shortcuts.previousToolRef].
    rewrite Et. repeat split; try tauto; assumption.
  - (* OpenUpload *)
    eexists. split; [reflexivity|].
    cbn [Shortcuts.room Shortcuts.previousToolRef].
    unfold Session.openUploadButton.
    destruct (Hsame (if canUpload p
                     then setIsUploadModalOpen true (Shortcuts.room k)
                     else Shortcuts.room k))
      as (W & V & I);
      [destruct (canUpload p); reflexivity
      |destruct (canUpload p); exact Hz|].
    split; [exact W|].
    split; [unfold noBoxTool; destruct (canUpload p); tauto|].
    split; [intros _; exact V|].
    split; [intros -> Hu; exact Hu|].
    split; [intros _; exact I|].
    intros _. left. destruct (canUpload p); reflexivity.
  - (* CloseUpload *)
    eexists. split; [reflexivity|].
    cbn [Shortcuts.room Shortcuts.previousToolRef].
    destruct (Hsame (setIsUploadModalOpen false (Shortcuts.room k))
                eq_refl Hz) as (W & V & I).
    split; [exact W|]. split; [unfold noBoxTool; tauto|].
    split; [intros _; exact V|]. split; [reflexivity|].
    split; [intros _; exact I|]. intros _. left. reflexivity.
  - (* SubmitUpload *)
    unfold Session.onRoom, Session.submitUpload.
    destruct (isUploadModalOpen (Shortcuts.room k)) eqn:Eopen.
    + destruct (versions (Shortcuts.room k)) as [|v0 vs] eqn:Ev;
        [contradiction|].
      unfold handleUploadNewVersion. rewrite Ev. cbn [bind].
      eexists. split; [reflexivity|].
      cbn [Shortcuts.room Shortcuts.previousToolRef].
      unfold versionChangeEffect, wellFormed, noBoxTool.
      cbn [Shortcuts.room Shortcuts.previousToolRef].
      destruct (String.eqb _ _);
        cbn [versions zoom drawingTool currentAssetStatus isUploadModalOpen
             handleResetZoom setPan setZoom setCompareVersionId
             setCurrentAssetStatus setActiveCommentId setIsCompareMode
             setIsUploadModalOpen setActiveVersionId setVersions];
        (split; [split; [discriminate
                        | first [exact Hz | unfold zoomInRange; lra]]|]);
        (split; [tauto|]);
        (split; [intros Hn; exfalso; exact (Hn now eq_refl)|]);
        (split; [reflexivity|]);
        (split; [discriminate|]);
        intros _; right; split; reflexivity.
    + cbn [bind]. eexists. split; [reflexivity|].
      cbn [Shortcuts.room Shortcuts.previousToolRef].
      destruct (Hsame (Shortcuts.room k) eq_refl Hz) as (W & V & I).
      rewrite Eopen.
      split; [destruct k; exact Hwf|]. split; [destruct k; tauto|].
      split; [intros _; exact V|]. split; [reflexivity|].
      split; [reflexivity|]. intros _. left. reflexivity.
  - (* Approve *)
    unfold Session.onRoom, approveButton, canApprove.
    rewrite (openTasksCount_of _ _ Hav). cbn [bind].
    destruct (isDecisionMaker p) eqn:Ed; cbn [andb].
    + destruct (_ || _); cbn [bind]; (eexists; split; [reflexivity|]);
        cbn [Shortcuts.room Shortcuts.previousToolRef];
        match goal with
        | |- wellFormed (Shortcuts.mk ?s' _) /\ _ =>
            destruct (Hsame s' eq_refl Hz) as (W & V & I)
        end;
        (split; [exact W|]); (split; [unfold noBoxTool; tauto|]);
        (split; [intros _; exact V|]);
        (split; [intros _ Hu; exact Hu|]);
        (split; [intros _; exact I|]); intros; discriminate.
    + eexists. split; [reflexivity|].
      cbn [Shortcuts.room Shortcuts.previousToolRef].
      destruct (Hsame (Shortcuts.room k) eq_refl Hz) as (W & V & I).
      split; [exact W|]. split; [unfold noBoxTool; tauto|].
      split; [intros _; exact V|]. split; [intros _ Hu; exact Hu|].
      split; [intros _; exact I|]. intros _. left. reflexivity.
  - (* RequestChanges *)
    eexists. split; [reflexivity|].
    cbn [Shortcuts.room Shortcuts.previousToolRef].
    unfold requestChangesButton.
    destruct (isDecisionMaker p) eqn:Ed;
      match goal with
      | |- wellFormed (Shortcuts.mk ?s' _) /\ _ =>
          destruct (Hsame s' eq_refl Hz) as (W & V & I)
      end;
      (split; [exact W|]); (split; [unfold noBoxTool; tauto|]);
      (split; [intros _; exact V|]);
      (split; [intros _ Hu; exact Hu|]);
      (split; [intros _; exact I|]);
      [intros; discriminate | intros _; left; reflexivity].
  - (* AddComment *)
    apply Hcomment. apply handleAddComment_frame. exact Hne.
  - (* MoveComment *)
    apply Hcomment. eexists. split; [reflexivity|].
    apply handleUpdateCommentPosition_frame.
  - (* PickComment *)
    apply Hcomment. eexists. split; [reflexivity|]. frame Hav.
  - (* Done *)
    apply Hcomment. apply doneButton_frame. exact Hne.
  - (* Delete *)
    apply Hcomment. apply deleteButton_frame. exact Hne.
  - (* Reply *)
    apply Hcomment. apply onReply_frame. exact Hne.
  - (* Select *)
    apply Hcomment. apply onSelect_frame. exact Hne.
  - (* Background *)
    apply Hcomment. eexists. split; [reflexivity|].
    unfold handleBackgroundClick.
    destruct (truthy _); frame Hav.
  - (* Tool *)
    eexists. split; [reflexivity|].
    cbn [Shortcuts.room Shortcuts.previousToolRef].
    destruct (Hsame (toolButton b (Shortcuts.room k)))
      as (W & V & I);
      [destruct b; reflexivity | destruct b; exact Hz|].
    split; [exact W|].
    split.
    { unfold noBoxTool. cbn [Shortcuts.room Shortcuts.previousToolRef].
      intros [_ Hp]. split; [destruct b; discriminate | exact Hp]. }
    split; [intros _; exact V|].
    split; [intros _ Hu; destruct b; exact Hu|].
    split; [intros _; exact I|].
    intros _. left. destruct b; reflexivity.
  - (* Colour *)
    apply Hcomment. eexists. split; [reflexivity|]. frame Hav.
  - (* KeyDown *)
    eexists. split; [reflexivity|].
    destruct (handleKeyDown_frame p isInputActive e k)
      as (Ev & Ez & Est & Eup & Hb).
    split; [split; [rewrite Ev; exact Hne | rewrite Ez; exact Hz]|].
    split; [exact Hb|].
    split; [intros _ av0 _; rewrite Ev; apply onlyVersionEdited_refl|].
    split; [intros _ Hu; rewrite Eup; exact Hu|].
    split; [intros _; rewrite Ev; reflexivity|].
    intros _. left. exact Est.
  - (* KeyUp *)
    eexists. split; [reflexivity|].
    destruct (handleKeyUp_frame p isInputActive e k)
      as (Ev & Ez & Est & Eup & Hb).
    split; [split; [rewrite Ev; exact Hne | rewrite Ez; exact Hz]|].
    split; [exact Hb|].
    split; [intros _ av0 _; rewrite Ev; apply onlyVersionEdited_refl|].
    split; [intros _ Hu; rewrite Eup; exact Hu|].
    split; [intros _; rewrite Ev; reflexivity|].
    intros _. left. exact Est.
  - (* TogglePlay *)
    apply Hcomment. eexists. split; [reflexivity|].
    unfold onTogglePlay. frame Hav.
  - (* TimeUpdate *)
    apply Hcomment. eexists. split; [reflexivity|].
    unfold handleTimeUpdate. frame Hav.
  - (* JumpEffect *)
    apply Hcomment. apply commentJumpEffect_frame. exact Hne.
Qed.

Lemma run_invariant p (I : Shortcuts.State -> Prop) :
  (forall a k, I k -> exists k', Session.perform p a k = Ok k' /\ I k') ->
  forall actions k,
    I k -> exists k', Session.run p actions k = Ok k' /\ I k'.
Proof.
  intros Hstep actions. induction actions as [|a actions IH]; intros k Hk.
  - exists k. split; [reflexivity | exact Hk].
  - destruct (Hstep a k Hk) as (k1 & E1 & Hk1).
    destruct (IH k1 Hk1) as (k' & E' & Hk').
    exists k'. cbn [Session.run]. rewrite E1. cbn [bind].
    split; [exact E' | exact Hk'].
Qed.

(** X12 - Only the active version is edited.  Whatever a user does in a
    room that renders, short of submitting an upload, the action succeeds
    and the version list keeps its length, its order and its ids, and
    every version whose id is not that of the active version is left
    exactly as it was: comments are added, moved, resolved, deleted and
    answered in the active version only. *)
Theorem only_active_version_edited :
  forall (p : Props) (a : Session.Action) (k : Shortcuts.State)
         (av : AssetVersion.t),
    wellFormed k ->
    (forall now, a <> Session.SubmitUpload now) ->
    activeVersion (Shortcuts.room k) = Ok av ->
    exists k',
      Session.perform p a k = Ok k'
      /\ onlyVersionEdited (AssetVersion.id av)
           (versions (Shortcuts.room k)) (versions (Shortcuts.room k')).
Proof.
  intros p a k av Hwf Ha Hav.
  destruct (perform_step p a k Hwf) as (k' & E & _ & _ & V & _).
  exists k'. split; [exact E | exact (V Ha av Hav)].
Qed.

Lemma only_active_version_edited_witness :
  let k := Shortcuts.initial
             (Sample.roomOf
                [Sample.reviewed; AssetVersion.mk "v0" 0 "zero.png" 900
                                    [Sample.note "c1" false false]]
                PENDING Tpointer) in
  wellFormed k
  /\ (forall now, Session.Done 0 <> Session.SubmitUpload now)
  /\ activeVersion (Shortcuts.room k) = Ok Sample.reviewed
  /\ exists k',
       Session.perform Sample.creator (Session.Done 0) k = Ok k'
       /\ onlyVersionEdited (AssetVersion.id Sample.reviewed)
            (versions (Shortcuts.room k)) (versions (Shortcuts.room k')).
Proof.
  cbv zeta.
  assert (W : wellFormed
                (Shortcuts.initial
                   (Sample.roomOf
                      [Sample.reviewed;
                       AssetVersion.mk "v0" 0 "zero.png" 900
                         [Sample.note "c1" false false]]
                      PENDING Tpointer)))
    by (split; [discriminate | split; vm_compute; discriminate]).
  assert (N : forall now, Session.Done 0 <> Session.SubmitUpload now)
    by discriminate.
  split; [exact W|]. split; [exact N|]. split; [reflexivity|].
  exact (only_active_version_edited Sample.creator (Session.Done 0) _
           Sample.reviewed W N eq_refl).
Defined.

(** X13 - A room that renders keeps rendering.  From a room with at least
    one version and a zoom in [0.1, 5], every sequence of user actions --
    viewport operations, comparison, upload, approval, comments, replies,
    selection, tools, keys, playback -- is handled without a failure, and
    leads to a room that again has a version and a zoom in range: no
    handler reads a missing version or divides by a zero zoom. *)
Theorem session_never_fails :
  forall (p : Props) (actions : list Session.Action) (k : Shortcuts.State),
    wellFormed k ->
    exists k', Session.run p actions k = Ok k' /\ wellFormed k'.
Proof.
  intros p. apply run_invariant. intros a k Hwf.
  destruct (perform_step p a k Hwf) as (k' & E & W & _).
  exists k'. split; assumption.
Qed.

Lemma session_never_fails_witness :
  let k := Shortcuts.initial
             (Sample.roomOf [Sample.reviewed] PENDING Tpointer) in
  wellFormed k
  /\ exists k',
       Session.run Sample.creator sampleSession k = Ok k' /\ wellFormed k'.
Proof.
  cbv zeta.
  assert (W : wellFormed
                (Shortcuts.initial
                   (Sample.roomOf [Sample.reviewed] PENDING Tpointer)))
    by (split; [discriminate | split; vm_compute; discriminate]).
  split; [exact W|].
  exact (session_never_fails Sample.creator sampleSession _ W).
Defined.

(** X14 - The box tool cannot be selected.  The toolbar has buttons for
    the pointer, the hand and the pen, the keys H, V and P select the
    same three, and the space bar gives back a tool that was selected
    before.  So from a room whose tool and remembered tool are not the
    box, as in a freshly mounted room, no sequence of actions makes the
    box the tool, and the overlay is never handed the box tool. *)
Theorem box_tool_unreachable :
  forall (p : Props) (actions : list Session.Action) (k : Shortcuts.State),
    wellFormed k ->
    noBoxTool k ->
    exists k',
      Session.run p actions k = Ok k'
      /\ noBoxTool k'
      /\ AnnotationLayer.drawingTool (Surface.layerProps (Shortcuts.room k'))
         <> Tbox.
Proof.
  intros p actions k Hwf Hb.
  destruct (run_invariant p (fun k => wellFormed k /\ noBoxTool k))
    with (actions := actions) (k := k) as (k' & E & _ & Hb').
  - intros a k0 [W B].
    destruct (perform_step p a k0 W) as (k1 & E1 & W1 & B1 & _).
    exists k1. split; [exact E1|]. split; [exact W1 | exact (B1 B)].
  - split; assumption.
  - exists k'. split; [exact E|]. split; [exact Hb'|]. apply Hb'.
Qed.

Lemma box_tool_unreachable_witness :
  let k := Shortcuts.initial
             (Sample.roomOf [Sample.reviewed] PENDING Tpointer) in
  wellFormed k
  /\ noBoxTool k
  /\ exists k',
       Session.run Sample.creator sampleSession k = Ok k'
       /\ noBoxTool k'
       /\ AnnotationLayer.drawingTool
            (Surface.layerProps (Shortcuts.room k')) <> Tbox.
Proof.
  cbv zeta.
  assert (W : wellFormed
                (Shortcuts.initial
                   (Sample.roomOf [Sample.reviewed] PENDING Tpointer)))
    by (split; [discriminate | split; vm_compute; discriminate]).
  assert (B : noBoxTool
                (Shortcuts.initial
                   (Sample.roomOf [Sample.reviewed] PENDING Tpointer)))
    by (split; discriminate).
  split; [exact W|]. split; [exact B|].
  exact (box_tool_unreachable Sample.creator sampleSession _ W B).
Defined.

(** X15 - The version list changes by upload only, and only uploaders
    upload.  For a user who may not upload, in a room whose upload modal
    is closed, the modal stays closed and the list of version ids is the
    same after any sequence of actions: the New Version button is the only
    way to the form, and the form the only way to a new version. *)
Theorem versions_change_by_upload_only :
  forall (p : Props) (actions : list Session.Action) (k : Shortcuts.State),
    wellFormed k ->
    canUpload p = false ->
    isUploadModalOpen (Shortcuts.room k) = false ->
    exists k',
      Session.run p actions k = Ok k'
      /\ isUploadModalOpen (Shortcuts.room k') = false
      /\ map AssetVersion.id (versions (Shortcuts.room k'))
         = map AssetVersion.id (versions (Shortcuts.room k)).
Proof.
  intros p actions k Hwf Hu Hc.
  destruct (run_invariant p
              (fun k0 => wellFormed k0
                         /\ isUploadModalOpen (Shortcuts.room k0) = false
                         /\ map AssetVersion.id (versions (Shortcuts.room k0))
                            = map AssetVersion.id
                                (versions (Shortcuts.room k))))
    with (actions := actions) (k := k) as (k' & E & _ & Hc' & Hi').
  - intros a k0 (W & C & I).
    destruct (perform_step p a k0 W) as (k1 & E1 & W1 & _ & _ & C1 & I1 & _).
    exists k1. split; [exact E1|]. split; [exact W1|].
    split; [exact (C1 Hu C)|]. rewrite (I1 C). exact I.
  - split; [exact Hwf|]. split; [exact Hc | reflexivity].
  - exists k'. split; [exact E|]. split; assumption.
Qed.

Lemma versions_change_by_upload_only_witness :
  let k := Shortcuts.initial
             (Sample.roomOf [Sample.reviewed] PENDING Tpointer) in
  wellFormed k
  /\ canUpload Sample.approver = false
  /\ isUploadModalOpen (Shortcuts.room k) = false
  /\ exists k',
       Session.run Sample.approver sampleSession k = Ok k'
       /\ isUploadModalOpen (Shortcuts.room k') = false
       /\ map AssetVersion.id (versions (Shortcuts.room k'))
          = map AssetVersion.id (versions (Shortcuts.room k)).
Proof.
  cbv zeta.
  assert (W : wellFormed
                (Shortcuts.initial
                   (Sample.roomOf [Sample.reviewed] PENDING Tpointer)))
    by (split; [discriminate | split; vm_compute; discriminate]).
  split; [exact W|]. split; [reflexivity|]. split; [reflexivity|].
  exact (versions_change_by_upload_only Sample.approver sampleSession _ W
           eq_refl eq_refl).
Defined.

(** X16 - The status is set by decision makers and reset by uploads.  For
    a user who is neither Approver nor SuperAdmin, after any sequence of
    actions the asset status is the one the room started with or Pending,
    the status an upload leaves: such a user never approves and never
    requests changes.  If the user may not upload either and the upload
    modal is closed, the status does not change at all. *)
Theorem status_needs_decision_maker :
  forall (p : Props) (actions : list Session.Action) (k : Shortcuts.State),
    wellFormed k ->
    isDecisionMaker p = false ->
    exists k',
      Session.run p actions k = Ok k'
      /\ (currentAssetStatus (Shortcuts.room k')
          = currentAssetStatus (Shortcuts.room k)
          \/ currentAssetStatus (Shortcuts.room k') = PENDING)
      /\ (canUpload p = false ->
          isUploadModalOpen (Shortcuts.room k) = false ->
          currentAssetStatus (Shortcuts.room k')
          = currentAssetStatus (Shortcuts.room k)).
Proof.
  intros p actions k Hwf Hd.
  destruct (run_invariant p
              (fun k0 =>
                 wellFormed k0
                 /\ (currentAssetStatus (Shortcuts.room k0)
                     = currentAssetStatus (Shortcuts.room k)
                     \/ currentAssetStatus (Shortcuts.room k0) = PENDING)
                 /\ (canUpload p = false ->
                     isUploadModalOpen (Shortcuts.room k) = false ->
                     isUploadModalOpen (Shortcuts.room k0) = false
                     /\ currentAssetStatus (Shortcuts.room k0)
                        = currentAssetStatus (Shortcuts.room k))))
    with (actions := actions) (k := k) as (k' & E & _ & Hs & Hc).
  - intros a k0 (W & S & C).
    destruct (perform_step p a k0 W)
      as (k1 & E1 & W1 & _ & _ & C1 & _ & S1).
    exists k1. split; [exact E1|]. split; [exact W1|]. split.
    + destruct (S1 Hd) as [Es | [Es _]]; [rewrite Es; exact S|].
      right. exact Es.
    + intros Hu Hm. destruct (C Hu Hm) as [Hm0 Hs0].
      split; [exact (C1 Hu Hm0)|].
      destruct (S1 Hd) as [Es | [_ Eo]]; [rewrite Es; exact Hs0|].
      rewrite Hm0 in Eo. discriminate.
  - split; [exact Hwf|]. split; [left; reflexivity|].
    intros _ Hm. split; [exact Hm | reflexivity].
  - exists k'. split; [exact E|]. split; [exact Hs|].
    intros Hu Hm. apply (Hc Hu Hm).
Qed.

Lemma status_needs_decision_maker_witness :
  let k := Shortcuts.initial
             (Sample.roomOf [Sample.reviewed] APPROVED Tpointer) in
  wellFormed k
  /\ isDecisionMaker Sample.observer = false
  /\ canUpload Sample.observer = false
  /\ isUploadModalOpen (Shortcuts.room k) = false
  /\ exists k',
       Session.run Sample.observer sampleSession k = Ok k'
       /\ (currentAssetStatus (Shortcuts.room k')
           = currentAssetStatus (Shortcuts.room k)
           \/ currentAssetStatus (Shortcuts.room k') = PENDING)
       /\ currentAssetStatus (Shortcuts.room k')
          = currentAssetStatus (Shortcuts.room k).
Proof.
  cbv zeta.
  assert (W : wellFormed
                (Shortcuts.initial
                   (Sample.roomOf [Sample.reviewed] APPROVED Tpointer)))
    by (split; [discriminate | split; vm_compute; discriminate]).
  split; [exact W|]. split; [reflexivity|]. split; [reflexivity|].
  split; [reflexivity|].
  destruct (status_needs_decision_maker Sample.observer sampleSession _ W
              eq_refl) as (k' & E & S & C).
  exists k'. split; [exact E|]. split; [exact S|].
  exact (C eq_refl eq_refl).
Defined.

(** ** The space bar *)

Lemma setDrawingTool_same (s : State) : setDrawingTool (drawingTool s) s = s.
Proof. destruct s; reflexivity. Qed.

Lemma keyDown_space_still p isRepeat k :
  AssetType_eqb (assetType p) VIDEO = false ->
  Shortcuts.handleKeyDown p false (Shortcuts.space isRepeat) k
  = if negb isRepeat && negb (Tool_eqb (drawingTool (Shortcuts.room k)) Thand)
    then Shortcuts.mk (setDrawingTool Thand (Shortcuts.room k))
                      (drawingTool (Shortcuts.room k))
    else k.
Proof.
  intros Hv. unfold Shortcuts.handleKeyDown, Shortcuts.keyIs.
  cbn [Shortcuts.space KeyboardEvent.code KeyboardEvent.key
       KeyboardEvent.repeat toLowerCase].
  change (String.eqb "Space" "Space") with true. cbv iota.
  rewrite Hv.
  replace (String.eqb (String (lowerAscii " ") EmptyString) "h")
    with false by reflexivity.
  replace (String.eqb (String (lowerAscii " ") EmptyString) "v")
    with false by reflexivity.
  replace (String.eqb (String (lowerAscii " ") EmptyString) "p")
    with false by reflexivity.
  destruct isRepeat; cbn [negb andb]; [reflexivity|].
  destruct (Tool_eqb (drawingTool (Shortcuts.room k)) Thand); reflexivity.
Qed.

Lemma keyDown_space_video p isRepeat k :
  AssetType_eqb (assetType p) VIDEO = true ->
  Shortcuts.handleKeyDown p false (Shortcuts.space isRepeat) k
  = Shortcuts.mk
      (setIsVideoPlaying (negb (isVideoPlaying (Shortcuts.room k)))
                         (Shortcuts.room k))
      (Shortcuts.previousToolRef k).
Proof.
  intros Hv. unfold Shortcuts.handleKeyDown, Shortcuts.keyIs.
  cbn [Shortcuts.space KeyboardEvent.code KeyboardEvent.key
       KeyboardEvent.repeat toLowerCase].
  change (String.eqb "Space" "Space") with true. cbv iota.
  rewrite Hv.
  replace (String.eqb (String (lowerAscii " ") EmptyString) "h")
    with false by reflexivity.
  replace (String.eqb (String (lowerAscii " ") EmptyString) "v")
    with false by reflexivity.
  replace (String.eqb (String (lowerAscii " ") EmptyString) "p")
    with false by reflexivity.
  reflexivity.
Qed.

Lemma keyUp_space p k :
  Shortcuts.handleKeyUp p false (Shortcuts.space false) k
  = if AssetType_eqb (assetType p) VIDEO then k
    else Shortcuts.mk
           (setDrawingTool (Shortcuts.previousToolRef k) (Shortcuts.room k))
           (Shortcuts.previousToolRef k).
Proof.
  unfold Shortcuts.handleKeyUp.
  cbn [Shortcuts.space KeyboardEvent.code].
  change (String.eqb "Space" "Space") with true.
  destruct (AssetType_eqb (assetType p) VIDEO); reflexivity.
Qed.

Lemma repeats_still p n k :
  AssetType_eqb (assetType p) VIDEO = false ->
  Nat.iter n (Shortcuts.handleKeyDown p false (Shortcuts.space true)) k = k.
Proof.
  intros Hv. induction n as [|n IH]; [reflexivity|].
  rewrite Nat.iter_succ, IH, (keyDown_space_still p true k Hv).
  reflexivity.
Qed.

(** X17 - Holding the space bar borrows the hand tool.  On an image or a
    document, with the focus outside the inputs, pressing space with
    another tool than the hand selects the hand for as long as the key is
    held, whatever the number of auto-repeats, and releasing it gives the
    room back exactly as it was, with the tool remembered.  Pressing
    space while the hand is the tool remembers nothing: the release
    selects the tool remembered earlier, the pointer in a fresh room, and
    the hand is lost. *)
Theorem space_hold_borrows_hand :
  forall (p : Props) (repeats : nat) (k : Shortcuts.State),
    assetType p <> VIDEO ->
    let held :=
      Nat.iter repeats (Shortcuts.handleKeyDown p false (Shortcuts.space true))
        (Shortcuts.handleKeyDown p false (Shortcuts.space false) k) in
    let k' := Shortcuts.holdSpace p repeats k in
    drawingTool (Shortcuts.room held) = Thand
    /\ (drawingTool (Shortcuts.room k) <> Thand ->
        Shortcuts.room k' = Shortcuts.room k
        /\ Shortcuts.previousToolRef k' = drawingTool (Shortcuts.room k))
    /\ (drawingTool (Shortcuts.room k) = Thand ->
        Shortcuts.room k'
        = setDrawingTool (Shortcuts.previousToolRef k) (Shortcuts.room k)
        /\ Shortcuts.previousToolRef k' = Shortcuts.previousToolRef k).
Proof.
  intros p repeats k Hty held k'.
  assert (Hv : AssetType_eqb (assetType p) VIDEO = false)
    by (destruct (assetType p); [reflexivity | contradiction | reflexivity]).
  subst held k'. unfold Shortcuts.holdSpace.
  rewrite (repeats_still p repeats _ Hv), keyUp_space, Hv,
    (keyDown_space_still p false k Hv).
  cbn [negb andb].
  destruct (Tool_eqb (drawingTool (Shortcuts.room k)) Thand) eqn:Et;
    cbn [negb Shortcuts.room Shortcuts.previousToolRef].
  - assert (Eh : drawingTool (Shortcuts.room k) = Thand)
      by (destruct (drawingTool (Shortcuts.room k)); try discriminate;
          reflexivity).
    split; [exact Eh|]. split; [intros Hn; contradiction|].
    intros _. split; reflexivity.
  - split; [reflexivity|]. split.
    + intros _. split; [|reflexivity].
      transitivity (setDrawingTool (drawingTool (Shortcuts.room k))
                                   (Shortcuts.room k));
        [reflexivity | apply setDrawingTool_same].
    + intros Eh. rewrite Eh in Et. discriminate.
Qed.

Lemma space_hold_borrows_hand_witness :
  let p := Sample.creator in
  let pen := Shortcuts.initial (Sample.roomOf [Sample.blank] PENDING Tpen) in
  let hand := Shortcuts.initial
                (Sample.roomOf [Sample.blank] PENDING Thand) in
  assetType p <> VIDEO
  /\ (drawingTool (Shortcuts.room pen) <> Thand
      /\ Shortcuts.room (Shortcuts.holdSpace p 3 pen) = Shortcuts.room pen
      /\ Shortcuts.previousToolRef (Shortcuts.holdSpace p 3 pen) = Tpen)
  /\ (drawingTool (Shortcuts.room hand) = Thand
      /\ Shortcuts.room (Shortcuts.holdSpace p 3 hand)
         = setDrawingTool Tpointer (Shortcuts.room hand)
      /\ Shortcuts.previousToolRef (Shortcuts.holdSpace p 3 hand)
         = Tpointer).
Proof.
  cbv zeta.
  assert (T : assetType Sample.creator <> VIDEO) by discriminate.
  assert (N : drawingTool
                (Shortcuts.room
                   (Shortcuts.initial
                      (Sample.roomOf [Sample.blank] PENDING Tpen)))
              <> Thand) by discriminate.
  split; [exact T|]. split.
  - split; [exact N|].
    destruct (space_hold_borrows_hand Sample.creator 3
                (Shortcuts.initial
                   (Sample.roomOf [Sample.blank] PENDING Tpen)) T)
      as (_ & A & _).
    exact (A N).
  - split; [reflexivity|].
    destruct (space_hold_borrows_hand Sample.creator 3
                (Shortcuts.initial
                   (Sample.roomOf [Sample.blank] PENDING Thand)) T)
      as (_ & _ & B).
    exact (B eq_refl).
Defined.

Lemma repeats_video p n k :
  AssetType_eqb (assetType p) VIDEO = true ->
  Nat.iter n (Shortcuts.handleKeyDown p false (Shortcuts.space true)) k
  = Shortcuts.mk
      (setIsVideoPlaying
         (xorb (isVideoPlaying (Shortcuts.room k)) (Nat.odd n))
         (Shortcuts.room k))
      (Shortcuts.previousToolRef k).
Proof.
  intros Hv. induction n as [|n IH].
  - change (Nat.iter 0 ?f k) with k. cbn [Nat.odd Nat.even negb].
    rewrite xorb_false_r.
    destruct k as [r t]. destruct r. reflexivity.
  - rewrite Nat.iter_succ, IH, (keyDown_space_video p true _ Hv).
    cbn [Shortcuts.room Shortcuts.previousToolRef isVideoPlaying
         setIsVideoPlaying].
    rewrite Nat.odd_succ, <- Nat.negb_odd.
    destruct (isVideoPlaying (Shortcuts.room k)), (Nat.odd n); reflexivity.
Qed.

(** X18 - On a video every space key-down toggles the playback, the
    auto-repeated ones too.  Holding the space bar for [repeats]
    auto-repeats flips play/pause [repeats + 1] times, so the playback
    ends up flipped exactly when [repeats] is even; the tool and the
    remembered tool are not touched, and the key-up does nothing. *)
Theorem space_hold_toggles_video :
  forall (p : Props) (repeats : nat) (k : Shortcuts.State),
    assetType p = VIDEO ->
    Shortcuts.holdSpace p repeats k
    = Shortcuts.mk
        (setIsVideoPlaying
           (xorb (isVideoPlaying (Shortcuts.room k)) (Nat.even repeats))
           (Shortcuts.room k))
        (Shortcuts.previousToolRef k).
Proof.
  intros p repeats k Hty.
  assert (Hv : AssetType_eqb (assetType p) VIDEO = true)
    by (rewrite Hty; reflexivity).
  unfold Shortcuts.holdSpace.
  rewrite keyUp_space, Hv, (repeats_video p repeats _ Hv),
    (keyDown_space_video p false k Hv).
  cbn [Shortcuts.room Shortcuts.previousToolRef isVideoPlaying
       setIsVideoPlaying].
  rewrite <- Nat.negb_odd.
  destruct (isVideoPlaying (Shortcuts.room k)), (Nat.odd repeats);
    reflexivity.
Qed.

Lemma space_hold_toggles_video_witness :
  let p := mkProps VIDEO (User.mk "u1" "Cara" CREATOR "cara.png") in
  let k := Shortcuts.initial (Sample.roomOf [Sample.blank] PENDING Tpen) in
  assetType p = VIDEO
  /\ Shortcuts.holdSpace p 3 k = k
  /\ isVideoPlaying (Shortcuts.room (Shortcuts.holdSpace p 2 k)) = true.
Proof.
  cbv zeta. split; [reflexivity|]. split.
  - rewrite (space_hold_toggles_video
               (mkProps VIDEO (User.mk "u1" "Cara" CREATOR "cara.png")) 3
               (Shortcuts.initial
                  (Sample.roomOf [Sample.blank] PENDING Tpen)) eq_refl).
    reflexivity.
  - rewrite (space_hold_toggles_video
               (mkProps VIDEO (User.mk "u1" "Cara" CREATOR "cara.png")) 2
               (Shortcuts.initial
                  (Sample.roomOf [Sample.blank] PENDING Tpen)) eq_refl).
    reflexivity.
Defined.

(** ** Gestures with the pointer and the hand, and pin drags *)

Section Pointer.

Variables (rect : DOMRect.t) (p : AnnotationLayer.Props).
Hypothesis Hrect : hasExtent rect.
Hypothesis Hmode : AnnotationLayer.isCompareMode p = false.
Hypothesis Htool : AnnotationLayer.drawingTool p = Tpointer.

Lemma moves_pointer es : forall s,
  truthy (AnnotationLayer.draggedCommentId s) = false ->
  AnnotationLayer.moves (Some rect) p es s = Ok s.
Proof.
  induction es as [|e es IH]; intros s Hg; [reflexivity|].
  cbn [AnnotationLayer.moves].
  assert (E : AnnotationLayer.handleMouseMove (Some rect) p e s = Ok s).
  { unfold AnnotationLayer.handleMouseMove. rewrite Hg, Htool.
    destruct (negb (AnnotationLayer.isDrawing s)); reflexivity. }
  rewrite E. cbn [bind]. apply IH, Hg.
Qed.

Lemma pointer_gesture down mid up s :
  truthy (AnnotationLayer.draggedCommentId s) = false ->
  exists l,
    AnnotationLayer.gesture (Some rect) p down mid up s
    = Ok (l, Some (AnnotationLayer.onAddComment
                     (Point.x (pointOf rect up)) (Point.y (pointOf rect up))
                     None)).
Proof.
  intros Hg.
  set (s1 := AnnotationLayer.setIsDrawing true
               (AnnotationLayer.setBoundsRef (Some rect) s)).
  assert (Hg1 : truthy (AnnotationLayer.draggedCommentId s1) = false)
    by exact Hg.
  assert (E1 : AnnotationLayer.handleMouseDown (Some rect) p down s = Ok s1).
  { unfold AnnotationLayer.handleMouseDown.
    rewrite Htool, Hmode. cbn [Tool_eqb negb orb].
    change (truthy (AnnotationLayer.draggedCommentId
                      (AnnotationLayer.setBoundsRef (Some rect) s)))
      with (truthy (AnnotationLayer.draggedCommentId s)).
    rewrite Hg. reflexivity. }
  unfold AnnotationLayer.gesture. rewrite E1. cbn [bind].
  rewrite moves_pointer by exact Hg1. cbn [bind].
  unfold AnnotationLayer.handleMouseUp.
  rewrite Hg1, Htool, Hmode.
  change (AnnotationLayer.isDrawing s1) with true.
  cbn [negb Tool_eqb andb].
  rewrite (getPoint_cached rect Hrect) by reflexivity. cbn [bind].
  eexists. reflexivity.
Qed.

Lemma pin_moves es : forall s,
  truthy (AnnotationLayer.draggedCommentId s) = true ->
  AnnotationLayer.boundsRef s = Some rect ->
  AnnotationLayer.moves (Some rect) p es s
  = Ok (match es with
        | [] => s
        | e :: _ =>
            AnnotationLayer.setDragPosition
              (Some (clampPoint (pointOf rect (last es e)))) s
        end).
Proof.
  assert (Hstep : forall e s,
             truthy (AnnotationLayer.draggedCommentId s) = true ->
             AnnotationLayer.boundsRef s = Some rect ->
             AnnotationLayer.handleMouseMove (Some rect) p e s
             = Ok (AnnotationLayer.setDragPosition
                     (Some (clampPoint (pointOf rect e))) s)).
  { intros e s Hg Hb. unfold AnnotationLayer.handleMouseMove.
    rewrite Hg, (getPoint_cached rect Hrect) by exact Hb. reflexivity. }
  induction es as [|e es IH]; intros s Hg Hb; [reflexivity|].
  cbn [AnnotationLayer.moves]. rewrite (Hstep e s Hg Hb). cbn [bind].
  rewrite IH by assumption.
  destruct es as [|e' es]; [reflexivity|].
  rewrite (last_nonempty e' es e' e). reflexivity.
Qed.

End Pointer.

Lemma clampPoint_range (q : Point.t) :
  0 <= Point.x (clampPoint q) /\ Point.x (clampPoint q) <= 100
  /\ 0 <= Point.y (clampPoint q) /\ Point.y (clampPoint q) <= 100.
Proof.
  unfold clampPoint. cbn [Point.x Point.y].
  repeat split; first [apply Q.le_max_l | apply Q.max_lub; [lra|]];
    apply Q.le_min_l.
Qed.

(** X19 - With the pointer tool the pin lands where the button is
    released.  On a mounted overlay whose container has an extent, for an
    actor who may comment, a press, any moves and a release with the
    pointer tool succeed and commit exactly one comment, without drawing,
    at the release position measured against the bounds read at the
    press; where the button went down and how the pointer moved in
    between make no difference. *)
Theorem pointer_click_places_at_release :
  forall (p : Props) (now : Z) (rect : DOMRect.t) (down : MouseEvent.t)
         (mid : list MouseEvent.t) (up : MouseEvent.t) (u : Surface.t),
    hasExtent rect ->
    truthy (AnnotationLayer.draggedCommentId (Surface.layer u)) = false ->
    mayComment p (Surface.room u) ->
    drawingTool (Surface.room u) = Tpointer ->
    exists u' c,
      Surface.gesture p now (Some rect) down mid up u = Ok u'
      /\ committed c (Surface.room u) (Surface.room u')
      /\ Comment.x c = Some (Point.x (pointOf rect up))
      /\ Comment.y c = Some (Point.y (pointOf rect up))
      /\ Comment.drawing c = None.
Proof.
  intros p now rect down mid up u Hrect Hfree Hmay Ht.
  destruct (pointer_gesture rect (Surface.layerProps (Surface.room u)) Hrect
              eq_refl Ht down mid up (Surface.layer u) Hfree) as (l & Hl).
  exact (gesture_outcome p now rect down mid up u Hmay _ _ Hl).
Qed.

Lemma pointer_click_places_at_release_witness :
  let u := Surface.mk (Sample.roomOf [Sample.blank] PENDING Tpointer)
                      AnnotationLayer.initial in
  let down := MouseEvent.mk 5 5 0 in
  let mid := [MouseEvent.mk 70 10 0] in
  hasExtent Sample.frame
  /\ truthy (AnnotationLayer.draggedCommentId (Surface.layer u)) = false
  /\ mayComment Sample.creator (Surface.room u)
  /\ drawingTool (Surface.room u) = Tpointer
  /\ exists u' c,
       Surface.gesture Sample.creator 1700 (Some Sample.frame) down mid
         Sample.click u = Ok u'
       /\ committed c (Surface.room u) (Surface.room u')
       /\ Comment.x c = Some (Point.x (pointOf Sample.frame Sample.click))
       /\ Comment.y c = Some (Point.y (pointOf Sample.frame Sample.click))
       /\ Comment.drawing c = None.
Proof.
  cbv zeta.
  assert (X : hasExtent Sample.frame)
    by (split; vm_compute; discriminate).
  assert (M : mayComment Sample.creator
                (Surface.room
                   (Surface.mk (Sample.roomOf [Sample.blank] PENDING Tpointer)
                      AnnotationLayer.initial)))
    by (repeat split; discriminate).
  split; [exact X|]. split; [reflexivity|]. split; [exact M|].
  split; [reflexivity|].
  exact (pointer_click_places_at_release Sample.creator 1700 Sample.frame
           (MouseEvent.mk 5 5 0) [MouseEvent.mk 70 10 0] Sample.click
           (Surface.mk (Sample.roomOf [Sample.blank] PENDING Tpointer)
              AnnotationLayer.initial)
           X eq_refl M eq_refl).
Defined.

Lemma moves_idle containerRef p es : forall s,
  idle s -> AnnotationLayer.moves containerRef p es s = Ok s.
Proof.
  induction es as [|e es IH]; intros s [Hd Hg]; [reflexivity|].
  cbn [AnnotationLayer.moves].
  assert (E : AnnotationLayer.handleMouseMove containerRef p e s = Ok s).
  { unfold AnnotationLayer.handleMouseMove. rewrite Hg, Hd. reflexivity. }
  rewrite E. cbn [bind]. apply IH. split; assumption.
Qed.

Lemma panMoves_tracking (es : list MouseEvent.t) : forall s,
  isPanningRef s = true ->
  let s' := fold_left (fun r e => handlePanMove e r) es s in
  isPanningRef s' = true
  /\ lastMousePosRef s' = positionOf (last es (MouseEvent.mk
                                        (Point.x (lastMousePosRef s))
                                        (Point.y (lastMousePosRef s)) 0))
  /\ zoom s' = zoom s.
Proof.
  induction es as [|e es IH]; intros s Hp; cbn [fold_left last].
  - repeat split; try reflexivity; try assumption.
    destruct (lastMousePosRef s); reflexivity.
  - assert (Hm : handlePanMove e s
                 = setPan
                     (Point.mk
                        (Point.x (pan s)
                         + (MouseEvent.clientX e
                            - Point.x (lastMousePosRef s)))
                        (Point.y (pan s)
                         + (MouseEvent.clientY e
                            - Point.y (lastMousePosRef s))))
                     (setLastMousePosRef (positionOf e) s))
      by (unfold handlePanMove; rewrite Hp; reflexivity).
    rewrite Hm.
    match goal with
    | |- context [fold_left _ es ?r] =>
        destruct (IH r Hp) as (A & B & E)
    end.
    cbv zeta in *. split; [exact A|]. split.
    + rewrite B. destruct es as [|e' es]; [reflexivity|].
      f_equal. apply last_nonempty.
    + rewrite E. reflexivity.
Qed.

Lemma roomAfterDrag_tracking down mid s :
  drawingTool s = Thand \/ MouseEvent.button down = 1%Z ->
  let s' := handlePanEnd (Surface.roomAfterDrag down mid s) in
  lastMousePosRef s' = positionOf (last mid down)
  /\ zoom s' = zoom s
  /\ isPanningRef s' = false.
Proof.
  intros H s'. subst s'. unfold Surface.roomAfterDrag.
  assert (Hs : handlePanStart down s
               = setLastMousePosRef (positionOf down)
                   (setIsPanningRef true s)).
  { unfold handlePanStart. destruct H as [H|H].
    - rewrite H. reflexivity.
    - rewrite H, orb_true_r. reflexivity. }
  rewrite Hs.
  destruct (panMoves_tracking mid
              (setLastMousePosRef (positionOf down)
                 (setIsPanningRef true s)) eq_refl)
    as (_ & B & E).
  cbv zeta in *.
  cbn [handlePanEnd zoom isPanningRef lastMousePosRef setIsPanningRef] in *.
  cbn [lastMousePosRef setLastMousePosRef setIsPanningRef positionOf
       Point.x Point.y zoom] in B, E.
  split; [|split; [exact E | reflexivity]].
  rewrite B. destruct mid as [|e mid]; [reflexivity|].
  f_equal. apply last_nonempty.
Qed.

(** X20 - The hand tool pans and never annotates.  With the hand tool
    and the overlay at rest, a press, any moves and a release on the
    overlay succeed whatever the container's rectangle; the overlay stays
    at rest and no callback reaches the room: the room is the one that the
    viewport's pan handlers alone make of the press, the moves and the
    release.  So the versions, the selection and the zoom are as before,
    the last pointer position is the one remembered, and panning has
    ended. *)
Theorem hand_gesture_pans_only :
  forall (p : Props) (now : Z) (containerRef : option DOMRect.t)
         (down : MouseEvent.t) (mid : list MouseEvent.t) (up : MouseEvent.t)
         (u : Surface.t),
    drawingTool (Surface.room u) = Thand ->
    idle (Surface.layer u) ->
    exists u',
      Surface.gesture p now containerRef down mid up u = Ok u'
      /\ Surface.layer u' = Surface.layer u
      /\ Surface.room u'
         = handlePanEnd (Surface.roomAfterDrag down mid (Surface.room u))
      /\ versions (Surface.room u') = versions (Surface.room u)
      /\ activeCommentId (Surface.room u') = activeCommentId (Surface.room u)
      /\ zoom (Surface.room u') = zoom (Surface.room u)
      /\ lastMousePosRef (Surface.room u') = positionOf (last mid down)
      /\ isPanningRef (Surface.room u') = false.
Proof.
  intros p now containerRef down mid up u Ht Hidle.
  assert (Hl : AnnotationLayer.gesture containerRef
                 (Surface.layerProps (Surface.room u)) down mid up
                 (Surface.layer u)
               = Ok (Surface.layer u, None)).
  { unfold AnnotationLayer.gesture, AnnotationLayer.handleMouseDown.
    cbn [Surface.layerProps AnnotationLayer.drawingTool]. rewrite Ht.
    cbn [Tool_eqb bind]. rewrite moves_idle by exact Hidle. cbn [bind].
    unfold AnnotationLayer.handleMouseUp. destruct Hidle as [Hd Hg].
    rewrite Hg, Hd. reflexivity. }
  rewrite gesture_unfold, Hl. cbn [bind snd fst Surface.dispatch].
  eexists. split; [reflexivity|]. cbn [Surface.room Surface.layer].
  split; [reflexivity|]. split; [reflexivity|].
  destruct (roomAfterDrag_data down mid (Surface.room u))
    as (_ & _ & Ev & _ & _ & Es).
  split; [exact Ev|]. split; [exact Es|].
  destruct (roomAfterDrag_tracking down mid (Surface.room u) (or_introl Ht))
    as (Hx & Hz & Hq).
  split; [exact Hz|]. split; [exact Hx | exact Hq].
Qed.

Lemma hand_gesture_pans_only_witness :
  let u := Surface.mk (Sample.roomOf [Sample.reviewed] PENDING Thand)
                      AnnotationLayer.initial in
  let down := MouseEvent.mk 10 10 0 in
  let mid := [MouseEvent.mk 300 (- 40) 0; MouseEvent.mk 25 5 0] in
  drawingTool (Surface.room u) = Thand
  /\ idle (Surface.layer u)
  /\ exists u',
       Surface.gesture Sample.creator 1700 None down mid Sample.click u
       = Ok u'
       /\ Surface.layer u' = Surface.layer u
       /\ Surface.room u'
          = handlePanEnd (Surface.roomAfterDrag down mid (Surface.room u))
       /\ versions (Surface.room u') = versions (Surface.room u)
       /\ activeCommentId (Surface.room u')
          = activeCommentId (Surface.room u)
       /\ zoom (Surface.room u') = zoom (Surface.room u)
       /\ lastMousePosRef (Surface.room u') = Point.mk 25 5
       /\ isPanningRef (Surface.room u') = false.
Proof.
  cbv zeta.
  assert (I : idle (Surface.layer
                      (Surface.mk
                         (Sample.roomOf [Sample.reviewed] PENDING Thand)
                         AnnotationLayer.initial)))
    by (split; reflexivity).
  split; [reflexivity|]. split; [exact I|].
  exact (hand_gesture_pans_only Sample.creator 1700 None
           (MouseEvent.mk 10 10 0)
           [MouseEvent.mk 300 (- 40) 0; MouseEvent.mk 25 5 0] Sample.click
           (Surface.mk (Sample.roomOf [Sample.reviewed] PENDING Thand)
              AnnotationLayer.initial)
           eq_refl I).
Defined.

Lemma moved_versions_data id x y r r' :
  sameRoomData r r' ->
  versions (handleUpdateCommentPosition id x y r')
  = versions (handleUpdateCommentPosition id x y r).
Proof.
  intros (_ & _ & Ev & Ea & _). unfold handleUpdateCommentPosition.
  cbn [versions setVersions]. rewrite Ev, Ea. reflexivity.
Qed.

(** X21 - Dragging a pin.  With the pointer tool, a press on the pin of a
    comment with a non-empty id, any moves and a release succeed on a
    container with an extent: the comment is selected, and it is moved,
    drawing included, to the last move's position clamped to [0, 100] on
    both axes, measured against the bounds read at the press; the
    release position itself is not read.  Without a move the comment is
    "moved" to its own anchor, a missing coordinate counting as 0.  The
    overlay ends at rest with its cache cleared. *)
Theorem pin_drag_end_to_end :
  forall (p : Props) (now : Z) (rect : DOMRect.t) (c : Comment.t)
         (mid : list MouseEvent.t) (up : MouseEvent.t) (u : Surface.t),
    hasExtent rect ->
    drawingTool (Surface.room u) = Tpointer ->
    Comment.id c <> EmptyString ->
    let target :=
      match mid with
      | [] => Point.mk (orZero (Comment.x c)) (orZero (Comment.y c))
      | e :: _ => clampPoint (pointOf rect (last mid e))
      end in
    exists u',
      pinGesture p now (Some rect) c mid up u = Ok u'
      /\ versions (Surface.room u')
         = versions (handleUpdateCommentPosition (Comment.id c)
                       (Point.x target) (Point.y target) (Surface.room u))
      /\ activeCommentId (Surface.room u') = Some (Comment.id c)
      /\ AnnotationLayer.draggedCommentId (Surface.layer u') = None
      /\ AnnotationLayer.dragPosition (Surface.layer u') = None
      /\ AnnotationLayer.boundsRef (Surface.layer u') = None
      /\ (mid <> [] ->
          0 <= Point.x target /\ Point.x target <= 100
          /\ 0 <= Point.y target /\ Point.y target <= 100).
Proof.
  intros p now rect c mid up u Hrect Ht Hid target.
  set (r1 := setActiveCommentId (Some (Comment.id c)) (Surface.room u)).
  set (l1 := AnnotationLayer.setDragPosition
               (Some (Point.mk (orZero (Comment.x c)) (orZero (Comment.y c))))
               (AnnotationLayer.setDraggedCommentId (Some (Comment.id c))
                  (AnnotationLayer.setBoundsRef (Some rect)
                     (Surface.layer u)))).
  assert (E1 : Surface.pinMouseDown (Some rect) c u = Surface.mk r1 l1).
  { unfold Surface.pinMouseDown, AnnotationLayer.handlePinMouseDown.
    cbn [Surface.layerProps AnnotationLayer.drawingTool
         AnnotationLayer.isCompareMode].
    rewrite Ht. reflexivity. }
  assert (Hg : truthy (Some (Comment.id c)) = true).
  { cbn [truthy]. destruct (String.eqb_spec (Comment.id c) EmptyString);
      [contradiction | reflexivity]. }
  assert (Hp1 : Surface.layerProps r1 = Surface.layerProps (Surface.room u))
    by reflexivity.
  pose proof (panMoves_data mid r1) as Hdata.
  set (r2 := fold_left (fun r e => handlePanMove e r) mid r1) in *.
  assert (Hp2 : Surface.layerProps r2 = Surface.layerProps (Surface.room u))
    by (rewrite (layerProps_data r1 r2 Hdata); exact Hp1).
  unfold pinGesture. rewrite E1, mouseMoves_unfold.
  cbn [Surface.room Surface.layer]. rewrite Hp1.
  rewrite (pin_moves rect (Surface.layerProps (Surface.room u)) Hrect
             mid l1 Hg eq_refl).
  cbn [bind]. fold r2. unfold Surface.mouseUp.
  cbn [Surface.room Surface.layer]. rewrite Hp2.
  set (l2 := match mid with
             | [] => l1
             | e :: _ =>
                 AnnotationLayer.setDragPosition
                   (Some (clampPoint (pointOf rect (last mid e)))) l1
             end).
  assert (Hl2 : AnnotationLayer.draggedCommentId l2 = Some (Comment.id c)
                /\ AnnotationLayer.dragPosition l2 = Some target).
  { subst l2 target. destruct mid; split; reflexivity. }
  destruct Hl2 as [Hd2 Hq2].
  unfold AnnotationLayer.handleMouseUp. rewrite Hd2, Hg, Hq2.
  cbn [Surface.layerProps AnnotationLayer.hasOnUpdateCommentPosition bind
       snd fst Surface.dispatch].
  eexists. split; [reflexivity|]. cbn [Surface.room Surface.layer].
  split.
  { cbn [handlePanEnd versions setIsPanningRef].
    rewrite (moved_versions_data _ _ _ r1 r2 Hdata). reflexivity. }
  split.
  { destruct Hdata as (_ & _ & _ & _ & _ & Es).
    cbn [handlePanEnd activeCommentId setIsPanningRef
         handleUpdateCommentPosition setVersions].
    rewrite Es. reflexivity. }
  split; [reflexivity|]. split; [reflexivity|]. split; [reflexivity|].
  intros Hne. subst target. destruct mid as [|e mid]; [contradiction|].
  apply clampPoint_range.
Qed.

Lemma pin_drag_end_to_end_witness :
  let u := Surface.mk Sample.annotated AnnotationLayer.initial in
  let mid := [MouseEvent.mk 70 10 0; MouseEvent.mk 130 (- 5) 0] in
  let target := clampPoint (pointOf Sample.frame (MouseEvent.mk 130 (- 5) 0)) in
  hasExtent Sample.frame
  /\ drawingTool (Surface.room u) = Tpointer
  /\ Comment.id Sample.boxedNote <> EmptyString
  /\ mid <> []
  /\ exists u',
       pinGesture Sample.creator 1700 (Some Sample.frame) Sample.boxedNote
         mid Sample.click u = Ok u'
       /\ versions (Surface.room u')
          = versions (handleUpdateCommentPosition (Comment.id Sample.boxedNote)
                        (Point.x target) (Point.y target) (Surface.room u))
       /\ activeCommentId (Surface.room u')
          = Some (Comment.id Sample.boxedNote)
       /\ AnnotationLayer.draggedCommentId (Surface.layer u') = None
       /\ AnnotationLayer.dragPosition (Surface.layer u') = None
       /\ AnnotationLayer.boundsRef (Surface.layer u') = None
       /\ 0 <= Point.x target /\ Point.x target <= 100
       /\ 0 <= Point.y target /\ Point.y target <= 100.
Proof.
  cbv zeta.
  assert (X : hasExtent Sample.frame)
    by (split; vm_compute; discriminate).
  assert (N : Comment.id Sample.boxedNote <> EmptyString) by discriminate.
  assert (M : [MouseEvent.mk 70 10 0; MouseEvent.mk 130 (- 5) 0] <> [])
    by discriminate.
  split; [exact X|]. split; [reflexivity|]. split; [exact N|].
  split; [exact M|].
  destruct (pin_drag_end_to_end Sample.creator 1700 Sample.frame
              Sample.boxedNote
              [MouseEvent.mk 70 10 0; MouseEvent.mk 130 (- 5) 0]
              Sample.click
              (Surface.mk Sample.annotated AnnotationLayer.initial)
              X eq_refl N)
    as (u' & E & V & S & D & Q & B & R).
  exists u'. split; [exact E|]. split; [exact V|]. split; [exact S|].
  split; [exact D|]. split; [exact Q|]. split; [exact B|]. exact (R M).
Defined.

(** ** What the overlay draws *)

(** X22 - What is drawn during a pin drag is what the release commits.
    For an unresolved comment with an anchor and a drawing, dragged to
    [pos]: the overlay draws the pin at [pos] and the drawing translated
    by [pos] minus the anchor; after the release, the moved comment at
    rest is drawn with its pin at [pos] and the same drawing.  Nothing
    jumps when the button is released. *)
Theorem drag_preview_is_committed :
  forall (c : Comment.t) (pos : Point.t) (d : Drawing.t) (x y : number),
    Comment.resolved c = false ->
    Comment.drawing c = Some d ->
    Comment.x c = Some x ->
    Comment.y c = Some y ->
    let moved := moveComment (Comment.id c) (Point.x pos) (Point.y pos) c in
    exists d1 d2,
      StaticDrawings.drawingToRender (Some (Comment.id c)) (Some pos) c
      = Some d1
      /\ StaticDrawings.drawingToRender None None moved = Some d2
      /\ Drawing_equiv d1 d2
      /\ Pin.display c true (Some pos) = Some pos
      /\ Pin.display moved false None = Some pos.
Proof.
  intros c pos d x y Hr Hd Hx Hy moved.
  assert (Em : moved
               = Comment.mk (Comment.id c) (Comment.userId c)
                   (Comment.text c) (Comment.timestamp c)
                   (Comment.resolved c) (Some (Point.x pos))
                   (Some (Point.y pos)) (Comment.videoTimestamp c)
                   (Some (translateDrawing
                            (Point.x pos - orZero (Comment.x c))
                            (Point.y pos - orZero (Comment.y c)) d))
                   (Comment.replies c) (Comment.isInternal c)).
  { subst moved. unfold moveComment.
    rewrite String.eqb_refl, Hd. reflexivity. }
  do 2 eexists. split.
  { unfold StaticDrawings.drawingToRender.
    rewrite Hr, Hd, Hx, Hy. cbn [StaticDrawings.isId].
    rewrite String.eqb_refl. reflexivity. }
  split.
  { rewrite Em. unfold StaticDrawings.drawingToRender.
    cbn [Comment.resolved Comment.drawing StaticDrawings.isId].
    rewrite Hr. reflexivity. }
  split.
  { rewrite Hx, Hy. apply translateDrawing_compat.
    - rewrite orZero_some. reflexivity.
    - rewrite orZero_some. reflexivity. }
  split.
  - unfold Pin.display. destruct pos; reflexivity.
  - rewrite Em. unfold Pin.display. cbn [Comment.x Comment.y].
    destruct pos; reflexivity.
Qed.

Lemma drag_preview_is_committed_witness :
  let pos := Point.mk 55 65 in
  let moved := moveComment "c9" 55 65 Sample.boxedNote in
  Comment.resolved Sample.boxedNote = false
  /\ Comment.drawing Sample.boxedNote = Some Sample.boxed
  /\ Comment.x Sample.boxedNote = Some 40
  /\ Comment.y Sample.boxedNote = Some 20
  /\ exists d1 d2,
       StaticDrawings.drawingToRender (Some "c9"%string) (Some pos)
         Sample.boxedNote = Some d1
       /\ StaticDrawings.drawingToRender None None moved = Some d2
       /\ Drawing_equiv d1 d2
       /\ Pin.display Sample.boxedNote true (Some pos) = Some pos
       /\ Pin.display moved false None = Some pos.
Proof.
  cbv zeta. split; [reflexivity|]. split; [reflexivity|].
  split; [reflexivity|]. split; [reflexivity|].
  exact (drag_preview_is_committed Sample.boxedNote (Point.mk 55 65)
           Sample.boxed 40 20 eq_refl eq_refl eq_refl eq_refl).
Defined.

Lemma layerFrom_nth dragged dragPos comments : forall n i v,
  nth_error (Pin.layerFrom n dragged dragPos comments) i = Some (Some v) ->
  nth_error comments i = Some (Pin.comment v)
  /\ Pin.label v = (n + i + 1)%nat.
Proof.
  induction comments as [|c cs IH]; intros n i v H.
  - destruct i; discriminate.
  - destruct i as [|i]; cbn [Pin.layerFrom nth_error] in H.
    + destruct (Comment.resolved c); [discriminate|].
      destruct (Comment.x c), (Comment.y c); try discriminate.
      destruct (Pin.display c _ _); [|discriminate].
      injection H as <-. cbn [nth_error Pin.comment Pin.label].
      split; [reflexivity | lia].
    + destruct (IH (S n) i v H) as [A B]. cbn [nth_error].
      split; [exact A | lia].
Qed.

Lemma findIndex_nth (comments : list Comment.t) : forall i c,
  NoDup (map Comment.id comments) ->
  nth_error comments i = Some c ->
  findIndex (fun c' => String.eqb (Comment.id c') (Comment.id c)) comments
  = Z.of_nat i.
Proof.
  induction comments as [|a cs IH]; intros i c Hnd Hn.
  - destruct i; discriminate.
  - cbn [map] in Hnd. inversion Hnd as [|? ? Hnot Hnd']; subst.
    destruct i as [|i]; cbn [nth_error findIndex] in *.
    + injection Hn as ->. rewrite String.eqb_refl. reflexivity.
    + assert (Hne : String.eqb (Comment.id a) (Comment.id c) = false).
      { apply String.eqb_neq. intros E. apply Hnot. rewrite E.
        apply in_map. eapply nth_error_In. exact Hn. }
      rewrite Hne, (IH i c Hnd' Hn).
      destruct (Z.ltb_spec (Z.of_nat i) 0); lia.
Qed.

(** X23 - The pins carry the numbers of the sidebar.  The overlay and
    the sidebar are handed the same list of comments.  When the ids in
    that list are distinct, the number on every pin the overlay renders,
    the position of its comment in the list counted from 1, is the
    number the sidebar shows on the row of that comment, under any
    filter and sort order of the sidebar. *)
Theorem pin_labels_match_sidebar :
  forall (draggedCommentId : option string) (dragPosition : option Point.t)
         (comments : list Comment.t) (i : nat) (v : Pin.view),
    NoDup (map Comment.id comments) ->
    nth_error (Pin.layer draggedCommentId dragPosition comments) i
    = Some (Some v) ->
    nth_error comments i = Some (Pin.comment v)
    /\ Pin.label v = (i + 1)%nat
    /\ CommentThread.originalIndex comments (Pin.comment v)
       = Z.of_nat (Pin.label v).
Proof.
  intros dragged dragPos comments i v Hnd H.
  destruct (layerFrom_nth dragged dragPos comments 0 i v H) as [A B].
  split; [exact A|]. split; [exact B|].
  unfold CommentThread.originalIndex.
  rewrite (findIndex_nth comments i _ Hnd A). lia.
Qed.

Lemma pin_labels_match_sidebar_witness :
  let comments := AssetVersion.comments Sample.reviewed in
  NoDup (map Comment.id comments)
  /\ nth_error (Pin.layer None None comments) 1
     = Some (Some (Pin.mkView 2 (Sample.note "c2" false true)
                     (Point.mk 10 20)))
  /\ nth_error comments 1 = Some (Sample.note "c2" false true)
  /\ CommentThread.originalIndex comments (Sample.note "c2" false true)
     = 2%Z.
Proof.
  cbv zeta.
  assert (N : NoDup (map Comment.id (AssetVersion.comments Sample.reviewed))).
  { repeat constructor; cbn; intuition discriminate. }
  assert (E : nth_error
                (Pin.layer None None (AssetVersion.comments Sample.reviewed))
                1
              = Some (Some (Pin.mkView 2 (Sample.note "c2" false true)
                              (Point.mk 10 20)))) by reflexivity.
  split; [exact N|]. split; [exact E|].
  destruct (pin_labels_match_sidebar None None
              (AssetVersion.comments Sample.reviewed) 1 _ N E)
    as (A & _ & C).
  split; [exact A | exact C].
Defined.

(** ** The sidebar and the comparison view *)

Lemma insert_perm c l : Permutation (CommentThread.insert c l) (c :: l).
Proof.
  induction l as [|d l IH]; [reflexivity|]. cbn [CommentThread.insert].
  destruct (gt (Comment.timestamp d) (Comment.timestamp c)); [|reflexivity].
  rewrite IH. apply perm_swap.
Qed.

Lemma sort_perm l : Permutation (CommentThread.sort l) l.
Proof.
  induction l as [|c l IH]; [reflexivity|].
  cbn [CommentThread.sort fold_right]. fold (CommentThread.sort l).
  rewrite insert_perm, IH. reflexivity.
Qed.

Lemma insert_sorted c l :
  newestFirst l -> newestFirst (CommentThread.insert c l).
Proof.
  unfold newestFirst. induction 1 as [|d l Hs IH Hd].
  - repeat constructor.
  - cbn [CommentThread.insert].
    destruct (gt (Comment.timestamp d) (Comment.timestamp c)) eqn:E.
    + apply gt_true_iff in E. constructor; [exact IH|].
      rewrite insert_perm. constructor; [lra | exact Hd].
    + apply gt_false_iff in E. constructor; [constructor; assumption|].
      constructor; [exact E|].
      eapply Forall_impl; [|exact Hd]. cbn beta. intros a Ha. lra.
Qed.

Lemma sort_sorted l : newestFirst (CommentThread.sort l).
Proof.
  induction l as [|c l IH]; [constructor|].
  cbn [CommentThread.sort fold_right]. apply insert_sorted. exact IH.
Qed.

Lemma sort_fixed l : newestFirst l -> CommentThread.sort l = l.
Proof.
  unfold newestFirst. induction 1 as [|c l Hs IH Hc]; [reflexivity|].
  cbn [CommentThread.sort fold_right]. fold (CommentThread.sort l).
  rewrite IH. destruct l as [|d l]; [reflexivity|].
  cbn [CommentThread.insert]. inversion Hc as [|? ? Hd _]; subst.
  apply gt_false_iff in Hd. rewrite Hd. reflexivity.
Qed.

(** X24 - The rows of the sidebar.  Under each filter the sidebar shows
    exactly the comments handed in that pass the filter, each as often as
    it occurs, with timestamps that never increase down the list; a
    list that is already ordered newest first is shown in its own
    order. *)
Theorem sortedComments_newest_first :
  forall (filter : CommentThread.Filter) (comments : list Comment.t),
    Permutation (CommentThread.sortedComments filter comments)
                (List.filter (CommentThread.keeps filter) comments)
    /\ newestFirst (CommentThread.sortedComments filter comments)
    /\ (forall c, In c (CommentThread.sortedComments filter comments)
                  <-> In c comments /\ CommentThread.keeps filter c = true)
    /\ (newestFirst comments ->
        CommentThread.sortedComments CommentThread.ALL comments = comments).
Proof.
  intros filter comments. unfold CommentThread.sortedComments.
  split; [apply sort_perm|]. split; [apply sort_sorted|]. split.
  - intros c. rewrite <- filter_In. split; intros H.
    + eapply Permutation_in; [apply sort_perm | exact H].
    + eapply Permutation_in; [symmetry; apply sort_perm | exact H].
  - intros Hs.
    assert (E : List.filter (CommentThread.keeps CommentThread.ALL) comments
                = comments).
    { clear Hs. induction comments as [|c l IH]; [reflexivity|].
      cbn [List.filter CommentThread.keeps]. rewrite IH. reflexivity. }
    rewrite E. apply sort_fixed. exact Hs.
Qed.

Lemma sortedComments_newest_first_witness :
  let comments :=
    [Sample.note "c1" false false;
     Comment.mk "c2" "u1" "later" 2000 false None None None None None None]
  in
  CommentThread.sortedComments CommentThread.OPEN comments
  = [Comment.mk "c2" "u1" "later" 2000 false None None None None None None;
     Sample.note "c1" false false]
  /\ newestFirst (CommentThread.sortedComments CommentThread.OPEN comments)
  /\ newestFirst (rev comments)
  /\ CommentThread.sortedComments CommentThread.ALL (rev comments)
     = rev comments.
Proof.
  cbv zeta. split; [reflexivity|].
  split;
    [apply (sortedComments_newest_first CommentThread.OPEN
              [Sample.note "c1" false false;
               Comment.mk "c2" "u1" "later" 2000 false None None None None
                 None None])|].
  assert (S : newestFirst
                (rev [Sample.note "c1" false false;
                      Comment.mk "c2" "u1" "later" 2000 false None None None
                        None None None])).
  { cbn [rev app]. repeat constructor. cbn. discriminate. }
  split; [exact S|].
  apply (sortedComments_newest_first CommentThread.ALL
           (rev [Sample.note "c1" false false;
                 Comment.mk "c2" "u1" "later" 2000 false None None None None
                   None None])).
  exact S.
Defined.

Lemma step_keeps_public trim currentUser a s :
  User.role currentUser = APPROVER ->
  (forall id, CommentThread.replyInternal s id <> Some true) ->
  forall id,
    CommentThread.replyInternal
      (fst (CommentThread.step trim currentUser a s)) id <> Some true.
Proof.
  intros Hr Hs id.
  destruct a as [i v|i|i|f]; cbn [CommentThread.step fst].
  - apply Hs.
  - unfold CommentThread.toggleInternal, CommentThread.canPostInternal.
    rewrite Hr. apply Hs.
  - unfold CommentThread.handleSendReply.
    destruct (CommentThread.replyDrafts s i) as [text|]; [|apply Hs].
    destruct (_ && _); apply Hs.
  - apply Hs.
Qed.

Lemma sent_calls trim currentUser actions : forall s,
  (User.role currentUser = APPROVER ->
   forall id, CommentThread.replyInternal s id <> Some true) ->
  Forall (fun call =>
            snd (fst call) <> EmptyString
            /\ trim (snd (fst call)) <> EmptyString
            /\ (User.role currentUser = APPROVER -> snd call = false))
         (CommentThread.sent trim currentUser actions s).
Proof.
  induction actions as [|a actions IH]; intros s Hs; [constructor|].
  cbn [CommentThread.sent].
  assert (Hs' : User.role currentUser = APPROVER ->
                forall id,
                  CommentThread.replyInternal
                    (fst (CommentThread.step trim currentUser a s)) id
                  <> Some true).
  { intros Hr. apply step_keeps_public; [exact Hr | exact (Hs Hr)]. }
  destruct (snd (CommentThread.step trim currentUser a s)) as [call|] eqn:E;
    [|apply IH; exact Hs'].
  constructor; [|apply IH; exact Hs'].
  destruct a as [i v|i|i|f]; cbn [CommentThread.step snd] in E;
    try discriminate.
  unfold CommentThread.handleSendReply in E.
  destruct (CommentThread.replyDrafts s i) as [text|]; [|discriminate].
  destruct (String.eqb_spec text EmptyString) as [|Ht];
    cbn [negb andb] in E; [discriminate|].
  destruct (String.eqb_spec (trim text) EmptyString) as [|Htt];
    cbn [negb] in E; [discriminate|].
  injection E as <-. cbn [fst snd].
  split; [exact Ht|]. split; [exact Htt|].
  intros Hr. specialize (Hs Hr i).
  destruct (CommentThread.replyInternal s i) as [[|]|];
    [contradiction | reflexivity | reflexivity].
Qed.

(** X25 - What the sidebar sends.  Whatever is typed, toggled, sent and
    filtered in the sidebar, starting from its initial state, every call
    of [onReply] carries a text that is non-empty and stays non-empty
    when trimmed, and, when the user is an Approver, the public flag: an
    Approver cannot post an internal note.  A send clears the draft, so
    sending again at once sends nothing. *)
Theorem thread_sends_public_nonblank :
  forall (trim : string -> string) (currentUser : User.t)
         (actions : list CommentThread.Action),
    Forall (fun call =>
              snd (fst call) <> EmptyString
              /\ trim (snd (fst call)) <> EmptyString
              /\ (User.role currentUser = APPROVER -> snd call = false))
           (CommentThread.sent trim currentUser actions CommentThread.initial)
    /\ (forall s id s' call,
          CommentThread.handleSendReply trim id s = (s', Some call) ->
          CommentThread.replyDrafts s' id = Some EmptyString
          /\ CommentThread.handleSendReply trim id s' = (s', None)).
Proof.
  intros trim currentUser actions. split.
  - apply sent_calls. intros _ id. discriminate.
  - intros s id s' call. unfold CommentThread.handleSendReply.
    destruct (CommentThread.replyDrafts s id) as [text|]; [|discriminate].
    destruct (_ && _); [|discriminate].
    intros [= <- _].
    cbn [CommentThread.replyDrafts CommentThread.assign].
    unfold CommentThread.assign. rewrite String.eqb_refl.
    split; reflexivity.
Qed.

Lemma thread_sends_public_nonblank_witness :
  let actions :=
    [CommentThread.Type_ "c1" "   ";
     CommentThread.Send "c1";
     CommentThread.Toggle "c1";
     CommentThread.Type_ "c1" " ok";
     CommentThread.Send "c1";
     CommentThread.Send "c1"] in
  let typed := CommentThread.handleDraftChange "c1" " ok"
                 CommentThread.initial in
  let cleared := fst (CommentThread.handleSendReply dropSpaces "c1" typed) in
  CommentThread.sent dropSpaces (currentUser Sample.approver) actions
    CommentThread.initial
  = [("c1"%string, " ok"%string, false)]
  /\ CommentThread.sent dropSpaces (currentUser Sample.creator) actions
       CommentThread.initial
     = [("c1"%string, " ok"%string, true)]
  /\ Forall (fun call =>
               snd (fst call) <> EmptyString
               /\ dropSpaces (snd (fst call)) <> EmptyString
               /\ (User.role (currentUser Sample.approver) = APPROVER ->
                   snd call = false))
            (CommentThread.sent dropSpaces (currentUser Sample.approver)
               actions CommentThread.initial)
  /\ CommentThread.handleSendReply dropSpaces "c1" typed
     = (cleared, Some ("c1"%string, " ok"%string, false))
  /\ CommentThread.replyDrafts cleared "c1" = Some EmptyString
  /\ CommentThread.handleSendReply dropSpaces "c1" cleared = (cleared, None).
Proof.
  cbv zeta. split; [reflexivity|]. split; [reflexivity|].
  destruct (thread_sends_public_nonblank dropSpaces
              (currentUser Sample.approver)
              [CommentThread.Type_ "c1" "   ";
               CommentThread.Send "c1";
               CommentThread.Toggle "c1";
               CommentThread.Type_ "c1" " ok";
               CommentThread.Send "c1";
               CommentThread.Send "c1"]) as [A B].
  split; [exact A|].
  assert (E : CommentThread.handleSendReply dropSpaces "c1"
                (CommentThread.handleDraftChange "c1" " ok"
                   CommentThread.initial)
              = (fst (CommentThread.handleSendReply dropSpaces "c1"
                        (CommentThread.handleDraftChange "c1" " ok"
                           CommentThread.initial)),
                 Some ("c1"%string, " ok"%string, false)))
    by reflexivity.
  split; [exact E|]. exact (B _ _ _ _ E).
Defined.

Lemma wipe_clamp (q : number) :
  0 <= Qmax 0 (Qmin 100 q) /\ Qmax 0 (Qmin 100 q) <= 100.
Proof.
  split; [apply Q.le_max_l|]. apply Q.max_lub; [lra | apply Q.le_min_l].
Qed.

(** X26 - The wipe handle stays on the image.  Starting with a wipe
    position between 0 and 100, as the initial 50 is, any sequence of
    presses, moves over a container with a width, releases and mode
    switches is handled without failure and leaves the position between
    0 and 100; and as long as the handle has not been pressed, moves do
    not change it. *)
Theorem wipe_stays_in_range :
  forall (evs : list ComparisonView.Event) (s : ComparisonView.State),
    Forall sized evs ->
    0 <= ComparisonView.wipePos s /\ ComparisonView.wipePos s <= 100 ->
    exists s',
      ComparisonView.run evs s = Ok s'
      /\ 0 <= ComparisonView.wipePos s'
      /\ ComparisonView.wipePos s' <= 100
      /\ (ComparisonView.isDragging s = false ->
          ~ In ComparisonView.Press evs ->
          ComparisonView.wipePos s' = ComparisonView.wipePos s).
Proof.
  intros evs. induction evs as [|ev evs IH]; intros s Hsz Hr.
  - exists s. split; [reflexivity|]. split; [apply Hr|].
    split; [apply Hr | reflexivity].
  - inversion Hsz as [|? ? Hev Hrest]; subst.
    assert (Hstep : exists s1,
               ComparisonView.step ev s = Ok s1
               /\ (0 <= ComparisonView.wipePos s1
                   /\ ComparisonView.wipePos s1 <= 100)
               /\ (ComparisonView.isDragging s = false ->
                   ev <> ComparisonView.Press ->
                   ComparisonView.isDragging s1 = false
                   /\ ComparisonView.wipePos s1 = ComparisonView.wipePos s)).
    { destruct ev as [|containerRef e| |m]; cbn [ComparisonView.step].
      - eexists. split; [reflexivity|]. split; [exact Hr|].
        intros _ Hn. contradiction.
      - unfold ComparisonView.handleMouseMove.
        destruct (ComparisonView.isDragging s) eqn:Ed.
        + destruct containerRef as [rect|].
          * cbn [sized] in Hev. rewrite jsdiv_ok by exact Hev. cbn [bind].
            eexists. split; [reflexivity|].
            cbn [ComparisonView.wipePos].
            split; [apply wipe_clamp | intros; discriminate].
          * exists s. split; [reflexivity|]. split; [exact Hr|].
            intros; discriminate.
        + exists s. split; [reflexivity|]. split; [exact Hr|].
          intros _ _. split; [exact Ed | reflexivity].
      - eexists. split; [reflexivity|]. split; [exact Hr|].
        intros _ _. split; reflexivity.
      - eexists. split; [reflexivity|]. split; [exact Hr|].
        intros Hd _. split; [exact Hd | reflexivity]. }
    destruct Hstep as (s1 & E1 & Hr1 & Hkeep).
    destruct (IH s1 Hrest Hr1) as (s' & E' & Hlo & Hhi & Hkeep').
    exists s'. cbn [ComparisonView.run]. rewrite E1. cbn [bind].
    split; [exact E'|]. split; [exact Hlo|]. split; [exact Hhi|].
    intros Hd Hn.
    destruct (Hkeep Hd) as [Hd1 Hw1];
      [intros ->; apply Hn; left; reflexivity|].
    rewrite <- Hw1. apply (Hkeep' Hd1).
    intros Hin. apply Hn. right. exact Hin.
Qed.

Lemma wipe_stays_in_range_witness :
  let evs := [ComparisonView.Switch ComparisonView.wipe;
              ComparisonView.Press;
              ComparisonView.Move (Some Sample.viewport)
                (MouseEvent.mk 2000 10 0);
              ComparisonView.Release] in
  let idle := [ComparisonView.Move (Some Sample.viewport)
                 (MouseEvent.mk 2000 10 0);
               ComparisonView.Release] in
  Forall sized evs
  /\ Forall sized idle
  /\ 0 <= ComparisonView.wipePos ComparisonView.initial
  /\ ComparisonView.wipePos ComparisonView.initial <= 100
  /\ ComparisonView.isDragging ComparisonView.initial = false
  /\ ~ In ComparisonView.Press idle
  /\ (exists s',
        ComparisonView.run evs ComparisonView.initial = Ok s'
        /\ 0 <= ComparisonView.wipePos s'
        /\ ComparisonView.wipePos s' <= 100)
  /\ (exists s',
        ComparisonView.run idle ComparisonView.initial = Ok s'
        /\ ComparisonView.wipePos s'
           = ComparisonView.wipePos ComparisonView.initial).
Proof.
  cbv zeta.
  assert (S : Forall sized
                [ComparisonView.Switch ComparisonView.wipe;
                 ComparisonView.Press;
                 ComparisonView.Move (Some Sample.viewport)
                   (MouseEvent.mk 2000 10 0);
                 ComparisonView.Release]).
  { repeat constructor. cbn. discriminate. }
  assert (S2 : Forall sized
                 [ComparisonView.Move (Some Sample.viewport)
                    (MouseEvent.mk 2000 10 0);
                  ComparisonView.Release]).
  { repeat constructor. cbn. discriminate. }
  assert (R : 0 <= ComparisonView.wipePos ComparisonView.initial
              /\ ComparisonView.wipePos ComparisonView.initial <= 100)
    by (split; vm_compute; discriminate).
  assert (N : ~ In ComparisonView.Press
                [ComparisonView.Move (Some Sample.viewport)
                   (MouseEvent.mk 2000 10 0);
                 ComparisonView.Release]).
  { cbn. intros [H | [H | []]]; discriminate. }
  split; [exact S|]. split; [exact S2|]. split; [apply R|].
  split; [apply R|]. split; [reflexivity|]. split; [exact N|]. split.
  - destruct (wipe_stays_in_range _ ComparisonView.initial S R)
      as (s' & E & Hlo & Hhi & _).
    exists s'. split; [exact E|]. split; assumption.
  - destruct (wipe_stays_in_range _ ComparisonView.initial S2 R)
      as (s' & E & _ & _ & K).
    exists s'. split; [exact E | exact (K eq_refl N)].
Defined.

(** ** The video player *)

(** X27 - The loop confines the playback.  With the loop active and both
    marks set, a time update reports the time it found to the room and
    then leaves the video where it is when that time lies in
    [loopStart, loopEnd), and jumps to [loopStart] otherwise.  When the
    marks are the wrong way round, [loopEnd <= loopStart], every time
    update jumps to [loopStart]: the playback is held there. *)
Theorem loop_confines_playback :
  forall (s : VideoPlayer.State) (v : VideoPlayer.Video) (ls le : number),
    VideoPlayer.videoRef s = Some v ->
    VideoPlayer.isLoopActive s = true ->
    VideoPlayer.loopStart s = Some ls ->
    VideoPlayer.loopEnd s = Some le ->
    let t := VideoPlayer.currentTime v in
    exists v',
      VideoPlayer.videoRef (fst (VideoPlayer.handleTimeUpdate s)) = Some v'
      /\ snd (VideoPlayer.handleTimeUpdate s) = Some t
      /\ (ls <= t /\ t < le -> VideoPlayer.currentTime v' = t)
      /\ (~ (ls <= t /\ t < le) -> VideoPlayer.currentTime v' = ls)
      /\ (le <= ls -> VideoPlayer.currentTime v' = ls)
      /\ ls <= VideoPlayer.currentTime v'
      /\ VideoPlayer.loopStart (fst (VideoPlayer.handleTimeUpdate s))
         = Some ls
      /\ VideoPlayer.loopEnd (fst (VideoPlayer.handleTimeUpdate s))
         = Some le.
Proof.
  intros s v ls le Hv Ha Hs He t.
  unfold VideoPlayer.handleTimeUpdate. rewrite Hv, Ha, Hs, He.
  cbn [fst snd VideoPlayer.videoRef VideoPlayer.loopStart
       VideoPlayer.loopEnd].
  fold t.
  destruct (Qle_bool le t) eqn:E1; cbn [orb].
  - apply Qle_bool_iff in E1.
    eexists. split; [reflexivity|]. split; [reflexivity|].
    cbn [VideoPlayer.currentTime VideoPlayer.setCurrentTime].
    split; [intros [_ H]; lra|]. split; [reflexivity|].
    split; [reflexivity|]. split; [lra|]. split; reflexivity.
  - assert (Hlt : t < le).
    { apply Qnot_le_lt. intros H. apply Qle_bool_iff in H. congruence. }
    destruct (gt ls t) eqn:E2.
    + apply gt_true_iff in E2.
      eexists. split; [reflexivity|]. split; [reflexivity|].
      cbn [VideoPlayer.currentTime VideoPlayer.setCurrentTime].
      split; [intros [H _]; lra|]. split; [reflexivity|].
      split; [reflexivity|]. split; [lra|]. split; reflexivity.
    + apply gt_false_iff in E2.
      exists v. split; [reflexivity|]. split; [reflexivity|]. fold t.
      split; [reflexivity|].
      split; [intros H; exfalso; apply H; split; assumption|].
      split; [intros H; lra|]. split; [exact E2|]. split; reflexivity.
Qed.

Lemma loop_confines_playback_witness :
  let v := VideoPlayer.mkVideo 30 (Some 60) in
  let marked :=
    VideoPlayer.handleKeyDown false (KeyboardEvent.mk "KeyO" "O" false)
      (movedTo 10
         (VideoPlayer.handleKeyDown false (KeyboardEvent.mk "KeyI" "i" false)
            (VideoPlayer.initial (Some v)))) in
  let inverted := movedTo 12 marked in
  let looping := VideoPlayer.mkState (Some (VideoPlayer.mkVideo 12 (Some 60)))
                   20 (Some 60) (Some 10) (Some 30) true in
  (VideoPlayer.isLoopActive inverted = true
   /\ VideoPlayer.loopStart inverted = Some 30
   /\ VideoPlayer.loopEnd inverted = Some 10)
  /\ (10 <= 30 /\ ~ (30 <= 12 /\ 12 < 10) /\ 10 <= 12 /\ 12 < 30)
  /\ (exists v',
        VideoPlayer.videoRef (fst (VideoPlayer.handleTimeUpdate inverted))
        = Some v'
        /\ snd (VideoPlayer.handleTimeUpdate inverted) = Some 12
        /\ VideoPlayer.currentTime v' = 30)
  /\ (exists v',
        VideoPlayer.videoRef (fst (VideoPlayer.handleTimeUpdate looping))
        = Some v'
        /\ VideoPlayer.currentTime v' = 12).
Proof.
  cbv zeta.
  set (inverted :=
         movedTo 12
           (VideoPlayer.handleKeyDown false (KeyboardEvent.mk "KeyO" "O" false)
              (movedTo 10
                 (VideoPlayer.handleKeyDown false
                    (KeyboardEvent.mk "KeyI" "i" false)
                    (VideoPlayer.initial
                       (Some (VideoPlayer.mkVideo 30 (Some 60)))))))).
  assert (M : VideoPlayer.isLoopActive inverted = true
              /\ VideoPlayer.loopStart inverted = Some 30
              /\ VideoPlayer.loopEnd inverted = Some 10)
    by (repeat split; reflexivity).
  assert (L : 10 <= 30) by (vm_compute; discriminate).
  assert (O : ~ (30 <= 12 /\ 12 < 10)).
  { intros [H _]. vm_compute in H. apply H. reflexivity. }
  assert (I : 10 <= 12 /\ 12 < 30)
    by (split; [vm_compute; discriminate | reflexivity]).
  split; [exact M|].
  split; [split; [exact L | split; [exact O | exact I]]|]. split.
  - destruct M as (Ma & Ms & Me).
    destruct (loop_confines_playback inverted
                (VideoPlayer.mkVideo 12 (Some 60)) 30 10
                eq_refl Ma Ms Me)
      as (v' & E & C & _ & H1 & H2 & _).
    exists v'. split; [exact E|]. split; [exact C|].
    exact (H2 L).
  - destruct (loop_confines_playback
                (VideoPlayer.mkState
                   (Some (VideoPlayer.mkVideo 12 (Some 60)))
                   20 (Some 60) (Some 10) (Some 30) true)
                (VideoPlayer.mkVideo 12 (Some 60)) 10 30
                eq_refl eq_refl eq_refl eq_refl)
      as (v' & E & _ & H0 & _).
    exists v'. split; [exact E | exact (H0 I)].
Defined.

(** X28 - A click on the timeline seeks inside the video.  With every
    operation rounded to binary64: with the metadata loaded, a positive
    duration, a binary64 value of at most [2 ^ 1000], a timeline at least
    one pixel wide and a pointer at most [2 ^ 1000] pixels from its left
    end, a click anywhere, also left or right of the timeline, is handled
    without failure and sets a time between 0 and the duration and a
    progress between 0 and 100.  A click at or left of the timeline's left
    end seeks to 0 with progress 0, and a click at or right of its right
    end, the width being a binary64 value, seeks to the duration with
    progress 100. *)
Theorem seek_in_range :
  forall (rect : DOMRect.t) (e : MouseEvent.t) (s : VideoPlayer.State)
         (v : VideoPlayer.Video) (d : number),
    VideoPlayer.videoRef s = Some v ->
    VideoPlayer.duration v = Some d ->
    0 < d -> Binary64.representable d -> moderate d ->
    1 <= DOMRect.width rect ->
    moderate (MouseEvent.clientX e - DOMRect.left rect) ->
    exists s' v',
      VideoPlayer.handleSeek rect e s = Ok s'
      /\ VideoPlayer.videoRef s' = Some v'
      /\ VideoPlayer.duration v' = Some d
      /\ 0 <= VideoPlayer.currentTime v'
      /\ VideoPlayer.currentTime v' <= d
      /\ 0 <= VideoPlayer.progress s'
      /\ VideoPlayer.progress s' <= 100
      /\ (MouseEvent.clientX e <= DOMRect.left rect ->
          VideoPlayer.currentTime v' == 0 /\ VideoPlayer.progress s' == 0)
      /\ (Binary64.representable (DOMRect.width rect) ->
          DOMRect.left rect + DOMRect.width rect <= MouseEvent.clientX e ->
          VideoPlayer.currentTime v' == d
          /\ VideoPlayer.progress s' == 100).
Proof.
  intros rect e s v d Hv Hd Hpos Rd Md Hw Mx.
  unfold moderate in Md, Mx.
  assert (P := pow2_pos 1000). assert (B := pow2_1000_1023).
  assert (P1 : 1000 <= Binary64.pow2 1000) by (vm_compute; discriminate).
  destruct ulp53_small as [U0 U1].
  assert (R0 : Binary64.representable 0) by (apply (representable_int 0); lia).
  assert (R1 : Binary64.representable 1) by (apply (representable_int 1); lia).
  assert (R100 : Binary64.representable 100) by (apply (representable_int 100); lia).
  unfold VideoPlayer.handleSeek. rewrite Hv, Hd.
  set (dx := MouseEvent.clientX e - DOMRect.left rect) in *.
  unfold Binary64.sub. fold dx.
  destruct (round_near dx (Binary64.pow2 1000)) as (x & Ex & Bx);
    [exact Mx | lra | lra |].
  rewrite Ex. cbn [bind].
  apply Qabs_bound in Bx, Mx.
  assert (U2 : ulp53 * Binary64.pow2 1000 <= Binary64.pow2 1000) by nra.
  unfold Binary64.div.
  destruct (Qeq_bool (DOMRect.width rect) 0) eqn:Ew;
    [apply Qeq_bool_eq in Ew; lra|].
  assert (Hq : Qabs (x / DOMRect.width rect) <= 2 * Binary64.pow2 1000).
  { apply Qabs_bound. split.
    - apply Qle_shift_div_l; [lra|]. nra.
    - apply Qle_shift_div_r; [lra|]. nra. }
  destruct (round_near (x / DOMRect.width rect) (2 * Binary64.pow2 1000))
    as (q & Eq & Bq); [exact Hq | lra | lra |].
  rewrite Eq. cbn [bind].
  destruct (Qeq_bool d 0) eqn:E; [apply Qeq_bool_eq in E; lra|].
  set (p := Qmax 0 (Qmin 1 q)).
  assert (Hlo : 0 <= p) by apply Q.le_max_l.
  assert (Hhi : p <= 1) by (apply Q.max_lub; [lra | apply Q.le_min_l]).
  unfold Binary64.mul.
  destruct (round_near (p * d) (1 + Binary64.pow2 1000)) as (t & Et & Bt);
    [apply Qabs_bound in Md; apply Qabs_bound; nra | lra | lra |].
  destruct (round_near (p * 100) 100) as (g & Eg & Bg);
    [apply Qabs_bound; nra | lra | lra |].
  rewrite Et. cbn [bind]. rewrite Eg. cbn [bind].
  do 2 eexists. split; [reflexivity|]. split; [reflexivity|].
  cbn [VideoPlayer.duration VideoPlayer.setCurrentTime
       VideoPlayer.currentTime VideoPlayer.progress].
  split; [exact Hd|].
  split; [apply (round_ge_rep (p * d) 0 t R0); [nra | exact Et]|].
  split; [apply (round_le_rep (p * d) d t Rd); [nra | exact Et]|].
  split; [apply (round_ge_rep (p * 100) 0 g R0); [nra | exact Eg]|].
  split; [apply (round_le_rep (p * 100) 100 g R100); [nra | exact Eg]|].
  split.
  - intros Hx.
    assert (X0 : x <= 0)
      by (apply (round_le_rep dx 0 x R0); [subst dx; lra | exact Ex]).
    assert (Q0 : q <= 0).
    { apply (round_le_rep (x / DOMRect.width rect) 0 q R0); [|exact Eq].
      apply Qle_shift_div_r; lra. }
    assert (Ep : p == 0).
    { apply Qle_antisym; [|exact Hlo].
      apply Q.max_lub; [lra|].
      apply Qle_trans with q; [apply Q.le_min_r | exact Q0]. }
    split.
    + apply (round_zero (p * d) t Et). rewrite Ep. ring.
    + apply (round_zero (p * 100) g Eg). rewrite Ep. ring.
  - intros Rw Hx.
    assert (X1 : DOMRect.width rect <= x)
      by (apply (round_ge_rep dx _ x Rw); [subst dx; lra | exact Ex]).
    assert (Q1 : 1 <= q).
    { apply (round_ge_rep (x / DOMRect.width rect) 1 q R1); [|exact Eq].
      apply Qle_shift_div_l; lra. }
    assert (Ep : p == 1).
    { apply Qle_antisym; [exact Hhi|].
      apply Qle_trans with (Qmin 1 q); [|apply Q.le_max_r].
      apply Q.min_glb; [lra | exact Q1]. }
    split.
    + apply (round_rep d t Rd).
      rewrite <- Et. apply round_eq. rewrite Ep. ring.
    + apply (round_rep 100 g R100).
      rewrite <- Eg. apply round_eq. rewrite Ep. ring.
Qed.

Lemma seek_in_range_witness :
  let v := VideoPlayer.mkVideo 12 (Some 60) in
  let s := VideoPlayer.initial (Some v) in
  let e := MouseEvent.mk 2000 10 0 in
  VideoPlayer.videoRef s = Some v
  /\ VideoPlayer.duration v = Some 60
  /\ 0 < 60
  /\ Binary64.representable 60
  /\ moderate 60
  /\ 1 <= DOMRect.width Sample.viewport
  /\ moderate (MouseEvent.clientX e - DOMRect.left Sample.viewport)
  /\ Binary64.representable (DOMRect.width Sample.viewport)
  /\ DOMRect.left Sample.viewport + DOMRect.width Sample.viewport
     <= MouseEvent.clientX e
  /\ exists s' v',
       VideoPlayer.handleSeek Sample.viewport e s = Ok s'
       /\ VideoPlayer.videoRef s' = Some v'
       /\ VideoPlayer.duration v' = Some 60
       /\ VideoPlayer.currentTime v' == 60
       /\ VideoPlayer.progress s' == 100.
Proof.
  cbv zeta.
  assert (P : 0 < 60) by reflexivity.
  assert (R : Binary64.representable 60) by (apply (representable_int 60); lia).
  assert (M : moderate 60) by (vm_compute; discriminate).
  assert (W : 1 <= DOMRect.width Sample.viewport)
    by (vm_compute; discriminate).
  assert (X : moderate (MouseEvent.clientX (MouseEvent.mk 2000 10 0)
                        - DOMRect.left Sample.viewport))
    by (vm_compute; discriminate).
  assert (RW : Binary64.representable (DOMRect.width Sample.viewport))
    by (apply (representable_int 800); lia).
  assert (E : DOMRect.left Sample.viewport + DOMRect.width Sample.viewport
              <= MouseEvent.clientX (MouseEvent.mk 2000 10 0))
    by (vm_compute; discriminate).
  split; [reflexivity|]. split; [reflexivity|]. split; [exact P|].
  split; [exact R|]. split; [exact M|]. split; [exact W|].
  split; [exact X|]. split; [exact RW|]. split; [exact E|].
  destruct (seek_in_range Sample.viewport (MouseEvent.mk 2000 10 0)
              (VideoPlayer.initial (Some (VideoPlayer.mkVideo 12 (Some 60))))
              (VideoPlayer.mkVideo 12 (Some 60)) 60 eq_refl eq_refl P R M W X)
    as (s' & v' & A1 & A2 & A3 & _ & _ & _ & _ & _ & A4).
  destruct (A4 RW E) as [A5 A6].
  exists s', v'. split; [exact A1|]. split; [exact A2|]. split; [exact A3|].
  split; [exact A5 | exact A6].
Defined.

(** The frame time [1 / 30] in binary64. *)
Lemma frameTime_value :
  exists c, Binary64.div 1 30 = Ok c /\ 0 <= c /\ c <= 1.
Proof.
  eexists. split; [vm_compute; reflexivity|].
  split; vm_compute; discriminate.
Qed.

(** X29 - Stepping by frames stays inside the video and pauses it.  With
    every operation rounded to binary64: with the metadata loaded, a step
    by a number of frames of at most [2 ^ 1000] in size, from a time of at
    most that size, succeeds, leaves the time between 0 and the duration,
    and asks the room to toggle the playback exactly when the video is
    playing; a step forward from a time within the video, a binary64
    value, never moves the time back, and a step backward never moves it
    forward.  Before the metadata is loaded the step fails. *)
Theorem stepFrame_in_range :
  forall (frames : number) (isPlaying : bool) (s : VideoPlayer.State)
         (v : VideoPlayer.Video),
    VideoPlayer.videoRef s = Some v ->
    (forall d, VideoPlayer.duration v = Some d -> 0 <= d ->
       moderate frames -> moderate (VideoPlayer.currentTime v) ->
       exists s' v',
         VideoPlayer.stepFrame frames isPlaying s = Ok (s', isPlaying)
         /\ VideoPlayer.videoRef s' = Some v'
         /\ 0 <= VideoPlayer.currentTime v'
         /\ VideoPlayer.currentTime v' <= d
         /\ (0 <= frames -> Binary64.representable (VideoPlayer.currentTime v) ->
             VideoPlayer.currentTime v <= d ->
             VideoPlayer.currentTime v <= VideoPlayer.currentTime v')
         /\ (frames <= 0 -> Binary64.representable (VideoPlayer.currentTime v) ->
             0 <= VideoPlayer.currentTime v ->
             VideoPlayer.currentTime v' <= VideoPlayer.currentTime v))
    /\ (VideoPlayer.duration v = None ->
        VideoPlayer.stepFrame frames isPlaying s = Fail NonFinite).
Proof.
  intros frames isPlaying s v Hv.
  destruct frameTime_value as (c & Ec & C0 & C1).
  assert (R0 : Binary64.representable 0) by (apply (representable_int 0); lia).
  split.
  - intros d Hd Hpos Mf Mt. unfold moderate in Mf, Mt.
    assert (P1 : 1000 <= Binary64.pow2 1000) by (vm_compute; discriminate).
    assert (B := pow2_1000_1023). destruct ulp53_small as [U0 U1].
    unfold VideoPlayer.stepFrame. rewrite Hv, Hd, Ec. cbn [bind].
    set (t := VideoPlayer.currentTime v) in *.
    apply Qabs_bound in Mf, Mt.
    unfold Binary64.mul, Binary64.add.
    destruct (round_near (frames * c) (Binary64.pow2 1000))
      as (u & Eu & Bu); [apply Qabs_bound; nra | lra | lra |].
    rewrite Eu. cbn [bind]. apply Qabs_bound in Bu.
    assert (U2 : ulp53 * Binary64.pow2 1000 <= Binary64.pow2 1000) by nra.
    destruct (round_near (t + u) (4 * Binary64.pow2 1000))
      as (n & En & Bn); [apply Qabs_bound; nra | lra | lra |].
    rewrite En. cbn [bind].
    do 2 eexists. split; [reflexivity|].
    cbn [VideoPlayer.videoRef VideoPlayer.currentTime
         VideoPlayer.setCurrentTime].
    split; [reflexivity|].
    set (t1 := Qmax 0 (Qmin n d)).
    assert (Hlo : 0 <= t1) by apply Q.le_max_l.
    assert (Hhi : t1 <= d)
      by (apply Q.max_lub; [exact Hpos | apply Q.le_min_r]).
    split; [exact Hlo|]. split; [exact Hhi|]. split.
    + intros Hf Rt Ht.
      assert (Hu : 0 <= u)
        by (apply (round_ge_rep (frames * c) 0 u R0); [nra | exact Eu]).
      assert (Hn : t <= n)
        by (apply (round_ge_rep (t + u) t n Rt); [lra | exact En]).
      apply Qle_trans with (Qmin n d); [|apply Q.le_max_r].
      apply Q.min_glb; lra.
    + intros Hf Rt Ht.
      assert (Hu : u <= 0)
        by (apply (round_le_rep (frames * c) 0 u R0); [nra | exact Eu]).
      assert (Hn : n <= t)
        by (apply (round_le_rep (t + u) t n Rt); [lra | exact En]).
      apply Q.max_lub; [exact Ht|].
      apply Qle_trans with n; [apply Q.le_min_l | exact Hn].
  - intros Hd. unfold VideoPlayer.stepFrame. rewrite Hv, Hd, Ec. cbn [bind].
    unfold Binary64.mul, Binary64.add.
    destruct (Binary64.round (frames * c)) as [u|err] eqn:Eu; cbn [bind].
    + destruct (Binary64.round (VideoPlayer.currentTime v + u))
        as [n|err] eqn:En; cbn [bind]; [reflexivity|].
      rewrite (round_fails _ _ En). reflexivity.
    + rewrite (round_fails _ _ Eu). reflexivity.
Qed.

Lemma stepFrame_in_range_witness :
  let v := VideoPlayer.mkVideo 12 (Some 60) in
  let s := VideoPlayer.initial (Some v) in
  VideoPlayer.videoRef s = Some v
  /\ VideoPlayer.duration v = Some 60
  /\ 0 <= 60
  /\ moderate 1
  /\ moderate (VideoPlayer.currentTime v)
  /\ 0 <= 1
  /\ Binary64.representable (VideoPlayer.currentTime v)
  /\ VideoPlayer.currentTime v <= 60
  /\ (exists s' v',
        VideoPlayer.stepFrame 1 true s = Ok (s', true)
        /\ VideoPlayer.videoRef s' = Some v'
        /\ VideoPlayer.currentTime v <= VideoPlayer.currentTime v'
        /\ VideoPlayer.currentTime v' <= 60)
  /\ VideoPlayer.duration (VideoPlayer.mkVideo 0 None) = None
  /\ VideoPlayer.stepFrame 1 true
       (VideoPlayer.initial (Some (VideoPlayer.mkVideo 0 None)))
     = Fail NonFinite.
Proof.
  cbv zeta.
  assert (P : 0 <= 60) by (vm_compute; discriminate).
  assert (M1 : moderate 1) by (vm_compute; discriminate).
  assert (M2 : moderate
                 (VideoPlayer.currentTime (VideoPlayer.mkVideo 12 (Some 60))))
    by (vm_compute; discriminate).
  assert (F : 0 <= 1) by (vm_compute; discriminate).
  assert (R : Binary64.representable
                (VideoPlayer.currentTime (VideoPlayer.mkVideo 12 (Some 60))))
    by (apply (representable_int 12); lia).
  assert (B : VideoPlayer.currentTime (VideoPlayer.mkVideo 12 (Some 60))
              <= 60)
    by (vm_compute; discriminate).
  split; [reflexivity|]. split; [reflexivity|]. split; [exact P|].
  split; [exact M1|]. split; [exact M2|]. split; [exact F|].
  split; [exact R|]. split; [exact B|]. split.
  - destruct (stepFrame_in_range 1 true
                (VideoPlayer.initial (Some (VideoPlayer.mkVideo 12 (Some 60))))
                (VideoPlayer.mkVideo 12 (Some 60)) eq_refl) as [H _].
    destruct (H 60 eq_refl P M1 M2) as (s' & v' & E & V & _ & Hi & K & _).
    exists s', v'. split; [exact E|]. split; [exact V|].
    split; [exact (K F R B) | exact Hi].
  - split; [reflexivity|].
    destruct (stepFrame_in_range 1 true
                (VideoPlayer.initial (Some (VideoPlayer.mkVideo 0 None)))
                (VideoPlayer.mkVideo 0 None) eq_refl) as [_ H].
    exact (H eq_refl).
Defined.

(** A step forward and a step back need not return to the start: from
    2 seconds, one frame forward gives 2.033333333333333, and one frame
    back from there gives 1.9999999999999998. *)
Example stepFrame_there_and_back :
  let s := VideoPlayer.initial (Some (VideoPlayer.mkVideo 2 (Some 60))) in
  exists s1 s2 v1 v2,
    VideoPlayer.stepFrame 1 false s = Ok (s1, false)
    /\ VideoPlayer.stepFrame (- (1)) false s1 = Ok (s2, false)
    /\ VideoPlayer.videoRef s1 = Some v1
    /\ VideoPlayer.videoRef s2 = Some v2
    /\ VideoPlayer.currentTime v1 == 1144664905290001 # 562949953421312
    /\ VideoPlayer.currentTime v2 == 9007199254740991 # 4503599627370496
    /\ VideoPlayer.currentTime v2 < 2.
Proof.
  cbv zeta. do 4 eexists.
  split; [vm_compute; reflexivity|]. split; [vm_compute; reflexivity|].
  split; [reflexivity|]. split; [reflexivity|].
  split; [vm_compute; reflexivity|]. split; vm_compute; reflexivity.
Qed.
